(* ===== verification/_CoqProject ===== *)
-Q . S2P
Prelude.v
PyDict.v
PyVal.v
BaseStrategy.v
MACrossover.v
DefaultStrategy.v
StrategyManager.v
GridBacktest.v
Configs.v
ConfigFix.v
ConfigSummary.v
WebServer.v
StartScripts.v
BacktestFix.v
MockData.v
OfflineDemo.v
SimpleDemo.v
