(* ===== verification/Prelude.v ===== *)
(** * Verification of the passivbot strategy plug-ins, grid backtest and
      configuration tools

    The repository extends the trading bot passivbot with a plug-in system
    for strategies, two strategies, a demonstration backtest, a web server
    for the configuration and scripts around them.  This library models
    the Python code as executable Rocq definitions, one per function or
    method, and proves what makes each part correct.  Where the code and its
    description disagree, the theorems state what the code does.

    ** The program and its model

    - [src/strategies/base_strategy.py], class [BaseStrategy]: the base
      class of a strategy.  File [BaseStrategy], [Module Base]: the
      constructor [__init__], [get_strategy_params], [get_config_value]
      (the loop is [walk]), [validate_order], [log_strategy_action] and the
      three hooks.  The abstract methods [calc_entries] and [calc_closes]
      are the class [Strategy]; [StrategyLaws] states what a caller relies
      on; [sum_strategy] is the dispatch on an object of one of two
      classes.
    - [src/strategies/ma_crossover_strategy.py], class
      [MACrossoverStrategy].  File [MACrossover], [Module MA]: the object
      is the record [t]; [_update_price_history], [_calculate_ma],
      [_detect_crossover], [calc_entries], [calc_closes] (its two branches
      are [close_long] and [close_short]), [on_market_data_update],
      [get_strategy_status] and the constructor.
    - [src/strategies/default_strategy.py], class [DefaultStrategy].  File
      [DefaultStrategy], [Module Default]: the Python side of the calls to
      the compiled module [passivbot_rust], which is a section variable:
      [entry_args] and [close_args] build the argument lists,
      [call_kernel] looks the function up and calls it, [format_order]
      and [finish] build the orders or take the error path.
    - [src/strategies/strategy_manager.py], class [StrategyManager].  File
      [StrategyManager], [Module Manager]: [register_strategy],
      [unregister_strategy], [list_strategies], [load_strategy],
      [get_active_strategy], [reload_strategy], [get_strategy_info], the
      constructor; [step] and [reachable] make it a state machine, [abs]
      and [abs_step] its abstraction to a finite map.
    - [offline_backtest_demo.py], function
      [simple_grid_strategy_backtest].  File [GridBacktest],
      [Module Grid]: [read_config], [grid_prices], the loop over the
      levels ([try_buy], [fill_from]), the loop over the positions
      ([try_close]), the removal of closed positions ([list_remove],
      [remove_all]), the loop body [bar_step], the loop [run] and the
      function itself; [step_ref] is the reference definition of a step.
    - [offline_backtest_demo.py], function [create_mock_ohlcv_data].
      File [MockData], [Module Mock]: the random generator as the state
      monad [rng] over the number of calls made since the seed, with the
      values of the calls as the section variables [gauss] and [unif];
      [date_range], [normals], the loop body [make_row], the whole
      computation [mock_rows], the function on parsed dates [mock_frame]
      and the function itself; [rows_ref] is the reference definition
      that computes each row from its position.
    - [offline_backtest_demo.py], functions [print_backtest_results] and
      [main].  File [OfflineDemo], [Module Offline]: the report as lines
      of text and replacement fields, [load_custom] (the body of the
      [try]) and [load_config] (with the fallback), [json_trade] and
      [json_result] (the conversion for JSON), and [main], which composes
      [Mock], [Grid] and the report on a finite map of files.
    - [simple_backtest_demo.py].  File [Configs]:
      [create_simple_backtest_config], the dictionary, and what the
      components above find in it.  File [SimpleDemo], [Module Simple]:
      [create_mock_ohlcv_data] of this script as a loop with explicit
      state ([rows_from]); [save_ohlcv_data] on a file system of
      directories, arrays and text ([path_join], [makedirs], [np_save]);
      [overview] and [main].
    - [fix_trading_config.py], function [fix_trading_config].  File
      [ConfigFix], [Module ConfigFix]: the call on the content of the two
      files it reads; the four checks [check_user], [check_exchange],
      [check_delay] and [check_leverage] on the record [state] of the
      local variables, their composition [repair], the reads of the final
      report [summary], the body of the [try] as [run].  The outcome is the
      value returned and the configuration written, if any.
    - [web_config/enhanced_server.py], class [PassivbotHandler] and
      [start_enhanced_server].  File [WebServer], [Module Web]: the server
      as a state machine.  The [state] is the files by path, the
      sub-directories of the backtest directory, the working directory of
      the process and the threads of a backtest; every handler is a
      definition of its name ([handle_save_config], [handle_run_backtest],
      [handle_config_status], [handle_use_web_config],
      [handle_backup_config], [handle_set_active_config],
      [get_backtest_results], [serve_file], ...), [do_GET] and [do_POST]
      the dispatch, [thread_chdir] and [thread_finish] the two steps of the
      thread of a backtest, [step] one event, [reachable] the states of a
      running server.  The same file holds [start_enhanced_server] and
      [main].  File
      [ConfigSummary], [Module Summary]: [extract_config_summary], the
      four sections as steps inside one [try] ([run_steps]).
    - [fix_backtest.py].  File [BacktestFix], [Module BacktestFix]: the
      configuration [create_simple_config] writes, the loop of
      [run_backtest_with_retry] ([retry], with the body [attempt_once] and
      the handler of a time-out [shorten]), [check_network],
      [print_status] and [main].  The result holds
      the files each subprocess was started on.
    - [web_config/start_server.py] and [web_config/start_enhanced.py].
      File [StartScripts], [Module Start]: [start_server], [main],
      [setup_enhanced_server] and the [main] of the enhanced script.
    - [PyDict]: Python's insertion-ordered dictionaries as association
      lists, with their refinement to stdpp's [gmap].  [PyVal]: the Python
      values of configurations and orders with their equality [py_eqb],
      truth value and subscripts, keyword arguments, log records, and
      the lines a script prints.
    - [Prelude] (this file): exceptions as the sum [result] with stdpp's
      monad notation; slices [l[i:]] and [l[:i]] with negative and
      out-of-range bounds; sums and [np.mean]; boolean comparisons of
      rationals with their reflection lemmas; windows of sorted lists; the
      tactics [qbool], [case_qle], [by_compute] and the hint databases [py]
      and [pyrw].

    A method that changes its object returns the new object; a method
    that logs returns its log records; a method that can raise returns a
    [result].  The strategies interact with the registry through the
    class [Strategy] only: the registry stores class objects whose
    constructor gives an object of the sum [MA.t + Default.t].

    ** What is proved

    - History buffer: bound [2 * slow_period], first-in first-out, other
      symbols untouched, and no bound at all for a zero period.
    - Crossover signal: [_detect_crossover] implements the relation
      [crossover_spec] on simple moving averages ([detect_crossover_iff]);
      it is invariant under scaling and under [Qeq], antisymmetric under
      negation; it gives no signal on a rising series.
    - Orders of the crossover strategy: when entries and closes exist,
      what they contain on every branch, the priority of the reasons for a
      close, and that a close flattens the position.
    - Default strategy: the argument lists, the orders as the formatted
      sublist of what the compiled module returned, and the error path,
      for any compiled module.
    - Registry: each method on every branch, errors included; the
      invariant of all reachable registries by induction on [reachable];
      the refinement to a finite map ([abs_run_refines]).
    - Grid backtest: the loop never raises and equals the iteration of
      [step_ref] ([run_ok]); at most one position per level; the book
      value is conserved, so the result balances
      ([backtest_accounting]); solvency and absence of realised losses
      under the stated conditions on the parameters; the counts of the
      result; the error paths.
    - [Strategy] and [StrategyLaws] instances for both strategies and for
      their sum.
    - Configuration repair: each check is stable on what it produced, so
      the repair is idempotent ([run_idempotent]); it writes the user, the
      exchanges and the execution delay and nothing else ([repair_frame]);
      afterwards the user has keys and the exchange is that of the keys;
      [False] after a write comes from the final report only.

    - Web server: the invariant of the reachable states and the files the
      server never writes ([server_inv]); what each request does to the
      files (the backup, the installation of the web configuration, the
      save and its summary); that the page is lost once a backtest thread
      has changed the working directory ([backtest_breaks_index]); the
      list of backups; the latest backtest; the start-up on the first free
      port.  Summary: the reference summary on well-formed
      configurations, soundness on every JSON value, and the sections an
      exception hides.  Start scripts: the set-up of the enhanced page and
      what a second set-up does to the backup of the page.

    - Backtest repair: every attempt runs on the simple configuration
      ([main_started_simple]), [True] only after a backtester that ended
      with status 0, [False] after all the attempts otherwise, and the
      exception of a handler that escapes.

    - Mock series: the generator computes the rows of the reference
      definition, five calls per row; the index is the range of the
      dates, strictly increasing; every row is a well-formed bar for all
      draws within the stated bounds, so the series is one the backtest
      accepts; an end before the start raises.
    - Offline demonstration: the shape of the report (at most 23 lines,
      the first ten trades, the count of the others); which
      configuration is run, and that one without
      [live.approved_coins.long] never is; [main] reaches its end on the
      built-in configuration and writes a value without NaN; what it
      raises on a configuration the backtest cannot read; the result it
      reports has no loss under the conditions of the backtest; it
      writes one file.
    - Data preparation: the two generators are the same function; what
      [save_ohlcv_data] writes, when it returns and that it raises
      [OSError] otherwise; the milliseconds saved are exact, increasing
      and within the dates; the statistics of the overview lie between
      the lowest low and the highest high; what [main] leaves on disk.

    Each main theorem has an example that applies it to concrete data,
    among them the scenarios of the description of the program (a golden
    cross on the tenth price, a take profit at 104.5, the grid levels below
    50000, the load of an unknown strategy).

    ** Bounds

    The loops of the strategies, the registry, the backtest and the
    repair are over finite lists and are structural fixpoints or folds:
    their theorems hold for series and histories of any length.  Periods
    are integers of any sign, as in the code.  The one recursion that is
    not structural is the retry of [start_enhanced_server] on the next
    port: its argument [limit] is the number of frames the interpreter
    allows, and without frames left the result is the [RecursionError]
    Python raises; [start_enhanced_server_finds] gives the result for
    every limit above the number of ports in use.

    The draws of the random generator are not computed: [gauss k] and
    [unif k] stand for the value of call [k] in the run modelled, and
    the theorems assume of them what they need (a normal deviate above
    -2000 and below 5000 in absolute value, far beyond what the
    generator can return; a uniform number in the unit interval).  Time
    stamps are integers of any size: pandas stores them in 64 bits and
    raises beyond, and the theorem on the milliseconds shows that they
    stay between the two dates.  The witnesses of the two [main]
    functions are proved from the theorems, not by evaluation: a week
    of minutes is 8641 rows.

    ** Numeric model

    Python floats are modelled as exact rationals [Q]: rounding, overflow and
    infinities are outside the model.  Equality of numbers is [Qeq] ([==],
    also [≡] through stdpp's [Equiv] class), never Leibniz equality, since
    [1/2] and [2/4] are the same float.  The one value of the IEEE lattice
    that the code can produce from finite inputs is NaN, as [np.mean] of an
    empty slice or as a NumPy quotient of zeros: such results have type
    [fval], a rational or [NaN], and comparisons with [NaN] are false as in
    Python.  Division by zero, which Python either raises or turns into
    [inf], is total in [Q] ([x / 0 == 0]); every theorem that depends on a
    quotient states the non-zero hypothesis.

    ** Not modelled

    - The compiled module [passivbot_rust]: not in the repository; a
      parameter of [Module Default].
    - In the web server: sockets and HTTP framing, the files the base
      class serves (the response [Static] names the directory), the parser
      of URLs and the JSON reader and writer (parameters of
      [Section server]), the subprocess of a backtest (its outcome and
      what it leaves in the backtest directory are inputs of
      [thread_finish]), failures of the disk.
    - In the demonstration scripts: the algorithm of the random
      generator (the values it returns are parameters), [np.exp],
      [np.sqrt], the parsers of dates and of hjson and the JSON writer
      (parameters), the rendering of a replacement field as text, and the
      banners and progress lines that [main], [create_mock_ohlcv_data]
      and [simple_grid_strategy_backtest] print.  Failures of [open] for
      writing a result are outside the model.
    - In [fix_backtest.py]: the backtester (a parameter that gives the
      outcome of each subprocess), the request of [check_network] (its
      answer is an input) and the lines [main] prints.
    - In [fix_trading_config.py]: files whose top-level value is not an
      object, failures of the write, and what is printed.
    - The [test_*.py] scripts; their scenarios for the strategies are
      examples of this library.
*)

From Stdlib Require Import QArith Qabs Lqa ZArith Lia.
From stdpp Require Import prelude strings sorting.

#[local] Set Warnings "-clear-no-such-hyp".

Declare Scope py_scope.
Delimit Scope py_scope with py.

#[local] Open Scope Q_scope.

(** ** Python exceptions and results *)

Inductive exn : Type :=
| ValueError (msg : string)
| KeyError (key : string)
| AttributeError (attr : string)
| TypeError (msg : string)
| IndexError (msg : string)
| ImportError (msg : string)
| ZeroDivisionError (msg : string)
| OSError (msg : string)
| RecursionError (msg : string).

(** [str(e)], the text an exception is logged with. *)
Definition exn_str (e : exn) : string :=
  match e with
  | ValueError s | KeyError s | AttributeError s | TypeError s
  | IndexError s | ImportError s | ZeroDivisionError s | OSError s
  | RecursionError s => s
  end.

Inductive result (A : Type) : Type :=
| Ok (a : A)
| Raise (e : exn).

Arguments Ok {A} a.
Arguments Raise {A} e.

#[export] Instance result_ret : MRet result := fun _ a => Ok a.

#[export] Instance result_bind : MBind result := fun _ _ f m =>
  match m with
  | Ok a => f a
  | Raise e => Raise e
  end.

#[export] Instance result_fmap : FMap result := fun _ _ f m =>
  match m with
  | Ok a => Ok (f a)
  | Raise e => Raise e
  end.

Definition is_ok {A} (r : result A) : bool :=
  match r with Ok _ => true | Raise _ => false end.

(** ** Rational comparisons as booleans *)

Notation "x <=? y" := (Qle_bool x y) : Q_scope.

Definition Qlt_bool (x y : Q) : bool := negb (Qle_bool y x).

Notation "x <? y" := (Qlt_bool x y) : Q_scope.

#[export] Instance Q_equiv : Equiv Q := Qeq.

#[export] Instance Q_equivalence : Equivalence (≡@{Q}) := Q_Setoid.

#[export] Instance Qeq_decision : RelDecision Qeq := Qeq_dec.

#[export] Instance Qle_dec : RelDecision Qle := λ x y,
  match Qlt_le_dec y x with
  | left H => right (Qlt_not_le _ _ H)
  | right H => left H
  end.

#[export] Instance Qlt_dec : RelDecision Qlt := λ x y,
  match Qlt_le_dec x y with
  | left H => left H
  | right H => right (Qle_not_lt _ _ H)
  end.

(** ** Moving-average values: a rational or NaN *)

Inductive fval : Type :=
| Fin (q : Q)
| NaN.

(** Python's [a <= b] and [a < b] on floats; [a >= b] is [fle b a] and
    [a > b] is [flt b a].  A comparison with NaN is false. *)
Definition fle (a b : fval) : bool :=
  match a, b with
  | Fin x, Fin y => x <=? y
  | _, _ => false
  end.

Definition flt (a b : fval) : bool :=
  match a, b with
  | Fin x, Fin y => x <? y
  | _, _ => false
  end.

Inductive fval_equiv : Equiv fval :=
| Fin_equiv x y : x == y → Fin x ≡ Fin y
| NaN_equiv : NaN ≡ NaN.

#[export] Existing Instance fval_equiv.

(** ** Python slices

    [slice_index len i] is the position a slice bound [i] denotes in a list
    of length [len]: a negative bound counts from the end, and the result is
    clamped to [0..len]. *)
Definition slice_index (len : nat) (i : Z) : nat :=
  if (i <? 0)%Z then Z.to_nat (Z.max 0 (Z.of_nat len + i))
  else Nat.min (Z.to_nat i) len.

(** [l[i:]] *)
Definition slice_from {A} (i : Z) (l : list A) : list A :=
  drop (slice_index (length l) i) l.

(** [l[:i]] *)
Definition slice_to {A} (i : Z) (l : list A) : list A :=
  take (slice_index (length l) i) l.

(** ** Sums and means *)

Definition Qsum (l : list Q) : Q := foldr Qplus 0 l.

(** The length of a list as a rational. *)
Definition Qlen {A} (l : list A) : Q := inject_Z (Z.of_nat (length l)).

(** [np.mean]: NaN on the empty list. *)
Definition np_mean (l : list Q) : fval :=
  match l with
  | [] => NaN
  | _ :: _ => Fin (Qsum l / Qlen l)
  end.

(** ** Tactics *)

Create HintDb py discriminated.
Create Rewrite HintDb pyrw.

Lemma Qle_bool_spec (x y : Q) : BoolSpec (x <= y) (y < x) (x <=? y).
Proof.
  destruct (x <=? y) eqn:E; constructor.
  - by apply Qle_bool_iff.
  - apply Qnot_le_lt. intros H%Qle_bool_iff. congruence.
Qed.

Lemma Qlt_bool_spec (x y : Q) : BoolSpec (x < y) (y <= x) (x <? y).
Proof. unfold Qlt_bool. destruct (Qle_bool_spec y x); by constructor. Qed.

Lemma Qlt_bool_iff (x y : Q) : (x <? y) = true ↔ x < y.
Proof. destruct (Qlt_bool_spec x y); split; (done || lra). Qed.

Lemma Qle_bool_false_iff (x y : Q) : (x <=? y) = false ↔ y < x.
Proof. destruct (Qle_bool_spec x y); split; (done || lra). Qed.

Lemma Qlt_bool_false_iff (x y : Q) : (x <? y) = false ↔ y <= x.
Proof. destruct (Qlt_bool_spec x y); split; (done || lra). Qed.

(** [by_compute] decides a closed decidable proposition by evaluation. *)
Ltac by_compute := by apply (bool_decide_unpack _); vm_compute.

(** [case_qle] splits on the first rational comparison it finds in the goal
    and leaves the corresponding order fact in the context. *)
Ltac case_qle :=
  match goal with
  | |- context [Qle_bool ?x ?y] => destruct (Qle_bool_spec x y)
  | |- context [Qlt_bool ?x ?y] => destruct (Qlt_bool_spec x y)
  end.

(** [qbool] turns boolean comparison facts of the context into order
    facts that [lra] understands. *)
Ltac qbool :=
  repeat match goal with
  | H : Qle_bool _ _ = true |- _ => apply Qle_bool_iff in H
  | H : Qle_bool _ _ = false |- _ => apply Qle_bool_false_iff in H
  | H : Qlt_bool _ _ = true |- _ => apply Qlt_bool_iff in H
  | H : Qlt_bool _ _ = false |- _ => apply Qlt_bool_false_iff in H
  | H : _ ≡@{Q} _ |- _ => unfold equiv, Q_equiv in H
  | |- _ ≡@{Q} _ => unfold equiv, Q_equiv
  end.

(** ** Slices *)

Section slices.
Context {A : Type}.
Implicit Types (l : list A) (i k : Z).

Lemma slice_index_le len i : (slice_index len i ≤ len)%nat.
Proof. unfold slice_index. case_match; lia. Qed.

Lemma slice_index_neg len k :
  (0 < k)%Z → slice_index len (- k) = (len - Z.to_nat k)%nat.
Proof. intros. unfold slice_index. case_match; lia. Qed.

Lemma slice_from_0 l : slice_from 0 l = l.
Proof. done. Qed.

Lemma slice_from_neg l k :
  (0 < k)%Z → slice_from (- k) l = drop (length l - Z.to_nat k) l.
Proof. intros. unfold slice_from. by rewrite slice_index_neg. Qed.

Lemma slice_from_suffix i l : slice_from i l `suffix_of` l.
Proof. apply suffix_drop. Qed.

Lemma length_slice_from_neg l k :
  (0 < k)%Z → length (slice_from (- k) l) = Nat.min (Z.to_nat k) (length l).
Proof. intros. rewrite slice_from_neg, length_drop by done. lia. Qed.

Lemma slice_from_neg_all l k :
  (0 < k)%Z → (length l ≤ Z.to_nat k)%nat → slice_from (- k) l = l.
Proof.
  intros. rewrite slice_from_neg by done.
  by replace (length l - Z.to_nat k)%nat with 0%nat by lia.
Qed.

Lemma slice_to_neg1_snoc l x : slice_to (-1) (l ++ [x]) = l.
Proof.
  unfold slice_to. rewrite (slice_index_neg _ 1), length_app by done. simpl.
  replace (length l + 1 - Z.to_nat 1)%nat with (length l) by lia.
  by rewrite take_app_length.
Qed.

Lemma length_slice_to_neg1 l : length (slice_to (-1) l) = (length l - 1)%nat.
Proof.
  unfold slice_to. rewrite (slice_index_neg _ 1), length_take by done. lia.
Qed.

Lemma slice_to_prefix i l : slice_to i l `prefix_of` l.
Proof. apply prefix_take. Qed.

End slices.

#[export] Hint Rewrite @slice_from_0 @slice_to_neg1_snoc
  @length_slice_to_neg1 : pyrw.
#[export] Hint Resolve slice_index_le : py.

(** ** The equivalence on [fval] *)

#[export] Instance fval_equivalence : Equivalence (≡@{fval}).
Proof.
  split.
  - intros []; by constructor.
  - induction 1; constructor. by symmetry.
  - intros ??? [] H2; inversion H2; subst; constructor. etrans; eauto.
Qed.

#[export] Instance Fin_proper : Proper ((≡) ==> (≡)) Fin.
Proof. by constructor. Qed.

#[export] Instance fle_proper : Proper ((≡) ==> (≡) ==> (=)) fle.
Proof. intros ?? [] ?? []; simpl; try done. by apply Qleb_comp. Qed.

#[export] Instance flt_proper : Proper ((≡) ==> (≡) ==> (=)) flt.
Proof.
  intros ?? [] ?? []; simpl; try done. unfold Qlt_bool. f_equal.
  by apply Qleb_comp.
Qed.

(** Negation and scaling of a moving-average value. *)
Definition fmap_fval (f : Q → Q) (a : fval) : fval :=
  match a with
  | Fin x => Fin (f x)
  | NaN => NaN
  end.

Lemma fle_opp a b : fle (fmap_fval Qopp a) (fmap_fval Qopp b) = fle b a.
Proof.
  destruct a, b; simpl; try done.
  destruct (Qle_bool_spec q0 q), (Qle_bool_spec (- q) (- q0)); (done || lra).
Qed.

Lemma flt_opp a b : flt (fmap_fval Qopp a) (fmap_fval Qopp b) = flt b a.
Proof.
  destruct a, b; simpl; try done.
  destruct (Qlt_bool_spec q0 q), (Qlt_bool_spec (- q) (- q0)); (done || lra).
Qed.

Lemma fle_scale c a b :
  0 < c → fle (fmap_fval (Qmult c) a) (fmap_fval (Qmult c) b) = fle a b.
Proof.
  intros. destruct a, b; simpl; try done.
  destruct (Qle_bool_spec q q0), (Qle_bool_spec (c * q) (c * q0));
    (done || nra).
Qed.

Lemma flt_scale c a b :
  0 < c → flt (fmap_fval (Qmult c) a) (fmap_fval (Qmult c) b) = flt a b.
Proof.
  intros. destruct a, b; simpl; try done.
  destruct (Qlt_bool_spec q q0), (Qlt_bool_spec (c * q) (c * q0));
    (done || nra).
Qed.

Lemma fle_shift c a b :
  fle (fmap_fval (λ x, x + c) a) (fmap_fval (λ x, x + c) b) = fle a b.
Proof.
  destruct a, b; simpl; try done.
  destruct (Qle_bool_spec q q0), (Qle_bool_spec (q + c) (q0 + c));
    (done || lra).
Qed.

Lemma flt_shift c a b :
  flt (fmap_fval (λ x, x + c) a) (fmap_fval (λ x, x + c) b) = flt a b.
Proof.
  destruct a, b; simpl; try done.
  destruct (Qlt_bool_spec q q0), (Qlt_bool_spec (q + c) (q0 + c));
    (done || lra).
Qed.

Lemma fle_flt_excl a b : fle a b = true → flt b a = false.
Proof.
  destruct a, b; simpl; try done. intros ?%Qle_bool_iff.
  apply Qlt_bool_false_iff. lra.
Qed.

(** ** Sums *)

#[export] Instance Qsum_proper : Proper ((≡) ==> (≡)) Qsum.
Proof. induction 1 as [|x y l k Hxy Hlk IH]; [done|]. simpl. qbool. lra. Qed.

Lemma Qsum_cons x l : Qsum (x :: l) = x + Qsum l.
Proof. done. Qed.

Lemma Qsum_app l1 l2 : Qsum (l1 ++ l2) == Qsum l1 + Qsum l2.
Proof.
  induction l1 as [|x l1 IH]; [simpl; lra|].
  rewrite <-app_comm_cons, !Qsum_cons. lra.
Qed.

Lemma Qsum_snoc l x : Qsum (l ++ [x]) == Qsum l + x.
Proof. rewrite Qsum_app. simpl. lra. Qed.

Lemma Qlen_nil {A} : Qlen (@nil A) = 0.
Proof. done. Qed.

Lemma Qlen_cons {A} (x : A) l : Qlen (x :: l) == Qlen l + 1.
Proof.
  unfold Qlen. simpl length. rewrite Nat2Z.inj_succ, <-Z.add_1_r.
  by rewrite inject_Z_plus.
Qed.

Lemma Qlen_nonneg {A} (l : list A) : 0 <= Qlen l.
Proof. unfold Qlen. change 0 with (inject_Z 0). rewrite <-Zle_Qle. lia. Qed.

Lemma Qlen_pos {A} (l : list A) : l ≠ [] → 0 < Qlen l.
Proof.
  intros. unfold Qlen. change 0 with (inject_Z 0). rewrite <-Zlt_Qlt.
  destruct l; simpl; [done | lia].
Qed.

Lemma Qlen_app {A} (l1 l2 : list A) : Qlen (l1 ++ l2) == Qlen l1 + Qlen l2.
Proof.
  unfold Qlen. by rewrite length_app, Nat2Z.inj_add, inject_Z_plus.
Qed.

Lemma Qsum_fmap_opp l : Qsum (Qopp <$> l) == - Qsum l.
Proof.
  induction l as [|x l IH]; [done|]. rewrite fmap_cons, !Qsum_cons. lra.
Qed.

Lemma Qsum_fmap_scale c l : Qsum (Qmult c <$> l) == c * Qsum l.
Proof.
  induction l as [|x l IH]; [simpl; lra|]. rewrite fmap_cons, !Qsum_cons. lra.
Qed.

Lemma Qsum_fmap_shift c l : Qsum ((λ x, x + c) <$> l) == Qsum l + Qlen l * c.
Proof.
  induction l as [|x l IH]; [rewrite (Qlen_nil (A:=Q)); simpl; lra|].
  rewrite fmap_cons, !Qsum_cons, Qlen_cons. nra.
Qed.

Lemma Qsum_le_const m l : Forall (λ x, x <= m) l → Qsum l <= Qlen l * m.
Proof.
  induction 1 as [|x l Hx Hl IH]; [rewrite (Qlen_nil (A:=Q)); simpl; lra|].
  rewrite Qsum_cons, Qlen_cons. nra.
Qed.

Lemma Qsum_ge_const m l : Forall (λ x, m <= x) l → Qlen l * m <= Qsum l.
Proof.
  induction 1 as [|x l Hx Hl IH]; [rewrite (Qlen_nil (A:=Q)); simpl; lra|].
  rewrite Qsum_cons, Qlen_cons. nra.
Qed.

Lemma Qsum_lt_const m l :
  l ≠ [] → Forall (λ x, x < m) l → Qsum l < Qlen l * m.
Proof.
  intros Hne Hl. destruct l as [|x l]; [done|].
  apply Forall_cons in Hl as [Hx Hl].
  assert (Qsum l <= Qlen l * m).
  { apply Qsum_le_const. eapply Forall_impl; [done|]. simpl. intros. lra. }
  rewrite Qsum_cons, Qlen_cons. nra.
Qed.


(** ** Quotients *)

Lemma Qdiv_le_cross a b c d :
  0 < b → 0 < d → a / b <= c / d ↔ a * d <= c * b.
Proof.
  intros Hb Hd.
  assert (Ha : a == a / b * b) by (field; lra).
  assert (Hc : c == c / d * d) by (field; lra).
  set (x := a / b) in *. set (y := c / d) in *. clearbody x y.
  assert (0 < b * d) by nra. set (e := b * d) in *.
  assert (He : ∀ z, z * b * d == z * e) by (intros; unfold e; ring).
  assert (He' : ∀ z, z * d * b == z * e) by (intros; unfold e; ring).
  rewrite Ha, Hc, He, He'. clearbody e. split; intros; nra.
Qed.

Lemma Qdiv_lt_cross a b c d :
  0 < b → 0 < d → a / b < c / d ↔ a * d < c * b.
Proof.
  intros Hb Hd.
  assert (Ha : a == a / b * b) by (field; lra).
  assert (Hc : c == c / d * d) by (field; lra).
  set (x := a / b) in *. set (y := c / d) in *. clearbody x y.
  assert (0 < b * d) by nra. set (e := b * d) in *.
  assert (He : ∀ z, z * b * d == z * e) by (intros; unfold e; ring).
  assert (He' : ∀ z, z * d * b == z * e) by (intros; unfold e; ring).
  rewrite Ha, Hc, He, He'. clearbody e. split; intros; nra.
Qed.

(** ** Means, without division *)

Lemma fle_np_mean a b :
  fle (np_mean a) (np_mean b) = true ↔
  a ≠ [] ∧ b ≠ [] ∧ Qsum a * Qlen b <= Qsum b * Qlen a.
Proof.
  destruct a as [|x a], b as [|y b]; simpl; try naive_solver.
  rewrite Qle_bool_iff, Qdiv_le_cross by (by apply Qlen_pos). naive_solver.
Qed.

Lemma flt_np_mean a b :
  flt (np_mean a) (np_mean b) = true ↔
  a ≠ [] ∧ b ≠ [] ∧ Qsum a * Qlen b < Qsum b * Qlen a.
Proof.
  destruct a as [|x a], b as [|y b]; simpl; try naive_solver.
  rewrite Qlt_bool_iff, Qdiv_lt_cross by (by apply Qlen_pos). naive_solver.
Qed.

#[export] Instance Qlen_proper : Proper ((≡) ==> (=)) (@Qlen Q).
Proof. intros l k Hlk. unfold Qlen. by rewrite Hlk. Qed.

#[export] Instance np_mean_proper : Proper ((≡) ==> (≡)) np_mean.
Proof.
  intros l k Hlk. destruct Hlk as [|x y l k Hxy Hlk]; [done|].
  simpl. constructor.
  assert (H : x :: l ≡ y :: k) by by constructor.
  change (x + foldr Qplus 0 l) with (Qsum (x :: l)).
  change (y + foldr Qplus 0 k) with (Qsum (y :: k)).
  rewrite (Qsum_proper _ _ H), (Qlen_proper _ _ H). reflexivity.
Qed.

Lemma Qlen_fmap {A B} (f : A → B) l : Qlen (f <$> l) = Qlen l.
Proof. unfold Qlen. by rewrite length_fmap. Qed.

Lemma np_mean_nonempty l : l ≠ [] → np_mean l = Fin (Qsum l / Qlen l).
Proof. by destruct l. Qed.

Lemma np_mean_fmap_opp l : np_mean (Qopp <$> l) ≡ fmap_fval Qopp (np_mean l).
Proof.
  destruct l as [|x l]; [done|]. rewrite !np_mean_nonempty by done.
  constructor. rewrite Qsum_fmap_opp, Qlen_fmap.
  unfold Qdiv. ring.
Qed.

Lemma np_mean_fmap_scale c l :
  np_mean (Qmult c <$> l) ≡ fmap_fval (Qmult c) (np_mean l).
Proof.
  destruct l as [|x l]; [done|]. rewrite !np_mean_nonempty by done.
  constructor. rewrite Qsum_fmap_scale, Qlen_fmap.
  unfold Qdiv. ring.
Qed.

Lemma np_mean_fmap_shift c l :
  np_mean ((λ x, x + c) <$> l) ≡ fmap_fval (λ x, x + c) (np_mean l).
Proof.
  destruct l as [|x l]; [done|]. rewrite !np_mean_nonempty by done.
  constructor. rewrite Qsum_fmap_shift, Qlen_fmap.
  field. apply Qnot_eq_sym, Qlt_not_eq, (Qlen_pos (x :: l)). done.
Qed.

(** ** Strings *)

Lemma string_app_assoc (a b c : string) : (a +:+ b) +:+ c = a +:+ (b +:+ c).
Proof.
  induction a as [|x a IH]; [done|].
  change (String x ((a +:+ b) +:+ c) = String x (a +:+ (b +:+ c))).
  by rewrite IH.
Qed.

Lemma string_length_app (a b : string) :
  String.length (a +:+ b) = (String.length a + String.length b)%nat.
Proof.
  induction a as [|x a IH]; [done|].
  change (S (String.length (a +:+ b)) = S (String.length a + String.length b)).
  by rewrite IH.
Qed.

Lemma string_app_inj_r (s a b : string) : a +:+ s = b +:+ s → a = b.
Proof.
  revert b. induction a as [|x a IH]; intros [|y b] H; [done| | |].
  - apply (f_equal String.length) in H.
    rewrite !string_length_app in H. simpl in H. lia.
  - apply (f_equal String.length) in H.
    rewrite !string_length_app in H. simpl in H. lia.
  - change (String x (a +:+ s) = String y (b +:+ s)) in H.
    injection H as -> H. f_equal. by apply IH.
Qed.

(** ** The last elements of a list *)

Definition lastn {A} (k : nat) (l : list A) : list A := drop (length l - k) l.

Section lastn.
Context {A : Type}.
Implicit Types (l : list A) (k n : nat).

Lemma slice_from_neg_lastn l (i : Z) :
  (0 < i)%Z → slice_from (- i) l = lastn (Z.to_nat i) l.
Proof. apply slice_from_neg. Qed.

Lemma length_lastn k l : length (lastn k l) = Nat.min k (length l).
Proof. unfold lastn. rewrite length_drop. lia. Qed.

Lemma lastn_ge k l : (length l ≤ k)%nat → lastn k l = l.
Proof. intros. unfold lastn. by replace (length l - k)%nat with 0%nat by lia. Qed.

Lemma lastn_snoc k l x : lastn (S k) (l ++ [x]) = lastn k l ++ [x].
Proof.
  unfold lastn. rewrite length_app. simpl.
  replace (length l + 1 - S k)%nat with (length l - k)%nat by lia.
  rewrite drop_app_le by lia. done.
Qed.

Lemma lastn_split k n l :
  (k ≤ n)%nat → lastn n l = take (length (lastn n l) - k) (lastn n l) ++ lastn k l.
Proof.
  intros. rewrite <-(take_drop (length (lastn n l) - k) (lastn n l)) at 1.
  f_equal. unfold lastn. rewrite drop_drop, length_drop. f_equal. lia.
Qed.

Lemma lastn_suffix k l : lastn k l `suffix_of` l.
Proof. apply suffix_drop. Qed.

End lastn.

Lemma lastn_fmap {A B} (f : A → B) k l : lastn k (f <$> l) = f <$> lastn k l.
Proof. unfold lastn. by rewrite fmap_drop, length_fmap. Qed.

Lemma slice_from_fmap {A B} (f : A → B) i l :
  slice_from i (f <$> l) = f <$> slice_from i l.
Proof. unfold slice_from. by rewrite fmap_drop, length_fmap. Qed.

Lemma slice_to_fmap {A B} (f : A → B) i l :
  slice_to i (f <$> l) = f <$> slice_to i l.
Proof. unfold slice_to. by rewrite fmap_take, length_fmap. Qed.

#[export] Instance slice_from_proper i : Proper ((≡) ==> (≡)) (@slice_from Q i).
Proof.
  intros l k Hlk. unfold slice_from. rewrite (length_proper l k Hlk).
  by apply drop_proper.
Qed.

#[export] Instance slice_to_proper i : Proper ((≡) ==> (≡)) (@slice_to Q i).
Proof.
  intros l k Hlk. unfold slice_to. rewrite (length_proper l k Hlk).
  by apply take_proper.
Qed.

(** ** Window sums of monotone series

    In a non-decreasing series the sum of the last [k] elements, scaled to
    a window of [n ≥ k] elements, dominates the sum of the last [n]: the
    short average is at least the long one. *)

Lemma lastn_sorted_split (R : relation Q) l k n :
  StronglySorted R l → (0 < k ≤ n)%nat → (n ≤ length l)%nat →
  ∃ a m b, lastn n l = a ++ m :: b ∧ lastn k l = m :: b ∧
    length a = (n - k)%nat ∧ Forall (λ x, R x m) a ∧ Forall (R m) b.
Proof.
  intros Hl Hk Hn. rewrite (lastn_split k n l) by lia.
  set (a := take _ _).
  assert (Hab : StronglySorted R (a ++ lastn k l)).
  { unfold a. rewrite <-lastn_split by lia. unfold lastn.
    rewrite <-(take_drop (length l - n) l) in Hl.
    by apply StronglySorted_app_1_r in Hl. }
  assert (Hla : length a = (n - k)%nat).
  { unfold a. rewrite length_take, length_lastn. lia. }
  destruct (lastn k l) as [|m b] eqn:Hb.
  { apply (f_equal length) in Hb. rewrite length_lastn in Hb. simpl in Hb. lia. }
  exists a, m, b. split_and!; try done.
  - apply Forall_forall. intros x Hx.
    eapply (StronglySorted_app_1_elem_of R); [exact Hab | done | left].
  - apply StronglySorted_app_1_r in Hab.
    by apply StronglySorted_cons in Hab as [Hm _].
Qed.

Lemma window_sums_le a m b :
  Forall (λ x, x <= m) a → Forall (Qle m) b →
  Qsum (a ++ m :: b) * Qlen (m :: b) <= Qsum (m :: b) * Qlen (a ++ m :: b).
Proof.
  intros Ha%Qsum_le_const Hb. assert (Hmb : Forall (Qle m) (m :: b)).
  { constructor; [lra | done]. }
  apply Qsum_ge_const in Hmb. rewrite Qsum_app, Qlen_app.
  pose proof (Qlen_nonneg a). pose proof (Qlen_nonneg (m :: b)). nra.
Qed.

Lemma window_sums_lt a m b :
  a ≠ [] → Forall (λ x, x < m) a → Forall (Qlt m) b →
  Qsum (a ++ m :: b) * Qlen (m :: b) < Qsum (m :: b) * Qlen (a ++ m :: b).
Proof.
  intros Hne Ha Hb. apply Qsum_lt_const in Ha; [|done].
  assert (Hmb : Forall (Qle m) (m :: b)).
  { constructor; [lra|]. eapply Forall_impl; [done|]. simpl. intros. lra. }
  apply Qsum_ge_const in Hmb. rewrite Qsum_app, Qlen_app.
  pose proof (Qlen_pos a Hne). pose proof (Qlen_pos (m :: b) ltac:(done)). nra.
Qed.

Lemma sorted_window_sums l k n :
  StronglySorted Qle l → (0 < k ≤ n)%nat → (n ≤ length l)%nat →
  Qsum (lastn n l) * Qlen (lastn k l) <= Qsum (lastn k l) * Qlen (lastn n l).
Proof.
  intros Hl Hk Hn.
  destruct (lastn_sorted_split Qle l k n) as (a & m & b & -> & -> & _ & Ha & Hb);
    [done..|].
  by apply window_sums_le.
Qed.

Lemma strictly_sorted_window_sums l k n :
  StronglySorted Qlt l → (0 < k < n)%nat → (n ≤ length l)%nat →
  Qsum (lastn n l) * Qlen (lastn k l) < Qsum (lastn k l) * Qlen (lastn n l).
Proof.
  intros Hl Hk Hn.
  destruct (lastn_sorted_split Qlt l k n) as (a & m & b & -> & -> & Hla & Ha & Hb);
    [done || lia..|].
  apply window_sums_lt; [|done..]. intros ->. simpl in Hla. lia.
Qed.

#[export] Hint Rewrite Qsum_app Qsum_snoc Qsum_fmap_opp Qsum_fmap_scale
  Qsum_fmap_shift : pyrw.
#[export] Hint Rewrite @Qlen_fmap @length_lastn @lastn_fmap @slice_from_fmap
  @slice_to_fmap : pyrw.
#[export] Hint Resolve Qlen_nonneg Qlen_pos : py.
