(* ===== verification/PyDict.v ===== *)
(** * Python dictionaries

    A Python [dict] keeps its keys in insertion order: [list(d.keys())]
    lists them in the order they were first stored, [d[k] = v] on a key that
    is present changes the value in place, and a new key goes to the end.
    The registry of [strategy_manager.py], the configuration objects and
    the orders the strategies emit are all such dictionaries, and the code
    observes the order ([list_strategies], the error message of
    [load_strategy]).

    The model is an association list without repeated keys ([dict_wf]).
    This file gives the operations, proves that they keep [dict_wf], and
    relates them to stdpp's finite maps: [to_gmap] is an abstraction
    function under which [dset], [ddel] and [dget] are [insert], [delete]
    and lookup, so that a client may reason on the [gmap] when the order of
    keys does not matter. *)

From stdpp Require Import prelude gmap.
From S2P Require Import Prelude.

Abbreviation pydict K V := (list (K * V)).

Section pydict.
Context {K V : Type} `{!EqDecision K}.
Implicit Types (k : K) (v : V) (d : pydict K V).

(** [d.get(k)], and [d[k]] when it does not raise. *)
Fixpoint dget k d : option V :=
  match d with
  | [] => None
  | (k', v) :: d' => if decide (k = k') then Some v else dget k d'
  end.

(** [k in d] *)
Definition dmem k d : bool := bool_decide (is_Some (dget k d)).

(** [d[k] = v] *)
Fixpoint dset k v d : pydict K V :=
  match d with
  | [] => [(k, v)]
  | (k', v') :: d' =>
      if decide (k = k') then (k, v) :: d' else (k', v') :: dset k v d'
  end.

(** [del d[k]], for a key that is present; no change otherwise. *)
Fixpoint ddel k d : pydict K V :=
  match d with
  | [] => []
  | (k', v') :: d' => if decide (k = k') then d' else (k', v') :: ddel k d'
  end.

(** [list(d.keys())] *)
Definition dkeys d : list K := d.*1.

(** The representation invariant: no key twice. *)
Definition dict_wf d : Prop := NoDup (dkeys d).

(** ** Lookup *)

Lemma dget_Some_elem_of k v d : dget k d = Some v → (k, v) ∈ d.
Proof.
  induction d as [|[k' v'] d IH]; simpl; [done|].
  case_decide; intros; simplify_eq; [left | right; auto].
Qed.

Lemma dget_None k d : dget k d = None ↔ k ∉ dkeys d.
Proof.
  unfold dkeys. induction d as [|[k' v'] d IH]; simpl.
  - split; [intros _; apply not_elem_of_nil | done].
  - rewrite not_elem_of_cons. case_decide; naive_solver.
Qed.

Lemma dget_is_Some k d : is_Some (dget k d) ↔ k ∈ dkeys d.
Proof.
  rewrite <-not_eq_None_Some, dget_None.
  destruct (decide (k ∈ dkeys d)); naive_solver.
Qed.

Lemma dmem_spec k d : dmem k d = true ↔ k ∈ dkeys d.
Proof. unfold dmem. by rewrite bool_decide_eq_true, dget_is_Some. Qed.

Lemma dmem_false k d : dmem k d = false ↔ dget k d = None.
Proof.
  unfold dmem. rewrite bool_decide_eq_false, <-not_eq_None_Some.
  destruct (dget k d); naive_solver.
Qed.

Lemma dget_elem_of k v d : dict_wf d → (k, v) ∈ d → dget k d = Some v.
Proof.
  unfold dict_wf, dkeys. induction d as [|[k' v'] d IH]; simpl.
  - by intros _ ?%elem_of_nil.
  - intros [Hk Hd]%NoDup_cons [?|Hin]%elem_of_cons; simplify_eq.
    + by rewrite decide_True.
    + rewrite decide_False; [auto|].
      intros ->. apply Hk, list_elem_of_fmap. by exists (k', v).
Qed.

(** ** Update *)

Lemma dget_dset_eq k v d : dget k (dset k v d) = Some v.
Proof.
  induction d as [|[k' v'] d IH]; simpl; repeat (case_decide; simpl); done.
Qed.

Lemma dget_dset_ne k k' v d : k ≠ k' → dget k' (dset k v d) = dget k' d.
Proof.
  intros. induction d as [|[k0 v0] d IH]; simpl;
    repeat (case_decide; simpl); congruence.
Qed.

Lemma dget_dset k k' v d :
  dget k' (dset k v d) = if decide (k = k') then Some v else dget k' d.
Proof.
  case_decide; subst; auto using dget_dset_eq, dget_dset_ne.
Qed.

Lemma dkeys_dset_old k v d : k ∈ dkeys d → dkeys (dset k v d) = dkeys d.
Proof.
  unfold dkeys. induction d as [|[k' v'] d IH]; simpl.
  - by intros ?%elem_of_nil.
  - intros [->|Hin]%elem_of_cons; case_decide; simplify_eq/=; f_equal; auto.
Qed.

Lemma dkeys_dset_new k v d : k ∉ dkeys d → dkeys (dset k v d) = dkeys d ++ [k].
Proof.
  unfold dkeys. induction d as [|[k' v'] d IH]; simpl; [done|].
  intros [? ?]%not_elem_of_cons. rewrite decide_False by done.
  simpl. f_equal. auto.
Qed.

Lemma elem_of_dkeys_dset k k' v d :
  k' ∈ dkeys (dset k v d) ↔ k' = k ∨ k' ∈ dkeys d.
Proof.
  rewrite <-!dget_is_Some, dget_dset. case_decide; subst; [|naive_solver].
  split; [auto | by eexists].
Qed.

Lemma dset_wf k v d : dict_wf d → dict_wf (dset k v d).
Proof.
  unfold dict_wf. intros Hd. destruct (decide (k ∈ dkeys d)) as [Hin|Hin].
  - by rewrite dkeys_dset_old.
  - rewrite dkeys_dset_new by done. apply NoDup_app.
    split_and!; [done | | apply NoDup_singleton].
    intros x Hx ->%list_elem_of_singleton. done.
Qed.

(** ** Deletion *)

Lemma dkeys_ddel k d :
  dict_wf d → dkeys (ddel k d) = filter (λ k', k' ≠ k) (dkeys d).
Proof.
  unfold dict_wf, dkeys. induction d as [|[k' v'] d IH]; simpl; [done|].
  intros [Hk Hd]%NoDup_cons. case_decide; subst.
  - rewrite filter_cons_False by naive_solver.
    clear IH Hd. induction d as [|[k0 v0] d IH]; simpl; [done|].
    apply not_elem_of_cons in Hk as [? ?].
    rewrite filter_cons_True by done. f_equal. auto.
  - rewrite filter_cons_True by done. simpl. f_equal. auto.
Qed.

Lemma ddel_wf k d : dict_wf d → dict_wf (ddel k d).
Proof.
  intros Hd. unfold dict_wf. rewrite dkeys_ddel by done.
  by apply NoDup_filter.
Qed.

Lemma dget_ddel_ne k k' d : k ≠ k' → dget k' (ddel k d) = dget k' d.
Proof.
  intros. induction d as [|[k0 v0] d IH]; simpl;
    repeat (case_decide; simpl); congruence.
Qed.

Lemma dget_ddel_eq k d : dict_wf d → dget k (ddel k d) = None.
Proof.
  intros Hd. apply dget_None. rewrite dkeys_ddel by done.
  rewrite list_elem_of_filter. naive_solver.
Qed.

Lemma ddel_absent k d : dget k d = None → ddel k d = d.
Proof.
  induction d as [|[k' v'] d IH]; simpl; [done|].
  case_decide; [done|]. intros. f_equal. auto.
Qed.

End pydict.

(** ** Refinement to finite maps *)

Section to_gmap.
Context {K V : Type} `{Countable K}.
Implicit Types (k : K) (v : V) (d : pydict K V).

Definition to_gmap d : gmap K V := list_to_map d.

Lemma to_gmap_lookup d k : to_gmap d !! k = dget k d.
Proof.
  unfold to_gmap. induction d as [|[k' v'] d IH]; simpl; [done|].
  case_decide; subst; by simplify_map_eq.
Qed.

Lemma to_gmap_dset k v d : to_gmap (dset k v d) = <[k:=v]> (to_gmap d).
Proof.
  apply map_eq. intros k'. rewrite lookup_insert, !to_gmap_lookup.
  apply dget_dset.
Qed.

Lemma to_gmap_ddel k d : dict_wf d → to_gmap (ddel k d) = delete k (to_gmap d).
Proof.
  intros Hd. apply map_eq. intros k'.
  rewrite lookup_delete, !to_gmap_lookup. case_decide; subst.
  - by apply dget_ddel_eq.
  - by apply dget_ddel_ne.
Qed.

Lemma to_gmap_dom d : dom (to_gmap d) = list_to_set (dkeys d).
Proof.
  apply set_eq. intros k.
  by rewrite elem_of_dom, to_gmap_lookup, elem_of_list_to_set, dget_is_Some.
Qed.

End to_gmap.

#[export] Hint Resolve dset_wf ddel_wf : py.
#[export] Hint Rewrite @dget_dset_eq @to_gmap_lookup @to_gmap_dset : pyrw.
