(* ===== verification/PyVal.v ===== *)
(** * Python values, keyword arguments and log records

    Configuration objects are JSON documents loaded into Python values, and
    the orders a strategy returns are dictionaries.  [pyval] is the part of
    Python's value universe those need.  Dictionaries are the ordered
    dictionaries of [PyDict] with string keys.

    The strategies receive their inputs as keyword arguments and read them
    with [kwargs.get(key, default)] or [kwargs[key]]; [kwargs] is the record
    of the keys the two strategies of the repository read, each optional.

    Logging is modelled as output: an operation returns the records it
    sends to the [logging] module, in order.  A record keeps the level, the
    logger's name, the text of the message with its interpolated values
    left out, and those values.

    What a script prints is modelled as lines of text and replacement
    fields ([line]). *)

From Stdlib Require Import QArith ZArith.
From stdpp Require Import prelude strings.
From S2P Require Import Prelude PyDict.

#[local] Open Scope Q_scope.

#[local] Unset Elimination Schemes.

Inductive pyval : Type :=
| PNone
| PBool (b : bool)
| PInt (z : Z)
| PFloat (q : Q)
| PStr (s : string)
| PList (l : list pyval)
| PDict (d : list (string * pyval)).

#[local] Set Elimination Schemes.

(** The number a value denotes in arithmetic and comparisons, if any. *)
Definition as_num (v : pyval) : option Q :=
  match v with
  | PInt z => Some (inject_Z z)
  | PFloat q => Some q
  | _ => None
  end.

(** The integer a value denotes where Python requires one (a slice bound). *)
Definition as_int (v : pyval) : option Z :=
  match v with
  | PInt z => Some z
  | _ => None
  end.

(** [isinstance(v, dict)] *)
Definition is_dict (v : pyval) : bool :=
  match v with PDict _ => true | _ => false end.

(** [v.get(key, default)] on a value: [AttributeError] unless [v] is a
    dictionary. *)
Definition py_get (v : pyval) (key : string) (dflt : pyval) : result pyval :=
  match v with
  | PDict d => Ok (default dflt (dget key d))
  | _ => Raise (AttributeError "get")
  end.

(** [v[key]] for a string key: [KeyError] when a dictionary lacks the key,
    [TypeError] when [v] is not a dictionary. *)
Definition py_item (v : pyval) (key : string) : result pyval :=
  match v with
  | PDict d =>
      match dget key d with
      | Some x => Ok x
      | None => Raise (KeyError key)
      end
  | _ => Raise (TypeError "not subscriptable")
  end.

(** [int(v)] for a number: a float is truncated towards zero.  Other
    values are outside the model ([int] parses a string). *)
Definition py_int (v : pyval) : result Z :=
  match v with
  | PInt z => Ok z
  | PBool b => Ok (if b then 1 else 0)%Z
  | PFloat q => Ok (Z.quot (Qnum q) (Zpos (Qden q)))
  | _ => Raise (TypeError "int() argument")
  end.

(** A value used as a number in arithmetic. *)
Definition py_num (v : pyval) : result Q :=
  match as_num v with
  | Some q => Ok q
  | None => Raise (TypeError "unsupported operand type")
  end.

(** ** Keyword arguments of [calc_entries] and [calc_closes] *)

Record kwargs : Type := {
  kw_current_price : option Q;
  kw_balance : option Q;
  kw_position_size : option Q;
  kw_position_price : option Q;
  kw_qty_steps : option pyval;
  kw_price_steps : option pyval;
  kw_min_qtys : option pyval;
  kw_min_costs : option pyval;
  kw_c_mults : option pyval;
  kw_trailing_min_since_open : option Q;
  kw_trailing_max_since_min : option Q;
  kw_trailing_max_since_open : option Q;
  kw_trailing_min_since_max : option Q;
  kw_ema_min : option Q;
}.

Definition no_kwargs : kwargs :=
  {| kw_current_price := None; kw_balance := None;
     kw_position_size := None; kw_position_price := None;
     kw_qty_steps := None; kw_price_steps := None; kw_min_qtys := None;
     kw_min_costs := None; kw_c_mults := None;
     kw_trailing_min_since_open := None; kw_trailing_max_since_min := None;
     kw_trailing_max_since_open := None; kw_trailing_min_since_max := None;
     kw_ema_min := None |}.

(** [kwargs[key]]: [KeyError] when the key is absent. *)
Definition kw_item {A} (key : string) (o : option A) : result A :=
  match o with
  | Some a => Ok a
  | None => Raise (KeyError key)
  end.

(** ** Log records *)

Inductive level : Type := INFO | WARNING | ERROR.

Record log_record : Type := LogRecord {
  log_level : level;
  log_logger : string;
  log_msg : string;
  log_args : list pyval;
}.

#[global] Instance level_eq_dec : EqDecision level.
Proof. solve_decision. Defined.

(** ** Orders

    An order is the dictionary the strategy builds; the accessors read the
    fields the callers use. *)

Abbreviation order := (pydict string pyval).

Definition order_qty (o : order) : option Q := dget "qty" o ≫= as_num.
Definition order_price (o : order) : option Q := dget "price" o ≫= as_num.
Definition order_type (o : order) : option pyval := dget "order_type" o.
Definition order_signal (o : order) : option pyval := dget "signal" o.

(** The number a value is in a comparison: a Boolean is an integer. *)
Definition as_number (v : pyval) : option Q :=
  match v with
  | PBool b => Some (if b then 1 else 0)
  | _ => as_num v
  end.

(** [a == b] *)
Fixpoint py_eqb (a b : pyval) {struct a} : bool :=
  match a, b with
  | PNone, PNone => true
  | PStr s, PStr t => bool_decide (s = t)
  | PList l, PList k =>
      (fix go (l k : list pyval) : bool :=
         match l, k with
         | [], [] => true
         | x :: l', y :: k' => py_eqb x y && go l' k'
         | _, _ => false
         end) l k
  | PDict d, PDict e =>
      (length d =? length e)%nat &&
      (fix go (d : list (string * pyval)) : bool :=
         match d with
         | [] => true
         | (key, v) :: d' =>
             match dget key e with
             | Some w => py_eqb v w
             | None => false
             end && go d'
         end) d
  | _, _ =>
      match as_number a, as_number b with
      | Some x, Some y => Qeq_bool x y
      | _, _ => false
      end
  end.

(** [bool(v)] *)
Definition py_truthy (v : pyval) : bool :=
  match v with
  | PNone => false
  | PBool b => b
  | PInt z => negb (z =? 0)%Z
  | PFloat q => negb (Qeq_bool q 0)
  | PStr s => negb (bool_decide (s = ""))
  | PList l => negb (bool_decide (l = []))
  | PDict d => negb (bool_decide (d = []))
  end.

(** [key in v] for a string [key]: a key of a dictionary, an element of a
    list, a substring of a string. *)
Definition str_in (key : string) (v : pyval) : result bool :=
  match v with
  | PDict d => Ok (dmem key d)
  | PList l => Ok (existsb (py_eqb (PStr key)) l)
  | PStr s => Ok (bool_decide (is_Some (String.index 0 key s)))
  | _ => Raise (TypeError "argument is not iterable")
  end.

(** ** What is printed

    A line that [print] writes is the list of the pieces of its
    f-string: text, and replacement fields with the value and the format
    specification.  The rendering of a field is Python's. *)

Inductive field : Type :=
| Text (s : string)
| Float (x : fval) (spec : string)
| Count (n : nat)
| Stamp (t : Z).

Definition line : Type := list field.

(** ** Induction on values *)

Section pyval_ind.
Context (P : pyval → Prop).
Context (HNone : P PNone) (HBool : ∀ b, P (PBool b)) (HInt : ∀ z, P (PInt z))
  (HFloat : ∀ q, P (PFloat q)) (HStr : ∀ s, P (PStr s))
  (HList : ∀ l, Forall P l → P (PList l))
  (HDict : ∀ d, Forall (λ kv, P kv.2) d → P (PDict d)).

Fixpoint pyval_ind (v : pyval) : P v :=
  match v with
  | PNone => HNone
  | PBool b => HBool b
  | PInt z => HInt z
  | PFloat q => HFloat q
  | PStr s => HStr s
  | PList l =>
      HList l ((fix go (l : list pyval) : Forall P l :=
                  match l with
                  | [] => Forall_nil_2 P
                  | x :: l' => Forall_cons_2 P x l' (pyval_ind x) (go l')
                  end) l)
  | PDict d =>
      HDict d ((fix go (d : list (string * pyval)) : Forall (λ kv, P kv.2) d :=
                  match d with
                  | [] => Forall_nil_2 _
                  | kv :: d' => Forall_cons_2 _ kv d' (pyval_ind kv.2) (go d')
                  end) d)
  end.

End pyval_ind.

Lemma py_get_not_dict v key dflt :
  is_dict v = false → py_get v key dflt = Raise (AttributeError "get").
Proof. by destruct v. Qed.

Lemma kw_item_ok {A} key (o : option A) a : kw_item key o = Ok a ↔ o = Some a.
Proof. destruct o; simpl; naive_solver. Qed.

(** A value as [json.load] builds it: no dictionary has a key twice. *)
Inductive json_wf : pyval → Prop :=
| wf_None : json_wf PNone
| wf_Bool b : json_wf (PBool b)
| wf_Int z : json_wf (PInt z)
| wf_Float q : json_wf (PFloat q)
| wf_Str s : json_wf (PStr s)
| wf_List l : Forall json_wf l → json_wf (PList l)
| wf_Dict d : dict_wf d → Forall (λ kv, json_wf kv.2) d → json_wf (PDict d).

Lemma py_eqb_refl v : json_wf v → py_eqb v v = true.
Proof.
  induction v as [| b | z | q | s | l IH | d IH] using pyval_ind;
    intros Hwf; simpl; try done.
  - by destruct b.
  - apply Qeq_bool_iff. reflexivity.
  - apply Qeq_bool_iff. reflexivity.
  - by apply bool_decide_eq_true.
  - inversion_clear Hwf as [| | | | |? Hl|].
    induction IH as [|x l Hx _ IHl]; [done|].
    apply Forall_cons in Hl as [??]. rewrite Hx by done. simpl. auto.
  - inversion_clear Hwf as [| | | | | |? Hd Hvs].
    rewrite Nat.eqb_refl. simpl.
    assert (∀ d', d' ⊆ d → Forall (λ kv, json_wf kv.2 → py_eqb kv.2 kv.2 = true) d' →
      (fix go (d0 : list (string * pyval)) : bool :=
         match d0 with
         | [] => true
         | (key, v) :: d'0 =>
             match dget key d with
             | Some w => py_eqb v w
             | None => false
             end && go d'0
         end) d' = true) as Hgo; [|by apply Hgo].
    intros d' Hsub Hall. induction Hall as [|[k v] d' Hv _ IHd]; [done|].
    assert ((k, v) ∈ d) as Hin by (apply Hsub; left).
    rewrite (dget_elem_of k v d Hd Hin). simpl in Hv. rewrite Hv.
    + simpl. apply IHd. intros x Hx. apply Hsub. by right.
    + rewrite Forall_forall in Hvs. apply (Hvs (k, v) Hin).
Qed.
