(* ===== verification/BaseStrategy.v ===== *)
(** * The strategy base class ([src/strategies/base_strategy.py])

    [Module Base] models [BaseStrategy]: the fields every strategy object
    has ([config], [name], [strategy_params]), the constructor, the lookup of
    a configuration value by a path of keys, the structural check of an
    order and the optional hooks, which do nothing unless a subclass
    overrides them.

    The two abstract methods of the class, with the hooks, make the
    interface [Strategy]; [StrategyLaws] states what a caller may rely on
    (the contract of the class's docstrings): the orders a strategy returns
    pass [validate_order], and evaluating a strategy never changes the
    fields of the base class.  The concrete strategies provide instances,
    and the registry's theorems about the active strategy are proved from
    the laws alone. *)

From Stdlib Require Import QArith ZArith.
From stdpp Require Import prelude strings.
From S2P Require Import Prelude PyDict PyVal.

#[local] Open Scope Q_scope.

Module Base.

Record strategy_base : Type := {
  config : pyval;
  name : string;
  strategy_params : pyval;
}.

(** [logging.getLogger(f"strategy.{self.name}")] *)
Definition logger (cls_name : string) : string := "strategy." +:+ cls_name.

(** The constructor.  [cls_name] is [self.__class__.__name__]. *)
Definition __init__ (cls_name : string) (cfg : pyval)
  : result strategy_base * list log_record :=
  match py_get cfg "strategy" (PDict []) with
  | Ok params =>
      (Ok {| config := cfg; name := cls_name; strategy_params := params |},
       [LogRecord INFO (logger cls_name) "Initialized strategy: {}"
          [PStr cls_name]])
  | Raise e => (Raise e, [])
  end.

Definition get_strategy_params (self : strategy_base) : pyval :=
  strategy_params self.

(** The loop of [get_config_value], on the value reached so far. *)
Fixpoint walk (value : pyval) (key_path : list string) (dflt : pyval) : pyval :=
  match key_path with
  | [] => value
  | key :: rest =>
      match value with
      | PDict d =>
          match dget key d with
          | Some v => walk v rest dflt
          | None => dflt
          end
      | _ => dflt
      end
  end.

Definition get_config_value (self : strategy_base) (key_path : list string)
    (dflt : pyval) : pyval :=
  walk (config self) key_path dflt.

Definition required_fields : list string := ["qty"; "price"; "order_type"].

Definition validate_order (o : order) : bool :=
  forallb (λ field, dmem field o) required_fields.

Definition log_strategy_action (self : strategy_base)
    (action pside symbol : string) (kw : pydict string pyval) : log_record :=
  LogRecord INFO (logger (name self)) "{} - {} {}: {}"
    [PStr action; PStr pside; PStr symbol; PDict kw].

(** The optional hooks: the base class's bodies are [pass]. *)
Definition on_market_data_update {S} (self : S) (symbol : string)
    (market_data : pydict string Q) : S := self.

Definition on_position_update {S} (self : S) (symbol pside : string)
    (position : pydict string pyval) : S := self.

Definition on_order_filled {S} (self : S) (symbol : string)
    (o : order) : S := self.

(** ** Specification of the path lookup

    [at_path v p w]: following the keys of [p] from [v] through nested
    dictionaries leads to [w]. *)
Inductive at_path : pyval → list string → pyval → Prop :=
| at_path_nil v : at_path v [] v
| at_path_cons d key v rest w :
    dget key d = Some v → at_path v rest w → at_path (PDict d) (key :: rest) w.

Lemma at_path_fun v p w1 w2 : at_path v p w1 → at_path v p w2 → w1 = w2.
Proof.
  intros H1. revert w2. induction H1; inversion 1; simplify_eq; auto.
Qed.

Lemma walk_at_path v p dflt w : at_path v p w → walk v p dflt = w.
Proof. induction 1; simpl; [done|]. by simplify_option_eq. Qed.

Lemma walk_no_path v p dflt : (∀ w, ¬ at_path v p w) → walk v p dflt = dflt.
Proof.
  revert v. induction p as [|key rest IH]; intros v Hno; simpl.
  - destruct (Hno v). constructor.
  - destruct v as [| | | | | |d]; try done.
    destruct (dget key d) as [v|] eqn:Hget; [|done].
    apply IH. intros w Hw. eapply Hno. by econstructor.
Qed.

Lemma at_path_app v p1 p2 u w :
  at_path v p1 u → at_path u p2 w → at_path v (p1 ++ p2) w.
Proof. induction 1; simpl; [done|]. intros. econstructor; eauto. Qed.

(** [get_config_value] returns the value found at the path when the
    path exists in the configuration. *)
Lemma get_config_value_found self p dflt w :
  at_path (config self) p w → get_config_value self p dflt = w.
Proof. apply walk_at_path. Qed.

Lemma get_config_value_missing self p dflt :
  (∀ w, ¬ at_path (config self) p w) → get_config_value self p dflt = dflt.
Proof. apply walk_no_path. Qed.

Lemma walk_app v p1 p2 dflt u :
  at_path v p1 u → walk v (p1 ++ p2) dflt = walk u p2 dflt.
Proof. induction 1; simpl; [done|]. by simplify_option_eq. Qed.

(** ** Orders *)

Lemma validate_order_spec (o : order) :
  validate_order o = true ↔
  "qty" ∈ dkeys o ∧ "price" ∈ dkeys o ∧ "order_type" ∈ dkeys o.
Proof.
  unfold validate_order, required_fields. simpl.
  rewrite !andb_true_iff, !dmem_spec. naive_solver.
Qed.

Lemma __init___ok cls_name cfg b logs :
  __init__ cls_name cfg = (Ok b, logs) →
  config b = cfg ∧ name b = cls_name ∧
  ∃ d, cfg = PDict d ∧ strategy_params b = default (PDict []) (dget "strategy" d).
Proof.
  unfold __init__. destruct cfg; simpl; intros; simplify_eq.
  split_and!; eauto.
Qed.

Lemma __init___raise cls_name cfg :
  is_dict cfg = false →
  __init__ cls_name cfg = (Raise (AttributeError "get"), []).
Proof. by destruct cfg. Qed.

(** ** Example *)

Lemma get_config_value_found_witness :
  let cfg := PDict [("bot", PDict [("long",
               PDict [("entry_grid_spacing_pct", PFloat 0.01)])])] in
  let self := {| config := cfg; name := "S"; strategy_params := PDict [] |} in
  get_config_value self ["bot"; "long"; "entry_grid_spacing_pct"] PNone
  = PFloat 0.01.
Proof.
  intros cfg self.
  apply (get_config_value_found self _ PNone). repeat econstructor.
Defined.

End Base.

(** ** The interface of a strategy *)

Class Strategy (S : Type) : Type := {
  base_of : S → Base.strategy_base;
  calc_entries : S → string → string → kwargs → S * list order * list log_record;
  calc_closes : S → string → string → kwargs → S * list order * list log_record;
  on_market_data_update : S → string → pydict string Q → S;
  on_position_update : S → string → string → pydict string pyval → S;
  on_order_filled : S → string → order → S;
}.

Class StrategyLaws (S : Type) `{Strategy S} : Prop := {
  calc_entries_valid s pside symbol kw :
    Forall (λ o, Base.validate_order o = true)
      (calc_entries s pside symbol kw).1.2;
  calc_closes_valid s pside symbol kw :
    Forall (λ o, Base.validate_order o = true)
      (calc_closes s pside symbol kw).1.2;
  calc_entries_base s pside symbol kw :
    base_of (calc_entries s pside symbol kw).1.1 = base_of s;
  calc_closes_base s pside symbol kw :
    base_of (calc_closes s pside symbol kw).1.1 = base_of s;
}.

(** ** Dynamic dispatch

    A variable that holds "some strategy" holds an object of one of several
    classes; a method call on it runs the method of the object's class.
    For two classes this is the sum of their object types.  The laws lift
    to the sum: a caller that holds a strategy of either class may rely on
    them. *)

Section dispatch.
Context {A B : Type} `{Strategy A, Strategy B}.

Definition lift_l (r : A * list order * list log_record)
  : (A + B) * list order * list log_record := (inl r.1.1, r.1.2, r.2).

Definition lift_r (r : B * list order * list log_record)
  : (A + B) * list order * list log_record := (inr r.1.1, r.1.2, r.2).

#[export] Instance sum_strategy : Strategy (A + B) := {
  base_of s := match s with inl a => base_of a | inr b => base_of b end;
  calc_entries s pside symbol kw :=
    match s with
    | inl a => lift_l (calc_entries a pside symbol kw)
    | inr b => lift_r (calc_entries b pside symbol kw)
    end;
  calc_closes s pside symbol kw :=
    match s with
    | inl a => lift_l (calc_closes a pside symbol kw)
    | inr b => lift_r (calc_closes b pside symbol kw)
    end;
  on_market_data_update s symbol md :=
    match s with
    | inl a => inl (on_market_data_update a symbol md)
    | inr b => inr (on_market_data_update b symbol md)
    end;
  on_position_update s symbol pside pos :=
    match s with
    | inl a => inl (on_position_update a symbol pside pos)
    | inr b => inr (on_position_update b symbol pside pos)
    end;
  on_order_filled s symbol o :=
    match s with
    | inl a => inl (on_order_filled a symbol o)
    | inr b => inr (on_order_filled b symbol o)
    end;
}.

#[export] Instance sum_strategy_laws `{!StrategyLaws A, !StrategyLaws B} :
  StrategyLaws (A + B).
Proof.
  split; intros [a|b] pside symbol kw; simpl;
    first [apply calc_entries_valid | apply calc_closes_valid
          | apply calc_entries_base | apply calc_closes_base].
Qed.

End dispatch.
