(* ===== verification/MACrossover.v ===== *)
(** * The moving-average crossover strategy
    ([src/strategies/ma_crossover_strategy.py])

    [Module MA] models [MACrossoverStrategy].  An object of the class is a
    record [t]: the fields of the base class, the five parameters read from
    the configuration, and [price_history], a finite map from a symbol to
    the prices seen for it, oldest first.  A method that changes the object
    returns the new object; a method that logs returns its log records.

    The periods are integers ([Z]) as in the configuration, not naturals:
    the code does not reject a zero or negative period, and what Python's
    slices do with them is part of the behaviour proved here.

    The theorems come in four groups: the bounded history buffer, the
    moving average and the crossover signal (characterisation, symmetries,
    behaviour on monotone series), the entry and close orders on every
    branch, and the constructor with its defaults. *)

From Stdlib Require Import QArith Qabs ZArith Lqa Lia.
From stdpp Require Import prelude strings gmap sorting.

From S2P Require Import Prelude PyDict PyVal BaseStrategy.

#[local] Set Warnings "-clear-no-such-hyp".
#[local] Open Scope Q_scope.

Module MA.

Record t : Type := {
  base : Base.strategy_base;
  fast_period : Z;
  slow_period : Z;
  position_size : Q;
  stop_loss_pct : Q;
  take_profit_pct : Q;
  price_history : gmap string (list Q);
}.

Inductive signal : Type := golden | death | none.

#[global] Instance signal_eq_dec : EqDecision signal.
Proof. solve_decision. Defined.

Inductive status : Type :=
| insufficient_data
| active (fast_ma slow_ma : fval) (sig : signal) (price_count : nat).

Definition class_name : string := "MACrossoverStrategy".

(** [params.get(key, dflt)] for a parameter used as an integer.  A value of
    another type makes the methods fail with [TypeError] at its first use
    as a slice bound; the model reports it at construction. *)
Definition get_int (params : pyval) (key : string) (dflt : Z) : result Z :=
  v ← py_get params key (PInt dflt);
  match as_int v with
  | Some z => Ok z
  | None => Raise (TypeError key)
  end.

(** The same for a parameter used as a number. *)
Definition get_num (params : pyval) (key : string) (dflt : Q) : result Q :=
  v ← py_get params key (PFloat dflt);
  match as_num v with
  | Some q => Ok q
  | None => Raise (TypeError key)
  end.

Definition read_params (b : Base.strategy_base) : result t :=
  let strategy_params := Base.get_strategy_params b in
  fast ← get_int strategy_params "fast_period" 10;
  slow ← get_int strategy_params "slow_period" 20;
  size ← get_num strategy_params "position_size" 0.1;
  sl ← get_num strategy_params "stop_loss_pct" 0.02;
  tp ← get_num strategy_params "take_profit_pct" 0.04;
  Ok {| base := b; fast_period := fast; slow_period := slow;
        position_size := size; stop_loss_pct := sl; take_profit_pct := tp;
        price_history := ∅ |}.

Definition __init__ (cfg : pyval) : result t * list log_record :=
  match Base.__init__ class_name cfg with
  | (Ok b, logs) =>
      match read_params b with
      | Ok self =>
          (Ok self,
           logs ++ [LogRecord INFO (Base.logger class_name)
                      "MA Crossover Strategy initialized: fast={}, slow={}, size={}"
                      [PInt (fast_period self); PInt (slow_period self);
                       PFloat (position_size self)]])
      | Raise e => (Raise e, logs)
      end
  | (Raise e, logs) => (Raise e, logs)
  end.

Definition history (self : t) (symbol : string) : list Q :=
  default [] (price_history self !! symbol).

Definition set_history (self : t) (symbol : string) (h : list Q) : t :=
  {| base := base self; fast_period := fast_period self;
     slow_period := slow_period self; position_size := position_size self;
     stop_loss_pct := stop_loss_pct self;
     take_profit_pct := take_profit_pct self;
     price_history := <[symbol := h]> (price_history self) |}.

Definition _update_price_history (self : t) (symbol : string) (price : Q) : t :=
  let h := history self symbol ++ [price] in
  let max_length := (slow_period self * 2)%Z in
  if (max_length <? Z.of_nat (length h))%Z
  then set_history self symbol (slice_from (- max_length) h)
  else set_history self symbol h.

Definition _calculate_ma (prices : list Q) (period : Z) : fval :=
  if (Z.of_nat (length prices) <? period)%Z then Fin 0
  else np_mean (slice_from (- period) prices).

Definition _detect_crossover (self : t) (prices : list Q) : signal :=
  if (Z.of_nat (length prices) <? slow_period self + 1)%Z then none else
  let current_fast_ma := _calculate_ma prices (fast_period self) in
  let current_slow_ma := _calculate_ma prices (slow_period self) in
  let prev_prices := slice_to (-1) prices in
  let prev_fast_ma := _calculate_ma prev_prices (fast_period self) in
  let prev_slow_ma := _calculate_ma prev_prices (slow_period self) in
  if fle prev_fast_ma prev_slow_ma && flt current_slow_ma current_fast_ma
  then golden
  else if fle prev_slow_ma prev_fast_ma && flt current_fast_ma current_slow_ma
  then death
  else none.

(** The dictionary literal of an order. *)
Definition mk_order (qty price : Q) (order_type signal : string) : order :=
  [("qty", PFloat qty); ("price", PFloat price);
   ("order_type", PStr order_type); ("strategy", PStr "ma_crossover");
   ("signal", PStr signal)].

Definition calc_entries (self : t) (pside symbol : string) (kw : kwargs)
  : t * list order * list log_record :=
  let current_price := default 0 (kw_current_price kw) in
  let balance := default 0 (kw_balance kw) in
  if (current_price <=? 0) || (balance <=? 0) then (self, [], []) else
  let self := _update_price_history self symbol current_price in
  let prices := history self symbol in
  if (Z.of_nat (length prices) <? slow_period self)%Z then (self, [], []) else
  let sig := _detect_crossover self prices in
  let qty := balance * position_size self / current_price in
  if decide (sig = golden ∧ pside = "long") then
    (self, [mk_order qty current_price "market_buy" "golden_cross"],
     [Base.log_strategy_action (base self) "Entry signal" pside symbol
        [("signal", PStr "golden_cross"); ("price", PFloat current_price)]])
  else if decide (sig = death ∧ pside = "short") then
    (self, [mk_order (- qty) current_price "market_sell" "death_cross"],
     [Base.log_strategy_action (base self) "Entry signal" pside symbol
        [("signal", PStr "death_cross"); ("price", PFloat current_price)]])
  else (self, [], []).

(** The three branches of a close, for a long position. *)
Definition close_long (self : t) (pside symbol : string)
    (sig : signal) (current_price position_size position_price : Q)
  : list order * list log_record :=
  let stop_loss_price := position_price * (1 - stop_loss_pct self) in
  let take_profit_price := position_price * (1 + take_profit_pct self) in
  if decide (sig = death) then
    ([mk_order (- position_size) current_price "market_sell" "death_cross_close"],
     [Base.log_strategy_action (base self) "Close signal" pside symbol
        [("signal", PStr "death_cross_close"); ("price", PFloat current_price)]])
  else if current_price <=? stop_loss_price then
    ([mk_order (- position_size) current_price "market_sell" "stop_loss"],
     [Base.log_strategy_action (base self) "Stop loss" pside symbol
        [("price", PFloat current_price);
         ("stop_price", PFloat stop_loss_price)]])
  else if take_profit_price <=? current_price then
    ([mk_order (- position_size) current_price "market_sell" "take_profit"],
     [Base.log_strategy_action (base self) "Take profit" pside symbol
        [("price", PFloat current_price);
         ("target_price", PFloat take_profit_price)]])
  else ([], []).

(** The three branches of a close, for a short position. *)
Definition close_short (self : t) (pside symbol : string)
    (sig : signal) (current_price position_size position_price : Q)
  : list order * list log_record :=
  let stop_loss_price := position_price * (1 + stop_loss_pct self) in
  let take_profit_price := position_price * (1 - take_profit_pct self) in
  if decide (sig = golden) then
    ([mk_order (Qabs position_size) current_price "market_buy" "golden_cross_close"],
     [Base.log_strategy_action (base self) "Close signal" pside symbol
        [("signal", PStr "golden_cross_close"); ("price", PFloat current_price)]])
  else if stop_loss_price <=? current_price then
    ([mk_order (Qabs position_size) current_price "market_buy" "stop_loss"],
     [Base.log_strategy_action (base self) "Stop loss" pside symbol
        [("price", PFloat current_price);
         ("stop_price", PFloat stop_loss_price)]])
  else if current_price <=? take_profit_price then
    ([mk_order (Qabs position_size) current_price "market_buy" "take_profit"],
     [Base.log_strategy_action (base self) "Take profit" pside symbol
        [("price", PFloat current_price);
         ("target_price", PFloat take_profit_price)]])
  else ([], []).

(** The literal [1e-8] of the guard is written [1 # 100000000]. *)
Definition calc_closes (self : t) (pside symbol : string) (kw : kwargs)
  : t * list order * list log_record :=
  let current_price := default 0 (kw_current_price kw) in
  let position_size := default 0 (kw_position_size kw) in
  let position_price := default 0 (kw_position_price kw) in
  if (Qabs position_size <? 1 # 100000000) || (current_price <=? 0)
  then (self, [], []) else
  let self := _update_price_history self symbol current_price in
  let prices := history self symbol in
  if (Z.of_nat (length prices) <? slow_period self)%Z then (self, [], []) else
  let sig := _detect_crossover self prices in
  if 0 <? position_size then
    let '(orders, logs) :=
      close_long self pside symbol sig current_price position_size position_price in
    (self, orders, logs)
  else if position_size <? 0 then
    let '(orders, logs) :=
      close_short self pside symbol sig current_price position_size position_price in
    (self, orders, logs)
  else (self, [], []).

Definition on_market_data_update (self : t) (symbol : string)
    (market_data : pydict string Q) : t :=
  match dget "price" market_data with
  | Some price => _update_price_history self symbol price
  | None => self
  end.

Definition get_strategy_status (self : t) (symbol : string) : status :=
  let prices := history self symbol in
  if (Z.of_nat (length prices) <? slow_period self)%Z then insufficient_data else
  active (_calculate_ma prices (fast_period self))
         (_calculate_ma prices (slow_period self))
         (_detect_crossover self prices)
         (length prices).

(** ** Specification of the signal *)

(** The average of the last [k] prices, for [0 < k ≤ length prices]. *)
Definition sma (k : Z) (prices : list Q) : Q :=
  Qsum (lastn (Z.to_nat k) prices) / inject_Z k.

(** The specification of the signal for periods [F ≤ S]. *)
Inductive crossover_spec (F S : Z) : list Q → signal → Prop :=
| cross_warmup prices :
    (Z.of_nat (length prices) ≤ S)%Z → crossover_spec F S prices none
| cross_golden prev p :
    (S ≤ Z.of_nat (length prev))%Z →
    sma F prev <= sma S prev → sma S (prev ++ [p]) < sma F (prev ++ [p]) →
    crossover_spec F S (prev ++ [p]) golden
| cross_death prev p :
    (S ≤ Z.of_nat (length prev))%Z →
    sma S prev <= sma F prev → sma F (prev ++ [p]) < sma S (prev ++ [p]) →
    crossover_spec F S (prev ++ [p]) death
| cross_none prev p :
    (S ≤ Z.of_nat (length prev))%Z →
    ¬ (sma F prev <= sma S prev ∧ sma S (prev ++ [p]) < sma F (prev ++ [p])) →
    ¬ (sma S prev <= sma F prev ∧ sma F (prev ++ [p]) < sma S (prev ++ [p])) →
    crossover_spec F S (prev ++ [p]) none.

(** The signal of the mirrored series. *)
Definition flip (s : signal) : signal :=
  match s with golden => death | death => golden | none => none end.

(** ** The history buffer *)

Section buffer.
Context (self : t) (symbol : string) (price : Q).

Lemma history_set_same h : history (set_history self symbol h) symbol = h.
Proof. unfold history. simpl. by rewrite lookup_insert_eq. Qed.

Lemma history_set_other symbol' h :
  symbol ≠ symbol' → history (set_history self symbol h) symbol' = history self symbol'.
Proof. intros. unfold history. simpl. by rewrite lookup_insert_ne. Qed.

Lemma update_history :
  history (_update_price_history self symbol price) symbol =
  let h := history self symbol ++ [price] in
  if (slow_period self * 2 <? Z.of_nat (length h))%Z
  then slice_from (- (slow_period self * 2)) h else h.
Proof.
  unfold _update_price_history. simpl. case_match; by rewrite history_set_same.
Qed.

Lemma update_history_other symbol' :
  symbol ≠ symbol' →
  history (_update_price_history self symbol price) symbol' = history self symbol'.
Proof.
  intros. unfold _update_price_history. case_match; by rewrite history_set_other.
Qed.

Lemma update_params :
  let self' := _update_price_history self symbol price in
  base self' = base self ∧ fast_period self' = fast_period self ∧
  slow_period self' = slow_period self ∧ position_size self' = position_size self ∧
  stop_loss_pct self' = stop_loss_pct self ∧
  take_profit_pct self' = take_profit_pct self.
Proof. unfold _update_price_history. by case_match. Qed.

(** C2: With a positive slow period, the history of a symbol holds at most 2
    * slow_period prices after _update_price_history, whatever it held
    before. *)
Lemma update_history_bounded :
  (0 < slow_period self)%Z →
  (Z.of_nat (length (history (_update_price_history self symbol price) symbol))
   ≤ 2 * slow_period self)%Z.
Proof.
  intros. rewrite update_history. simpl. case_match eqn:E.
  - rewrite length_slice_from_neg by lia. lia.
  - lia.
Qed.

(** C9: The history buffer is first-in first-out: when the history holds
    fewer than 2 * slow_period prices the new price is appended, and when it
    is full the oldest price is dropped and the new one appended. *)
Lemma update_history_fifo :
  (0 < slow_period self)%Z →
  (Z.of_nat (length (history self symbol)) ≤ 2 * slow_period self)%Z →
  history (_update_price_history self symbol price) symbol =
  if decide (Z.of_nat (length (history self symbol)) = 2 * slow_period self)%Z
  then tail (history self symbol) ++ [price]
  else history self symbol ++ [price].
Proof.
  intros Hs Hlen. rewrite update_history. simpl. rewrite length_app. simpl.
  case_decide as Hfull.
  - rewrite (proj2 (Z.ltb_lt _ _)) by lia.
    rewrite slice_from_neg by lia. rewrite length_app. simpl.
    replace (length (history self symbol) + 1 - Z.to_nat (slow_period self * 2))%nat
      with 1%nat by lia.
    destruct (history self symbol); [simpl in *; lia | done].
  - by rewrite (proj2 (Z.ltb_ge _ _)) by lia.
Qed.

Lemma update_history_last :
  (0 <= slow_period self)%Z →
  last (history (_update_price_history self symbol price) symbol) = Some price.
Proof.
  intros. rewrite update_history. simpl. case_match; [|apply last_snoc].
  destruct (decide (slow_period self = 0%Z)) as [Hz|]; [rewrite Hz; apply last_snoc|].
  rewrite slice_from_neg, length_app by lia. simpl.
  rewrite drop_app_le by lia. apply last_snoc.
Qed.

(** With slow_period = 0 the history is never truncated: the slice
    [-0:] is the whole list, so every price is kept. *)
Lemma update_history_unbounded :
  slow_period self = 0%Z →
  history (_update_price_history self symbol price) symbol =
  history self symbol ++ [price].
Proof.
  intros Hs. rewrite update_history, Hs. simpl. by case_match.
Qed.

End buffer.

(** ** The moving average *)


Lemma calculate_ma_short prices period :
  (Z.of_nat (length prices) < period)%Z → _calculate_ma prices period = Fin 0.
Proof. intros. unfold _calculate_ma. by rewrite (proj2 (Z.ltb_lt _ _)). Qed.

Lemma calculate_ma_full prices period :
  (0 < period ≤ Z.of_nat (length prices))%Z →
  _calculate_ma prices period = Fin (sma period prices).
Proof.
  intros. unfold _calculate_ma, sma. rewrite (proj2 (Z.ltb_ge _ _)) by lia.
  rewrite slice_from_neg_lastn by lia.
  rewrite np_mean_nonempty.
  - unfold Qlen. rewrite length_lastn. do 3 f_equal. lia.
  - intros Hnil%(f_equal length). rewrite length_lastn in Hnil. simpl in Hnil. lia.
Qed.

(** With a zero period the slice [prices[-0:]] is the whole list. *)
Lemma calculate_ma_zero prices : _calculate_ma prices 0 = np_mean prices.
Proof. unfold _calculate_ma. by rewrite (proj2 (Z.ltb_ge _ _)) by lia. Qed.

Lemma calculate_ma_finite prices period :
  (0 < period)%Z → ∃ q, _calculate_ma prices period = Fin q.
Proof.
  intros. destruct (decide (Z.of_nat (length prices) < period)%Z).
  - rewrite calculate_ma_short by done. eauto.
  - rewrite calculate_ma_full by lia. eauto.
Qed.

(** ** The crossover signal *)


Section crossover.
Context (self : t).
Abbreviation F := (fast_period self).
Abbreviation S := (slow_period self).

Lemma detect_warmup prices :
  (Z.of_nat (length prices) < S + 1)%Z → _detect_crossover self prices = none.
Proof. intros. unfold _detect_crossover. by rewrite (proj2 (Z.ltb_lt _ _)). Qed.

(** Once [S + 1] prices are there and [0 < F ≤ S], the four averages are
    averages of full windows: the sentinel [0.0] of [_calculate_ma] is not
    compared. *)
Lemma detect_full prev p :
  (0 < F ≤ S)%Z → (S ≤ Z.of_nat (length prev))%Z →
  _detect_crossover self (prev ++ [p]) =
  if (sma F prev <=? sma S prev) && (sma S (prev ++ [p]) <? sma F (prev ++ [p]))
  then golden
  else if (sma S prev <=? sma F prev) && (sma F (prev ++ [p]) <? sma S (prev ++ [p]))
  then death else none.
Proof.
  intros HF HS. unfold _detect_crossover.
  rewrite length_app, slice_to_neg1_snoc. simpl length.
  rewrite (proj2 (Z.ltb_ge _ _)) by lia.
  rewrite !calculate_ma_full by (rewrite ?length_app; simpl; lia). done.
Qed.

Lemma detect_crossover_spec prices :
  (0 < F ≤ S)%Z → crossover_spec F S prices (_detect_crossover self prices).
Proof.
  intros HF. destruct (decide (Z.of_nat (length prices) < S + 1)%Z) as [Hlen|Hlen].
  { rewrite detect_warmup by done. constructor. lia. }
  destruct prices as [|p0 prices _] using rev_ind; [simpl in Hlen; lia|].
  rewrite length_app in Hlen. simpl in Hlen.
  rewrite detect_full by lia.
  repeat case_qle; simpl; try (constructor; (lia || lra)).
Qed.

Lemma crossover_spec_fun F' S' prices s1 s2 :
  crossover_spec F' S' prices s1 → crossover_spec F' S' prices s2 → s1 = s2.
Proof.
  intros H1 H2.
  destruct H1; inversion H2; simplify_list_eq; try done;
    rewrite ?length_app in *; simpl in *; try lia; try lra; tauto.
Qed.

End crossover.

(** C1: The function implements the specification, and the specification
    determines the signal. *)
Lemma detect_crossover_iff self prices s :
  (0 < fast_period self ≤ slow_period self)%Z →
  _detect_crossover self prices = s ↔
  crossover_spec (fast_period self) (slow_period self) prices s.
Proof.
  intros HF. split.
  - intros <-. by apply detect_crossover_spec.
  - intros Hs. eapply crossover_spec_fun; [|done]. by apply detect_crossover_spec.
Qed.


(** ** Symmetries of the signal *)


#[export] Instance calculate_ma_proper :
  Proper ((≡) ==> (=) ==> (≡)) _calculate_ma.
Proof.
  intros l k Hlk p ? <-. unfold _calculate_ma.
  rewrite (length_proper l k Hlk). case_match; [done|]. by rewrite Hlk.
Qed.

Lemma calculate_ma_opp prices period :
  _calculate_ma (Qopp <$> prices) period ≡ fmap_fval Qopp (_calculate_ma prices period).
Proof.
  unfold _calculate_ma. rewrite length_fmap. case_match.
  - by constructor.
  - rewrite slice_from_fmap, np_mean_fmap_opp. reflexivity.
Qed.

Lemma calculate_ma_scale c prices period :
  _calculate_ma (Qmult c <$> prices) period ≡
  fmap_fval (Qmult c) (_calculate_ma prices period).
Proof.
  unfold _calculate_ma. rewrite length_fmap. case_match.
  - constructor. simpl. lra.
  - rewrite slice_from_fmap, np_mean_fmap_scale. reflexivity.
Qed.

Section symmetries.
Context (self : t).

#[export] Instance detect_crossover_proper :
  Proper ((≡) ==> (=)) (_detect_crossover self).
Proof.
  intros l k Hlk. unfold _detect_crossover.
  rewrite (length_proper l k Hlk). case_match; [done|].
  assert (Hprev : slice_to (-1) l ≡ slice_to (-1) k) by by rewrite Hlk.
  by rewrite !(calculate_ma_proper _ _ Hlk _ _ eq_refl),
    !(calculate_ma_proper _ _ Hprev _ _ eq_refl).
Qed.

Lemma detect_golden_death_excl (pf ps cf cs : fval) :
  fle pf ps && flt cs cf = true → fle ps pf && flt cf cs = false.
Proof.
  intros [_ H]%andb_true_iff. apply andb_false_iff. right.
  destruct cf, cs; simpl in *; try done. qbool.
  apply Qlt_bool_false_iff. lra.
Qed.

(** A golden cross of a series is a death cross of its mirror image. *)
Lemma detect_crossover_opp prices :
  _detect_crossover self (Qopp <$> prices) = flip (_detect_crossover self prices).
Proof.
  unfold _detect_crossover. rewrite length_fmap. case_match; [done|].
  rewrite slice_to_fmap, !calculate_ma_opp, !fle_opp, !flt_opp.
  match goal with
  | |- _ = flip (if ?g then _ else if ?d then _ else _) =>
      destruct g eqn:Hg;
      [rewrite (detect_golden_death_excl _ _ _ _ Hg) | destruct d]; done
  end.
Qed.

(** The signal does not depend on the unit of the prices. *)
Lemma detect_crossover_scale c prices :
  0 < c →
  _detect_crossover self (Qmult c <$> prices) = _detect_crossover self prices.
Proof.
  intros. unfold _detect_crossover. rewrite length_fmap. case_match; [done|].
  by rewrite slice_to_fmap, !calculate_ma_scale, !fle_scale, !flt_scale.
Qed.

End symmetries.

Lemma detect_crossover_equiv self prices prices' :
  prices ≡ prices' →
  _detect_crossover self prices = _detect_crossover self prices'.
Proof. apply detect_crossover_proper. Qed.

(** ** Monotone series *)

Lemma Qlen_lastn (k : Z) (l : list Q) :
  (0 ≤ k ≤ Z.of_nat (length l))%Z → Qlen (lastn (Z.to_nat k) l) = inject_Z k.
Proof. intros. unfold Qlen. rewrite length_lastn. f_equal. lia. Qed.

Lemma sma_sorted_le (k n : Z) l :
  StronglySorted Qle l → (0 < k ≤ n)%Z → (n ≤ Z.of_nat (length l))%Z →
  sma n l <= sma k l.
Proof.
  intros Hl Hk Hn. unfold sma.
  assert (0 < inject_Z k ∧ 0 < inject_Z n) as [??].
  { change 0 with (inject_Z 0). rewrite <-!Zlt_Qlt. lia. }
  apply Qdiv_le_cross; [done..|].
  rewrite <-(Qlen_lastn k l), <-(Qlen_lastn n l) by lia.
  apply sorted_window_sums; [done | lia..].
Qed.

Lemma sma_sorted_lt (k n : Z) l :
  StronglySorted Qlt l → (0 < k < n)%Z → (n ≤ Z.of_nat (length l))%Z →
  sma n l < sma k l.
Proof.
  intros Hl Hk Hn. unfold sma.
  assert (0 < inject_Z k ∧ 0 < inject_Z n) as [??].
  { change 0 with (inject_Z 0). rewrite <-!Zlt_Qlt. lia. }
  apply Qdiv_lt_cross; [done..|].
  rewrite <-(Qlen_lastn k l), <-(Qlen_lastn n l) by lia.
  apply strictly_sorted_window_sums; [done | lia..].
Qed.

Lemma StronglySorted_Qlt_Qle l : StronglySorted Qlt l → StronglySorted Qle l.
Proof.
  induction 1; constructor; [done|].
  eapply Forall_impl; [done|]. intros. by apply Qlt_le_weak.
Qed.

Section monotone.
Context (self : t).
Abbreviation F := (fast_period self).
Abbreviation S := (slow_period self).

(** On a series that never falls, the fast average is never below the
    slow one: no death cross. *)
Lemma no_death_on_nondecreasing prices :
  (0 < F ≤ S)%Z → StronglySorted Qle prices →
  _detect_crossover self prices ≠ death.
Proof.
  intros HF Hsorted.
  destruct (decide (Z.of_nat (length prices) < S + 1)%Z) as [Hlen|Hlen].
  { by rewrite detect_warmup. }
  destruct prices as [|p prev _] using rev_ind; [simpl in Hlen; lia|].
  rewrite length_app in Hlen. simpl in Hlen. rewrite detect_full by lia.
  assert (sma S (prev ++ [p]) <= sma F (prev ++ [p])).
  { apply sma_sorted_le; [done..|]. rewrite length_app. simpl. lia. }
  repeat case_qle; simpl; (done || lra).
Qed.

(** On a strictly rising series the fast average stays above the slow
    one: no signal at all. *)
Lemma no_signal_on_increasing prices :
  (0 < F < S)%Z → StronglySorted Qlt prices →
  _detect_crossover self prices = none.
Proof.
  intros HF Hsorted.
  destruct (decide (Z.of_nat (length prices) < S + 1)%Z) as [Hlen|Hlen].
  { by rewrite detect_warmup. }
  destruct prices as [|p prev _] using rev_ind; [simpl in Hlen; lia|].
  rewrite length_app in Hlen. simpl in Hlen. rewrite detect_full by lia.
  assert (sma S prev < sma F prev).
  { apply sma_sorted_lt; [|lia..]. by eapply StronglySorted_app_1_l. }
  assert (sma S (prev ++ [p]) < sma F (prev ++ [p])).
  { apply sma_sorted_lt; [done..|]. rewrite length_app. simpl. lia. }
  repeat case_qle; simpl; (done || lra).
Qed.

End monotone.

(** ** Entry orders *)

Lemma mk_order_valid qty price ty lbl :
  Base.validate_order (mk_order qty price ty lbl) = true.
Proof. done. Qed.

Lemma mk_order_fields qty price ty lbl :
  let o := mk_order qty price ty lbl in
  order_qty o = Some qty ∧ order_price o = Some price ∧
  order_type o = Some (PStr ty) ∧ order_signal o = Some (PStr lbl).
Proof. done. Qed.

Section entries.
Context (self : t) (pside symbol : string) (kw : kwargs).
Let current_price : Q := default 0 (kw_current_price kw).
Let balance : Q := default 0 (kw_balance kw).
Let self' : t := _update_price_history self symbol current_price.
Let sig : signal := _detect_crossover self' (history self' symbol).
Let qty : Q := balance * position_size self / current_price.

Lemma calc_entries_rejects :
  current_price <= 0 ∨ balance <= 0 →
  calc_entries self pside symbol kw = (self, [], []).
Proof.
  intros H. unfold calc_entries. fold current_price balance.
  repeat case_qle; simpl; (done || lra).
Qed.

Lemma calc_entries_state :
  0 < current_price → 0 < balance →
  (calc_entries self pside symbol kw).1.1 = self'.
Proof.
  intros. unfold calc_entries. fold current_price balance.
  repeat case_qle; simpl; try lra. fold self'.
  repeat (case_match || case_decide); done.
Qed.

Lemma calc_entries_orders :
  0 < current_price → 0 < balance →
  (calc_entries self pside symbol kw).1.2 =
  if (Z.of_nat (length (history self' symbol)) <? slow_period self)%Z then []
  else if decide (sig = golden ∧ pside = "long")
  then [mk_order qty current_price "market_buy" "golden_cross"]
  else if decide (sig = death ∧ pside = "short")
  then [mk_order (- qty) current_price "market_sell" "death_cross"]
  else [].
Proof.
  intros. unfold calc_entries. fold current_price balance.
  repeat case_qle; simpl; try lra.
  destruct (update_params self symbol current_price) as (_ & _ & -> & -> & _).
  fold self' sig qty. repeat (case_match || case_decide); done.
Qed.

Lemma calc_entries_logs :
  length (calc_entries self pside symbol kw).2 =
  length (calc_entries self pside symbol kw).1.2.
Proof.
  unfold calc_entries. repeat (case_match || case_decide); done.
Qed.

Lemma entry_at_most_one :
  (length (calc_entries self pside symbol kw).1.2 ≤ 1)%nat.
Proof.
  unfold calc_entries. repeat (case_match || case_decide); simpl; lia.
Qed.

(** Entry orders exist exactly when prices and balance are positive, the
    history is long enough and the signal matches the side. *)
Lemma calc_entries_nonempty :
  (calc_entries self pside symbol kw).1.2 ≠ [] ↔
  0 < current_price ∧ 0 < balance ∧
  (slow_period self ≤ Z.of_nat (length (history self' symbol)))%Z ∧
  (sig = golden ∧ pside = "long" ∨ sig = death ∧ pside = "short").
Proof.
  destruct (Qlt_le_dec 0 current_price) as [Hp|Hp];
    [destruct (Qlt_le_dec 0 balance) as [Hb|Hb]|].
  - rewrite calc_entries_orders by done.
    destruct (Z.ltb_spec (Z.of_nat (length (history self' symbol)))
                (slow_period self)); [split; [done | lia]|].
    repeat case_decide; split; try done; intros; (tauto || intuition congruence).
  - rewrite calc_entries_rejects by auto. split; [done|]. lra.
  - rewrite calc_entries_rejects by auto. split; [done|]. lra.
Qed.

(** C3: Every entry order is well formed: it passes the structural check, is
    priced at the current price, which is positive, and its notional
    value is the configured fraction of the balance, bought on a golden
    cross for the long side and sold on a death cross for the short
    side. *)
Lemma entry_order_sound o :
  o ∈ (calc_entries self pside symbol kw).1.2 →
  0 < current_price ∧ 0 < balance ∧ Base.validate_order o = true ∧
  order_price o = Some current_price ∧
  ∃ q, order_qty o = Some q ∧
    (pside = "long" ∧ sig = golden ∧ order_type o = Some (PStr "market_buy") ∧
       q * current_price == balance * position_size self
     ∨ pside = "short" ∧ sig = death ∧ order_type o = Some (PStr "market_sell") ∧
       q * current_price == - (balance * position_size self)).
Proof.
  intros Ho.
  assert (Hne : (calc_entries self pside symbol kw).1.2 ≠ []).
  { intros E. rewrite E in Ho. by apply elem_of_nil in Ho. }
  apply calc_entries_nonempty in Hne as (Hp & Hb & Hlen & Hsig).
  rewrite calc_entries_orders in Ho by done.
  rewrite (proj2 (Z.ltb_ge _ _)) in Ho by done.
  repeat case_decide; apply list_elem_of_singleton in Ho || apply elem_of_nil in Ho;
    [subst o..|done]; split_and!; try done.
  - exists qty. split; [done|]. left. split_and!; try naive_solver.
    unfold qty. field. lra.
  - exists (- qty). split; [done|]. right. split_and!; try naive_solver.
    unfold qty. field. lra.
Qed.

End entries.

(** ** Close orders *)

Section closes.
Context (self : t) (pside symbol : string) (kw : kwargs).
Let current_price : Q := default 0 (kw_current_price kw).
Let pos_size : Q := default 0 (kw_position_size kw).
Let pos_price : Q := default 0 (kw_position_price kw).
Let self' : t := _update_price_history self symbol current_price.
Let sig : signal := _detect_crossover self' (history self' symbol).

Lemma calc_closes_rejects :
  Qabs pos_size < (1 # 100000000) ∨ current_price <= 0 →
  calc_closes self pside symbol kw = (self, [], []).
Proof.
  intros H. unfold calc_closes. fold current_price pos_size.
  repeat case_qle; simpl; (done || lra).
Qed.

Lemma calc_closes_state :
  (1 # 100000000) <= Qabs pos_size → 0 < current_price →
  (calc_closes self pside symbol kw).1.1 = self'.
Proof.
  intros. unfold calc_closes. fold current_price pos_size.
  destruct (Qlt_bool_spec (Qabs pos_size) (1 # 100000000)); [lra|].
  destruct (Qle_bool_spec current_price 0); [lra|]. simpl. fold self'.
  repeat (case_match; simpl); done.
Qed.

Lemma calc_closes_short :
  (Z.of_nat (length (history self' symbol)) < slow_period self)%Z →
  (calc_closes self pside symbol kw).1.2 = [].
Proof.
  intros Hlen. unfold calc_closes. fold current_price pos_size.
  case_match; [done|]. simpl.
  destruct (update_params self symbol current_price) as (_ & _ & -> & _).
  fold self'. by rewrite (proj2 (Z.ltb_lt _ _)).
Qed.

(** C31: While the history, after the current price is appended, holds fewer
    than slow_period prices, calc_closes returns no order, whatever the
    position and the price: stop loss and take profit are not evaluated
    during warm-up. *)
Lemma calc_closes_warmup :
  (Z.of_nat (length (history self' symbol)) < slow_period self)%Z →
  (calc_closes self pside symbol kw).1.2 = [].
Proof. apply calc_closes_short. Qed.

Lemma calc_closes_orders :
  (1 # 100000000) <= Qabs pos_size → 0 < current_price →
  (slow_period self ≤ Z.of_nat (length (history self' symbol)))%Z →
  (calc_closes self pside symbol kw).1.2 =
  if 0 <? pos_size
  then (close_long self' pside symbol sig current_price pos_size pos_price).1
  else (close_short self' pside symbol sig current_price pos_size pos_price).1.
Proof.
  intros Hsz Hp Hlen. unfold calc_closes. fold current_price pos_size pos_price.
  destruct (Qlt_bool_spec (Qabs pos_size) (1 # 100000000)); [lra|].
  destruct (Qle_bool_spec current_price 0); [lra|]. simpl.
  destruct (update_params self symbol current_price) as (_ & _ & -> & _).
  fold self' sig. rewrite (proj2 (Z.ltb_ge _ _)) by done.
  destruct (Qlt_bool_spec 0 pos_size); [by destruct (close_long _ _ _ _ _ _ _)|].
  destruct (Qlt_bool_spec pos_size 0); [by destruct (close_short _ _ _ _ _ _ _)|].
  assert (pos_size == 0) as Hz by lra. rewrite Hz in Hsz. by compute in Hsz.
Qed.

Lemma calc_closes_elem o :
  o ∈ (calc_closes self pside symbol kw).1.2 →
  (1 # 100000000) <= Qabs pos_size ∧ 0 < current_price ∧
  (slow_period self ≤ Z.of_nat (length (history self' symbol)))%Z ∧
  o ∈ if 0 <? pos_size
      then (close_long self' pside symbol sig current_price pos_size pos_price).1
      else (close_short self' pside symbol sig current_price pos_size pos_price).1.
Proof.
  intros Ho.
  destruct (Qlt_le_dec (Qabs pos_size) (1 # 100000000)) as [Hs|Hs].
  { rewrite calc_closes_rejects in Ho by auto. by apply elem_of_nil in Ho. }
  destruct (Qlt_le_dec 0 current_price) as [Hp|Hp]; last first.
  { rewrite calc_closes_rejects in Ho by auto. by apply elem_of_nil in Ho. }
  destruct (decide (Z.of_nat (length (history self' symbol)) < slow_period self)%Z).
  { rewrite calc_closes_short in Ho by done. by apply elem_of_nil in Ho. }
  rewrite calc_closes_orders in Ho by (done || lia). split_and!; (done || lia).
Qed.

(** C10: Close orders close the whole position at the current price: the
    quantity is the opposite of the position's, a sell for a long position
    and a buy for a short one. *)
Lemma close_order_flattens o :
  o ∈ (calc_closes self pside symbol kw).1.2 →
  0 < current_price ∧ Base.validate_order o = true ∧
  order_price o = Some current_price ∧
  ∃ q, order_qty o = Some q ∧ q + pos_size == 0 ∧
    order_type o = Some (PStr (if 0 <? pos_size then "market_sell" else "market_buy")).
Proof.
  intros (Hs & Hp & _ & Ho)%calc_closes_elem.
  destruct (Qlt_bool_spec 0 pos_size) as [Hpos|Hpos];
    unfold close_long, close_short in Ho;
    repeat (case_decide || case_match); simpl in Ho;
    apply list_elem_of_singleton in Ho || apply elem_of_nil in Ho;
    try done; subst o; (split_and!; [done..|]).
  all: eexists; split_and!; [done| |done].
  all: try lra.
  all: assert (pos_size < 0) by
    (destruct (Qlt_le_dec pos_size 0); [done|];
     assert (pos_size == 0) as Hz by lra; rewrite Hz in Hs; by compute in Hs).
  all: rewrite Qabs_neg by lra; lra.
Qed.

(** C4: The reason of a close of a long position, by priority: the death
    cross, then the stop loss, then the take profit. *)
Lemma close_long_reason o :
  0 < pos_size → o ∈ (calc_closes self pside symbol kw).1.2 →
  let stop_loss_price := pos_price * (1 - stop_loss_pct self) in
  let take_profit_price := pos_price * (1 + take_profit_pct self) in
  sig = death ∧ order_signal o = Some (PStr "death_cross_close")
  ∨ sig ≠ death ∧ current_price <= stop_loss_price ∧
      order_signal o = Some (PStr "stop_loss")
  ∨ sig ≠ death ∧ stop_loss_price < current_price ∧
      take_profit_price <= current_price ∧
      order_signal o = Some (PStr "take_profit").
Proof.
  intros Hpos (_ & _ & _ & Ho)%calc_closes_elem.
  destruct (Qlt_bool_spec 0 pos_size); [|lra].
  revert Ho. unfold close_long.
  destruct (update_params self symbol current_price) as (_ & _ & _ & _ & Hsl & Htp).
  fold self' in Hsl, Htp. rewrite Hsl, Htp.
  case_decide; [|repeat case_qle]; simpl; intros Ho;
    apply list_elem_of_singleton in Ho || apply elem_of_nil in Ho;
    try done; subst o; simpl; auto 10.
Qed.

(** When a long position is closed. *)
Lemma close_long_triggers :
  0 < pos_size → (1 # 100000000) <= pos_size → 0 < current_price →
  (slow_period self ≤ Z.of_nat (length (history self' symbol)))%Z →
  (calc_closes self pside symbol kw).1.2 ≠ [] ↔
  sig = death ∨ current_price <= pos_price * (1 - stop_loss_pct self)
  ∨ pos_price * (1 + take_profit_pct self) <= current_price.
Proof.
  intros Hpos Hs Hp Hlen.
  rewrite calc_closes_orders by (rewrite ?Qabs_pos by lra; done).
  destruct (Qlt_bool_spec 0 pos_size); [|lra]. unfold close_long.
  destruct (update_params self symbol current_price) as (_ & _ & _ & _ & Hsl & Htp).
  fold self' in Hsl, Htp. rewrite Hsl, Htp.
  case_decide; [|repeat case_qle]; simpl; split; try done; auto.
  intros [?|[?|?]]; (done || lra).
Qed.

(** An order that closes a short position is labelled by priority:
    golden_cross_close when the signal is a golden cross; otherwise
    stop_loss when the price is at or above entry * (1 + stop_loss_pct);
    otherwise take_profit, and then the price is at or below entry * (1 -
    take_profit_pct). *)
Lemma close_short_reason o :
  pos_size < 0 → o ∈ (calc_closes self pside symbol kw).1.2 →
  let stop_loss_price := pos_price * (1 + stop_loss_pct self) in
  let take_profit_price := pos_price * (1 - take_profit_pct self) in
  sig = golden ∧ order_signal o = Some (PStr "golden_cross_close")
  ∨ sig ≠ golden ∧ stop_loss_price <= current_price ∧
      order_signal o = Some (PStr "stop_loss")
  ∨ sig ≠ golden ∧ current_price < stop_loss_price ∧
      current_price <= take_profit_price ∧
      order_signal o = Some (PStr "take_profit").
Proof.
  intros Hneg (_ & _ & _ & Ho)%calc_closes_elem.
  destruct (Qlt_bool_spec 0 pos_size); [lra|].
  revert Ho. unfold close_short.
  destruct (update_params self symbol current_price) as (_ & _ & _ & _ & Hsl & Htp).
  fold self' in Hsl, Htp. rewrite Hsl, Htp.
  case_decide; [|repeat case_qle]; simpl; intros Ho;
    apply list_elem_of_singleton in Ho || apply elem_of_nil in Ho;
    try done; subst o; simpl; auto 10.
Qed.

End closes.


(** With a positive entry price and non-negative fractions, not both zero,
    the stop-loss and take-profit conditions of a long position exclude
    each other: the priority between them is never exercised. *)
Lemma long_thresholds_exclusive (self : t) (price entry : Q) :
  0 < entry → 0 <= stop_loss_pct self → 0 <= take_profit_pct self →
  0 < stop_loss_pct self + take_profit_pct self →
  ¬ (price <= entry * (1 - stop_loss_pct self) ∧
     entry * (1 + take_profit_pct self) <= price).
Proof. intros ???? [??]. nra. Qed.

(** ** Feeding the history twice *)

(** C32: [calc_entries] and [calc_closes] both append the current price: a
    caller that asks for entries and then for closes at the same price
    leaves that price twice in the history. *)
Lemma entries_then_closes_feed_twice self pside symbol kw price bal size :
  kw_current_price kw = Some price → kw_balance kw = Some bal →
  kw_position_size kw = Some size →
  0 < price → 0 < bal → (1 # 100000000) <= Qabs size →
  (0 < slow_period self)%Z →
  let self1 := (calc_entries self pside symbol kw).1.1 in
  let self2 := (calc_closes self1 pside symbol kw).1.1 in
  ∃ h, history self2 symbol = h ++ [price; price].
Proof.
  intros Hp Hb Hsz Hpos Hbal Hsize Hslow self1 self2.
  assert (E1 : self1 = _update_price_history self symbol price).
  { unfold self1. rewrite calc_entries_state; rewrite ?Hp, ?Hb; done. }
  assert (E2 : self2 = _update_price_history self1 symbol price).
  { unfold self2. rewrite calc_closes_state; rewrite ?Hp, ?Hsz; done. }
  assert (Hs1 : slow_period self1 = slow_period self).
  { rewrite E1. apply update_params. }
  assert (Hl1 : last (history self1 symbol) = Some price).
  { rewrite E1. apply update_history_last. lia. }
  apply last_Some in Hl1 as [h1 Hh1].
  rewrite E2, update_history, Hh1, Hs1. simpl.
  rewrite <-app_assoc. simpl. case_match; [|by eexists].
  rewrite slice_from_neg by lia. rewrite length_app. simpl.
  exists (drop (length h1 + 2 - Z.to_nat (slow_period self * 2)) h1).
  rewrite drop_app_le by lia. done.
Qed.

(** ** Status *)

Lemma status_insufficient self symbol :
  get_strategy_status self symbol = insufficient_data ↔
  (Z.of_nat (length (history self symbol)) < slow_period self)%Z.
Proof.
  unfold get_strategy_status. destruct (Z.ltb_spec (Z.of_nat (length (history self symbol))) (slow_period self)); split; (done || lia).
Qed.

(** ** The constructor *)

Lemma init_defaults d :
  dget "strategy" d = None →
  ∃ self logs, __init__ (PDict d) = (Ok self, logs) ∧
    fast_period self = 10%Z ∧ slow_period self = 20%Z ∧
    position_size self = 0.1 ∧ stop_loss_pct self = 0.02 ∧
    take_profit_pct self = 0.04 ∧ price_history self = ∅.
Proof.
  intros Hd. unfold __init__, Base.__init__, read_params. simpl.
  rewrite Hd. simpl. eauto 10.
Qed.


Lemma init_not_dict cfg :
  is_dict cfg = false → __init__ cfg = (Raise (AttributeError "get"), []).
Proof. intros. unfold __init__. by rewrite Base.__init___raise. Qed.

(** ** A worked scenario: fast period 2, slow period 9 *)

Definition demo : t :=
  {| base := {| Base.config := PDict []; Base.name := class_name;
                Base.strategy_params := PDict [] |};
     fast_period := 2; slow_period := 9; position_size := 0.1;
     stop_loss_pct := 0.02; take_profit_pct := 0.04; price_history := ∅ |}.

(** Keyword arguments of a step: price, balance, position. *)
Definition step_kw (price balance size entry : Q) : kwargs :=
  {| kw_current_price := Some price; kw_balance := Some balance;
     kw_position_size := Some size; kw_position_price := Some entry;
     kw_qty_steps := None; kw_price_steps := None; kw_min_qtys := None;
     kw_min_costs := None; kw_c_mults := None;
     kw_trailing_min_since_open := None; kw_trailing_max_since_min := None;
     kw_trailing_max_since_open := None; kw_trailing_min_since_max := None;
     kw_ema_min := None |}.

(** The object after [calc_entries] has seen the given prices. *)
Definition feed (self : t) (symbol : string) (prices : list Q) : t :=
  foldl (λ s p, (calc_entries s "long" symbol (step_kw p 10000 0 0)).1.1)
    self prices.

Definition demo3 : t :=
  {| base := base demo; fast_period := 1; slow_period := 3;
     position_size := 0.1; stop_loss_pct := 0.02; take_profit_pct := 0.04;
     price_history := ∅ |}.

(** The same prices in another order give another signal. *)
Example order_sensitive :
  [1; 1; 1; 5] ≡ₚ [5; 1; 1; 1] ∧
  _detect_crossover demo3 [1; 1; 1; 5] = golden ∧
  _detect_crossover demo3 [5; 1; 1; 1] = none.
Proof. split; [|done]. by rewrite (Permutation_app_comm [1; 1; 1] [5]). Qed.

Definition warm : t := feed demo "BTCUSDT" (replicate 9 100).

Example scenario_status_8 :
  get_strategy_status (feed demo "BTCUSDT" (replicate 8 100)) "BTCUSDT"
  = insufficient_data.
Proof. vm_compute. reflexivity. Qed.

Example scenario_golden :
  (calc_entries warm "long" "BTCUSDT" (step_kw 101 10000 0 0)).1.2
  = [mk_order (10000 * 0.1 / 101) 101 "market_buy" "golden_cross"].
Proof. vm_compute. reflexivity. Qed.

Lemma detect_crossover_iff_witness :
  (0 < fast_period demo ≤ slow_period demo)%Z ∧
  crossover_spec 2 9 (replicate 9 100 ++ [101]) golden.
Proof.
  assert (H : (0 < fast_period demo ≤ slow_period demo)%Z) by done.
  split; [done|].
  apply (proj1 (detect_crossover_iff demo (replicate 9 100 ++ [101]) golden H)).
  vm_compute. reflexivity.
Defined.

Lemma update_history_bounded_witness :
  (0 < slow_period warm)%Z ∧
  (Z.of_nat (length (history (_update_price_history warm "BTCUSDT" 101) "BTCUSDT"))
   ≤ 2 * slow_period warm)%Z.
Proof.
  assert (H : (0 < slow_period warm)%Z) by done.
  exact (conj H (update_history_bounded warm "BTCUSDT" 101 H)).
Defined.

Lemma update_history_fifo_witness :
  let full := feed demo "BTCUSDT" (inject_Z <$> seqZ 1 18) in
  history (_update_price_history full "BTCUSDT" 19) "BTCUSDT"
  = tail (history full "BTCUSDT") ++ [19].
Proof.
  intros full.
  assert (H1 : (0 < slow_period full)%Z) by done.
  assert (H2 : (Z.of_nat (length (history full "BTCUSDT")) ≤ 2 * slow_period full)%Z)
    by (vm_compute; discriminate).
  rewrite (update_history_fifo full "BTCUSDT" 19 H1 H2). done.
Defined.

Lemma no_death_on_nondecreasing_witness :
  (0 < fast_period demo ≤ slow_period demo)%Z ∧
  StronglySorted Qle (replicate 9 100 ++ [101]) ∧
  _detect_crossover demo (replicate 9 100 ++ [101]) ≠ death.
Proof.
  assert (H1 : (0 < fast_period demo ≤ slow_period demo)%Z) by done.
  assert (H2 : StronglySorted Qle (replicate 9 100 ++ [101])) by by_compute.
  exact (conj H1 (conj H2 (no_death_on_nondecreasing demo _ H1 H2))).
Defined.

Lemma no_signal_on_increasing_witness :
  (0 < fast_period demo < slow_period demo)%Z ∧
  StronglySorted Qlt (inject_Z <$> seqZ 1 12) ∧
  _detect_crossover demo (inject_Z <$> seqZ 1 12) = none.
Proof.
  assert (H1 : (0 < fast_period demo < slow_period demo)%Z) by done.
  assert (H2 : StronglySorted Qlt (inject_Z <$> seqZ 1 12)) by by_compute.
  exact (conj H1 (conj H2 (no_signal_on_increasing demo _ H1 H2))).
Defined.

Lemma detect_crossover_scale_witness :
  0 < 2 ∧
  _detect_crossover demo (Qmult 2 <$> replicate 9 100 ++ [101])
  = _detect_crossover demo (replicate 9 100 ++ [101]).
Proof.
  assert (H : 0 < 2) by done.
  exact (conj H (detect_crossover_scale demo 2 _ H)).
Defined.

Lemma detect_crossover_equiv_witness :
  [1 # 2; 3] ≡ [2 # 4; 6 # 2] ∧
  _detect_crossover demo [1 # 2; 3] = _detect_crossover demo [2 # 4; 6 # 2].
Proof.
  assert (H : [1 # 2; 3] ≡ [2 # 4; 6 # 2]) by (repeat constructor).
  exact (conj H (detect_crossover_equiv demo _ _ H)).
Defined.

Lemma entry_order_sound_witness :
  let o := mk_order (10000 * 0.1 / 101) 101 "market_buy" "golden_cross" in
  o ∈ (calc_entries warm "long" "BTCUSDT" (step_kw 101 10000 0 0)).1.2 ∧
  Base.validate_order o = true ∧ order_price o = Some 101.
Proof.
  intros o.
  assert (H : o ∈ (calc_entries warm "long" "BTCUSDT" (step_kw 101 10000 0 0)).1.2).
  { rewrite scenario_golden. left. }
  destruct (entry_order_sound warm "long" "BTCUSDT" _ o H) as (_ & _ & Hv & Hp & _).
  exact (conj H (conj Hv Hp)).
Defined.

(** Scenario: a long position of 0.5 opened at 100, take profit at 4%:
    at 104.5 the position is closed by one market sell of 0.5 labelled
    [take_profit], once the history holds [slow_period] prices. *)
Example scenario_take_profit :
  (calc_closes warm "long" "BTCUSDT" (step_kw 104.5 10000 0.5 100)).1.2
  = [mk_order (- 0.5) 104.5 "market_sell" "take_profit"].
Proof. vm_compute. reflexivity. Qed.

(** The same call on a strategy that has seen no price returns nothing. *)
Example scenario_take_profit_cold :
  (calc_closes demo "long" "BTCUSDT" (step_kw 104.5 10000 0.5 100)).1.2 = [].
Proof. vm_compute. reflexivity. Qed.

Lemma close_order_flattens_witness :
  let o := mk_order (- 0.5) 104.5 "market_sell" "take_profit" in
  o ∈ (calc_closes warm "long" "BTCUSDT" (step_kw 104.5 10000 0.5 100)).1.2 ∧
  ∃ q, order_qty o = Some q ∧ q + 0.5 == 0.
Proof.
  intros o.
  assert (H : o ∈ (calc_closes warm "long" "BTCUSDT" (step_kw 104.5 10000 0.5 100)).1.2).
  { rewrite scenario_take_profit. left. }
  destruct (close_order_flattens warm "long" "BTCUSDT" _ o H)
    as (_ & _ & _ & q & Hq & Hflat & _).
  exact (conj H (ex_intro _ q (conj Hq Hflat))).
Defined.

Lemma close_long_reason_witness :
  let o := mk_order (- 0.5) 104.5 "market_sell" "take_profit" in
  0 < 0.5 ∧
  o ∈ (calc_closes warm "long" "BTCUSDT" (step_kw 104.5 10000 0.5 100)).1.2 ∧
  order_signal o = Some (PStr "take_profit").
Proof.
  intros o.
  assert (H0 : 0 < 0.5) by done.
  assert (H : o ∈ (calc_closes warm "long" "BTCUSDT" (step_kw 104.5 10000 0.5 100)).1.2).
  { rewrite scenario_take_profit. left. }
  destruct (close_long_reason warm "long" "BTCUSDT"
              (step_kw 104.5 10000 0.5 100) o H0 H)
    as [[_ Hl]|[(_ & _ & Hl)|(_ & _ & _ & Hl)]]; try discriminate Hl.
  exact (conj H0 (conj H Hl)).
Defined.

Lemma calc_closes_warmup_witness :
  (Z.of_nat (length (history (_update_price_history demo "BTCUSDT" 104.5) "BTCUSDT"))
     < slow_period demo)%Z ∧
  (calc_closes demo "long" "BTCUSDT" (step_kw 104.5 10000 0.5 100)).1.2 = [].
Proof.
  assert (H : (Z.of_nat (length (history (_update_price_history demo "BTCUSDT" 104.5)
                 "BTCUSDT")) < slow_period demo)%Z) by by vm_compute.
  exact (conj H (calc_closes_warmup demo "long" "BTCUSDT"
                   (step_kw 104.5 10000 0.5 100) H)).
Defined.

Lemma entries_then_closes_feed_twice_witness :
  let kw := step_kw 101 10000 0.5 100 in
  ∃ h, history (calc_closes (calc_entries warm "long" "BTCUSDT" kw).1.1
                  "long" "BTCUSDT" kw).1.1 "BTCUSDT" = h ++ [101; 101].
Proof.
  intros kw.
  apply (entries_then_closes_feed_twice warm "long" "BTCUSDT" kw 101 10000 0.5);
    by vm_compute.
Defined.

Lemma close_short_reason_witness :
  let kw := step_kw 95.5 10000 (- 0.5) 100 in
  let o := mk_order 0.5 95.5 "market_buy" "take_profit" in
  - 0.5 < 0 ∧ o ∈ (calc_closes warm "short" "BTCUSDT" kw).1.2 ∧
  order_signal o = Some (PStr "take_profit").
Proof.
  intros kw o.
  assert (H0 : - 0.5 < 0) by by vm_compute.
  assert (H : o ∈ (calc_closes warm "short" "BTCUSDT" kw).1.2)
    by (vm_compute; left).
  destruct (close_short_reason warm "short" "BTCUSDT" kw o H0 H)
    as [[_ Hl]|[(_ & _ & Hl)|(_ & _ & _ & Hl)]]; try discriminate Hl.
  exact (conj H0 (conj H Hl)).
Defined.

Lemma close_long_triggers_witness :
  let kw := step_kw 104.5 10000 0.5 100 in
  100 * (1 + take_profit_pct warm) <= 104.5 ∧
  (calc_closes warm "long" "BTCUSDT" kw).1.2 ≠ [].
Proof.
  intros kw.
  assert (Htp : 100 * (1 + take_profit_pct warm) <= 104.5) by by vm_compute.
  refine (conj Htp (proj2 (close_long_triggers warm "long" "BTCUSDT" kw
            _ _ _ _) (or_intror (or_intror Htp)))); by vm_compute.
Defined.

Lemma calc_entries_rejects_witness :
  calc_entries warm "long" "BTCUSDT" (step_kw 101 0 0 0) = (warm, [], []).
Proof.
  apply (calc_entries_rejects warm "long" "BTCUSDT" (step_kw 101 0 0 0)).
  right. by vm_compute.
Defined.

Lemma update_history_unbounded_witness :
  let self := feed demo3 "BTCUSDT" [1; 2; 3; 4; 5; 6] in
  let zero := {| base := base self; fast_period := 0; slow_period := 0;
                 position_size := 0.1; stop_loss_pct := 0.02;
                 take_profit_pct := 0.04;
                 price_history := price_history self |} in
  history (_update_price_history zero "BTCUSDT" 7) "BTCUSDT"
  = [1; 2; 3; 4; 5; 6; 7].
Proof.
  intros self zero.
  by rewrite (update_history_unbounded zero "BTCUSDT" 7 eq_refl).
Defined.

Lemma long_thresholds_exclusive_witness :
  0 < 100 ∧ (100 * (1 + take_profit_pct demo) <= 104.5 →
             104.5 <= 100 * (1 - stop_loss_pct demo) → False) ∧ True.
Proof.
  split; [by vm_compute|]. split; [|done]. intros H1 H2.
  apply (long_thresholds_exclusive demo 104.5 100); [by vm_compute..|]. by split.
Defined.

End MA.

(** ** The class as an instance of the strategy interface *)

#[export] Instance ma_strategy : Strategy MA.t := {
  base_of := MA.base;
  calc_entries := MA.calc_entries;
  calc_closes := MA.calc_closes;
  on_market_data_update := MA.on_market_data_update;
  on_position_update := Base.on_position_update;
  on_order_filled := Base.on_order_filled;
}.

Lemma ma_close_branch_valid self pside symbol sig p sz e :
  Forall (λ o, Base.validate_order o = true)
    (MA.close_long self pside symbol sig p sz e).1 ∧
  Forall (λ o, Base.validate_order o = true)
    (MA.close_short self pside symbol sig p sz e).1.
Proof.
  unfold MA.close_long, MA.close_short.
  split; repeat (case_decide || case_match); simpl; repeat constructor.
Qed.

Lemma ma_update_base self symbol price :
  MA.base (MA._update_price_history self symbol price) = MA.base self.
Proof. unfold MA._update_price_history. by case_match. Qed.

#[export] Instance ma_strategy_laws : StrategyLaws MA.t.
Proof.
  split; intros s pside symbol kw; simpl.
  - unfold MA.calc_entries.
    repeat (case_decide || case_match); simpl; repeat constructor.
  - apply Forall_forall. intros o (_ & _ & _ & Ho)%MA.calc_closes_elem.
    case_match;
      (eapply (proj1 (Forall_forall (λ o, Base.validate_order o = true) _));
       [|exact Ho]); apply ma_close_branch_valid.
  - unfold MA.calc_entries.
    repeat (case_decide || case_match); simpl; auto using ma_update_base.
  - unfold MA.calc_closes.
    repeat (case_match; simpl; try done); auto using ma_update_base.
Qed.
