(* ===== verification/DefaultStrategy.v ===== *)
(** * The default strategy ([src/strategies/default_strategy.py])

    [DefaultStrategy] delegates the computation of orders to the compiled
    module [passivbot_rust], which is not part of the repository's Python
    sources.  [Module Default] models the Python side of the call: which
    attribute of the module is looked up, which arguments are passed and in
    which order, how the objects that come back are filtered and turned
    into order dictionaries, and what happens when anything raises.

    The compiled module is the section variable [pbr]: a partial map from
    an attribute name to a function from the argument list to a list of
    objects, or an exception.  An object is the dictionary of its
    attributes.  Everything proved here holds for any such module. *)

From Stdlib Require Import QArith ZArith Lia.
From stdpp Require Import prelude strings.
From S2P Require Import Prelude PyDict PyVal BaseStrategy.

#[local] Set Warnings "-clear-no-such-hyp".
#[local] Open Scope Q_scope.

Module Default.

Record t : Type := { base : Base.strategy_base }.

Definition class_name : string := "DefaultStrategy".

(** An object returned by the compiled module, as its attributes. *)
Abbreviation pyobj := (pydict string pyval).

(** The compiled module: [getattr(pbr, name)], when it has the attribute. *)
Definition kernel : Type := string → option (list pyval → result (list pyobj)).

Definition __init__ (cfg : pyval) : result t * list log_record :=
  match Base.__init__ class_name cfg with
  | (Ok b, logs) =>
      (Ok {| base := b |},
       logs ++ [LogRecord INFO (Base.logger class_name)
                  "Initialized default grid + trailing strategy" []])
  | (Raise e, logs) => (Raise e, logs)
  end.

(** [self.get_config_value(["bot", pside, key])] *)
Definition cfg_arg (self : t) (pside key : string) : pyval :=
  Base.get_config_value (base self) ["bot"; pside; key] PNone.

(** [kwargs.get(key, 0.0)] for a numeric key. *)
Definition num_arg (o : option Q) : pyval := PFloat (default 0 o).

(** [kwargs[key]] for a numeric key. *)
Definition num_item (key : string) (o : option Q) : result pyval :=
  PFloat <$> kw_item key o.

Definition entry_keys : list string :=
  ["entry_grid_double_down_factor"; "entry_grid_spacing_weight";
   "entry_grid_spacing_pct"; "entry_initial_ema_dist";
   "entry_initial_qty_pct"; "entry_trailing_double_down_factor";
   "entry_trailing_grid_ratio"; "entry_trailing_retracement_pct";
   "entry_trailing_threshold_pct"; "wallet_exposure_limit"].

Definition close_keys : list string :=
  ["close_grid_markup_end"; "close_grid_markup_start"; "close_grid_qty_pct";
   "close_trailing_grid_ratio"; "close_trailing_qty_pct";
   "close_trailing_retracement_pct"; "close_trailing_threshold_pct"].

(** The five exchange parameters, read with [kwargs[...]] in this order. *)
Definition exchange_args (kw : kwargs) : result (list pyval) :=
  qty_steps ← kw_item "qty_steps" (kw_qty_steps kw);
  price_steps ← kw_item "price_steps" (kw_price_steps kw);
  min_qtys ← kw_item "min_qtys" (kw_min_qtys kw);
  min_costs ← kw_item "min_costs" (kw_min_costs kw);
  c_mults ← kw_item "c_mults" (kw_c_mults kw);
  Ok [qty_steps; price_steps; min_qtys; min_costs; c_mults].

(** The trailing extrema, the EMA and the price, read with
    [kwargs.get(..., 0.0)]. *)
Definition trailing_args (kw : kwargs) : list pyval :=
  [num_arg (kw_trailing_min_since_open kw);
   num_arg (kw_trailing_max_since_min kw);
   num_arg (kw_trailing_max_since_open kw);
   num_arg (kw_trailing_min_since_max kw);
   num_arg (kw_ema_min kw);
   num_arg (kw_current_price kw)].

(** The argument list of [calc_entries_{pside}_py], evaluated left to
    right: the first missing key is the one reported. *)
Definition entry_args (self : t) (pside : string) (kw : kwargs)
  : result (list pyval) :=
  ex ← exchange_args kw;
  balance ← num_item "balance" (kw_balance kw);
  position_size ← num_item "position_size" (kw_position_size kw);
  position_price ← num_item "position_price" (kw_position_price kw);
  Ok (ex ++ (cfg_arg self pside <$> entry_keys)
         ++ [balance; position_size; position_price] ++ trailing_args kw).

(** The argument list of [calc_closes_{pside}_py]. *)
Definition close_args (self : t) (pside : string) (kw : kwargs)
  : result (list pyval) :=
  ex ← exchange_args kw;
  position_size ← num_item "position_size" (kw_position_size kw);
  position_price ← num_item "position_price" (kw_position_price kw);
  Ok (ex ++ (cfg_arg self pside <$> close_keys)
         ++ [position_size; position_price] ++ trailing_args kw).

(** One object of the result as an order: kept only when it has the three
    attributes. *)
Definition format_order (entry : pyobj) : option order :=
  if dmem "qty" entry && dmem "price" entry && dmem "order_type" entry then
    qty ← dget "qty" entry;
    price ← dget "price" entry;
    order_type ← dget "order_type" entry;
    Some [("qty", qty); ("price", price); ("order_type", order_type);
          ("strategy", PStr "default")]
  else None.

Section with_kernel.
Context (pbr : kernel).

(** The call of the attribute [attr] of the module on the arguments: the
    attribute is looked up before the arguments are evaluated. *)
Definition call_kernel (attr : string) (args : result (list pyval))
  : result (list pyobj) :=
  match pbr attr with
  | None => Raise (AttributeError attr)
  | Some f => a ← args; f a
  end.

(** The body shared by the two methods, after the call. *)
Definition finish (self : t) (what action pside symbol : string)
    (r : result (list pyobj)) : t * list order * list log_record :=
  match r with
  | Ok objs =>
      let formatted := omap format_order objs in
      (self, formatted,
       [Base.log_strategy_action (base self) action pside symbol
          [("count", PInt (Z.of_nat (length formatted)))]])
  | Raise e =>
      (self, [],
       [LogRecord ERROR (Base.logger (Base.name (base self)))
          ("Error calculating " +:+ what +:+ " for {} {}: {}")
          [PStr pside; PStr symbol; PStr (exn_str e)]])
  end.

Definition calc_entries (self : t) (pside symbol : string) (kw : kwargs)
  : t * list order * list log_record :=
  finish self "entries" "calc_entries" pside symbol
    (call_kernel ("calc_entries_" +:+ pside +:+ "_py") (entry_args self pside kw)).

Definition calc_closes (self : t) (pside symbol : string) (kw : kwargs)
  : t * list order * list log_record :=
  finish self "closes" "calc_closes" pside symbol
    (call_kernel ("calc_closes_" +:+ pside +:+ "_py") (close_args self pside kw)).

End with_kernel.

(** ** A compiled module and a call, for the examples *)

Definition demo_pbr : kernel := λ attr,
  if decide (attr = "calc_entries_long_py") then
    Some (λ _, Ok [[("qty", PFloat 0.01); ("price", PFloat 49500);
                    ("order_type", PStr "entry_grid_normal_long")];
                   [("qty", PFloat 0.02); ("price", PFloat 49000)];
                   [("order_type", PStr "entry_grid_normal_long");
                    ("price", PFloat 48500); ("qty", PFloat 0.04);
                    ("wallet_exposure", PFloat 0.3)]])
  else if decide (attr = "calc_closes_long_py") then
    Some (λ _, Raise (ValueError "position size is zero"))
  else None.

Definition demo_kw : kwargs :=
  {| kw_current_price := Some 50000; kw_balance := Some 10000;
     kw_position_size := Some 0; kw_position_price := Some 0;
     kw_qty_steps := Some (PFloat 0.001); kw_price_steps := Some (PFloat 0.1);
     kw_min_qtys := Some (PFloat 0.001); kw_min_costs := Some (PFloat 5);
     kw_c_mults := Some (PFloat 1);
     kw_trailing_min_since_open := None; kw_trailing_max_since_min := None;
     kw_trailing_max_since_open := None; kw_trailing_min_since_max := None;
     kw_ema_min := None |}.

Definition demo : t :=
  {| base := {| Base.config :=
                  PDict [("bot", PDict [("long",
                    PDict [("entry_grid_spacing_pct", PFloat 0.01)])])];
                Base.name := class_name;
                Base.strategy_params := PDict [] |} |}.

(** ** Formatting *)

Lemma format_order_Some entry o :
  format_order entry = Some o ↔
  ∃ qty price ty,
    dget "qty" entry = Some qty ∧ dget "price" entry = Some price ∧
    dget "order_type" entry = Some ty ∧
    o = [("qty", qty); ("price", price); ("order_type", ty);
         ("strategy", PStr "default")].
Proof.
  unfold format_order.
  destruct (dmem "qty" entry) eqn:Hq, (dmem "price" entry) eqn:Hp,
    (dmem "order_type" entry) eqn:Ht; simpl;
    rewrite ?dmem_false in *; try (split; [done|]; naive_solver).
  apply dmem_spec, dget_is_Some in Hq as [q Hq], Hp as [p Hp], Ht as [ty Ht].
  rewrite Hq, Hp, Ht. simpl. naive_solver.
Qed.

Lemma format_order_None entry :
  format_order entry = None ↔
  dget "qty" entry = None ∨ dget "price" entry = None
  ∨ dget "order_type" entry = None.
Proof.
  destruct (format_order entry) as [o|] eqn:E.
  - apply format_order_Some in E as (?&?&?&?&?&?&?). naive_solver.
  - split; [intros _|done].
    destruct (dget "qty" entry) as [q|] eqn:Hq; [|auto].
    destruct (dget "price" entry) as [p|] eqn:Hp; [|auto].
    destruct (dget "order_type" entry) as [ty|] eqn:Ht; [|auto].
    assert (is_Some (format_order entry)) as [? ?]; [|congruence].
    eexists. apply format_order_Some. eauto 10.
Qed.

Lemma format_order_valid entry o :
  format_order entry = Some o → Base.validate_order o = true.
Proof. intros (?&?&?&?&?&?&->)%format_order_Some. done. Qed.

Lemma format_orders_valid objs :
  Forall (λ o, Base.validate_order o = true) (omap format_order objs).
Proof.
  apply Forall_forall. intros o (obj & _ & Ho)%list_elem_of_omap.
  by eapply format_order_valid.
Qed.

(** The orders are the formatted images of a sublist of the objects, in
    the same order. *)
Lemma format_orders_sublist objs :
  ∃ kept, kept `sublist_of` objs ∧
    Forall2 (λ obj o, format_order obj = Some o) kept (omap format_order objs).
Proof.
  induction objs as [|obj objs (kept & Hsub & Hall)]; simpl.
  - exists []. by split.
  - destruct (format_order obj) as [o|] eqn:E.
    + exists (obj :: kept). split; [by constructor | by constructor].
    + exists kept. split; [by constructor | done].
Qed.

(** ** Arguments *)

Lemma exchange_args_Ok kw ex :
  exchange_args kw = Ok ex ↔
  ∃ a b c d e, kw_qty_steps kw = Some a ∧ kw_price_steps kw = Some b ∧
    kw_min_qtys kw = Some c ∧ kw_min_costs kw = Some d ∧
    kw_c_mults kw = Some e ∧ ex = [a; b; c; d; e].
Proof.
  unfold exchange_args.
  destruct (kw_qty_steps kw), (kw_price_steps kw), (kw_min_qtys kw),
    (kw_min_costs kw), (kw_c_mults kw); simpl; naive_solver.
Qed.


Lemma exchange_args_missing kw :
  is_ok (exchange_args kw) = false ↔
  kw_qty_steps kw = None ∨ kw_price_steps kw = None ∨ kw_min_qtys kw = None
  ∨ kw_min_costs kw = None ∨ kw_c_mults kw = None.
Proof.
  unfold exchange_args.
  destruct (kw_qty_steps kw), (kw_price_steps kw), (kw_min_qtys kw),
    (kw_min_costs kw), (kw_c_mults kw); simpl; naive_solver.
Qed.

(** The arguments of the entry call exist exactly when the eight
    mandatory keys are present; they are then 24, the ten configuration
    values at positions 5 to 14 in the order of [entry_keys]. *)
Lemma entry_args_Ok self pside kw args :
  entry_args self pside kw = Ok args ↔
  ∃ ex b s p, exchange_args kw = Ok ex ∧ kw_balance kw = Some b ∧
    kw_position_size kw = Some s ∧ kw_position_price kw = Some p ∧
    args = ex ++ (cfg_arg self pside <$> entry_keys)
              ++ [PFloat b; PFloat s; PFloat p] ++ trailing_args kw.
Proof.
  unfold entry_args, num_item.
  destruct (exchange_args kw), (kw_balance kw), (kw_position_size kw),
    (kw_position_price kw); simpl; naive_solver.
Qed.

Lemma close_args_Ok self pside kw args :
  close_args self pside kw = Ok args ↔
  ∃ ex s p, exchange_args kw = Ok ex ∧
    kw_position_size kw = Some s ∧ kw_position_price kw = Some p ∧
    args = ex ++ (cfg_arg self pside <$> close_keys)
              ++ [PFloat s; PFloat p] ++ trailing_args kw.
Proof.
  unfold close_args, num_item.
  destruct (exchange_args kw), (kw_position_size kw),
    (kw_position_price kw); simpl; naive_solver.
Qed.

Lemma entry_args_length self pside kw args :
  entry_args self pside kw = Ok args → length args = 24%nat.
Proof.
  intros (ex & b & s & p & Hex & _ & _ & _ & ->)%entry_args_Ok.
  apply exchange_args_Ok in Hex as (?&?&?&?&?&_&_&_&_&_&->). done.
Qed.

Lemma close_args_length self pside kw args :
  close_args self pside kw = Ok args → length args = 20%nat.
Proof.
  intros (ex & s & p & Hex & _ & _ & ->)%close_args_Ok.
  apply exchange_args_Ok in Hex as (?&?&?&?&?&_&_&_&_&_&->). done.
Qed.

(** The first missing mandatory key is the one reported. *)
Lemma entry_args_first_missing self pside kw :
  kw_qty_steps kw = None →
  entry_args self pside kw = Raise (KeyError "qty_steps").
Proof. intros H. unfold entry_args, exchange_args. by rewrite H. Qed.

Section kernel_lemmas.
Context (pbr : kernel) (self : t) (pside symbol : string) (kw : kwargs).

Lemma finish_state what action r :
  (finish self what action pside symbol r).1.1 = self.
Proof. by destruct r. Qed.

Lemma finish_one_log what action r :
  length (finish self what action pside symbol r).2 = 1%nat.
Proof. by destruct r. Qed.

Lemma finish_valid what action r :
  Forall (λ o, Base.validate_order o = true)
    (finish self what action pside symbol r).1.2.
Proof. destruct r; simpl; [apply format_orders_valid | constructor]. Qed.

Lemma call_kernel_Ok attr args objs :
  call_kernel pbr attr args = Ok objs ↔
  ∃ f a, pbr attr = Some f ∧ args = Ok a ∧ f a = Ok objs.
Proof.
  unfold call_kernel. destruct (pbr attr) as [f|]; [|naive_solver].
  destruct args; simpl; naive_solver.
Qed.


Lemma calc_closes_ok f args objs :
  pbr ("calc_closes_" +:+ pside +:+ "_py") = Some f →
  close_args self pside kw = Ok args → f args = Ok objs →
  calc_closes pbr self pside symbol kw =
  (self, omap format_order objs,
   [Base.log_strategy_action (base self) "calc_closes" pside symbol
      [("count", PInt (Z.of_nat (length (omap format_order objs))))]]).
Proof.
  intros Hf Ha Hr. unfold calc_closes.
  by rewrite (proj2 (call_kernel_Ok _ _ objs)) by eauto.
Qed.

(** C13: Any failure (no such function in the module, a missing mandatory
    key, an exception of the module) gives no order, and one record at
    level ERROR. *)
Lemma calc_entries_fail_soft :
  (∀ f args, pbr ("calc_entries_" +:+ pside +:+ "_py") = Some f →
     entry_args self pside kw = Ok args → is_ok (f args) = false) →
  ∃ msg, calc_entries pbr self pside symbol kw =
    (self, [],
     [LogRecord ERROR (Base.logger (Base.name (base self)))
        "Error calculating entries for {} {}: {}"
        [PStr pside; PStr symbol; PStr msg]]).
Proof.
  intros Hfail. unfold calc_entries.
  destruct (call_kernel pbr _ _) as [objs|e] eqn:E; [|by eexists].
  apply call_kernel_Ok in E as (f & a & Hf & Ha & Hr).
  specialize (Hfail f a Hf Ha). by rewrite Hr in Hfail.
Qed.

Lemma calc_closes_fail_soft :
  (∀ f args, pbr ("calc_closes_" +:+ pside +:+ "_py") = Some f →
     close_args self pside kw = Ok args → is_ok (f args) = false) →
  ∃ msg, calc_closes pbr self pside symbol kw =
    (self, [],
     [LogRecord ERROR (Base.logger (Base.name (base self)))
        "Error calculating closes for {} {}: {}"
        [PStr pside; PStr symbol; PStr msg]]).
Proof.
  intros Hfail. unfold calc_closes.
  destruct (call_kernel pbr _ _) as [objs|e] eqn:E; [|by eexists].
  apply call_kernel_Ok in E as (f & a & Hf & Ha & Hr).
  specialize (Hfail f a Hf Ha). by rewrite Hr in Hfail.
Qed.

(** The orders never outnumber the objects the module returned, and each
    carries the tag of the strategy. *)
Lemma default_orders_tagged o :
  o ∈ (calc_entries pbr self pside symbol kw).1.2 ∨
  o ∈ (calc_closes pbr self pside symbol kw).1.2 →
  Base.validate_order o = true ∧ dget "strategy" o = Some (PStr "default") ∧
  dkeys o = ["qty"; "price"; "order_type"; "strategy"].
Proof.
  assert (∀ what action r, o ∈ (finish self what action pside symbol r).1.2 →
    Base.validate_order o = true ∧ dget "strategy" o = Some (PStr "default") ∧
    dkeys o = ["qty"; "price"; "order_type"; "strategy"]) as Hfin.
  { intros what action [objs|e]; simpl; [|by intros ?%elem_of_nil].
    intros (obj & _ & (?&?&?&?&?&?&->)%format_order_Some)%list_elem_of_omap.
    done. }
  intros [H|H]; eapply Hfin, H.
Qed.

End kernel_lemmas.


(** ** Examples *)


Lemma calc_closes_fail_soft_witness :
  ∃ msg, calc_closes demo_pbr demo "long" "BTCUSDT" demo_kw =
    (demo, [],
     [LogRecord ERROR "strategy.DefaultStrategy"
        "Error calculating closes for {} {}: {}"
        [PStr "long"; PStr "BTCUSDT"; PStr msg]]).
Proof.
  apply (calc_closes_fail_soft demo_pbr demo "long" "BTCUSDT" demo_kw).
  intros f args Hf _. by injection Hf as <-.
Defined.

Lemma calc_entries_fail_soft_witness :
  ∃ msg, calc_entries demo_pbr demo "both" "BTCUSDT" demo_kw =
    (demo, [],
     [LogRecord ERROR "strategy.DefaultStrategy"
        "Error calculating entries for {} {}: {}"
        [PStr "both"; PStr "BTCUSDT"; PStr msg]]).
Proof.
  apply (calc_entries_fail_soft demo_pbr demo "both" "BTCUSDT" demo_kw).
  intros f args Hf. discriminate Hf.
Defined.

Lemma default_orders_tagged_witness :
  let o := [("qty", PFloat 0.01); ("price", PFloat 49500);
            ("order_type", PStr "entry_grid_normal_long");
            ("strategy", PStr "default")] in
  o ∈ (calc_entries demo_pbr demo "long" "BTCUSDT" demo_kw).1.2 ∧
  Base.validate_order o = true.
Proof.
  intros o.
  assert (H : o ∈ (calc_entries demo_pbr demo "long" "BTCUSDT" demo_kw).1.2)
    by left.
  exact (conj H (proj1 (default_orders_tagged demo_pbr demo "long" "BTCUSDT"
                          demo_kw o (or_introl H)))).
Defined.

Lemma entry_args_length_witness :
  ∃ args, entry_args demo "long" demo_kw = Ok args ∧ length args = 24%nat.
Proof.
  eexists. split; [reflexivity|].
  exact (entry_args_length demo "long" demo_kw _ eq_refl).
Defined.

End Default.

#[export] Instance default_strategy (pbr : Default.kernel) : Strategy Default.t := {
  base_of := Default.base;
  calc_entries := Default.calc_entries pbr;
  calc_closes := Default.calc_closes pbr;
  on_market_data_update := Base.on_market_data_update;
  on_position_update := Base.on_position_update;
  on_order_filled := Base.on_order_filled;
}.

#[export] Instance default_strategy_laws pbr :
  @StrategyLaws Default.t (default_strategy pbr).
Proof.
  split; intros; simpl; unfold Default.calc_entries, Default.calc_closes;
    first [apply Default.finish_valid | by rewrite Default.finish_state].
Qed.
