(* ===== verification/StrategyManager.v ===== *)
(** * The strategy registry ([src/strategies/strategy_manager.py])

    [Module Manager] models [StrategyManager]: a dictionary from names to
    strategy classes, in insertion order, and at most one active strategy
    object.  A class is a record with what the registry uses of it: its
    name, module and docstring, whether it derives from [BaseStrategy], and
    its constructor.  The registry is generic in the type [I] of strategy
    objects; [instance] is the sum of the two classes of the repository.

    Every method returns the registry after the call, the returned value
    or the exception raised, and the log records, so that what a failed
    call leaves behind is part of its specification.  The life of a
    registry is the relation [reachable]; its invariants are proved by
    induction on it, and [abs] maps a registry to a finite map on which the
    methods are [insert], [delete] and lookup. *)

From stdpp Require Import prelude strings gmap.
From S2P Require Import Prelude PyDict PyVal BaseStrategy MACrossover DefaultStrategy.

#[local] Set Warnings "-clear-no-such-hyp".

Module Manager.

(** A class object, as the registry sees it. *)
Record strategy_class (I : Type) : Type := {
  cls_name : string;
  cls_module : string;
  cls_doc : pyval;
  cls_is_strategy : bool;
  cls_new : pyval → result I * list log_record;
}.

Arguments cls_name {I} _.
Arguments cls_module {I} _.
Arguments cls_doc {I} _.
Arguments cls_is_strategy {I} _.
Arguments cls_new {I} _ _.

Record t (I : Type) : Type := {
  strategies : pydict string (strategy_class I);
  active_strategy : option I;
}.

Arguments strategies {I} _.
Arguments active_strategy {I} _.

Definition logger : string := "strategy.manager".

(** The calls a client can make that may change the registry. *)
Inductive op (I : Type) : Type :=
| Register (name : string) (cls : strategy_class I)
| Unregister (name : string)
| Load (name : string) (cfg : pyval)
| Reload (name : string) (cfg : pyval).

Arguments Register {I} _ _.
Arguments Unregister {I} _.
Arguments Load {I} _ _.
Arguments Reload {I} _ _.

Section manager.
Context {I : Type}.
Implicit Types (self : t I) (cls : strategy_class I).

Definition register_strategy self (name : string) cls
  : t I * result unit * list log_record :=
  if negb (cls_is_strategy cls) then
    (self, Raise (ValueError "Strategy class must inherit from BaseStrategy"), [])
  else
    ({| strategies := dset name cls (strategies self);
        active_strategy := active_strategy self |},
     Ok (), [LogRecord INFO logger "Registered strategy: {}" [PStr name]]).

(** [default_import] is the outcome of importing [DefaultStrategy]: the
    class, or the exception of the import.  Only [ImportError] is caught. *)
Definition _register_default_strategies self
    (default_import : result (strategy_class I))
  : t I * result unit * list log_record :=
  match default_import with
  | Ok cls =>
      match register_strategy self "default" cls with
      | (self, Ok _, logs) =>
          (self, Ok (),
           logs ++ [LogRecord INFO logger "Registered default strategy" []])
      | r => r
      end
  | Raise (ImportError msg) =>
      (self, Ok (),
       [LogRecord WARNING logger "Failed to register default strategy: {}"
          [PStr msg]])
  | Raise e => (self, Raise e, [])
  end.

Definition __init__ (default_import : result (strategy_class I))
  : t I * result unit * list log_record :=
  _register_default_strategies
    {| strategies := []; active_strategy := None |} default_import.

Definition unregister_strategy self (name : string)
  : t I * list log_record :=
  if dmem name (strategies self) then
    ({| strategies := ddel name (strategies self);
        active_strategy := active_strategy self |},
     [LogRecord INFO logger "Unregistered strategy: {}" [PStr name]])
  else (self, []).

Definition list_strategies self : list string := dkeys (strategies self).

(** The text of the error of [load_strategy] for an unknown name. *)
Definition not_found_msg self (name : string) : string :=
  "Strategy '" +:+ name +:+ "' not found. Available strategies: "
  +:+ String.concat ", " (dkeys (strategies self)).

Definition load_strategy self (name : string) (cfg : pyval)
  : t I * result I * list log_record :=
  match dget name (strategies self) with
  | None => (self, Raise (ValueError (not_found_msg self name)), [])
  | Some strategy_class =>
      match cls_new strategy_class cfg with
      | (Ok inst, logs) =>
          ({| strategies := strategies self; active_strategy := Some inst |},
           Ok inst,
           logs ++ [LogRecord INFO logger "Loaded strategy: {}" [PStr name]])
      | (Raise e, logs) =>
          (self, Raise e,
           logs ++ [LogRecord ERROR logger "Failed to load strategy '{}': {}"
                      [PStr name; PStr (exn_str e)]])
      end
  end.

Definition get_active_strategy self : option I := active_strategy self.

Definition reload_strategy self (name : string) (cfg : pyval)
  : t I * result I * list log_record :=
  let '(self, r, logs) := load_strategy self name cfg in
  (self, r, LogRecord INFO logger "Reloading strategy: {}" [PStr name] :: logs).

Definition get_strategy_info self (name : string) : result (pydict string pyval) :=
  match dget name (strategies self) with
  | None => Raise (ValueError ("Strategy '" +:+ name +:+ "' not found"))
  | Some strategy_class =>
      Ok [("name", PStr name);
          ("class", PStr (cls_name strategy_class));
          ("module", PStr (cls_module strategy_class));
          ("doc", cls_doc strategy_class)]
  end.

(** ** The registry as a state machine *)

(** The registry after a call, whether it returned or raised. *)
Definition step self (o : op I) : t I :=
  match o with
  | Register name cls => (register_strategy self name cls).1.1
  | Unregister name => (unregister_strategy self name).1
  | Load name cfg => (load_strategy self name cfg).1.1
  | Reload name cfg => (reload_strategy self name cfg).1.1
  end.

Definition run self (ops : list (op I)) : t I := foldl step self ops.

(** The registries that exist: one that the constructor returned, after
    any calls. *)
Inductive reachable : t I → Prop :=
| reach_init default_import self logs :
    __init__ default_import = (self, Ok (), logs) → reachable self
| reach_step self o : reachable self → reachable (step self o).

(** The invariant: no name twice, every registered class derives from
    [BaseStrategy], and the active object was built by such a class. *)
Record inv self : Prop := {
  inv_wf : dict_wf (strategies self);
  inv_classes : ∀ name cls,
    dget name (strategies self) = Some cls → cls_is_strategy cls = true;
  inv_active : ∀ inst, active_strategy self = Some inst →
    ∃ cls cfg logs, cls_is_strategy cls = true ∧ cls_new cls cfg = (Ok inst, logs);
}.

(** ** The abstract registry: a finite map and the active object *)

Definition abs self : gmap string (strategy_class I) * option I :=
  (to_gmap (strategies self), active_strategy self).

Definition abs_step (a : gmap string (strategy_class I) * option I) (o : op I)
  : gmap string (strategy_class I) * option I :=
  match o with
  | Register name cls =>
      if cls_is_strategy cls then (<[name := cls]> a.1, a.2) else a
  | Unregister name => (delete name a.1, a.2)
  | Load name cfg | Reload name cfg =>
      match a.1 !! name with
      | Some cls =>
          match (cls_new cls cfg).1 with
          | Ok inst => (a.1, Some inst)
          | Raise _ => a
          end
      | None => a
      end
  end.

End manager.

Arguments inv {I} _.
Arguments reachable {I} _.

(** ** The classes of the repository *)

Definition instance : Type := MA.t + Default.t.

Definition MACrossoverStrategy : strategy_class instance :=
  {| cls_name := MA.class_name;
     cls_module := "src.strategies.ma_crossover_strategy";
     cls_doc := PStr "移动平均线交叉策略";
     cls_is_strategy := true;
     cls_new cfg := let '(r, logs) := MA.__init__ cfg in (inl <$> r, logs) |}.

Definition DefaultStrategy : strategy_class instance :=
  {| cls_name := Default.class_name;
     cls_module := "src.strategies.default_strategy";
     cls_doc := PStr "默认网格+追踪策略";
     cls_is_strategy := true;
     cls_new cfg := let '(r, logs) := Default.__init__ cfg in (inr <$> r, logs) |}.

(** A class that does not derive from [BaseStrategy]. *)
Definition object_class : strategy_class instance :=
  {| cls_name := "object"; cls_module := "builtins";
     cls_doc := PStr "The base class of the class hierarchy.";
     cls_is_strategy := false;
     cls_new _ := (Raise (TypeError "object() takes no arguments"), []) |}.

(** The registry of the examples: the constructor's, with the crossover
    strategy registered under [ma_crossover]. *)
Definition demo : t instance :=
  run (__init__ (Ok DefaultStrategy)).1.1
      [Register "ma_crossover" MACrossoverStrategy].

Section manager_lemmas.
Context {I : Type}.
Implicit Types (self : t I) (cls : strategy_class I).

(** ** Registration *)

Lemma register_ok self name cls :
  cls_is_strategy cls = true →
  register_strategy self name cls =
  ({| strategies := dset name cls (strategies self);
      active_strategy := active_strategy self |},
   Ok (), [LogRecord INFO logger "Registered strategy: {}" [PStr name]]).
Proof. intros H. unfold register_strategy. by rewrite H. Qed.

(** Register_strategy on a class that does not derive from BaseStrategy
    raises ValueError, logs nothing and leaves the registry unchanged. *)
Lemma register_rejects self name cls :
  cls_is_strategy cls = false →
  register_strategy self name cls =
  (self, Raise (ValueError "Strategy class must inherit from BaseStrategy"), []).
Proof. intros H. unfold register_strategy. by rewrite H. Qed.

(** Registering a class under a new name appends the name to
    list_strategies; registering under a name already present overwrites the
    class and keeps the position of the name. *)
Lemma list_strategies_register self name cls :
  cls_is_strategy cls = true →
  list_strategies (register_strategy self name cls).1.1 =
  if decide (name ∈ list_strategies self) then list_strategies self
  else list_strategies self ++ [name].
Proof.
  intros H. rewrite register_ok by done. unfold list_strategies. simpl.
  case_decide; auto using dkeys_dset_old, dkeys_dset_new.
Qed.

Lemma register_keeps_active self name cls :
  get_active_strategy (register_strategy self name cls).1.1 =
  get_active_strategy self.
Proof. unfold register_strategy. by case_match. Qed.

(** [unregister_strategy] removes the name from [list_strategies] and keeps
    the other names in their order; on a name that is not registered it
    changes nothing. *)
Lemma list_strategies_unregister self name :
  dict_wf (strategies self) →
  list_strategies (unregister_strategy self name).1 =
  filter (λ k, k ≠ name) (list_strategies self).
Proof.
  intros Hwf. unfold unregister_strategy, list_strategies.
  destruct (dmem name (strategies self)) eqn:E; simpl.
  - by apply dkeys_ddel.
  - apply dmem_false, dget_None in E. symmetry.
    induction (dkeys (strategies self)) as [|k ks IH]; [done|].
    apply not_elem_of_cons in E as [? ?].
    rewrite filter_cons_True by done. f_equal. auto.
Qed.

(** Unregistering a class does not touch the active object, even when it
    is an object of that class. *)
Lemma unregister_keeps_active self name :
  get_active_strategy (unregister_strategy self name).1 =
  get_active_strategy self.
Proof. unfold unregister_strategy. by case_match. Qed.

(** ** Loading *)

(** Load_strategy on a name that is not registered raises ValueError
    with the registered names listed in registration order, logs nothing,
    and leaves the registry unchanged. *)
Lemma load_unknown self name cfg :
  name ∉ list_strategies self →
  load_strategy self name cfg =
  (self, Raise (ValueError (not_found_msg self name)), []).
Proof.
  intros H%dget_None. unfold load_strategy. by rewrite H.
Qed.

Lemma load_known self name cfg cls inst logs :
  dget name (strategies self) = Some cls →
  cls_new cls cfg = (Ok inst, logs) →
  load_strategy self name cfg =
  ({| strategies := strategies self; active_strategy := Some inst |},
   Ok inst, logs ++ [LogRecord INFO logger "Loaded strategy: {}" [PStr name]]).
Proof. intros H1 H2. unfold load_strategy. by rewrite H1, H2. Qed.

(** When the constructor of the registered class raises, load_strategy
    logs one ERROR record after the constructor sent its own, raises the
    same exception, and the previous active strategy stays active. *)
Lemma load_failure self name cfg cls e logs :
  dget name (strategies self) = Some cls →
  cls_new cls cfg = (Raise e, logs) →
  load_strategy self name cfg =
  (self, Raise e,
   logs ++ [LogRecord ERROR logger "Failed to load strategy '{}': {}"
              [PStr name; PStr (exn_str e)]]).
Proof. intros H1 H2. unfold load_strategy. by rewrite H1, H2. Qed.

(** C7: Whatever happens, loading does not change the registered classes, and
    the active object changes exactly when the call returns, to the object
    returned. *)
Lemma load_strategy_spec self name cfg :
  let '(self', r, _) := load_strategy self name cfg in
  strategies self' = strategies self ∧
  match r with
  | Ok inst => active_strategy self' = Some inst ∧
      ∃ cls logs, dget name (strategies self) = Some cls ∧
        cls_new cls cfg = (Ok inst, logs)
  | Raise _ => self' = self
  end.
Proof.
  unfold load_strategy. destruct (dget name (strategies self)) as [cls|]; [|done].
  destruct (cls_new cls cfg) as [[inst|e] logs] eqn:E; simpl; eauto 10.
Qed.

Lemma reload_strategy_load self name cfg :
  reload_strategy self name cfg =
  let r := load_strategy self name cfg in
  (r.1.1, r.1.2, LogRecord INFO logger "Reloading strategy: {}" [PStr name] :: r.2).
Proof. unfold reload_strategy. by destruct (load_strategy _ _ _) as [[??]?]. Qed.

Lemma get_strategy_info_ok self name :
  is_ok (get_strategy_info self name) = true ↔ name ∈ list_strategies self.
Proof.
  unfold get_strategy_info, list_strategies. rewrite <-dget_is_Some.
  destruct (dget name (strategies self)); simpl; split; (done || eauto).
Qed.

(** A class registered under a name is the one that name loads. *)
Lemma register_then_load self name cls cfg :
  cls_is_strategy cls = true →
  let self' := (register_strategy self name cls).1.1 in
  (load_strategy self' name cfg).1.2 = (cls_new cls cfg).1 ∧
  get_strategy_info self' name =
  Ok [("name", PStr name); ("class", PStr (cls_name cls));
      ("module", PStr (cls_module cls)); ("doc", cls_doc cls)].
Proof.
  intros H. rewrite register_ok by done. simpl.
  unfold load_strategy, get_strategy_info. simpl. rewrite dget_dset_eq.
  by destruct (cls_new cls cfg) as [[?|?] ?].
Qed.


(** ** The constructor *)

Lemma init_with_default cls :
  cls_is_strategy cls = true →
  __init__ (Ok cls) =
  ({| strategies := [("default", cls)]; active_strategy := None |}, Ok (),
   [LogRecord INFO logger "Registered strategy: {}" [PStr "default"];
    LogRecord INFO logger "Registered default strategy" []]).
Proof.
  intros H. unfold __init__, _register_default_strategies.
  by rewrite register_ok.
Qed.

Lemma init_import_error msg :
  __init__ (I:=I) (Raise (ImportError msg)) =
  ({| strategies := []; active_strategy := None |}, Ok (),
   [LogRecord WARNING logger "Failed to register default strategy: {}"
      [PStr msg]]).
Proof. done. Qed.

Lemma init_state default_import self r logs :
  __init__ default_import = (self, r, logs) →
  active_strategy self = None ∧
  (strategies self = [] ∨
   ∃ cls, default_import = Ok cls ∧ cls_is_strategy cls = true ∧
     strategies self = [("default", cls)]).
Proof.
  unfold __init__, _register_default_strategies, register_strategy.
  destruct default_import as [cls|[]]; simpl;
    try (intros; simplify_eq; by auto).
  destruct (cls_is_strategy cls) eqn:E; simpl; intros; simplify_eq; eauto 10.
Qed.

(** ** Invariants *)

Lemma inv_init default_import self r logs :
  __init__ default_import = (self, r, logs) → inv self.
Proof.
  intros (Hact & [Hs|(cls & _ & Hcls & Hs)])%init_state;
    split; rewrite ?Hs, ?Hact; try done.
  - constructor.
  - apply NoDup_singleton.
  - intros name cls'. simpl. case_decide; naive_solver.
Qed.

Lemma inv_register self name cls :
  inv self → inv (register_strategy self name cls).1.1.
Proof.
  intros [Hwf Hcls Hact]. unfold register_strategy.
  destruct (cls_is_strategy cls) eqn:E; simpl; [|done].
  split; simpl; [by apply dset_wf | | done].
  intros name' cls'. rewrite dget_dset. case_decide; naive_solver.
Qed.

Lemma inv_unregister self name :
  inv self → inv (unregister_strategy self name).1.
Proof.
  intros [Hwf Hcls Hact]. unfold unregister_strategy.
  case_match; simpl; [|done].
  split; simpl; [by apply ddel_wf | | done].
  intros name' cls'. destruct (decide (name = name')) as [->|].
  - by rewrite dget_ddel_eq.
  - rewrite dget_ddel_ne by done. apply Hcls.
Qed.

Lemma inv_load self name cfg :
  inv self → inv (load_strategy self name cfg).1.1.
Proof.
  intros [Hwf Hcls Hact]. unfold load_strategy.
  destruct (dget name (strategies self)) as [cls|] eqn:E; [|done].
  destruct (cls_new cls cfg) as [[inst|e] logs] eqn:En; simpl; [|done].
  split; simpl; [done..|]. intros ? [= <-]. eauto 10.
Qed.

Lemma inv_step self o : inv self → inv (step self o).
Proof.
  destruct o; simpl; auto using inv_register, inv_unregister, inv_load.
  rewrite reload_strategy_load. apply inv_load.
Qed.

Lemma inv_reachable self : reachable self → inv self.
Proof. induction 1; eauto using inv_init, inv_step. Qed.

(** C8: Every registry that exists satisfies the invariant. *)
Lemma reachable_inv self : reachable self → inv self.
Proof. apply inv_reachable. Qed.

Lemma run_reachable self ops : reachable self → reachable (run self ops).
Proof.
  revert self. induction ops as [|o ops IH]; simpl; [done|].
  intros self H. apply IH. by constructor.
Qed.

(** In a registry that exists, the names listed are distinct, and each
    of them loads. *)
Lemma reachable_list_NoDup self : reachable self → NoDup (list_strategies self).
Proof. by intros [? _ _]%inv_reachable. Qed.

(** ** Refinement *)

(** The registry implements the abstract one: the methods commute with
    the abstraction. *)
Lemma abs_step_refines self o :
  dict_wf (strategies self) → abs (step self o) = abs_step (abs self) o.
Proof.
  intros Hwf. destruct o as [name cls|name|name cfg|name cfg]; simpl.
  - unfold register_strategy, abs.
    destruct (cls_is_strategy cls); simpl; [|done]. by rewrite to_gmap_dset.
  - unfold unregister_strategy, abs.
    destruct (dmem name (strategies self)) eqn:E; simpl.
    + by rewrite to_gmap_ddel.
    + apply dmem_false in E. f_equal. symmetry. apply delete_id.
      by rewrite to_gmap_lookup.
  - unfold load_strategy, abs. simpl. rewrite to_gmap_lookup.
    destruct (dget name (strategies self)) as [cls|]; [|done].
    by destruct (cls_new cls cfg) as [[?|?] ?].
  - rewrite reload_strategy_load. unfold load_strategy, abs. simpl.
    rewrite to_gmap_lookup.
    destruct (dget name (strategies self)) as [cls|]; [|done].
    by destruct (cls_new cls cfg) as [[?|?] ?].
Qed.

(** C11: The registry implements a finite map with an active slot: on a
    registry that satisfies the invariant, running any sequence of calls and
    then abstracting gives the same as abstracting and running insert,
    delete and lookup on the map. *)
Lemma abs_run_refines self ops :
  inv self → abs (run self ops) = foldl abs_step (abs self) ops.
Proof.
  revert self. induction ops as [|o ops IH]; simpl; [done|]. intros self Hinv.
  rewrite IH by by apply inv_step. f_equal. apply abs_step_refines, Hinv.
Qed.

End manager_lemmas.

(** ** Examples on the registry of the repository *)

Example demo_list : list_strategies demo = ["default"; "ma_crossover"].
Proof. reflexivity. Qed.

Lemma demo_reachable : reachable demo.
Proof.
  apply run_reachable.
  by apply (reach_init (Ok DefaultStrategy) _ (__init__ (Ok DefaultStrategy)).2).
Qed.

Lemma load_unknown_witness :
  load_strategy demo "unknown_name" (PDict []) =
  (demo,
   Raise (ValueError "Strategy 'unknown_name' not found. Available strategies: default, ma_crossover"),
   []).
Proof.
  apply (load_unknown demo "unknown_name" (PDict [])). by_compute.
Defined.

Lemma load_known_witness :
  let cfg := PDict [("strategy", PDict [("fast_period", PInt 2);
                                        ("slow_period", PInt 9)])] in
  ∃ s logs, MA.__init__ cfg = (Ok s, logs) ∧ MA.slow_period s = 9%Z ∧
    get_active_strategy (load_strategy demo "ma_crossover" cfg).1.1 = Some (inl s).
Proof.
  intros cfg. eexists _, _. split; [reflexivity|]. split; [reflexivity|].
  by rewrite (load_known demo "ma_crossover" cfg MACrossoverStrategy _ _
                eq_refl eq_refl).
Defined.

Lemma load_failure_witness :
  ∃ logs, load_strategy demo "ma_crossover" PNone =
    (demo, Raise (AttributeError "get"), logs).
Proof.
  eexists.
  by rewrite (load_failure demo "ma_crossover" PNone MACrossoverStrategy _ _
                eq_refl eq_refl).
Defined.

Lemma register_rejects_witness :
  (register_strategy demo "plain" object_class).1 =
  (demo, Raise (ValueError "Strategy class must inherit from BaseStrategy")).
Proof. by rewrite (register_rejects demo "plain" object_class eq_refl). Defined.

Lemma list_strategies_register_witness :
  list_strategies (register_strategy demo "default" MACrossoverStrategy).1.1
  = ["default"; "ma_crossover"] ∧
  list_strategies (register_strategy demo "grid" DefaultStrategy).1.1
  = ["default"; "ma_crossover"; "grid"].
Proof.
  split.
  - by rewrite (list_strategies_register demo "default" MACrossoverStrategy eq_refl).
  - by rewrite (list_strategies_register demo "grid" DefaultStrategy eq_refl).
Defined.

Lemma list_strategies_unregister_witness :
  list_strategies (unregister_strategy demo "default").1 = ["ma_crossover"].
Proof.
  rewrite (list_strategies_unregister demo "default"); [done|].
  apply inv_reachable, demo_reachable.
Defined.

Lemma reachable_inv_witness : inv demo.
Proof. exact (reachable_inv demo demo_reachable). Defined.

Lemma register_then_load_witness :
  (load_strategy (register_strategy demo "x" MACrossoverStrategy).1.1 "x" PNone).1.2
  = Raise (AttributeError "get").
Proof.
  by rewrite (proj1 (register_then_load demo "x" MACrossoverStrategy PNone eq_refl)).
Defined.

Lemma abs_run_refines_witness :
  (abs (run demo [Unregister "default"; Load "default" (PDict [])])).1 !! "default"
  = None.
Proof.
  rewrite (abs_run_refines demo _ (inv_reachable demo demo_reachable)).
  by vm_compute.
Defined.

End Manager.
