(* ===== verification/GridBacktest.v ===== *)
(** * The grid backtest ([offline_backtest_demo.py])

    [Module Grid] models [simple_grid_strategy_backtest]: a ledger of a
    cash balance, open positions and a trade log, driven over the closing
    prices of a series.  Buy levels are laid out below the first close;
    a bar at or below a level that holds no position buys a fraction of
    the balance, and a bar at or above a position's entry price plus the
    markup sells it.

    Of a row of the price frame the function reads the index and the
    [close] column: a row is a [bar].  Positions and trades are records
    with the keys of the dictionaries the code builds.

    The loop removes closed positions with [list.remove], which searches
    by equality and raises when nothing is found: [bar_step] keeps that
    failure as a value, [step_ref] is the reference definition that
    filters, and [bar_step_ref] proves that on a ledger that satisfies
    the invariant the two agree, so that the loop never raises.

    Prices are rationals.  A bar whose close is zero makes the code divide
    by a zero float; the theorems about quantities assume positive
    closes. *)

From Stdlib Require Import QArith Qabs Lqa ZArith Lia.
From stdpp Require Import prelude strings.
From S2P Require Import Prelude PyDict PyVal.

#[local] Set Warnings "-clear-no-such-hyp".
#[local] Open Scope Q_scope.

Module Grid.

(** A row of [ohlcv_data]: the index and the close. *)
Record bar : Type := { timestamp : Z; close : Q }.

Record position : Type := {
  grid_index : nat;
  entry_price : Q;
  qty : Q;
  entry_time : Z;
}.

Inductive trade_type : Type := buy | sell.

#[global] Instance trade_type_eq_dec : EqDecision trade_type.
Proof. solve_decision. Defined.

(** A record of the trade log; [profit] is present on sells only. *)
Record trade : Type := {
  type : trade_type;
  price : Q;
  trade_qty : Q;
  trade_timestamp : Z;
  trade_balance : Q;
  profit : option Q;
}.

(** The parameters read from the configuration. *)
Record params : Type := {
  entry_spacing : Q;
  close_markup : Q;
  position_size : Q;
  max_positions : Z;
  initial_balance : Q;
}.

(** The ledger: the local variables the loop updates. *)
Record state : Type := {
  balance : Q;
  positions : list position;
  trades : list trade;
}.

(** The result dictionary. *)
Record summary : Type := {
  res_initial_balance : Q;
  final_balance : Q;
  total_return_pct : fval;
  total_trades : nat;
  buy_trades : nat;
  sell_trades : nat;
  total_profit : Q;
  remaining_positions : nat;
  res_trades : list trade;
}.

(** [config[k1][k2][k3]] *)
Definition item3 (config : pyval) (k1 k2 k3 : string) : result pyval :=
  v ← py_item config k1; v ← py_item v k2; py_item v k3.

(** The reads at the top of the function, in the order of the code.  A
    parameter that is not a number is reported here; the code fails at
    its first use in arithmetic. *)
Definition read_config (config : pyval) : result params :=
  entry_spacing ← item3 config "bot" "long" "entry_grid_spacing_pct" ≫= py_num;
  close_markup ← item3 config "bot" "long" "close_grid_markup_start" ≫= py_num;
  position_size ← item3 config "bot" "long" "entry_initial_qty_pct" ≫= py_num;
  max_positions ← item3 config "bot" "long" "n_positions" ≫= py_int;
  initial_balance ← (v ← py_item config "backtest";
                     py_item v "starting_balance") ≫= py_num;
  Ok {| entry_spacing := entry_spacing; close_markup := close_markup;
        position_size := position_size; max_positions := max_positions;
        initial_balance := initial_balance |}.

(** The buy levels: level [i] is [spacing * (i + 1)] below the price. *)
Definition grid_prices (current_price entry_spacing : Q) (max_positions : Z)
  : list Q :=
  (λ i : nat, current_price * (1 - entry_spacing * inject_Z (Z.of_nat i + 1)))
    <$> seq 0 (Z.to_nat max_positions).

(** The body of the loop over the levels, for level [j]. *)
Definition try_buy (p : params) (b : bar) (st : state) (j : nat)
    (grid_price : Q) : state :=
  let current_price := close b in
  if (current_price <=? grid_price)
     && negb (bool_decide (j ∈ grid_index <$> positions st)) then
    let qty := balance st * position_size p / current_price in
    let balance := balance st - qty * current_price in
    {| balance := balance;
       positions := positions st ++
         [{| grid_index := j; entry_price := current_price; qty := qty;
             entry_time := timestamp b |}];
       trades := trades st ++
         [{| type := buy; price := current_price; trade_qty := qty;
             trade_timestamp := timestamp b; trade_balance := balance;
             profit := None |}] |}
  else st.

(** The loop over [enumerate(grid_prices)], from index [j]. *)
Fixpoint fill_from (p : params) (b : bar) (j : nat) (grid : list Q)
    (st : state) : state :=
  match grid with
  | [] => st
  | grid_price :: rest => fill_from p b (S j) rest (try_buy p b st j grid_price)
  end.

(** Whether the bar closes a position. *)
Definition closes_at (p : params) (b : bar) (pos : position) : bool :=
  entry_price pos * (1 + close_markup p) <=? close b.

(** The body of the loop over the positions: the balance and the trade
    log so far, and [positions_to_close]. *)
Definition try_close (p : params) (b : bar)
    (acc : Q * list trade * list position) (pos : position)
  : Q * list trade * list position :=
  let '(balance, trades, positions_to_close) := acc in
  if closes_at p b pos then
    let balance := balance + qty pos * close b in
    (balance,
     trades ++ [{| type := sell; price := close b; trade_qty := qty pos;
                   trade_timestamp := timestamp b; trade_balance := balance;
                   profit := Some (qty pos * (close b - entry_price pos)) |}],
     positions_to_close ++ [pos])
  else acc.

(** Equality of two position dictionaries: numbers compare by value. *)
Definition position_eqb (x y : position) : bool :=
  (grid_index x =? grid_index y)%nat && Qeq_bool (entry_price x) (entry_price y)
  && Qeq_bool (qty x) (qty y) && (entry_time x =? entry_time y)%Z.

(** [l.remove(x)]: the first element equal to [x] is removed; [ValueError]
    when there is none. *)
Fixpoint list_remove (x : position) (l : list position)
  : result (list position) :=
  match l with
  | [] => Raise (ValueError "list.remove(x): x not in list")
  | y :: l' =>
      if position_eqb y x then Ok l' else cons y <$> list_remove x l'
  end.

(** The loop that removes the closed positions. *)
Fixpoint remove_all (to_close : list position) (l : list position)
  : result (list position) :=
  match to_close with
  | [] => Ok l
  | pos :: rest => l' ← list_remove pos l; remove_all rest l'
  end.

(** One iteration of the loop over the rows. *)
Definition bar_step (p : params) (grid : list Q) (st : state) (b : bar)
  : result state :=
  let st := fill_from p b 0 grid st in
  let '(balance, trades, positions_to_close) :=
    foldl (try_close p b) (balance st, trades st, []) (positions st) in
  positions ← remove_all positions_to_close (positions st);
  Ok {| balance := balance; positions := positions; trades := trades |}.

(** The loop over the rows. *)
Fixpoint run (p : params) (grid : list Q) (st : state) (bars : list bar)
  : result state :=
  match bars with
  | [] => Ok st
  | b :: rest => st' ← bar_step p grid st b; run p grid st' rest
  end.

(** [(final_balance - initial_balance) / initial_balance * 100].  With a
    zero initial balance Python raises when both operands are Python
    numbers, which is when no trade was made; after a trade the balance is
    a NumPy float and the quotient of zeros is NaN. *)
Definition total_return (initial final : Q) (trades : list trade)
  : result fval :=
  if Qeq_bool initial 0 then
    match trades with
    | [] => Raise (ZeroDivisionError "division by zero")
    | _ :: _ => Ok NaN
    end
  else Ok (Fin ((final - initial) / initial * 100)).

Definition profits (trades : list trade) : list Q :=
  omap profit (filter (λ t, type t = sell) trades).

(** The ledger before the first row. *)
Definition start (p : params) : state :=
  {| balance := initial_balance p; positions := []; trades := [] |}.

Definition simple_grid_strategy_backtest (ohlcv_data : list bar)
    (config : pyval) : result summary :=
  p ← read_config config;
  first ← match ohlcv_data with
          | [] => Raise (IndexError "single positional indexer is out-of-bounds")
          | b :: _ => Ok b
          end;
  let grid := grid_prices (close first) (entry_spacing p) (max_positions p) in
  st ← run p grid (start p) ohlcv_data;
  let current_price := close (List.last ohlcv_data first) in
  let final_balance :=
    foldl (λ acc pos, acc + qty pos * current_price) (balance st) (positions st) in
  total_return ← total_return (initial_balance p) final_balance (trades st);
  Ok {| res_initial_balance := initial_balance p;
        final_balance := final_balance;
        total_return_pct := total_return;
        total_trades := length (trades st);
        buy_trades := length (filter (λ t, type t = buy) (trades st));
        sell_trades := length (filter (λ t, type t = sell) (trades st));
        total_profit := Qsum (profits (trades st));
        remaining_positions := length (positions st);
        res_trades := trades st |}.

(** ** The reference step and the invariant *)

(** The balance after the sale of a position at the close of the bar. *)
Definition credit (b : bar) (bal : Q) (pos : position) : Q :=
  bal + qty pos * close b.

(** The trade records of the sale of the given positions, in order, from
    the balance [bal]. *)
Fixpoint sells (b : bar) (bal : Q) (closed : list position) : list trade :=
  match closed with
  | [] => []
  | pos :: rest =>
      {| type := sell; price := close b; trade_qty := qty pos;
         trade_timestamp := timestamp b; trade_balance := credit b bal pos;
         profit := Some (qty pos * (close b - entry_price pos)) |}
      :: sells b (credit b bal pos) rest
  end.

(** One iteration, with the closed positions filtered out. *)
Definition step_ref (p : params) (grid : list Q) (st : state) (b : bar)
  : state :=
  let st := fill_from p b 0 grid st in
  let closed := filter (λ pos, closes_at p b pos = true) (positions st) in
  {| balance := foldl (credit b) (balance st) closed;
     positions := filter (λ pos, closes_at p b pos ≠ true) (positions st);
     trades := trades st ++ sells b (balance st) closed |}.

Definition run_ref (p : params) (grid : list Q) (st : state)
    (bars : list bar) : state :=
  foldl (step_ref p grid) st bars.

(** The invariant of the ledger: no two positions on one level, and every
    position on a level of the grid. *)
Record inv (grid : list Q) (st : state) : Prop := {
  inv_NoDup : NoDup (grid_index <$> positions st);
  inv_level : Forall (λ pos, (grid_index pos < length grid)%nat) (positions st);
}.

(** What the open positions cost, and what the sales realised. *)
Definition cost_basis (st : state) : Q :=
  Qsum ((λ pos, qty pos * entry_price pos) <$> positions st).

Definition realized (st : state) : Q := Qsum (profits (trades st)).

(** The net worth at cost: cash plus the cost of the open positions,
    less the realised profit. *)
Definition book (st : state) : Q := balance st + cost_basis st - realized st.

(** A ledger that owes nothing: the balance and the quantities held are
    not negative, and the entry prices are positive. *)
Definition solvent (st : state) : Prop :=
  0 <= balance st ∧
  Forall (λ pos, 0 <= qty pos ∧ 0 < entry_price pos) (positions st).

Definition bars_positive (bars : list bar) : Prop :=
  Forall (λ b, 0 < close b) bars.

(** The configuration of the script, and a short series. *)
Definition default_config : pyval :=
  PDict [("backtest", PDict [("starting_balance", PInt 10000)]);
         ("bot", PDict [("long", PDict [
            ("entry_grid_spacing_pct", PFloat 0.01);
            ("close_grid_markup_start", PFloat 0.005);
            ("entry_initial_qty_pct", PFloat 0.1);
            ("n_positions", PInt 5)])])].

Definition demo_bars : list bar :=
  imap (λ i c, {| timestamp := Z.of_nat i; close := c |})
    [50000; 49400; 48900; 49700; 49300; 50100].

(** The numbers of purchases and of sales in the trade log. *)
Definition n_buy (st : state) : nat :=
  length (filter (λ t, type t = buy) (trades st)).

Definition n_sell (st : state) : nat :=
  length (filter (λ t, type t = sell) (trades st)).

(** The ledger at the end of the loop, from the reference step. *)
Definition ledger (p : params) (bars : list bar) : state :=
  run_ref p (grid_prices (close (default {| timestamp := 0; close := 0 |}
                                   (head bars)))
               (entry_spacing p) (max_positions p)) (start p) bars.

(** The parameters [read_config] gives for [default_config]. *)
Definition demo_params : params :=
  {| entry_spacing := 0.01; close_markup := 0.005; position_size := 0.1;
     max_positions := 5; initial_balance := 10000 |}.

(** ** The buy levels *)

Lemma grid_prices_length p s n : length (grid_prices p s n) = Z.to_nat n.
Proof. unfold grid_prices. by rewrite length_fmap, length_seq. Qed.

Lemma grid_prices_lookup p s n (i : nat) :
  (i < Z.to_nat n)%nat →
  grid_prices p s n !! i = Some (p * (1 - s * inject_Z (Z.of_nat i + 1))).
Proof.
  intros. unfold grid_prices. rewrite list_lookup_fmap, lookup_seq_lt by done.
  done.
Qed.

(** The levels are equally spaced: each is [p * s] below the one before. *)
Lemma grid_prices_arithmetic p s n (i : nat) x y :
  grid_prices p s n !! i = Some x → grid_prices p s n !! S i = Some y →
  x - y == p * s.
Proof.
  intros Hx Hy.
  assert (S i < Z.to_nat n)%nat as Hi.
  { apply lookup_lt_Some in Hy. by rewrite grid_prices_length in Hy. }
  rewrite grid_prices_lookup in Hx, Hy by lia. simplify_eq.
  rewrite Nat2Z.inj_succ. unfold Z.succ. rewrite !inject_Z_plus. ring.
Qed.

(** ** Removal of the closed positions *)

Lemma position_eqb_refl x : position_eqb x x = true.
Proof.
  unfold position_eqb.
  rewrite Nat.eqb_refl, Z.eqb_refl, !(proj2 (Qeq_bool_iff _ _)); done.
Qed.

Lemma position_eqb_index x y :
  grid_index x ≠ grid_index y → position_eqb x y = false.
Proof.
  intros H. unfold position_eqb. by rewrite (proj2 (Nat.eqb_neq _ _)).
Qed.

Lemma remove_all_skip x tc l :
  Forall (λ y, grid_index x ≠ grid_index y) tc →
  remove_all tc (x :: l) = cons x <$> remove_all tc l.
Proof.
  intros H. revert l. induction H as [|y tc Hy _ IH]; intros l; simpl; [done|].
  rewrite position_eqb_index by done.
  destruct (list_remove y l) as [l'|e]; simpl; [apply IH | done].
Qed.

(** On positions with distinct levels, removing by equality those that
    satisfy a predicate, one after the other, is filtering them out. *)
Lemma remove_all_filter (P : position → Prop) `{!∀ x, Decision (P x)} l :
  NoDup (grid_index <$> l) →
  remove_all (filter P l) l = Ok (filter (λ x, ¬ P x) l).
Proof.
  induction l as [|x l IH]; [done|]. rewrite fmap_cons.
  intros [Hx Hl]%NoDup_cons.
  destruct (decide (P x)) as [HP|HP].
  - rewrite (filter_cons_True P), (filter_cons_False (λ x, ¬ P x)) by tauto.
    simpl. rewrite position_eqb_refl. simpl. auto.
  - rewrite (filter_cons_False P), (filter_cons_True (λ x, ¬ P x)) by tauto.
    rewrite remove_all_skip, IH by
      (try done; apply Forall_forall; intros y [_ Hy]%list_elem_of_filter;
       intros E; apply Hx; rewrite E; by apply list_elem_of_fmap_2).
    done.
Qed.

(** ** The loop over the positions *)

Lemma foldl_try_close p b ps bal trs tc :
  let closed := filter (λ pos, closes_at p b pos = true) ps in
  foldl (try_close p b) (bal, trs, tc) ps =
  (foldl (credit b) bal closed, trs ++ sells b bal closed, tc ++ closed).
Proof.
  revert bal trs tc. induction ps as [|pos ps IH]; intros bal trs tc; simpl.
  - by rewrite !app_nil_r.
  - destruct (closes_at p b pos) eqn:E.
    + rewrite filter_cons_True by done. simpl. rewrite IH.
      by rewrite <-!app_assoc.
    + rewrite filter_cons_False by (by rewrite E). apply IH.
Qed.

(** The loop body never raises on a ledger with distinct levels, and
    computes the reference step. *)
Lemma bar_step_ref p grid st b :
  NoDup (grid_index <$> positions (fill_from p b 0 grid st)) →
  bar_step p grid st b = Ok (step_ref p grid st b).
Proof.
  intros Hnd. unfold bar_step, step_ref.
  rewrite foldl_try_close. simpl. by rewrite remove_all_filter.
Qed.


(** ** The invariant *)

Section ledger.
Context (p : params) (grid : list Q).

Lemma try_buy_cases b st j g :
  try_buy p b st j g = st ∨
  (j ∉ grid_index <$> positions st) ∧ close b <= g ∧
  ∃ pos, grid_index pos = j ∧ entry_price pos = close b ∧
    qty pos = balance st * position_size p / close b ∧
    balance (try_buy p b st j g) = balance st - qty pos * close b ∧
    positions (try_buy p b st j g) = positions st ++ [pos] ∧
    ∃ t, type t = buy ∧ profit t = None ∧
      trades (try_buy p b st j g) = trades st ++ [t].
Proof.
  unfold try_buy. destruct (Qle_bool_spec (close b) g); simpl; [|by left].
  case_bool_decide; simpl; [by left|]. right.
  split_and!; [done..|].
  exists {| grid_index := j; entry_price := close b;
            qty := balance st * position_size p / close b;
            entry_time := timestamp b |}.
  split_and!; try done. eexists. split_and!; last reflexivity; done.
Qed.

Lemma fill_from_inv b rest j st :
  NoDup (grid_index <$> positions st) →
  Forall (λ pos, (grid_index pos < j + length rest)%nat) (positions st) →
  NoDup (grid_index <$> positions (fill_from p b j rest st)) ∧
  Forall (λ pos, (grid_index pos < j + length rest)%nat)
    (positions (fill_from p b j rest st)).
Proof.
  revert j st. induction rest as [|g rest IH]; intros j st Hnd Hlt; [done|].
  simpl in Hlt |- *.
  assert (Forall (λ pos, (grid_index pos < S j + length rest)%nat) (positions st))
    as Hlt' by (eapply Forall_impl; [done|]; simpl; intros; lia).
  destruct (IH (S j) (try_buy p b st j g)) as [H1 H2].
  - destruct (try_buy_cases b st j g)
      as [->|(Hj & _ & pos & Hi & _ & _ & _ & -> & _)]; [done|].
    rewrite fmap_app. simpl. apply NoDup_app. split_and!; [done| |].
    + intros x Hx ->%list_elem_of_singleton. by rewrite Hi in Hx.
    + apply NoDup_singleton.
  - destruct (try_buy_cases b st j g)
      as [->|(Hj & _ & pos & Hi & _ & _ & _ & -> & _)]; [done|].
    apply Forall_app. split; [done|]. apply Forall_singleton. lia.
  - split; [done|]. eapply Forall_impl; [done|]. simpl. intros. lia.
Qed.

Lemma inv_fill b st : inv grid st → inv grid (fill_from p b 0 grid st).
Proof.
  intros [Hnd Hlt]. by destruct (fill_from_inv b grid 0 st Hnd Hlt).
Qed.

Lemma NoDup_fmap_filter {A B} (f : A → B) (P : A → Prop)
    `{!∀ x, Decision (P x)} l :
  NoDup (f <$> l) → NoDup (f <$> filter P l).
Proof.
  intros. apply (sublist_NoDup _ (f <$> l));
    first [done | apply fmap_sublist, sublist_filter].
Qed.

Lemma inv_step_ref st b : inv grid st → inv grid (step_ref p grid st b).
Proof.
  intros [Hnd Hlt]%(inv_fill b). split; simpl.
  - by apply NoDup_fmap_filter.
  - rewrite Forall_forall in Hlt |- *.
    intros pos [_ Hpos]%list_elem_of_filter. auto.
Qed.

Lemma inv_run_ref st bars : inv grid st → inv grid (run_ref p grid st bars).
Proof.
  revert st. induction bars as [|b bars IH]; intros st Hinv; simpl; [done|].
  by apply IH, inv_step_ref.
Qed.

(** On a ledger that satisfies the invariant the loop does not raise. *)
Lemma run_run_ref st bars :
  inv grid st → run p grid st bars = Ok (run_ref p grid st bars).
Proof.
  revert st. induction bars as [|b bars IH]; intros st Hinv; simpl; [done|].
  rewrite bar_step_ref by by apply inv_fill. simpl.
  by apply IH, inv_step_ref.
Qed.

(** C6: The loop over the rows never raises, and computes the iteration of
    the reference step. *)
Lemma run_ok st bars :
  inv grid st → run p grid st bars = Ok (run_ref p grid st bars).
Proof. apply run_run_ref. Qed.

(** At most one position per level: never more than [max_positions]. *)
Lemma positions_bounded st :
  inv grid st → (length (positions st) ≤ length grid)%nat.
Proof.
  intros [Hnd Hlt]. rewrite <-(length_fmap grid_index), <-(length_seq (length grid) 0).
  apply submseteq_length, NoDup_submseteq; [done|].
  intros i (pos & -> & Hpos)%list_elem_of_fmap. apply elem_of_seq.
  rewrite Forall_forall in Hlt. specialize (Hlt pos Hpos). lia.
Qed.

End ledger.

Lemma inv_start grid p : inv grid (start p).
Proof. split; simpl; constructor. Qed.


(** ** Accounting *)

Lemma profits_app t1 t2 : profits (t1 ++ t2) = profits t1 ++ profits t2.
Proof. unfold profits. by rewrite filter_app, omap_app. Qed.

Lemma profits_sells b bal closed :
  profits (sells b bal closed) =
  (λ pos, qty pos * (close b - entry_price pos)) <$> closed.
Proof.
  revert bal. induction closed as [|pos closed IH]; intros bal; [done|].
  simpl. unfold profits in *. rewrite filter_cons_True by done. simpl.
  by rewrite IH.
Qed.

Lemma foldl_credit b bal l :
  foldl (credit b) bal l == bal + Qsum ((λ pos, qty pos * close b) <$> l).
Proof.
  revert bal. induction l as [|pos l IH]; intros bal.
  - unfold Qsum. simpl. ring.
  - rewrite fmap_cons, Qsum_cons. cbn [foldl]. rewrite IH. unfold credit. ring.
Qed.

Lemma Qsum_filter_split {A} (f : A → Q) (P : A → Prop)
    `{!∀ x, Decision (P x)} l :
  Qsum (f <$> l) ==
  Qsum (f <$> filter P l) + Qsum (f <$> filter (λ x, ¬ P x) l).
Proof.
  induction l as [|x l IH]; [done|]. rewrite fmap_cons, Qsum_cons, IH.
  destruct (decide (P x)).
  - rewrite (filter_cons_True P), (filter_cons_False (λ x, ¬ P x)) by tauto.
    rewrite fmap_cons, Qsum_cons. ring.
  - rewrite (filter_cons_False P), (filter_cons_True (λ x, ¬ P x)) by tauto.
    rewrite fmap_cons, Qsum_cons. ring.
Qed.

Section accounting.
Context (p : params) (grid : list Q).

Lemma try_buy_book b st j g : book (try_buy p b st j g) == book st.
Proof.
  destruct (try_buy_cases p b st j g)
    as [->|(_ & _ & pos & _ & He & _ & Hb & Hp & t & Ht & Hn & Htr)]; [done|].
  unfold book, cost_basis, realized. rewrite Hb, Hp, Htr, profits_app.
  rewrite fmap_app, !Qsum_app. unfold profits at 2.
  rewrite filter_cons_False by (by rewrite Ht). simpl. rewrite He.
  unfold Qsum. simpl. ring.
Qed.

Lemma fill_from_book b rest j st : book (fill_from p b j rest st) == book st.
Proof.
  revert j st. induction rest as [|g rest IH]; intros j st; simpl; [done|].
  by rewrite IH, try_buy_book.
Qed.

(** A step conserves the book value: what a purchase takes from the
    balance is the cost of the new position, and what a sale adds is the
    cost of the closed position plus its profit. *)
Lemma step_ref_book st b : book (step_ref p grid st b) == book st.
Proof.
  rewrite <-(fill_from_book b grid 0 st).
  unfold step_ref, book, cost_basis, realized. simpl.
  rewrite foldl_credit, profits_app, Qsum_app, profits_sells.
  set (st' := fill_from p b 0 grid st).
  rewrite (Qsum_filter_split (λ pos, qty pos * entry_price pos)
             (λ pos, closes_at p b pos = true) (positions st')).
  set (closed := filter (λ pos, closes_at p b pos = true) (positions st')).
  assert (Qsum ((λ pos, qty pos * (close b - entry_price pos)) <$> closed) ==
          Qsum ((λ pos, qty pos * close b) <$> closed) -
          Qsum ((λ pos, qty pos * entry_price pos) <$> closed)) as ->.
  { induction closed as [|pos l IH]; [done|].
    rewrite !fmap_cons, !Qsum_cons, IH. ring. }
  ring.
Qed.

Lemma run_ref_book st bars : book (run_ref p grid st bars) == book st.
Proof.
  revert st. induction bars as [|b bars IH]; intros st; [done|].
  change (run_ref p grid st (b :: bars))
    with (run_ref p grid (step_ref p grid st b) bars).
  rewrite IH. apply step_ref_book.
Qed.

End accounting.

Lemma foldl_mark cp bal l :
  foldl (λ acc pos, acc + qty pos * cp) bal l ==
  bal + Qsum ((λ pos, qty pos * cp) <$> l).
Proof.
  revert bal. induction l as [|pos l IH]; intros bal.
  - unfold Qsum. simpl. ring.
  - rewrite fmap_cons, Qsum_cons. cbn [foldl]. rewrite IH. ring.
Qed.


(** ** Solvency and profits *)

Lemma Qdiv_nonneg a c : 0 <= a → 0 < c → 0 <= a / c.
Proof.
  intros Ha Hc. apply Qle_shift_div_l; [done|]. by rewrite Qmult_0_l.
Qed.

Lemma Qsum_nonneg l : Forall (λ x, 0 <= x) l → 0 <= Qsum l.
Proof.
  intros H%Qsum_ge_const. by rewrite Qmult_0_r in H.
Qed.

Section solvency.
Context (p : params) (grid : list Q).
Context (Hsize : 0 <= position_size p <= 1).

Lemma try_buy_solvent b st j g :
  0 < close b → solvent st → solvent (try_buy p b st j g).
Proof.
  intros Hc [Hbal Hpos].
  destruct (try_buy_cases p b st j g)
    as [->|(_ & _ & pos & _ & He & Hq & Hb & Hp & _)]; [done|].
  assert (0 <= qty pos) as Hqty.
  { rewrite Hq. apply Qdiv_nonneg; [nra | done]. }
  assert (qty pos * close b == balance st * position_size p) as Hcost.
  { rewrite Hq. field. lra. }
  split.
  - rewrite Hb, Hcost. nra.
  - rewrite Hp. apply Forall_app. split; [done|]. apply Forall_singleton.
    by rewrite He.
Qed.

Lemma fill_from_solvent b rest j st :
  0 < close b → solvent st → solvent (fill_from p b j rest st).
Proof.
  intros Hc. revert j st. induction rest as [|g rest IH]; intros j st H; simpl;
    [done|]. by apply IH, try_buy_solvent.
Qed.

Lemma step_ref_solvent st b :
  0 < close b → solvent st → solvent (step_ref p grid st b).
Proof.
  intros Hc [Hbal Hpos]%(fill_from_solvent b grid 0 st Hc). split; simpl.
  - rewrite foldl_credit.
    assert (0 <= Qsum ((λ pos, qty pos * close b) <$>
              filter (λ pos, closes_at p b pos = true)
                (positions (fill_from p b 0 grid st)))); [|lra].
    apply Qsum_nonneg, Forall_fmap, Forall_forall.
    intros pos [_ Hin]%list_elem_of_filter.
    rewrite Forall_forall in Hpos. destruct (Hpos pos Hin). simpl. nra.
  - rewrite Forall_forall in Hpos |- *.
    intros pos [_ Hin]%list_elem_of_filter. auto.
Qed.

(** With a fraction between 0 and 1 and positive prices, the balance is
    never negative and every position is a purchase of a non-negative
    quantity. *)
Lemma run_ref_solvent st bars :
  bars_positive bars → solvent st → solvent (run_ref p grid st bars).
Proof.
  intros Hbars. revert st.
  induction Hbars as [|b bars Hb _ IH]; intros st H; simpl; [done|].
  by apply IH, step_ref_solvent.
Qed.

Context (Hmarkup : 0 <= close_markup p).

Lemma step_ref_profits st b :
  0 < close b → solvent st →
  Forall (λ x, 0 <= x) (profits (trades st)) →
  Forall (λ x, 0 <= x) (profits (trades (step_ref p grid st b))).
Proof.
  intros Hc Hs Hpr.
  pose proof (fill_from_solvent b grid 0 st Hc Hs) as [_ Hpos].
  assert (profits (trades (fill_from p b 0 grid st)) = profits (trades st)) as E.
  { clear. generalize 0%nat. revert st.
    induction grid as [|g rest IH]; intros st j; simpl; [done|].
    rewrite IH.
    destruct (try_buy_cases p b st j g)
      as [->|(_ & _ & _ & _ & _ & _ & _ & _ & t & Ht & _ & ->)]; [done|].
    rewrite profits_app. unfold profits at 2.
    rewrite filter_cons_False by (by rewrite Ht). simpl. by rewrite app_nil_r. }
  simpl. rewrite profits_app, E, profits_sells.
  apply Forall_app. split; [done|]. apply Forall_fmap, Forall_forall.
  intros pos [Hcl Hin]%list_elem_of_filter.
  rewrite Forall_forall in Hpos. destruct (Hpos pos Hin) as [Hq He].
  unfold closes_at in Hcl. apply Qle_bool_iff in Hcl. simpl.
  assert (entry_price pos <= close b) by nra. nra.
Qed.

(** With a non-negative markup no sale realises a loss. *)
Lemma run_ref_profits st bars :
  bars_positive bars → solvent st →
  Forall (λ x, 0 <= x) (profits (trades st)) →
  Forall (λ x, 0 <= x) (profits (trades (run_ref p grid st bars))).
Proof.
  intros Hbars. revert st.
  induction Hbars as [|b bars Hb _ IH]; intros st Hs Hp; simpl; [done|].
  apply IH; [by apply step_ref_solvent | by apply step_ref_profits].
Qed.

End solvency.


(** ** Counting trades *)

Lemma filter_split_length {A} (P : A → Prop) `{!∀ x, Decision (P x)} l :
  (length (filter P l) + length (filter (λ x, ¬ P x) l) = length l)%nat.
Proof.
  induction l as [|x l IH]; [done|]. destruct (decide (P x)).
  - rewrite (filter_cons_True P), (filter_cons_False (λ x, ¬ P x)) by tauto.
    simpl. lia.
  - rewrite (filter_cons_False P), (filter_cons_True (λ x, ¬ P x)) by tauto.
    simpl. lia.
Qed.

Lemma sells_count b bal closed :
  filter (λ t, type t = buy) (sells b bal closed) = [] ∧
  length (filter (λ t, type t = sell) (sells b bal closed)) = length closed.
Proof.
  revert bal. induction closed as [|pos closed IH]; intros bal; [done|].
  cbn [sells]. rewrite filter_cons_False, filter_cons_True by done.
  destruct (IH (credit b bal pos)) as [E1 E2]. rewrite E1. simpl.
  by rewrite E2.
Qed.

Section counting.
Context (p : params) (grid : list Q).

Lemma try_buy_count b st j g :
  (length (positions st) + n_sell st = n_buy st)%nat →
  (length (positions (try_buy p b st j g)) + n_sell (try_buy p b st j g)
   = n_buy (try_buy p b st j g))%nat.
Proof.
  intros H. unfold n_buy, n_sell in *.
  destruct (try_buy_cases p b st j g)
    as [->|(_ & _ & pos & _ & _ & _ & _ & -> & t & Ht & _ & ->)]; [done|].
  rewrite !filter_app, !length_app.
  rewrite (filter_cons_False _ t), (filter_cons_True _ t) by (by rewrite ?Ht).
  simpl. lia.
Qed.

Lemma fill_from_count b rest j st :
  (length (positions st) + n_sell st = n_buy st)%nat →
  (length (positions (fill_from p b j rest st)) + n_sell (fill_from p b j rest st)
   = n_buy (fill_from p b j rest st))%nat.
Proof.
  revert j st. induction rest as [|g rest IH]; intros j st H; simpl; [done|].
  by apply IH, try_buy_count.
Qed.

Lemma step_ref_count st b :
  (length (positions st) + n_sell st = n_buy st)%nat →
  (length (positions (step_ref p grid st b)) + n_sell (step_ref p grid st b)
   = n_buy (step_ref p grid st b))%nat.
Proof.
  intros H%(fill_from_count b grid 0). unfold n_buy, n_sell in *. simpl.
  rewrite !filter_app, !length_app.
  destruct (sells_count b (balance (fill_from p b 0 grid st))
    (filter (λ pos, closes_at p b pos = true)
       (positions (fill_from p b 0 grid st)))) as [-> ->].
  pose proof (filter_split_length (λ pos, closes_at p b pos = true)
                (positions (fill_from p b 0 grid st))).
  simpl. lia.
Qed.

(** Every open position was bought and not sold: the purchases are the
    sales plus the open positions. *)
Lemma run_ref_count st bars :
  (length (positions st) + n_sell st = n_buy st)%nat →
  (length (positions (run_ref p grid st bars)) + n_sell (run_ref p grid st bars)
   = n_buy (run_ref p grid st bars))%nat.
Proof.
  revert st. induction bars as [|b bars IH]; intros st H; simpl; [done|].
  by apply IH, step_ref_count.
Qed.

End counting.

(** ** The function *)

Lemma Qsum_gain cp l :
  Qsum ((λ pos, qty pos * (cp - entry_price pos)) <$> l) ==
  Qsum ((λ pos, qty pos * cp) <$> l) -
  Qsum ((λ pos, qty pos * entry_price pos) <$> l).
Proof.
  induction l as [|x l IH]; [done|]. rewrite !fmap_cons, !Qsum_cons, IH. ring.
Qed.

Lemma last_default {A} (l : list A) d x : last l = Some x → List.last l d = x.
Proof.
  induction l as [|y [|z l] IH]; simpl in *; intros; simplify_eq; auto.
Qed.

(** *** The ledger of a run *)

Section ledger_facts.
Context (p : params) (bars : list bar).

Lemma ledger_positions_bounded :
  (Z.of_nat (length (positions (ledger p bars))) ≤ Z.max 0 (max_positions p))%Z.
Proof.
  unfold ledger. set (grid := grid_prices _ _ _).
  pose proof (positions_bounded grid _
    (inv_run_ref p grid (start p) bars (inv_start grid p))) as Hle.
  unfold grid at 2 in Hle. rewrite grid_prices_length in Hle. lia.
Qed.

Lemma ledger_book : book (ledger p bars) == initial_balance p.
Proof.
  unfold ledger. rewrite run_ref_book.
  unfold book, cost_basis, realized, Qsum. simpl. ring.
Qed.

Lemma ledger_count :
  (length (positions (ledger p bars)) + n_sell (ledger p bars)
   = n_buy (ledger p bars))%nat.
Proof. by apply run_ref_count. Qed.

Lemma ledger_trades :
  length (trades (ledger p bars)) = (n_buy (ledger p bars) + n_sell (ledger p bars))%nat.
Proof.
  unfold n_buy, n_sell.
  rewrite <-(filter_split_length (λ t, type t = buy) (trades (ledger p bars))).
  f_equal. f_equal. apply list_filter_iff. intros t. destruct (type t); naive_solver.
Qed.

Lemma ledger_solvent :
  0 <= position_size p <= 1 → 0 <= initial_balance p → bars_positive bars →
  solvent (ledger p bars).
Proof.
  intros. apply run_ref_solvent; [done..|]. split; [done | constructor].
Qed.

Lemma ledger_profits :
  0 <= position_size p <= 1 → 0 <= close_markup p → 0 <= initial_balance p →
  bars_positive bars →
  Forall (λ x, 0 <= x) (profits (trades (ledger p bars))).
Proof.
  intros. apply run_ref_profits; [done..| |constructor].
  split; [done | constructor].
Qed.

End ledger_facts.

(** What a call that returns has computed. *)
Lemma backtest_inv bars config r :
  simple_grid_strategy_backtest bars config = Ok r →
  ∃ p first rest,
    read_config config = Ok p ∧ bars = first :: rest ∧
    let st := ledger p bars in
    let current_price := close (List.last bars first) in
    res_initial_balance r = initial_balance p ∧
    final_balance r =
      foldl (λ acc pos, acc + qty pos * current_price) (balance st) (positions st) ∧
    Ok (total_return_pct r) =
      total_return (initial_balance p) (final_balance r) (trades st) ∧
    total_trades r = length (trades st) ∧
    buy_trades r = n_buy st ∧ sell_trades r = n_sell st ∧
    total_profit r = realized st ∧
    remaining_positions r = length (positions st) ∧
    res_trades r = trades st.
Proof.
  unfold simple_grid_strategy_backtest.
  destruct (read_config config) as [p|]; [|done].
  destruct bars as [|first rest]; [done|]. cbn [mbind result_bind].
  rewrite run_run_ref by apply inv_start. cbn [mbind result_bind].
  destruct (total_return _ _ _) as [tr|] eqn:E; [|done].
  intros [= <-]. exists p, first, rest.
  split_and!; done.
Qed.

(** C5: The result balances: the final balance is the initial balance plus
    the realised profit plus the gain or loss, at the last close, of the
    positions still open. *)
Lemma backtest_accounting bars config r :
  simple_grid_strategy_backtest bars config = Ok r →
  ∃ p b_last, read_config config = Ok p ∧ last bars = Some b_last ∧
    length (positions (ledger p bars)) = remaining_positions r ∧
    final_balance r == res_initial_balance r + total_profit r +
      Qsum ((λ pos, qty pos * (close b_last - entry_price pos))
              <$> positions (ledger p bars)).
Proof.
  intros (p & first & rest & Hp & -> & Hi & Hf & _ & _ & _ & _ & Ht & Hn & _)
    %backtest_inv.
  assert (is_Some (last (first :: rest))) as [b_last El] by by apply last_is_Some.
  exists p, b_last. split_and!; try done.
  rewrite Hf, Hi, Ht, foldl_mark, (last_default _ _ _ El), Qsum_gain.
  pose proof (ledger_book p (first :: rest)) as Hb.
  unfold book, cost_basis in Hb. lra.
Qed.

(** With no position left open, the final balance is the initial balance
    plus the realised profit. *)
Lemma backtest_flat_balance bars config r :
  simple_grid_strategy_backtest bars config = Ok r →
  remaining_positions r = 0%nat →
  final_balance r == res_initial_balance r + total_profit r.
Proof.
  intros (p & first & rest & Hp & -> & Hi & Hf & _ & _ & _ & _ & Ht & Hn & _)
    %backtest_inv Hz.
  rewrite Hn in Hz. apply nil_length_inv in Hz.
  pose proof (ledger_book p (first :: rest)) as Hb.
  unfold book, cost_basis in Hb.
  rewrite Hf, Hi, Ht, Hz. rewrite Hz in Hb. cbn [foldl].
  change (Qsum (_ <$> [])) with 0 in Hb. lra.
Qed.

(** The counts of the result: every trade is a purchase or a sale, the
    purchases are the sales plus the positions left open, and these are
    at most [n_positions]. *)
Lemma backtest_counts bars config r :
  simple_grid_strategy_backtest bars config = Ok r →
  total_trades r = (buy_trades r + sell_trades r)%nat ∧
  buy_trades r = (sell_trades r + remaining_positions r)%nat ∧
  ∃ p, read_config config = Ok p ∧
    (Z.of_nat (remaining_positions r) ≤ Z.max 0 (max_positions p))%Z.
Proof.
  intros (p & first & rest & Hp & -> & _ & _ & _ & Htt & Hb & Hs & _ & Hn & _)
    %backtest_inv.
  rewrite Htt, Hb, Hs, Hn.
  pose proof (ledger_count p (first :: rest)).
  split_and!; [apply ledger_trades | lia |].
  exists p. split; [done | apply ledger_positions_bounded].
Qed.

(** With a fraction between 0 and 1, a non-negative markup, a
    non-negative initial balance and positive closes, no sale realises a
    loss and the final balance is not negative. *)
Lemma backtest_no_loss bars config p r :
  read_config config = Ok p →
  0 <= position_size p <= 1 → 0 <= close_markup p → 0 <= initial_balance p →
  bars_positive bars →
  simple_grid_strategy_backtest bars config = Ok r →
  0 <= final_balance r ∧ 0 <= total_profit r ∧
  Forall (λ x, 0 <= x) (profits (res_trades r)).
Proof.
  intros Hp Hsize Hm Hi Hbars
    (p' & first & rest & Hp' & -> & _ & Hf & _ & _ & _ & _ & Ht & _ & Htr)
    %backtest_inv.
  rewrite Hp in Hp'. injection Hp' as <-.
  destruct (ledger_solvent p _ Hsize Hi Hbars) as [Hbal Hpos].
  pose proof (ledger_profits p _ Hsize Hm Hi Hbars) as Hpr.
  rewrite Hf, Ht, Htr, foldl_mark. split_and!; [|by apply Qsum_nonneg|done].
  match goal with |- 0 <= _ + ?s => assert (0 <= s); [|lra] end.
  apply Qsum_nonneg, Forall_fmap, Forall_forall. intros pos Hin.
  rewrite Forall_forall in Hpos. destruct (Hpos pos Hin) as [Hq _].
  assert (0 < close (List.last (first :: rest) first)); [|unfold compose; nra].
  unfold bars_positive in Hbars. rewrite Forall_forall in Hbars.
  apply Hbars. assert (is_Some (last (first :: rest))) as [b El]
    by by apply last_is_Some.
  rewrite (last_default _ _ _ El). by apply last_Some_elem_of.
Qed.

(** The function returns on every valid configuration with a non-zero
    initial balance and a non-empty series. *)
Lemma backtest_total bars config p :
  read_config config = Ok p → bars ≠ [] → ¬ initial_balance p == 0 →
  is_ok (simple_grid_strategy_backtest bars config) = true.
Proof.
  intros Hp Hne Hi. unfold simple_grid_strategy_backtest. rewrite Hp.
  destruct bars as [|first rest]; [done|]. cbn [mbind result_bind].
  rewrite run_run_ref by apply inv_start. cbn [mbind result_bind].
  unfold total_return.
  destruct (Qeq_bool (initial_balance p) 0) eqn:E; [|done].
  by apply Qeq_bool_iff in E.
Qed.

(** On an empty series the function raises [IndexError], after the
    configuration was read. *)
Lemma backtest_empty config p :
  read_config config = Ok p →
  simple_grid_strategy_backtest [] config =
  Raise (IndexError "single positional indexer is out-of-bounds").
Proof. intros Hp. unfold simple_grid_strategy_backtest. by rewrite Hp. Qed.


(** ** Examples *)

Example read_config_default : read_config default_config = Ok demo_params.
Proof. reflexivity. Qed.

(** The levels of the script's configuration below 50000 are 500 apart:
    49500, 49000, 48500. *)
Example scenario_grid_levels :
  grid_prices 50000 0.01 3 ≡ [49500; 49000; 48500].
Proof. repeat (constructor; [by vm_compute|]). constructor. Qed.

Lemma demo_ok : ∃ r, simple_grid_strategy_backtest demo_bars default_config = Ok r.
Proof. vm_compute. by eexists. Qed.

Lemma demo_positive : bars_positive demo_bars.
Proof. by_compute. Qed.

Lemma grid_prices_arithmetic_witness :
  ∃ x y, grid_prices 50000 0.01 3 !! 0%nat = Some x ∧
    grid_prices 50000 0.01 3 !! 1%nat = Some y ∧ x - y == 50000 * 0.01.
Proof.
  eexists _, _. split; [reflexivity|]. split; [reflexivity|].
  exact (grid_prices_arithmetic 50000 0.01 3 0 _ _ eq_refl eq_refl).
Defined.

Lemma run_ok_witness :
  let grid := grid_prices 50000 0.01 5 in
  run demo_params grid (start demo_params) demo_bars =
  Ok (run_ref demo_params grid (start demo_params) demo_bars).
Proof.
  intros grid.
  exact (run_ok demo_params grid (start demo_params) demo_bars
           (inv_start grid demo_params)).
Defined.

Lemma positions_bounded_witness :
  let grid := grid_prices 50000 0.01 5 in
  (length (positions (run_ref demo_params grid (start demo_params) demo_bars))
   ≤ length grid)%nat.
Proof.
  intros grid. apply (positions_bounded grid).
  apply inv_run_ref, inv_start.
Defined.

Lemma backtest_accounting_witness :
  ∃ r p b_last, simple_grid_strategy_backtest (take 3 demo_bars) default_config = Ok r ∧
    read_config default_config = Ok p ∧ last (take 3 demo_bars) = Some b_last ∧
    remaining_positions r = 2%nat ∧
    final_balance r == res_initial_balance r + total_profit r +
      Qsum ((λ pos, qty pos * (close b_last - entry_price pos))
              <$> positions (ledger p (take 3 demo_bars))).
Proof.
  assert (∃ r, simple_grid_strategy_backtest (take 3 demo_bars) default_config
               = Ok r ∧ remaining_positions r = 2%nat) as (r & E & Hn).
  { vm_compute. by eexists. }
  destruct (backtest_accounting _ _ r E) as (p & b_last & Hp & Hl & _ & Hf).
  exists r, p, b_last. by split_and!.
Defined.

Lemma backtest_flat_balance_witness :
  ∃ r, simple_grid_strategy_backtest demo_bars default_config = Ok r ∧
    remaining_positions r = 0%nat ∧
    final_balance r == res_initial_balance r + total_profit r.
Proof.
  assert (∃ r, simple_grid_strategy_backtest demo_bars default_config = Ok r ∧
               remaining_positions r = 0%nat) as (r & E & Hz).
  { vm_compute. by eexists. }
  exact (ex_intro _ r (conj E (conj Hz (backtest_flat_balance _ _ r E Hz)))).
Defined.

Lemma backtest_counts_witness :
  ∃ r, simple_grid_strategy_backtest demo_bars default_config = Ok r ∧
    total_trades r = (buy_trades r + sell_trades r)%nat ∧
    buy_trades r = (sell_trades r + remaining_positions r)%nat.
Proof.
  destruct demo_ok as [r E].
  destruct (backtest_counts _ _ r E) as (H1 & H2 & _).
  exact (ex_intro _ r (conj E (conj H1 H2))).
Defined.

Lemma backtest_no_loss_witness :
  ∃ r, simple_grid_strategy_backtest demo_bars default_config = Ok r ∧
    0 <= final_balance r ∧ 0 <= total_profit r.
Proof.
  destruct demo_ok as [r E].
  assert (0 <= position_size demo_params <= 1) as Hs by by_compute.
  assert (0 <= close_markup demo_params) as Hm by by_compute.
  assert (0 <= initial_balance demo_params) as Hi by by_compute.
  destruct (backtest_no_loss demo_bars default_config demo_params r
              read_config_default Hs Hm Hi demo_positive E) as (H1 & H2 & _).
  exact (ex_intro _ r (conj E (conj H1 H2))).
Defined.

Lemma backtest_total_witness :
  is_ok (simple_grid_strategy_backtest demo_bars default_config) = true.
Proof.
  apply (backtest_total demo_bars default_config demo_params read_config_default);
    by_compute.
Defined.

Lemma backtest_empty_witness :
  simple_grid_strategy_backtest [] default_config =
  Raise (IndexError "single positional indexer is out-of-bounds").
Proof. exact (backtest_empty default_config demo_params read_config_default). Defined.

End Grid.
