(* ===== verification/Configs.v ===== *)
(** * The configurations of the scripts

    [create_simple_backtest_config] is the configuration that
    [simple_backtest_demo.py] builds and writes for the backtester.  It is
    data; what is proved of it is that the components of the repository
    that read a configuration find in it what they look up, or do not. *)

From Stdlib Require Import QArith ZArith.
From stdpp Require Import prelude strings.
From S2P Require Import Prelude PyDict PyVal BaseStrategy MACrossover DefaultStrategy GridBacktest.

#[local] Open Scope Q_scope.

Definition create_simple_backtest_config : pyval :=
  PDict [
    ("backtest", PDict [
      ("base_dir", PStr "backtests");
      ("combine_ohlcvs", PBool true);
      ("compress_cache", PBool false);
      ("end_date", PStr "2024-01-31");
      ("exchanges", PList [PStr "binance"]);
      ("gap_tolerance_ohlcvs_minutes", PInt 120);
      ("start_date", PStr "2024-01-01");
      ("starting_balance", PInt 10000);
      ("use_btc_collateral", PBool true)]);
    ("bot", PDict [
      ("long", PDict [
        ("close_grid_markup_end", PFloat 0.003);
        ("close_grid_markup_start", PFloat 0.006);
        ("close_grid_qty_pct", PFloat 0.94);
        ("close_trailing_grid_ratio", PFloat (- 0.006));
        ("close_trailing_qty_pct", PFloat 0.27);
        ("close_trailing_retracement_pct", PFloat 0.0007);
        ("close_trailing_threshold_pct", PFloat 0.051);
        ("ema_span_0", PInt 279);
        ("ema_span_1", PInt 476);
        ("enforce_exposure_limit", PBool true);
        ("entry_grid_double_down_factor", PFloat 0.85);
        ("entry_grid_spacing_pct", PFloat 0.027);
        ("entry_grid_spacing_weight", PFloat 0.31);
        ("entry_initial_ema_dist", PFloat (- 0.004));
        ("entry_initial_qty_pct", PFloat 0.016);
        ("entry_trailing_double_down_factor", PFloat 3.04);
        ("entry_trailing_grid_ratio", PFloat 0.007);
        ("entry_trailing_retracement_pct", PFloat 0.014);
        ("entry_trailing_threshold_pct", PFloat 0.065);
        ("filter_noisiness_rolling_window", PInt 40);
        ("filter_volume_drop_pct", PFloat 0.51);
        ("filter_volume_rolling_window", PInt 1886);
        ("n_positions", PInt 7);
        ("total_wallet_exposure_limit", PInt 2);
        ("unstuck_close_pct", PFloat 0.041);
        ("unstuck_ema_dist", PFloat 0.003);
        ("unstuck_loss_allowance_pct", PFloat 0.002);
        ("unstuck_threshold", PFloat 0.68)]);
      ("short", PDict [
        ("close_grid_markup_end", PFloat 0.002);
        ("close_grid_markup_start", PFloat 0.020);
        ("close_grid_qty_pct", PFloat 0.052);
        ("close_trailing_grid_ratio", PFloat (- 0.127));
        ("close_trailing_qty_pct", PFloat 0.074);
        ("close_trailing_retracement_pct", PFloat 0.004);
        ("close_trailing_threshold_pct", PFloat (- 0.009));
        ("ema_span_0", PInt 1365);
        ("ema_span_1", PInt 985);
        ("enforce_exposure_limit", PBool true);
        ("entry_grid_double_down_factor", PFloat 3.41);
        ("entry_grid_spacing_pct", PFloat 0.037);
        ("entry_grid_spacing_weight", PFloat 1.66);
        ("entry_initial_ema_dist", PFloat 0.004);
        ("entry_initial_qty_pct", PFloat 0.016);
        ("entry_trailing_double_down_factor", PFloat 3.04);
        ("entry_trailing_grid_ratio", PFloat 0.007);
        ("entry_trailing_retracement_pct", PFloat 0.014);
        ("entry_trailing_threshold_pct", PFloat 0.065);
        ("filter_noisiness_rolling_window", PInt 40);
        ("filter_volume_drop_pct", PFloat 0.51);
        ("filter_volume_rolling_window", PInt 1886);
        ("n_positions", PInt 7);
        ("total_wallet_exposure_limit", PInt 2);
        ("unstuck_close_pct", PFloat 0.041);
        ("unstuck_ema_dist", PFloat 0.003);
        ("unstuck_loss_allowance_pct", PFloat 0.002);
        ("unstuck_threshold", PFloat 0.68)])]);
    ("live", PDict [
      ("approved_coins", PList [PStr "BTCUSDT"]);
      ("auto_gs", PBool false);
      ("empty_means_all_approved", PBool false);
      ("execution_delay_seconds", PFloat 0.0);
      ("filter_by_min_effective_cost", PBool false);
      ("forced_mode_long", PStr "n");
      ("forced_mode_short", PStr "n");
      ("ignored_coins", PDict [
        ("long", PList []);
        ("short", PList [])]);
      ("leverage", PFloat 1.0);
      ("market_orders_allowed", PBool false);
      ("max_n_cancellations_per_batch", PInt 100);
      ("max_n_creations_per_batch", PInt 100);
      ("max_n_restarts_per_day", PInt 10);
      ("mimic_backtest_1m_delay", PBool false);
      ("minimum_coin_age_days", PInt 30);
      ("ohlcvs_1m_rolling_window_days", PInt 7);
      ("ohlcvs_1m_update_after_minutes", PInt 1);
      ("pnls_max_lookback_days", PInt 30);
      ("price_distance_threshold", PFloat 0.002);
      ("time_in_force", PStr "GTC");
      ("user", PStr "test_user")])].

(** The default strategy built on this configuration. *)
Definition simple_default : Default.t :=
  {| Default.base :=
       {| Base.config := create_simple_backtest_config;
          Base.name := Default.class_name;
          Base.strategy_params := PDict [] |} |}.

Definition sides : list string := ["long"; "short"].

(** ** What the components find in it *)

Example simple_default_init :
  (Default.__init__ create_simple_backtest_config).1 = Ok simple_default.
Proof. reflexivity. Qed.

(** The grid backtest accepts the configuration. *)
Example simple_config_grid_params :
  Grid.read_config create_simple_backtest_config =
  Ok {| Grid.entry_spacing := 0.027; Grid.close_markup := 0.006;
        Grid.position_size := 0.016; Grid.max_positions := 7;
        Grid.initial_balance := 10000 |}.
Proof. reflexivity. Qed.

(** Every key the default strategy passes to the close functions is a
    number in the configuration, for both sides. *)
Lemma simple_config_close_keys pside key :
  pside ∈ sides → key ∈ Default.close_keys →
  is_Some (as_num (Default.cfg_arg simple_default pside key)).
Proof.
  revert pside key.
  assert (Forall (λ pside, Forall (λ key,
            is_Some (as_num (Default.cfg_arg simple_default pside key)))
            Default.close_keys) sides) as H by by_compute.
  intros pside key Hp Hk. rewrite Forall_forall in H.
  specialize (H pside Hp). rewrite Forall_forall in H. auto.
Qed.

(** The key [wallet_exposure_limit], which the default strategy passes to
    the entry functions, is not in the configuration (it has
    [total_wallet_exposure_limit]): the lookup gives [None], for any
    side. *)
Lemma simple_config_no_exposure_limit pside :
  Default.cfg_arg simple_default pside "wallet_exposure_limit" = PNone.
Proof.
  unfold Default.cfg_arg, Base.get_config_value. simpl.
  repeat (case_decide; simpl; try done).
Qed.

(** So the entry functions of the compiled module are called with [None]
    as their fifteenth argument. *)
Lemma simple_config_entry_args pside kw args :
  Default.entry_args simple_default pside kw = Ok args →
  args !! 14%nat = Some PNone.
Proof.
  intros (ex & b & s & p & Hex & _ & _ & _ & ->)%Default.entry_args_Ok.
  apply Default.exchange_args_Ok in Hex as (?&?&?&?&?&_&_&_&_&_&->).
  simpl. by rewrite simple_config_no_exposure_limit.
Qed.

Lemma simple_config_entry_args_witness :
  ∃ args, Default.entry_args simple_default "long" Default.demo_kw = Ok args ∧
    args !! 14%nat = Some PNone.
Proof.
  eexists. split; [reflexivity|].
  exact (simple_config_entry_args "long" Default.demo_kw _ eq_refl).
Defined.

(** The crossover strategy built on it runs with its default parameters:
    the configuration has no [strategy] entry. *)
Lemma simple_config_ma_defaults :
  ∃ self logs, MA.__init__ create_simple_backtest_config = (Ok self, logs) ∧
    MA.fast_period self = 10%Z ∧ MA.slow_period self = 20%Z.
Proof.
  destruct (MA.init_defaults
    (match create_simple_backtest_config with PDict d => d | _ => [] end) eq_refl)
    as (self & logs & H & Hf & Hs & _).
  by exists self, logs.
Qed.
