(* ===== verification/ConfigFix.v ===== *)
(** * Repair of the trading configuration ([fix_trading_config.py])

    [fix_trading_config] reads the configuration and the API keys from two
    JSON files, repairs three settings of the configuration against the
    keys (the user, the exchange, the execution delay), checks the
    leverage, and writes the configuration back when it changed anything.
    Any exception ends the call with [False].

    [Module ConfigFix] models the call on the content of the two files:
    a file is absent, unreadable, or holds a JSON object (a file whose
    top-level value is not an object is outside the model, and so is a
    failure of the write).  The outcome is the value returned and the
    configuration written, if any.  The four checks are [check_user],
    [check_exchange], [check_delay] and [check_leverage], composed by
    [repair] in the order of the code; [summary] holds the reads of the
    final report, which come after the write and can still fail; [run] is
    the body of the [try].  What is printed is not modelled, except the
    two lists [fixes_applied] and [issues_found]: the first decides
    whether the file is written.  Strings are byte strings.

    The theorems: each check is stable on what it produced, the repair is
    idempotent ([repair_idempotent], [run_idempotent]), it writes nothing
    but the three settings ([repair_frame]), it leaves a user with keys
    and an exchange that agrees with them ([repair_user_known],
    [repair_exchange_agrees]), and it can return [False] after it wrote
    the file only through the summary ([run_false_written]). *)

From Stdlib Require Import QArith ZArith.
From stdpp Require Import prelude strings.
From S2P Require Import Prelude PyDict PyVal.

#[local] Set Warnings "-clear-no-such-hyp".
#[local] Open Scope Q_scope.

Module ConfigFix.

Abbreviation json_object := (pydict string pyval).

(** [x in d] for a dictionary with string keys: a list or a dictionary is
    not hashable. *)
Definition in_dict (x : pyval) (d : json_object) : result bool :=
  match x with
  | PStr s => Ok (dmem s d)
  | PList _ | PDict _ => Raise (TypeError "unhashable type")
  | _ => Ok false
  end.

(** [v[0]] *)
Definition item0 (v : pyval) : result pyval :=
  match v with
  | PList (x :: _) => Ok x
  | PStr (String c _) => Ok (PStr (String c ""))
  | PList [] | PStr "" => Raise (IndexError "index out of range")
  | PDict _ => Raise (KeyError "0")
  | _ => Raise (TypeError "not subscriptable")
  end.

(** [v > n] for a number [n]. *)
Definition py_gt (v : pyval) (n : Q) : result bool :=
  match as_number v with
  | Some x => Ok (n <? x)
  | None => Raise (TypeError "'>' not supported")
  end.

Inductive fix_record : Type :=
| UserFix (user : pyval) (new_user : string)
| ExchangeFix (exchange api_exchange : pyval)
| DelayFix.

Inductive issue : Type := NoUser | ExchangeUnverified.

(** The local variables of the repair. *)
Record state : Type := {
  config : json_object;
  issues_found : list issue;
  fixes_applied : list fix_record;
}.

(** [config[k1][k2] = v], where [config[k1]] is a dictionary. *)
Definition set_nested (config : json_object) (k1 k2 : string) (v : pyval)
  : json_object :=
  match dget k1 config with
  | Some (PDict d) => dset k1 (PDict (dset k2 v d)) config
  | _ => config
  end.

(** [config.get("live", {}).get("user", "")] *)
Definition live_user (config : json_object) : result pyval :=
  py_get (default (PDict []) (dget "live" config)) "user" (PStr "").

Section repair.
Context (api_keys : json_object).

(** 1. The user. *)
Definition check_user (s : state) : result state :=
  match dget "live" (config s) with
  | None => Ok s
  | Some live_config =>
      user ← py_get live_config "user" (PStr "");
      known ← in_dict user api_keys;
      if (known : bool) then Ok s else
      let available_users := filter (λ k : string, k ≠ "referrals") (dkeys api_keys) in
      match available_users with
      | new_user :: _ =>
          Ok {| config := set_nested (config s) "live" "user" (PStr new_user);
                issues_found := issues_found s;
                fixes_applied := fixes_applied s ++ [UserFix user new_user] |}
      | [] =>
          Ok {| config := config s;
                issues_found := issues_found s ++ [NoUser];
                fixes_applied := fixes_applied s |}
      end
  end.

(** 2. The exchange. *)
Definition check_exchange (s : state) : result state :=
  match dget "backtest" (config s) with
  | None => Ok s
  | Some backtest =>
      has ← str_in "exchanges" backtest;
      if negb (has : bool) then Ok s else
      exchanges ← py_item backtest "exchanges";
      exchange ← (if py_truthy exchanges then item0 exchanges else Ok (PStr ""));
      user ← live_user (config s);
      known ← in_dict user api_keys;
      if (known : bool) then
        entry ← py_item (PDict api_keys) (match user with PStr u => u | _ => "" end);
        api_exchange ← py_get entry "exchange" (PStr "");
        if negb (py_eqb exchange api_exchange) then
          Ok {| config := set_nested (config s) "backtest" "exchanges"
                            (PList [api_exchange]);
                issues_found := issues_found s;
                fixes_applied :=
                  fixes_applied s ++ [ExchangeFix exchange api_exchange] |}
        else Ok s
      else
        Ok {| config := config s;
              issues_found := issues_found s ++ [ExchangeUnverified];
              fixes_applied := fixes_applied s |}
  end.

(** 3. The execution delay. *)
Definition check_delay (s : state) : result state :=
  match dget "live" (config s) with
  | None => Ok s
  | Some live =>
      execution_delay ← py_get live "execution_delay_seconds" PNone;
      match execution_delay with
      | PNone =>
          Ok {| config := set_nested (config s) "live"
                            "execution_delay_seconds" (PInt 0);
                issues_found := issues_found s;
                fixes_applied := fixes_applied s ++ [DelayFix] |}
      | _ => Ok s
      end
  end.

(** 4. The leverage: a warning only, but the comparison can raise. *)
Definition check_leverage (s : state) : result state :=
  match dget "live" (config s) with
  | None => Ok s
  | Some live =>
      leverage ← py_get live "leverage" (PFloat 1);
      _ ← py_gt leverage 10;
      Ok s
  end.

Definition repair (config : json_object) : result state :=
  s ← check_user {| config := config; issues_found := [];
                    fixes_applied := [] |};
  s ← check_exchange s;
  s ← check_delay s;
  check_leverage s.

(** The reads of the final summary, which can raise after the file was
    written. *)
Definition summary (config : json_object) : result unit :=
  _ ← match dget "live" config with
      | None => Ok PNone
      | Some live => py_get live "user" PNone
      end;
  _ ← match dget "backtest" config with
      | None => Ok PNone
      | Some bt => py_get bt "exchanges" (PList [])
      end;
  Ok ().

(** The body of the [try], on the two objects read: the value returned
    and the configuration written. *)
Definition run (config : json_object) : bool * option json_object :=
  match repair config with
  | Raise _ => (false, None)
  | Ok s =>
      let written :=
        match fixes_applied s with
        | [] => None
        | _ :: _ => Some (ConfigFix.config s)
        end in
      (is_ok (summary (ConfigFix.config s)), written)
  end.

End repair.

(** The content of a file: absent, unreadable, or a JSON object. *)
Definition file : Type := option (result json_object).

Definition fix_trading_config (config_file api_keys_file : file)
  : bool * option json_object :=
  match config_file, api_keys_file with
  | None, _ | _, None => (false, None)
  | Some (Raise _), _ | _, Some (Raise _) => (false, None)
  | Some (Ok config), Some (Ok api_keys) => run api_keys config
  end.

(** ** What the steps read and keep *)

(** What the steps read of a configuration. *)
Definition user_view (c : json_object) : option (result pyval) :=
  (λ live, py_get live "user" (PStr "")) <$> dget "live" c.

Definition delay_view (c : json_object) : option (result pyval) :=
  (λ live, py_get live "execution_delay_seconds" PNone) <$> dget "live" c.

Definition leverage_view (c : json_object) : option (result pyval) :=
  (λ live, py_get live "leverage" (PFloat 1)) <$> dget "live" c.

Definition backtest_view (c : json_object) : option pyval := dget "backtest" c.

(** A configuration is stable for a step when the step changes nothing
    of it and applies no fix. *)
Definition stable (step : state → result state) (c : json_object) : Prop :=
  ∀ i f, ∃ i', step {| config := c; issues_found := i; fixes_applied := f |}
             = Ok {| config := c; issues_found := i'; fixes_applied := f |}.

Section reads.
Context (api_keys : json_object).

(** The exchange the configuration names, and the one of the user's
    keys. *)
Definition exchange_reads (backtest : pyval) (user_r : result pyval)
  : result (pyval * option pyval) :=
  exchanges ← py_item backtest "exchanges";
  exchange ← (if py_truthy exchanges then item0 exchanges else Ok (PStr ""));
  user ← user_r;
  known ← in_dict user api_keys;
  if (known : bool) then
    entry ← py_item (PDict api_keys) (match user with PStr u => u | _ => "" end);
    api_exchange ← py_get entry "exchange" (PStr "");
    Ok (exchange, Some api_exchange)
  else Ok (exchange, None).

End reads.

(** The views a step does not write, and the list of fixes, which only
    grows and grows whenever the configuration changes. *)
Record frame (s s' : state) (user backtest delay : bool) : Prop := {
  frame_user : user = false → user_view (config s') = user_view (config s);
  frame_backtest :
    backtest = false → backtest_view (config s') = backtest_view (config s);
  frame_delay : delay = false → delay_view (config s') = delay_view (config s);
  frame_leverage : leverage_view (config s') = leverage_view (config s);
  frame_keys : dkeys (config s') = dkeys (config s);
  frame_other : ∀ k, k ≠ "live" → k ≠ "backtest" →
    dget k (config s') = dget k (config s);
  frame_fixes :
    fixes_applied s' = fixes_applied s ∧ config s' = config s ∨
    ∃ x l, fixes_applied s' = fixes_applied s ++ x :: l;
}.

Ltac rsimpl :=
  cbn [mbind result_bind config issues_found fixes_applied] in *.

(** ** Data for the examples *)

Definition demo_keys : json_object :=
  [("referrals", PDict [("binance", PStr "code")]);
   ("binance_01", PDict [("exchange", PStr "binance"); ("key", PStr "k");
                         ("secret", PStr "s")])].

Definition demo_config : json_object :=
  [("live", PDict [("user", PStr "bybit_01"); ("leverage", PFloat 5);
                   ("execution_delay_seconds", PNone)]);
   ("backtest", PDict [("exchanges", PList [PStr "bybit"]);
                       ("starting_balance", PInt 1000)])].

Definition demo_fixed : json_object :=
  [("live", PDict [("user", PStr "binance_01"); ("leverage", PFloat 5);
                   ("execution_delay_seconds", PInt 0)]);
   ("backtest", PDict [("exchanges", PList [PStr "binance"]);
                       ("starting_balance", PInt 1000)])].

(** A configuration whose user is the [referrals] entry of the keys. *)
Definition demo_referrals : json_object :=
  [("live", PDict [("user", PStr "referrals");
                   ("execution_delay_seconds", PInt 0)]);
   ("backtest", PDict [("exchanges", PList [PStr "binance"])])].

Definition demo_odd : json_object :=
  [("live", PDict [("user", PStr "binance_01")]);
   ("backtest", PList [PStr "binance"])].

(** ** Nested assignment *)

Lemma dget_set_nested_ne c k1 k2 v k :
  k ≠ k1 → dget k (set_nested c k1 k2 v) = dget k c.
Proof.
  intros. unfold set_nested. repeat case_match; try done.
  by rewrite dget_dset_ne.
Qed.

Lemma dget_set_nested c k1 k2 v d :
  dget k1 c = Some (PDict d) →
  dget k1 (set_nested c k1 k2 v) = Some (PDict (dset k2 v d)).
Proof. intros H. unfold set_nested. rewrite H. apply dget_dset_eq. Qed.

Lemma dkeys_set_nested c k1 k2 v : dkeys (set_nested c k1 k2 v) = dkeys c.
Proof.
  unfold set_nested. destruct (dget k1 c) as [[]|] eqn:E; try done.
  apply dkeys_dset_old, dget_is_Some. by rewrite E.
Qed.

(** What a step reads of the [live] section. *)
Lemma py_get_dset_ne d k k' v dflt :
  k ≠ k' → py_get (PDict (dset k v d)) k' dflt = py_get (PDict d) k' dflt.
Proof. intros. simpl. by rewrite dget_dset_ne. Qed.

Lemma py_get_Ok_dict v key dflt x :
  py_get v key dflt = Ok x → ∃ d, v = PDict d.
Proof. destruct v; simpl; intros; simplify_eq. eauto. Qed.

Lemma app_singleton_ne {A} (l : list A) x : l ++ [x] ≠ l.
Proof. intros H%(f_equal length). rewrite length_app in H. simpl in H. lia. Qed.

Lemma result_bind_Ok {A B} (m : result A) (f : A → result B) b :
  m ≫= f = Ok b ↔ ∃ a, m = Ok a ∧ f a = Ok b.
Proof. destruct m; simpl; naive_solver. Qed.

Lemma live_user_view c :
  live_user c = default (Ok (PStr "")) (user_view c).
Proof. unfold live_user, user_view. by destruct (dget "live" c). Qed.

(** Assigning one key of [live] leaves the reads of the other keys. *)
Lemma views_set_live c k v :
  backtest_view (set_nested c "live" k v) = backtest_view c ∧
  (k ≠ "user" → user_view (set_nested c "live" k v) = user_view c) ∧
  (k ≠ "execution_delay_seconds" →
   delay_view (set_nested c "live" k v) = delay_view c) ∧
  (k ≠ "leverage" → leverage_view (set_nested c "live" k v) = leverage_view c).
Proof.
  unfold backtest_view, user_view, delay_view, leverage_view.
  split; [by apply dget_set_nested_ne|].
  destruct (dget "live" c) as [[]|] eqn:E;
    try (unfold set_nested; rewrite E; by rewrite ?E).
  rewrite (dget_set_nested _ _ _ _ _ E). simpl.
  split_and!; intros; by rewrite dget_dset_ne.
Qed.

Lemma views_set_backtest c k v :
  user_view (set_nested c "backtest" k v) = user_view c ∧
  delay_view (set_nested c "backtest" k v) = delay_view c ∧
  leverage_view (set_nested c "backtest" k v) = leverage_view c.
Proof.
  unfold user_view, delay_view, leverage_view.
  by rewrite dget_set_nested_ne.
Qed.

Section repair_lemmas.
Context (api_keys : json_object).

Abbreviation available_users :=
  (filter (λ k : string, k ≠ "referrals") (dkeys api_keys)).

(** *** The user *)

Lemma check_user_eq s :
  check_user api_keys s =
  match user_view (config s) with
  | None => Ok s
  | Some r =>
      user ← r; known ← in_dict user api_keys;
      if (known : bool) then Ok s else
      match available_users with
      | new_user :: _ =>
          Ok {| config := set_nested (config s) "live" "user" (PStr new_user);
                issues_found := issues_found s;
                fixes_applied := fixes_applied s ++ [UserFix user new_user] |}
      | [] =>
          Ok {| config := config s;
                issues_found := issues_found s ++ [NoUser];
                fixes_applied := fixes_applied s |}
      end
  end.
Proof. unfold check_user, user_view. by destruct (dget "live" (config s)). Qed.

Lemma stable_user_congr c c' :
  user_view c = user_view c' →
  stable (check_user api_keys) c → stable (check_user api_keys) c'.
Proof.
  intros Hv Hst i f. destruct (Hst i f) as [i' Hi]. revert Hi.
  rewrite !check_user_eq. rsimpl. rewrite <-Hv.
  destruct (user_view c) as [[user|]|]; rsimpl; [|done|by eauto].
  destruct (in_dict user api_keys) as [[]|]; rsimpl; [by eauto| |done].
  destruct (filter _ _) as [|new_user ?]; intros; simplify_eq; [by eauto|].
  by destruct (app_singleton_ne f (UserFix user new_user)).
Qed.

Lemma check_user_post s s' :
  check_user api_keys s = Ok s' → stable (check_user api_keys) (config s').
Proof.
  rewrite check_user_eq. intros Hs i f. rewrite check_user_eq. rsimpl.
  destruct (user_view (config s)) as [[user|]|] eqn:Hv; rsimpl;
    [|done|simplify_eq; rewrite Hv; by eauto].
  destruct (in_dict user api_keys) as [[]|] eqn:Hk; rsimpl; [| |done].
  { simplify_eq. rewrite Hv. rsimpl. rewrite Hk. by eauto. }
  destruct (filter _ _) as [|new_user rest] eqn:Ha; simplify_eq; rsimpl.
  { rewrite Hv. rsimpl. rewrite Hk. by eauto. }
  unfold user_view in Hv |- *.
  destruct (dget "live" (config s)) as [[| | | | | |d]|] eqn:El; simplify_eq/=.
  rewrite (dget_set_nested _ _ _ _ _ El). simpl. rewrite dget_dset_eq. simpl.
  assert (new_user ∈ new_user :: rest) as Hin by left.
  rewrite <-Ha in Hin. apply list_elem_of_filter in Hin as [_ Hin].
  rewrite (proj2 (dmem_spec _ _) Hin). by eauto.
Qed.

(** *** The exchange *)

Lemma check_exchange_eq s :
  check_exchange api_keys s =
  match backtest_view (config s) with
  | None => Ok s
  | Some backtest =>
      has ← str_in "exchanges" backtest;
      if negb (has : bool) then Ok s else
      ' (exchange, api) ← exchange_reads api_keys backtest (live_user (config s));
      match api with
      | Some api_exchange =>
          if negb (py_eqb exchange api_exchange) then
            Ok {| config := set_nested (config s) "backtest" "exchanges"
                              (PList [api_exchange]);
                  issues_found := issues_found s;
                  fixes_applied :=
                    fixes_applied s ++ [ExchangeFix exchange api_exchange] |}
          else Ok s
      | None =>
          Ok {| config := config s;
                issues_found := issues_found s ++ [ExchangeUnverified];
                fixes_applied := fixes_applied s |}
      end
  end.
Proof.
  unfold check_exchange, backtest_view, exchange_reads.
  destruct (dget "backtest" (config s)) as [backtest|]; [|done].
  destruct (str_in "exchanges" backtest) as [[]|]; rsimpl; [|done..].
  cbn [negb].
  destruct (py_item backtest "exchanges") as [exchanges|]; rsimpl; [|done].
  destruct (if py_truthy exchanges then _ else _) as [exchange|]; rsimpl; [|done].
  destruct (live_user (config s)) as [user|]; rsimpl; [|done].
  destruct (in_dict user api_keys) as [[]|]; rsimpl; [|done..].
  destruct (py_item (PDict api_keys) (match user with PStr u => u | _ => "" end))
    as [entry|]; rsimpl; [|done].
  by destruct (py_get entry "exchange" (PStr "")).
Qed.

Lemma stable_exchange_congr c c' :
  backtest_view c = backtest_view c' → user_view c = user_view c' →
  stable (check_exchange api_keys) c → stable (check_exchange api_keys) c'.
Proof.
  intros Hb Hu Hst i f. destruct (Hst i f) as [i' Hi]. revert Hi.
  rewrite !check_exchange_eq, !live_user_view. rsimpl. rewrite <-Hb, <-Hu.
  destruct (backtest_view c) as [backtest|]; [|by eauto].
  destruct (str_in "exchanges" backtest) as [[]|]; rsimpl; [|by eauto|done].
  cbn [negb].
  destruct (exchange_reads _ _ _) as [[exchange [api_exchange|]]|]; rsimpl;
    [|by eauto|done].
  destruct (py_eqb exchange api_exchange); cbn [negb]; [by eauto|].
  intros; simplify_eq.
  by destruct (app_singleton_ne f (ExchangeFix exchange api_exchange)).
Qed.

Lemma json_wf_dget d k v : json_wf (PDict d) → dget k d = Some v → json_wf v.
Proof.
  inversion_clear 1 as [| | | | | |? _ Hvs]. intros Hin%dget_Some_elem_of.
  rewrite Forall_forall in Hvs. apply (Hvs _ Hin).
Qed.

Lemma exchange_reads_Some backtest user_r exchange api_exchange :
  json_wf (PDict api_keys) →
  exchange_reads api_keys backtest user_r = Ok (exchange, Some api_exchange) →
  json_wf api_exchange ∧
  ∃ d, backtest = PDict d ∧
    exchange_reads api_keys (PDict (dset "exchanges" (PList [api_exchange]) d)) user_r
    = Ok (api_exchange, Some api_exchange).
Proof.
  intros Hwf. unfold exchange_reads.
  destruct backtest as [| | | | | |d]; try done. simpl py_item.
  destruct (dget "exchanges" d) as [exchanges|]; [|done]. rsimpl.
  destruct (if py_truthy exchanges then _ else _) as [ex|]; [|done]. rsimpl.
  destruct user_r as [user|]; [|done]. rsimpl.
  destruct (in_dict user api_keys) as [[]|]; [|done..]. rsimpl.
  destruct (dget (match user with PStr u => u | _ => "" end) api_keys)
    as [entry|] eqn:E; [|done]. rsimpl.
  destruct (py_get entry "exchange" (PStr "")) as [api|] eqn:Ha; [|done].
  rsimpl. intros [= -> ->]. split.
  - pose proof (json_wf_dget _ _ _ Hwf E) as Hentry.
    destruct entry as [| | | | | |de]; simplify_eq/=.
    destruct (dget "exchange" de) eqn:Ee; simpl; [|constructor].
    by eapply json_wf_dget.
  - exists d. split; [done|]. rewrite dget_dset_eq. rsimpl.
    cbn [py_truthy item0]. rewrite bool_decide_eq_false_2 by done. by rsimpl.
Qed.

Lemma check_exchange_post s s' :
  json_wf (PDict api_keys) →
  check_exchange api_keys s = Ok s' →
  stable (check_exchange api_keys) (config s').
Proof.
  intros Hwf. rewrite check_exchange_eq. intros Hs i f.
  rewrite check_exchange_eq. rsimpl.
  destruct (backtest_view (config s)) as [backtest|] eqn:Hb;
    [|simplify_eq; rewrite Hb; by eauto].
  destruct (str_in "exchanges" backtest) as [[]|] eqn:Hh; rsimpl; cbn [negb] in *;
    [|simplify_eq; rewrite Hb; rsimpl; rewrite Hh; by eauto|done].
  destruct (exchange_reads _ _ _) as [[exchange [api_exchange|]]|] eqn:Hr; rsimpl;
    [| |done].
  2: { simplify_eq. rsimpl. rewrite Hb. rsimpl. rewrite Hh. cbn [negb].
       rewrite Hr. by eauto. }
  destruct (py_eqb exchange api_exchange) eqn:He; cbn [negb] in *.
  { simplify_eq. rewrite Hb. rsimpl. rewrite Hh. cbn [negb]. rewrite Hr.
    rsimpl. rewrite He. by eauto. }
  simplify_eq. rsimpl.
  destruct (exchange_reads_Some _ _ _ _ Hwf Hr) as (Hapi & d & -> & Hr').
  unfold backtest_view in *. rewrite (dget_set_nested _ _ _ _ _ Hb).
  rsimpl. cbn [str_in]. rewrite (proj2 (dmem_spec _ _)) by
    (apply elem_of_dkeys_dset; by left).
  rsimpl. cbn [negb]. rewrite !live_user_view in *.
  destruct (views_set_backtest (config s) "exchanges" (PList [api_exchange]))
    as (-> & _). rewrite Hr'. rsimpl. rewrite py_eqb_refl by done. by eauto.
Qed.

(** *** The execution delay and the leverage *)

Lemma check_delay_eq s :
  check_delay s =
  match delay_view (config s) with
  | None => Ok s
  | Some r =>
      execution_delay ← r;
      match execution_delay with
      | PNone =>
          Ok {| config := set_nested (config s) "live"
                            "execution_delay_seconds" (PInt 0);
                issues_found := issues_found s;
                fixes_applied := fixes_applied s ++ [DelayFix] |}
      | _ => Ok s
      end
  end.
Proof. unfold check_delay, delay_view. by destruct (dget "live" (config s)). Qed.

Lemma check_delay_post s s' :
  check_delay s = Ok s' → stable check_delay (config s').
Proof.
  rewrite check_delay_eq. intros Hs i f. rewrite check_delay_eq. rsimpl.
  destruct (delay_view (config s)) as [[delay|]|] eqn:Hv; rsimpl;
    [|done|simplify_eq; rewrite Hv; by eauto].
  destruct delay; simplify_eq; rsimpl;
    try (rewrite Hv; rsimpl; by eauto).
  unfold delay_view in *.
  destruct (dget "live" (config s)) as [[| | | | | |d]|] eqn:El; simplify_eq/=.
  rewrite (dget_set_nested _ _ _ _ _ El). simpl. rewrite dget_dset_eq. simpl.
  by eauto.
Qed.

Lemma check_leverage_eq s :
  check_leverage s =
  match leverage_view (config s) with
  | None => Ok s
  | Some r => leverage ← r; _ ← py_gt leverage 10; Ok s
  end.
Proof.
  unfold check_leverage, leverage_view. by destruct (dget "live" (config s)).
Qed.

Lemma check_leverage_Ok s s' : check_leverage s = Ok s' → s' = s.
Proof.
  rewrite check_leverage_eq. destruct (leverage_view _) as [[lev|]|]; rsimpl;
    [|done|congruence].
  destruct (py_gt lev 10); rsimpl; congruence.
Qed.

Lemma stable_delay_congr c c' :
  delay_view c = delay_view c' → stable check_delay c → stable check_delay c'.
Proof.
  intros Hv Hst i f. destruct (Hst i f) as [i' Hi]. revert Hi.
  rewrite !check_delay_eq. rsimpl. rewrite <-Hv.
  destruct (delay_view c) as [[delay|]|]; rsimpl; [|done|by eauto].
  destruct delay; intros; simplify_eq; try by eauto.
  by destruct (app_singleton_ne f DelayFix).
Qed.

(** *** What a step leaves unchanged *)

Lemma frame_refl s u b d : frame s s u b d.
Proof. split; auto. Qed.

Lemma frame_issue s i u b d :
  frame s {| config := config s; issues_found := i;
             fixes_applied := fixes_applied s |} u b d.
Proof. split; auto. Qed.

Lemma check_user_frame s s' :
  check_user api_keys s = Ok s' → frame s s' true false false.
Proof.
  rewrite check_user_eq.
  destruct (user_view (config s)) as [[user|]|]; rsimpl;
    [|done|intros [= <-]; apply frame_refl].
  destruct (in_dict user api_keys) as [[]|]; rsimpl;
    [intros [= <-]; apply frame_refl | |done].
  destruct (filter _ _) as [|new_user ?]; intros [= <-];
    [apply frame_issue|].
  destruct (views_set_live (config s) "user" (PStr new_user)) as (?&?&?&?).
  split; simpl;
    first [done | by auto | by eauto using dkeys_set_nested
          | by intros; apply dget_set_nested_ne].
Qed.

Lemma check_exchange_frame s s' :
  check_exchange api_keys s = Ok s' → frame s s' false true false.
Proof.
  rewrite check_exchange_eq.
  destruct (backtest_view (config s)) as [backtest|];
    [|intros [= <-]; apply frame_refl].
  destruct (str_in "exchanges" backtest) as [[]|]; rsimpl; cbn [negb];
    [|intros [= <-]; apply frame_refl|done].
  destruct (exchange_reads _ _ _) as [[exchange [api_exchange|]]|]; rsimpl;
    [|intros [= <-]; apply frame_issue|done].
  destruct (py_eqb exchange api_exchange); cbn [negb];
    intros [= <-]; [apply frame_refl|].
  destruct (views_set_backtest (config s) "exchanges" (PList [api_exchange]))
    as (?&?&?).
  split; simpl;
    first [done | by auto | by eauto using dkeys_set_nested
          | by intros; apply dget_set_nested_ne].
Qed.

Lemma check_delay_frame s s' :
  check_delay s = Ok s' → frame s s' false false true.
Proof.
  rewrite check_delay_eq.
  destruct (delay_view (config s)) as [[delay|]|]; rsimpl;
    [|done|intros [= <-]; apply frame_refl].
  destruct delay; intros [= <-]; try apply frame_refl.
  destruct (views_set_live (config s) "execution_delay_seconds" (PInt 0))
    as (?&?&?&?).
  split; simpl;
    first [done | by auto | by eauto using dkeys_set_nested
          | by intros; apply dget_set_nested_ne].
Qed.

(** *** The repair *)

Lemma repair_Ok c s :
  repair api_keys c = Ok s ↔
  ∃ s1 s2,
    check_user api_keys {| config := c; issues_found := [];
                           fixes_applied := [] |} = Ok s1 ∧
    check_exchange api_keys s1 = Ok s2 ∧ check_delay s2 = Ok s ∧
    check_leverage s = Ok s.
Proof.
  unfold repair. rewrite result_bind_Ok. setoid_rewrite result_bind_Ok.
  setoid_rewrite result_bind_Ok. split.
  - intros (s1 & ? & s2 & ? & s3 & ? & Hl).
    pose proof (check_leverage_Ok _ _ Hl) as ->. eauto 10.
  - intros (s1 & s2 & ? & ? & ? & ?). eauto 10.
Qed.

Lemma frame_trans s1 s2 s3 u1 b1 d1 u2 b2 d2 :
  frame s1 s2 u1 b1 d1 → frame s2 s3 u2 b2 d2 →
  frame s1 s3 (u1 || u2) (b1 || b2) (d1 || d2).
Proof.
  intros [Hu1 Hb1 Hd1 Hl1 Hk1 Ho1 Hf1] [Hu2 Hb2 Hd2 Hl2 Hk2 Ho2 Hf2].
  split; try congruence.
  - intros [-> ->]%orb_false_iff. by rewrite Hu2, Hu1.
  - intros [-> ->]%orb_false_iff. by rewrite Hb2, Hb1.
  - intros [-> ->]%orb_false_iff. by rewrite Hd2, Hd1.
  - intros k ??. by rewrite Ho2, Ho1.
  - destruct Hf2 as [[-> ->]|(x & l & ->)]; [done|]. right.
    destruct Hf1 as [[-> _]|(y & k & ->)]; [by eauto|].
    exists y, (k ++ x :: l). by rewrite <-app_assoc.
Qed.

Lemma frame_no_fix s s' u b d :
  frame s s' u b d → fixes_applied s = [] → fixes_applied s' = [] →
  config s' = config s.
Proof.
  intros [_ _ _ _ _ _ [[_ ?]|(x & l & Hx)]] Hs Hs'; [done|].
  rewrite Hs' in Hx. by destruct (app_cons_not_nil _ _ _ Hx).
Qed.

(** The repair writes the user, the exchanges and the execution delay,
    and nothing else: the leverage, the keys of the configuration and
    every section but [live] and [backtest] are as they were read. *)
Lemma repair_frame c s :
  repair api_keys c = Ok s →
  leverage_view (config s) = leverage_view c ∧ dkeys (config s) = dkeys c ∧
  (∀ k, k ≠ "live" → k ≠ "backtest" → dget k (config s) = dget k c) ∧
  (fixes_applied s = [] → config s = c).
Proof.
  intros (s1 & s2 & H1%check_user_frame & H2%check_exchange_frame
          & H3%check_delay_frame & _)%repair_Ok.
  pose proof (frame_trans _ _ _ _ _ _ _ _ _ (frame_trans _ _ _ _ _ _ _ _ _ H1 H2) H3)
    as H.
  split_and!;
    [apply (frame_leverage _ _ _ _ _ H) | apply (frame_keys _ _ _ _ _ H)
    | apply (frame_other _ _ _ _ _ H) |].
  intros Hf. by apply (frame_no_fix _ _ _ _ _ H).
Qed.

(** Every step is stable on the configuration the repair produced. *)
Lemma repair_stable c s :
  json_wf (PDict api_keys) → repair api_keys c = Ok s →
  stable (check_user api_keys) (config s) ∧
  stable (check_exchange api_keys) (config s) ∧ stable check_delay (config s).
Proof.
  intros Hwf (s1 & s2 & H1 & H2 & H3 & H4)%repair_Ok.
  pose proof (check_exchange_frame _ _ H2) as F2.
  pose proof (check_delay_frame _ _ H3) as F3.
  split_and!; [| |by eapply check_delay_post].
  - eapply stable_user_congr; [|by eapply check_user_post].
    by rewrite (frame_user _ _ _ _ _ F3), (frame_user _ _ _ _ _ F2).
  - eapply stable_exchange_congr; [| |by eapply check_exchange_post].
    + by rewrite (frame_backtest _ _ _ _ _ F3).
    + by rewrite (frame_user _ _ _ _ _ F3).
Qed.

(** A repaired configuration needs no repair: on the configuration it
    produced, the repair changes nothing and applies no fix. *)
Lemma repair_idempotent c s :
  json_wf (PDict api_keys) → repair api_keys c = Ok s →
  ∃ i, repair api_keys (config s) =
       Ok {| config := config s; issues_found := i; fixes_applied := [] |}.
Proof.
  intros Hwf Hr. destruct (repair_stable c s Hwf Hr) as (Su & Se & Sd).
  apply repair_Ok in Hr as (s1 & s2 & _ & _ & _ & H4).
  destruct (Su [] []) as [i1 E1], (Se i1 []) as [i2 E2], (Sd i2 []) as [i3 E3].
  exists i3. apply repair_Ok. eexists _, _. split_and!; [done..|].
  revert H4. rewrite !check_leverage_eq. rsimpl.
  destruct (leverage_view (config s)) as [[lev|]|]; rsimpl; [|done..].
  by destruct (py_gt lev 10).
Qed.

(** C25: After a repair, the first exchange of the backtest is the exchange of
    the user's keys, when the configuration lists exchanges and the user
    has keys.  The exchange of keys without an [exchange] field is the
    empty string. *)
Lemma repair_exchange_agrees c s backtest :
  json_wf (PDict api_keys) → repair api_keys c = Ok s →
  dget "backtest" (config s) = Some backtest →
  str_in "exchanges" backtest = Ok true →
  ∃ exchange api,
    exchange_reads api_keys backtest (live_user (config s)) = Ok (exchange, api) ∧
    ∀ api_exchange, api = Some api_exchange → py_eqb exchange api_exchange = true.
Proof.
  intros Hwf Hr Hb Hin. destruct (repair_stable c s Hwf Hr) as (_ & Se & _).
  destruct (Se [] []) as [i Hi]. revert Hi.
  rewrite check_exchange_eq. unfold backtest_view. rsimpl. rewrite Hb, Hin.
  rsimpl. cbn [negb].
  destruct (exchange_reads _ _ _) as [[exchange [api_exchange|]]|]; rsimpl;
    [|intros _; by eexists _, _|done].
  destruct (py_eqb exchange api_exchange) eqn:He; cbn [negb];
    [intros _; eexists _, _; split; [done|]; by intros ? [= <-]|].
  intros [=].
Qed.

(** After a repair, the user of the configuration has keys, when any
    user has. *)
Lemma repair_user_known c s :
  repair api_keys c = Ok s → is_Some (dget "live" c) →
  filter (λ k : string, k ≠ "referrals") (dkeys api_keys) ≠ [] →
  ∃ user, live_user (config s) = Ok user ∧ in_dict user api_keys = Ok true.
Proof.
  intros (s1 & s2 & H1 & H2%check_exchange_frame & H3%check_delay_frame & _)
    %repair_Ok [live Hl] Hav.
  rewrite live_user_view, (frame_user _ _ _ _ _ H3), (frame_user _ _ _ _ _ H2)
    by done.
  revert H1. rewrite check_user_eq. unfold user_view at 1. rsimpl.
  rewrite Hl. cbn [fmap option_fmap option_map].
  destruct live as [| | | | | |d]; try done. rsimpl. simpl py_get. rsimpl.
  destruct (in_dict _ api_keys) as [[]|] eqn:Hk; rsimpl; [| |done].
  - intros [= <-]. unfold user_view. rsimpl. rewrite Hl. simpl. eauto.
  - destruct (filter _ _) as [|new_user rest] eqn:Ha; [done|].
    intros [= <-]. unfold user_view. rsimpl.
    rewrite (dget_set_nested _ _ _ _ _ Hl). simpl. rewrite dget_dset_eq. simpl.
    eexists. split; [done|]. simpl. f_equal. apply dmem_spec.
    assert (new_user ∈ new_user :: rest) as Hin by left.
    rewrite <-Ha in Hin. by apply list_elem_of_filter in Hin as [_ Hin].
Qed.

(** C24: The call as a whole: run again on what it wrote (or on what it read,
    if it wrote nothing), a successful call succeeds and writes
    nothing. *)
Lemma run_idempotent c w :
  json_wf (PDict api_keys) → run api_keys c = (true, w) →
  run api_keys (default c w) = (true, None).
Proof.
  intros Hwf. unfold run.
  destruct (repair api_keys c) as [s|] eqn:Hr; [|done]. intros [= Hs Hw].
  assert (default c w = config s) as ->.
  { destruct (fixes_applied s) eqn:Hf; subst w; simpl; [|done].
    symmetry. by apply (repair_frame c s Hr). }
  destruct (repair_idempotent c s Hwf Hr) as [i ->]. simpl. by rewrite Hs.
Qed.

(** C26: A call that returns [False] after it wrote the file: the last reads
    of the summary fail, which happens when the [backtest] section is not
    an object. *)
Lemma run_false_written c c' :
  run api_keys c = (false, Some c') →
  ∃ bt, dget "backtest" c' = Some bt ∧ is_dict bt = false.
Proof.
  unfold run. destruct (repair api_keys c) as [s|] eqn:Hr; [|done].
  intros [= Hs Hw].
  assert (config s = c') as <- by (destruct (fixes_applied s); by simplify_eq).
  apply repair_Ok in Hr as (s1 & s2 & _ & _ & Hd%check_delay_post & _).
  destruct (Hd [] []) as [i Hi]. revert Hi Hs.
  rewrite check_delay_eq. unfold delay_view, summary. rsimpl.
  destruct (dget "live" (config s)) as [[| | | | | |d]|]; try done;
    cbn [fmap option_fmap option_map]; rsimpl; intros _;
    (destruct (dget "backtest" (config s)) as [[]|]; try done; by eauto).
Qed.

End repair_lemmas.

(** A missing or unreadable file ends the call with [False], and nothing
    is written. *)
Lemma fix_trading_config_missing config_file api_keys_file :
  is_ok <$> config_file ≠ Some true ∨ is_ok <$> api_keys_file ≠ Some true →
  fix_trading_config config_file api_keys_file = (false, None).
Proof.
  destruct config_file as [[]|], api_keys_file as [[]|]; simpl; try done.
  intros [[]|[]]; done.
Qed.


(** ** Examples *)

Lemma demo_keys_wf : json_wf (PDict demo_keys).
Proof.
  repeat first [done | constructor | by_compute].
Qed.

(** A configuration with an unknown user, the wrong exchange and no
    execution delay is repaired on all three counts. *)
Example demo_run : run demo_keys demo_config = (true, Some demo_fixed).
Proof. reflexivity. Qed.

Lemma run_idempotent_witness : run demo_keys demo_fixed = (true, None).
Proof.
  exact (run_idempotent demo_keys demo_config (Some demo_fixed)
           demo_keys_wf demo_run).
Defined.

Lemma repair_idempotent_witness :
  ∃ s i, repair demo_keys demo_config = Ok s ∧
    repair demo_keys (config s) =
    Ok {| config := config s; issues_found := i; fixes_applied := [] |}.
Proof.
  eexists. 
  destruct (repair_idempotent demo_keys demo_config _ demo_keys_wf eq_refl)
    as [i Hi].
  exists i. split; [reflexivity | exact Hi].
Defined.

Lemma repair_frame_witness :
  ∃ s, repair demo_keys demo_config = Ok s ∧
    leverage_view (config s) = leverage_view demo_config ∧
    dkeys (config s) = dkeys demo_config.
Proof.
  eexists. split; [reflexivity|].
  destruct (repair_frame demo_keys demo_config _ eq_refl) as (H1 & H2 & _).
  exact (conj H1 H2).
Defined.

Lemma repair_user_known_witness :
  ∃ s user, repair demo_keys demo_config = Ok s ∧
    live_user (config s) = Ok user ∧ in_dict user demo_keys = Ok true.
Proof.
  eexists.
  destruct (repair_user_known demo_keys demo_config _ eq_refl) as (user & H1 & H2).
  - by eexists.
  - by_compute.
  - exists user. split; [reflexivity|]. exact (conj H1 H2).
Defined.

Lemma repair_exchange_agrees_witness :
  ∃ exchange api,
    exchange_reads demo_keys
      (PDict [("exchanges", PList [PStr "binance"]);
              ("starting_balance", PInt 1000)])
      (live_user demo_fixed) = Ok (exchange, api) ∧
    ∀ api_exchange, api = Some api_exchange → py_eqb exchange api_exchange = true.
Proof.
  exact (repair_exchange_agrees demo_keys demo_config _ _ demo_keys_wf
           eq_refl eq_refl eq_refl).
Defined.

(** The [referrals] entry of the keys passes for a user: the repair keeps
    it and replaces the exchange of the backtest by the empty string. *)
Example demo_referrals_run :
  run demo_keys demo_referrals =
  (true, Some [("live", PDict [("user", PStr "referrals");
                               ("execution_delay_seconds", PInt 0)]);
               ("backtest", PDict [("exchanges", PList [PStr ""])])]).
Proof. reflexivity. Qed.

(** A configuration whose [backtest] section is a list: the execution
    delay is repaired and written, then the summary fails and the call
    returns [False]. *)
Lemma run_false_written_witness :
  ∃ c', run demo_keys demo_odd = (false, Some c') ∧
    ∃ bt, dget "backtest" c' = Some bt ∧ is_dict bt = false.
Proof.
  eexists. split; [reflexivity|].
  exact (run_false_written demo_keys demo_odd _ eq_refl).
Defined.

Lemma fix_trading_config_missing_witness :
  fix_trading_config None (Some (Ok demo_keys)) = (false, None).
Proof.
  apply (fix_trading_config_missing None (Some (Ok demo_keys))).
  left. done.
Defined.

End ConfigFix.
