(* ===== verification/ConfigSummary.v ===== *)
(** * The summary of a configuration ([web_config/enhanced_server.py])

    [extract_config_summary] of [PassivbotHandler] builds the dictionary
    the configuration page shows: four sections (the backtest, the long
    and the short side of the bot, the live settings), each with a fixed
    list of keys read by [get] with a default.  The four sections are
    filled one after the other inside one [try]: an exception ends the
    function with the sections filled so far.

    [Module Summary] models the function on any JSON value.  The
    dictionary under construction is the record [t]; each section is a
    step [t → result t]; [run_steps] is the [try] around them. *)

From Stdlib Require Import QArith ZArith.
From stdpp Require Import prelude strings.
From S2P Require Import Prelude PyDict PyVal.

#[local] Open Scope Q_scope.

Module Summary.

(** The text shown for a key that is not set. *)
Definition unset : pyval := PStr "未设置".

(** The keys of each section, with the default of each. *)
Definition backtest_keys : list (string * pyval) :=
  [("start_date", unset); ("end_date", unset); ("starting_balance", unset);
   ("exchanges", PList [])].

Definition side_keys : list (string * pyval) :=
  [("entry_grid_spacing_pct", unset); ("entry_initial_qty_pct", unset);
   ("n_positions", unset); ("close_grid_markup_start", unset);
   ("close_grid_markup_end", unset); ("total_wallet_exposure_limit", unset);
   ("ema_span_0", unset); ("ema_span_1", unset)].

Definition live_keys : list (string * pyval) :=
  [("approved_coins", PList []); ("leverage", unset); ("user", unset);
   ("time_in_force", unset); ("execution_delay_seconds", unset);
   ("minimum_coin_age_days", unset)].

(** [{k: sec.get(k, d), ...}] for the keys [k] with their defaults [d]. *)
Definition section (keys : list (string * pyval)) (sec : pyval) : result pyval :=
  PDict <$> mapM (λ kd, v ← py_get sec kd.1 kd.2; Ok (kd.1, v)) keys.

(** The dictionary [summary]. *)
Record t : Type := {
  backtest : pyval;
  long : pyval;
  short : pyval;
  live : pyval;
}.

Definition empty : t :=
  {| backtest := PDict []; long := PDict []; short := PDict [];
     live := PDict [] |}.

Definition to_py (s : t) : pyval :=
  PDict [("backtest", backtest s);
         ("bot", PDict [("long", long s); ("short", short s)]);
         ("live", live s)].

Definition set_backtest (v : pyval) (s : t) : t :=
  {| backtest := v; long := long s; short := short s; live := live s |}.
Definition set_long (v : pyval) (s : t) : t :=
  {| backtest := backtest s; long := v; short := short s; live := live s |}.
Definition set_short (v : pyval) (s : t) : t :=
  {| backtest := backtest s; long := long s; short := v; live := live s |}.
Definition set_live (v : pyval) (s : t) : t :=
  {| backtest := backtest s; long := long s; short := short s; live := v |}.

(** [if name in config: summary[name] = {...}] *)
Definition top_step (name : string) (keys : list (string * pyval))
    (set : pyval → t → t) (config : pyval) (s : t) : result t :=
  has ← str_in name config;
  if (has : bool) then
    sec ← py_item config name;
    sm ← section keys sec;
    Ok (set sm s)
  else Ok s.

(** [if "bot" in config and side in config["bot"]:
       summary["bot"][side] = {...}] *)
Definition side_step (side : string) (set : pyval → t → t)
    (config : pyval) (s : t) : result t :=
  has_bot ← str_in "bot" config;
  if (has_bot : bool) then
    bot ← py_item config "bot";
    has ← str_in side bot;
    if (has : bool) then
      bot ← py_item config "bot";
      sec ← py_item bot side;
      sm ← section side_keys sec;
      Ok (set sm s)
    else Ok s
  else Ok s.

(** The body of a [try] whose handler only prints: the steps run in
    order until one raises. *)
Fixpoint run_steps {A} (steps : list (A → result A)) (s : A) : A :=
  match steps with
  | [] => s
  | f :: steps =>
      match f s with
      | Ok s' => run_steps steps s'
      | Raise _ => s
      end
  end.

Definition steps (config : pyval) : list (t → result t) :=
  [top_step "backtest" backtest_keys set_backtest config;
   side_step "long" set_long config;
   side_step "short" set_short config;
   top_step "live" live_keys set_live config].

Definition extract_config_summary (config : pyval) : pyval :=
  to_py (run_steps (steps config) empty).

(** ** Reference: the summary of a well-formed configuration *)

(** What a section shows of a dictionary. *)
Definition shown (keys : list (string * pyval)) (d : pydict string pyval)
  : pyval :=
  PDict ((λ kd, (kd.1, default kd.2 (dget kd.1 d))) <$> keys).

(** The section [name] of a dictionary, shown, or the empty dictionary
    when the configuration has no such section. *)
Definition shown_at (keys : list (string * pyval)) (sec : option pyval)
  : option pyval :=
  match sec with
  | None => Some (PDict [])
  | Some (PDict d) => Some (shown keys d)
  | Some _ => None
  end.

(** A configuration every section of which is an object. *)
Definition sections_wf (c : pydict string pyval) : Prop :=
  (∀ v, dget "backtest" c = Some v → is_dict v = true) ∧
  (∀ v, dget "bot" c = Some v →
     ∃ bot, v = PDict bot ∧
       (∀ w, dget "long" bot = Some w → is_dict w = true) ∧
       (∀ w, dget "short" bot = Some w → is_dict w = true)) ∧
  (∀ v, dget "live" c = Some v → is_dict v = true).

(** The section of a side of the bot. *)
Definition side_of (side : string) (c : pydict string pyval) : option pyval :=
  match dget "bot" c with
  | Some (PDict bot) => dget side bot
  | _ => None
  end.

Definition summary_ref (c : pydict string pyval) : option pyval :=
  b ← shown_at backtest_keys (dget "backtest" c);
  l ← shown_at side_keys (side_of "long" c);
  s ← shown_at side_keys (side_of "short" c);
  v ← shown_at live_keys (dget "live" c);
  Some (to_py {| backtest := b; long := l; short := s; live := v |}).

(** What the summary shows of any JSON value: each section is empty or
    shows the section of that name of the configuration. *)
Definition shows (keys : list (string * pyval)) (sec : result pyval)
    (v : pyval) : Prop :=
  v = PDict [] ∨ ∃ d, sec = Ok (PDict d) ∧ v = shown keys d.

Definition sound (config : pyval) (s : t) : Prop :=
  shows backtest_keys (py_item config "backtest") (backtest s) ∧
  shows side_keys (py_item config "bot" ≫= λ bot, py_item bot "long") (long s) ∧
  shows side_keys (py_item config "bot" ≫= λ bot, py_item bot "short") (short s) ∧
  shows live_keys (py_item config "live") (live s).

(** ** Data for the examples *)

Definition demo_config : pyval :=
  PDict [("backtest", PDict [("start_date", PStr "2024-01-01");
                             ("exchanges", PList [PStr "binance"])]);
         ("bot", PDict [("long", PDict [("n_positions", PInt 3)])]);
         ("live", PDict [("user", PStr "binance_01"); ("leverage", PInt 5)])].

(** The same configuration with a backtest section that is a list. *)
Definition demo_broken : pydict string pyval :=
  [("backtest", PList [PStr "binance"]);
   ("bot", PDict [("long", PDict [("n_positions", PInt 3)])]);
   ("live", PDict [("user", PStr "binance_01"); ("leverage", PInt 5)])].

(** ** Sections *)

Lemma mapM_get_dict keys d :
  mapM (λ kd : string * pyval, v ← py_get (PDict d) kd.1 kd.2; Ok (kd.1, v)) keys
  = Ok ((λ kd, (kd.1, default kd.2 (dget kd.1 d))) <$> keys).
Proof.
  induction keys as [|kd keys IH]; [done|].
  cbn [mapM]. rewrite IH. done.
Qed.

Lemma section_dict keys d : section keys (PDict d) = Ok (shown keys d).
Proof. unfold section. by rewrite mapM_get_dict. Qed.

Lemma section_not_dict keys v :
  is_dict v = false → keys ≠ [] →
  section keys v = Raise (AttributeError "get").
Proof. destruct v, keys; done. Qed.

(** The keys a section shows are the keys of its list, in its order,
    whatever the configuration holds. *)
Lemma shown_keys keys d :
  ∃ e, shown keys d = PDict e ∧ dkeys e = keys.*1.
Proof.
  eexists. split; [done|]. unfold dkeys. rewrite <-list_fmap_compose.
  by apply list_fmap_ext.
Qed.

Lemma shown_get keys d k dflt :
  NoDup keys.*1 → (k, dflt) ∈ keys →
  py_get (shown keys d) k PNone = Ok (default dflt (dget k d)).
Proof.
  intros Hnd Hin. unfold shown. simpl. f_equal.
  induction keys as [|[k' d'] keys IH]; [by apply elem_of_nil in Hin|].
  apply NoDup_cons in Hnd as [Hk Hnd]. cbn [fmap list_fmap dget fst snd].
  apply elem_of_cons in Hin as [[= <- <-]|Hin].
  - by rewrite decide_True.
  - rewrite decide_False; [by apply IH|].
    intros ->. apply Hk. apply list_elem_of_fmap. by exists (k', dflt).
Qed.

(** ** The steps on a dictionary *)

Lemma top_step_dict name keys set c s :
  keys ≠ [] →
  top_step name keys set (PDict c) s =
  match dget name c with
  | None => Ok s
  | Some (PDict d) => Ok (set (shown keys d) s)
  | Some _ => Raise (AttributeError "get")
  end.
Proof.
  intros Hk. unfold top_step. cbn [str_in mbind result_bind]. unfold dmem.
  destruct (dget name c) as [v|] eqn:E.
  - rewrite bool_decide_eq_true_2 by eauto. cbn [py_item]. rewrite E.
    cbn [mbind result_bind].
    destruct v; try (by rewrite section_not_dict). by rewrite section_dict.
  - rewrite bool_decide_eq_false_2; [done|]. by intros [? [=]].
Qed.

Lemma side_step_dict side set c s :
  side_step side set (PDict c) s =
  match dget "bot" c with
  | None => Ok s
  | Some bot =>
      has ← str_in side bot;
      if (has : bool) then
        sec ← py_item bot side; sm ← section side_keys sec; Ok (set sm s)
      else Ok s
  end.
Proof.
  unfold side_step. cbn [str_in mbind result_bind]. unfold dmem.
  destruct (dget "bot" c) as [v|] eqn:E.
  - rewrite bool_decide_eq_true_2 by eauto. cbn [py_item]. rewrite E.
    cbn [mbind result_bind]. by destruct (str_in side v) as [[]|].
  - rewrite bool_decide_eq_false_2; [done|]. by intros [? [=]].
Qed.

Lemma side_step_wf side set c s :
  (∀ v, dget "bot" c = Some v →
     ∃ bot, v = PDict bot ∧ ∀ w, dget side bot = Some w → is_dict w = true) →
  ∃ sm, shown_at side_keys (side_of side c) = Some sm ∧
    side_step side set (PDict c) s =
    Ok (if side_of side c is Some _ then set sm s else s).
Proof.
  intros Hwf. rewrite side_step_dict. unfold side_of.
  destruct (dget "bot" c) as [v|]; [|by eexists].
  destruct (Hwf v eq_refl) as (bot & -> & Hside).
  cbn [str_in mbind result_bind]. unfold dmem.
  destruct (dget side bot) as [w|] eqn:E.
  - rewrite !bool_decide_eq_true_2 by eauto. cbn [py_item]. rewrite E.
    cbn [mbind result_bind]. specialize (Hside w eq_refl).
    destruct w; try done. rewrite section_dict. by eexists.
  - rewrite !bool_decide_eq_false_2 by (by intros [? [=]]). by eexists.
Qed.

(** ** The [try] *)

(** What holds before the steps and is kept by every step that returns
    holds of the result, whether a step raised or not. *)
Lemma run_steps_ind {A} (P : A → Prop) (steps : list (A → result A)) s :
  P s → Forall (λ f, ∀ s s', P s → f s = Ok s' → P s') steps →
  P (run_steps steps s).
Proof.
  intros Hs Hsteps. revert s Hs.
  induction Hsteps as [|f steps Hf _ IH]; intros s Hs; [done|].
  cbn [run_steps]. destruct (f s) eqn:E; [|done]. eauto.
Qed.

Lemma run_steps_raise {A} (f : A → result A) steps s e :
  f s = Raise e → run_steps (f :: steps) s = s.
Proof. intros H. cbn [run_steps]. by rewrite H. Qed.

(** ** The summary *)

(** C22: On a configuration whose sections are objects, the summary shows
    every section: each key of the section with its value or its
    default. *)
Theorem extract_config_summary_ref c :
  sections_wf c → summary_ref c = Some (extract_config_summary (PDict c)).
Proof.
  intros (Hb & Hbot & Hl).
  unfold extract_config_summary, steps, summary_ref. cbn [run_steps].
  rewrite top_step_dict by done.
  assert (∀ side, side = "long" ∨ side = "short" → ∀ v, dget "bot" c = Some v →
    ∃ bot, v = PDict bot ∧ ∀ w, dget side bot = Some w → is_dict w = true)
    as Hside.
  { intros side Hs v Hv. destruct (Hbot v Hv) as (bot & -> & ? & ?).
    exists bot. by destruct Hs as [-> | ->]. }
  destruct (dget "backtest" c) as [b|] eqn:Eb;
    [specialize (Hb b eq_refl); destruct b; try done|];
  cbn [shown_at mbind option_bind];
  (edestruct (side_step_wf "long" set_long c) as (l & Hl1 & ->); [by auto|]);
  (edestruct (side_step_wf "short" set_short c) as (sh & Hs1 & ->); [by auto|]);
  rewrite top_step_dict by done;
  (destruct (dget "live" c) as [v|] eqn:El;
    [specialize (Hl v eq_refl); destruct v; try done|]);
  destruct (side_of "long" c) as [[]|], (side_of "short" c) as [[]|];
  by simplify_eq/=.
Qed.

Lemma section_Ok keys sec sm :
  section keys sec = Ok sm → keys ≠ [] → ∃ d, sec = PDict d ∧ sm = shown keys d.
Proof.
  intros H Hk. destruct sec;
    try (rewrite section_not_dict in H by done; discriminate).
  rewrite section_dict in H. naive_solver.
Qed.

Lemma top_step_Ok name keys set config s s' :
  top_step name keys set config s = Ok s' → keys ≠ [] →
  s' = s ∨ ∃ d, py_item config name = Ok (PDict d) ∧ s' = set (shown keys d) s.
Proof.
  unfold top_step. intros H Hk.
  destruct (str_in name config) as [[]|]; simplify_eq/=; [|by left].
  destruct (py_item config name) as [sec|]; simplify_eq/=.
  destruct (section keys sec) as [sm|] eqn:E; simplify_eq/=.
  destruct (section_Ok _ _ _ E Hk) as (d & -> & ->). eauto.
Qed.

Lemma side_step_Ok side set config s s' :
  side_step side set config s = Ok s' →
  s' = s ∨ ∃ d, (py_item config "bot" ≫= λ bot, py_item bot side) = Ok (PDict d)
               ∧ s' = set (shown side_keys d) s.
Proof.
  unfold side_step. intros H.
  destruct (str_in "bot" config) as [[]|]; simplify_eq/=; [|by left].
  destruct (py_item config "bot") as [bot|]; simplify_eq/=.
  destruct (str_in side bot) as [[]|]; simplify_eq/=; [|by left].
  destruct (py_item bot side) as [sec|]; simplify_eq/=.
  destruct (section side_keys sec) as [sm|] eqn:E; simplify_eq/=.
  destruct (section_Ok _ _ _ E) as (d & -> & ->); [done|]. eauto.
Qed.

(** C23: The summary shows nothing that is not in the configuration: every
    section of it is empty or shows the section of that name. *)
Theorem extract_config_summary_sound config :
  ∃ s, extract_config_summary config = to_py s ∧ sound config s.
Proof.
  eexists. split; [done|]. apply run_steps_ind; [by repeat split; left|].
  unfold steps. repeat apply Forall_cons_2; [..|by apply Forall_nil_2];
    intros s s' (Hb & Hl & Hs & Hv) Hstep;
    [apply top_step_Ok in Hstep as [->|(d & Hd & ->)]; [done| |done]
    |apply side_step_Ok in Hstep as [->|(d & Hd & ->)]; [done|]..
    |apply top_step_Ok in Hstep as [->|(d & Hd & ->)]; [done| |done]];
    split_and!; try done; right; by exists d.
Qed.

(** C39: A section that is not an object ends the summary: the sections
    after it are left empty, whatever they hold. *)
Theorem extract_config_summary_stops c v :
  dget "backtest" c = Some v → is_dict v = false →
  extract_config_summary (PDict c) = to_py empty.
Proof.
  intros Hv Hd. unfold extract_config_summary, steps.
  erewrite run_steps_raise; [done|].
  rewrite top_step_dict, Hv by done. by destruct v.
Qed.

(** ** Examples *)

Example demo_summary :
  extract_config_summary demo_config =
  PDict [("backtest", PDict [("start_date", PStr "2024-01-01");
                             ("end_date", unset); ("starting_balance", unset);
                             ("exchanges", PList [PStr "binance"])]);
         ("bot", PDict [("long", shown side_keys [("n_positions", PInt 3)]);
                        ("short", PDict [])]);
         ("live", PDict [("approved_coins", PList []); ("leverage", PInt 5);
                         ("user", PStr "binance_01"); ("time_in_force", unset);
                         ("execution_delay_seconds", unset);
                         ("minimum_coin_age_days", unset)])].
Proof. reflexivity. Qed.

Lemma demo_sections_wf c :
  demo_config = PDict c → sections_wf c.
Proof.
  intros [= <-]. repeat split; intros v [= <-]; try done.
  eexists. split; [done|]. split; by intros w [= <-].
Qed.

Lemma extract_config_summary_ref_witness :
  ∃ c, demo_config = PDict c ∧
    summary_ref c = Some (extract_config_summary (PDict c)).
Proof.
  eexists. split; [reflexivity|].
  exact (extract_config_summary_ref _ (demo_sections_wf _ eq_refl)).
Defined.

Lemma extract_config_summary_stops_witness :
  extract_config_summary (PDict demo_broken) = to_py empty.
Proof.
  exact (extract_config_summary_stops demo_broken (PList [PStr "binance"])
           eq_refl eq_refl).
Defined.

End Summary.
