(* ===== verification/WebServer.v ===== *)
(** * The web configuration server ([web_config/enhanced_server.py])

    [PassivbotHandler] answers the requests of the configuration page.  It
    keeps no state of its own: the state of the server is the file system
    under the project root, the working directory of the process, and the
    threads that run a backtest.

    [Module Web] models the handler as a state machine.  The [state]
    holds the files by path, the sub-directories of the backtest
    directory, the working directory and the number of threads in each of
    their two phases.  An [event] is a request (with the clock read by
    the handler), the change of directory of a thread, or the end of its
    subprocess.  Each method of the handler is a definition of its name;
    [do_GET] and [do_POST] are the dispatch; [step] is one event;
    [reachable] the states of a running server.  [start_enhanced_server]
    is the start-up with its retry on the next port.

    Parameters of the model ([Section server]): the project root, the
    path component [urlparse] gives for a request target, and the JSON
    reader and writer.  A request carries the outcome of
    [int(self.headers['Content-Length'])] and the bytes of its body.  What
    the base class serves is the response [Static] with the directory it
    serves from.  Paths name files: directories under those names,
    failures of the disk and the text printed are outside the model. *)

From Stdlib Require Import QArith ZArith Lqa Lia Ascii.
From stdpp Require Import prelude strings pretty gmap sorting.
From S2P Require Import Prelude PyDict PyVal ConfigSummary.

#[local] Set Warnings "-clear-no-such-hyp".
#[local] Open Scope Q_scope.

Module Web.

(** ** The file system *)

(** A file: its bytes and its modification time. *)
Record file : Type := File {
  content : string;
  mtime : Q;
}.

(** A sub-directory of [backtests/combined]: its name, its creation time
    and the bytes of its [analysis.json], if any. *)
Record run_dir : Type := {
  run_name : string;
  ctime : Q;
  analysis : option string;
}.

Record state : Type := {
  files : gmap string file;
  backtests : option (list run_dir);
  cwd : string;
  created : nat;
  running : nat;
}.

(** ** Requests and responses *)

Record request : Type := {
  req_path : string;
  req_length : result Z;
  req_body : string;
}.

Inductive response : Type :=
| Json (code : Z) (data : pyval)
| Html (body : string)
| Error (code : Z) (message : string)
| Static (directory : string).

(** How the subprocess of a backtest ended. *)
Inductive outcome : Type :=
| Completed (returncode : Z) (stdout stderr : string)
| TimeoutExpired
| Failed (e : exn).

Inductive event : Type :=
| Get (r : request) (now : Q)
| Post (r : request) (now : Q)
| ThreadChdir
| ThreadFinish (o : outcome) (runs : option (list run_dir)) (now : Q).

(** [int(x)] of a float. *)
Definition int_of_float (x : Q) : Z := Z.quot (Qnum x) (Zpos (Qden x)).

(** [dir / name] *)
Definition join (dir name : string) : string := dir +:+ "/" +:+ name.

(** [self.rfile.read(n)] on the bytes of the body. *)
Definition rfile_read (n : Z) (body : string) : result string :=
  if (0 <=? n)%Z then Ok (String.substring 0 (Z.to_nat n) body)
  else if (n =? -1)%Z then Ok body
  else Raise (ValueError "read length must be non-negative or -1").

(** [max(l, key=key)]: the first element whose key is maximal. *)
Definition max_by {A} (key : A → Q) (l : list A) : option A :=
  foldl (λ best x,
           match best with
           | None => Some x
           | Some b => if key b <? key x then Some x else Some b
           end) None l.

(** The name a path ends with, for a path under [dir]. *)
Fixpoint strip_prefix (p s : string) : option string :=
  match p, s with
  | EmptyString, _ => Some s
  | String a p', String b s' => if decide (a = b) then strip_prefix p' s' else None
  | String _ _, EmptyString => None
  end.

Definition is_suffix (suf s : string) : bool :=
  bool_decide (is_Some (strip_prefix (String.rev suf) (String.rev s))).

(** [fnmatch(name, "config_backup_*.json")] *)
Definition backup_name (name : string) : bool :=
  bool_decide (is_Some (strip_prefix "config_backup_" name)) &&
  is_suffix ".json" name.

(** A text without [/]. *)
Definition no_slash (s : string) : Prop := String.index 0 "/" s = None.

Section server.
Context (root : string).
Context (urlparse_path : string → string).
Context (json_loads : string → result pyval) (json_dumps : pyval → string).

(** *** Paths *)

Definition local_config_path : string := join root "my_config.json".
Definition web_dir : string := join root "web_config".
Definition web_config_path : string := join web_dir "my_config.json".
Definition result_file : string := join web_dir "last_backtest_result.json".
Definition backtest_dir : string := join (join root "backtests") "combined".
Definition backup_file (now : Q) : string :=
  join root ("config_backup_" +:+ pretty (int_of_float now) +:+ ".json").

(** *** File operations *)

Definition file_exists (p : string) (s : state) : bool :=
  bool_decide (is_Some (files s !! p)).

Definition set_files (fs : gmap string file) (s : state) : state :=
  {| files := fs; backtests := backtests s; cwd := cwd s;
     created := created s; running := running s |}.

(** [with open(p, 'w') as f: f.write(data)] at time [now]. *)
Definition write (p data : string) (now : Q) (s : state) : state :=
  set_files (<[p := File data now]> (files s)) s.

(** [shutil.copy2(src, dst)]: the bytes and the modification time. *)
Definition copy2 (src dst : string) (s : state) : result state :=
  match files s !! src with
  | Some f => Ok (set_files (<[dst := f]> (files s)) s)
  | None => Raise (OSError "No such file or directory")
  end.

(** [glob.glob(str(root / "config_backup_*.json"))], sorted in
    descending order. *)
Definition is_backup (p : string) : bool :=
  match strip_prefix (root +:+ "/") p with
  | Some name => bool_decide (no_slash name) && backup_name name
  | None => false
  end.

Definition backup_files (s : state) : list string :=
  merge_sort (flip String.le)
    (filter (λ p, is_backup p = true) (elements (dom (files s)))).

(** *** Responses *)

Definition send_json_response (data : pyval) (status_code : Z) : response :=
  Json status_code data.

Definition failure (prefix : string) (e : exn) : response :=
  send_json_response
    (PDict [("success", PBool false);
            ("message", PStr (prefix +:+ exn_str e))]) 500.

Definition refusal (message : string) : response :=
  send_json_response
    (PDict [("success", PBool false); ("message", PStr message)]) 400.

(** *** The handlers *)

Definition serve_file (filename : string) (s : state) : response :=
  match files s !! join (cwd s) filename with
  | Some f => Html (content f)
  | None => Error 404 "File not found"
  end.

Definition handle_status (s : state) : response :=
  send_json_response
    (PDict [("status", PStr "running");
            ("project_root", PStr root);
            ("config_exists", PBool (file_exists local_config_path s));
            ("backtest_dir", PStr backtest_dir)]) 200.

(** The body of a request, read and parsed. *)
Definition read_json (r : request) : result pyval :=
  content_length ← req_length r;
  post_data ← rfile_read content_length (req_body r);
  json_loads post_data.

Definition handle_save_config (r : request) (now : Q) (s : state)
  : state * response :=
  match read_json r with
  | Ok config_data =>
      (write local_config_path (json_dumps config_data) now s,
       send_json_response
         (PDict [("success", PBool true);
                 ("message", PStr "配置已保存到服务器");
                 ("path", PStr local_config_path)]) 200)
  | Raise e => (s, failure "保存配置失败: " e)
  end.

Definition handle_run_backtest (s : state) : state * response :=
  if file_exists local_config_path s then
    ({| files := files s; backtests := backtests s; cwd := cwd s;
        created := S (created s); running := running s |},
     send_json_response
       (PDict [("success", PBool true);
               ("message", PStr "回测已开始执行，请稍后查看结果")]) 200)
  else (s, refusal "配置文件不存在，请先保存配置").

(** *** The thread of a backtest *)

Definition save_backtest_result (result : option (Z * string * string))
    (error_msg : pyval) (now : Q) (s : state) : state :=
  let result_data :=
    PDict [("timestamp", PFloat now);
           ("success", PBool (match result with
                              | Some (returncode, _, _) => (returncode =? 0)%Z
                              | None => false
                              end));
           ("error", error_msg);
           ("stdout", PStr (match result with Some (_, out, _) => out | None => "" end));
           ("stderr", PStr (match result with Some (_, _, err) => err | None => "" end))] in
  write result_file (json_dumps result_data) now s.

(** [os.chdir(self.project_root)], the first statement of the thread. *)
Definition thread_chdir (s : state) : option state :=
  match created s with
  | S n => Some {| files := files s; backtests := backtests s; cwd := root;
                   created := n; running := S (running s) |}
  | O => None
  end.

(** The end of the subprocess, which leaves [runs] in the backtest
    directory, and the record of its outcome. *)
Definition thread_finish (o : outcome) (runs : option (list run_dir)) (now : Q)
    (s : state) : option state :=
  match running s with
  | S n =>
      let s1 := {| files := files s; backtests := runs; cwd := cwd s;
                   created := created s; running := n |} in
      Some match o with
           | Completed returncode stdout stderr =>
               save_backtest_result (Some (returncode, stdout, stderr)) PNone now s1
           | TimeoutExpired =>
               save_backtest_result None (PStr "回测超时") now s1
           | Failed e =>
               save_backtest_result None
                 (PStr ("回测执行失败: " +:+ exn_str e)) now s1
           end
  | O => None
  end.

(** *** The results of the last backtest *)

Definition no_result : pyval :=
  PDict [("timestamp", PInt 0); ("success", PBool false);
         ("error", PStr "暂无回测结果"); ("stdout", PStr "");
         ("stderr", PStr "")].

Definition get_backtest_results (s : state) : pyval :=
  let read : result pyval :=
    result_data ←
      match files s !! result_file with
      | Some f => json_loads (content f)
      | None => Ok no_result
      end;
    latest_backtest ← Ok (backtests s ≫= max_by ctime);
    analysis_data ←
      match latest_backtest ≫= analysis with
      | Some bytes => json_loads bytes
      | None => Ok PNone
      end;
    Ok (PDict [("execution", result_data);
               ("latest_backtest",
                match latest_backtest with
                | Some d => PStr (join backtest_dir (run_name d))
                | None => PNone
                end);
               ("analysis", analysis_data)]) in
  match read with
  | Ok results => results
  | Raise e =>
      PDict [("execution", PDict [("error", PStr ("获取结果失败: " +:+ exn_str e))]);
             ("latest_backtest", PNone); ("analysis", PNone)]
  end.

Definition handle_backtest_results (s : state) : response :=
  send_json_response (get_backtest_results s) 200.

(** *** The status of the configurations *)

(** [st_mtime] and [st_size] of a file, or the initial values. *)
Definition stat_fields (p : string) (s : state) : list (string * pyval) :=
  match files s !! p with
  | Some f => [("modified", PFloat (mtime f));
               ("size", PInt (Z.of_nat (String.length (content f))))]
  | None => [("modified", PNone); ("size", PInt 0)]
  end.

Definition config_entry (p : string) (s : state) : pyval :=
  PDict ([("exists", PBool (file_exists p s)); ("path", PStr p)]
         ++ stat_fields p s).

Definition backup_entry (s : state) (p : string) : result pyval :=
  match files s !! p with
  | Some f =>
      Ok (PDict [("name", PStr (default p (strip_prefix (root +:+ "/") p)));
                 ("path", PStr p);
                 ("modified", PFloat (mtime f));
                 ("size", PInt (Z.of_nat (String.length (content f))))])
  | None => Raise (OSError "No such file or directory")
  end.

(** The summary of the configuration in a file, [None] without the
    file. *)
Definition load_summary (p : string) (s : state) : result pyval :=
  match files s !! p with
  | Some f =>
      config ← json_loads (content f);
      Ok (Summary.extract_config_summary config)
  | None => Ok PNone
  end.

Definition parse_config_details (s : state) : pyval :=
  match load_summary local_config_path s with
  | Raise _ => PDict [("local_config", PNone); ("web_config", PNone)]
  | Ok l =>
      match load_summary web_config_path s with
      | Raise _ => PDict [("local_config", l); ("web_config", PNone)]
      | Ok w => PDict [("local_config", l); ("web_config", w)]
      end
  end.

Definition handle_config_status (s : state) : response :=
  match mapM (backup_entry s) (take 10 (backup_files s)) with
  | Ok backups =>
      send_json_response
        (PDict [("local_config", config_entry local_config_path s);
                ("web_config", config_entry web_config_path s);
                ("backups", PList backups);
                ("config_details", parse_config_details s)]) 200
  | Raise e => Error 500 ("获取配置状态失败: " +:+ exn_str e)
  end.

(** *** Backup and activation *)

(** The backup of the local configuration, if there is one, and the copy
    of the web configuration over it.  An exception leaves what was done
    before it. *)
Definition install_web_config (now : Q) (s : state) : state * result unit :=
  match (if file_exists local_config_path s
         then copy2 local_config_path (backup_file now) s else Ok s) with
  | Raise e => (s, Raise e)
  | Ok s1 =>
      match copy2 web_config_path local_config_path s1 with
      | Raise e => (s1, Raise e)
      | Ok s2 => (s2, Ok ())
      end
  end.

(** The files after the web configuration is installed: the local
    configuration is the web configuration, and the local configuration
    there was is in the backup of this second. *)
Definition installed (now : Q) (w : file) (fs : gmap string file)
  : gmap string file :=
  <[local_config_path := w]>
    (match fs !! local_config_path with
     | Some f => <[backup_file now := f]> fs
     | None => fs
     end).

Definition handle_use_web_config (now : Q) (s : state) : state * response :=
  if negb (file_exists web_config_path s) then
    (s, refusal "网页服务配置文件不存在")
  else
    match install_web_config now s with
    | (s', Ok _) =>
        (s', send_json_response
               (PDict [("success", PBool true);
                       ("message", PStr "已使用网页服务配置");
                       ("backup_created",
                        PBool (file_exists local_config_path s'))]) 200)
    | (s', Raise e) => (s', failure "使用网页配置失败: " e)
    end.

Definition handle_backup_config (now : Q) (s : state) : state * response :=
  if negb (file_exists local_config_path s) then
    (s, refusal "没有配置文件可备份")
  else
    match copy2 local_config_path (backup_file now) s with
    | Ok s' =>
        (s', send_json_response
               (PDict [("success", PBool true);
                       ("message", PStr "配置已备份");
                       ("backup_file", PStr (backup_file now))]) 200)
    | Raise e => (s, failure "备份配置失败: " e)
    end.

Definition handle_set_active_config (r : request) (now : Q) (s : state)
  : state * response :=
  match (data ← read_json r; py_get data "source" (PStr "web")) with
  | Raise e => (s, failure "设置活动配置失败: " e)
  | Ok config_source =>
      if py_eqb config_source (PStr "web") then
        if negb (file_exists web_config_path s) then
          (s, refusal "网页服务配置文件不存在")
        else
          match install_web_config now s with
          | (s', Ok _) =>
              (s', send_json_response
                     (PDict [("success", PBool true);
                             ("message", PStr "已设置网页配置为活动配置")]) 200)
          | (s', Raise e) => (s', failure "设置活动配置失败: " e)
          end
      else (s, refusal "不支持的配置源")
  end.

(** *** Dispatch *)

Definition do_GET (r : request) (now : Q) (s : state) : state * response :=
  let path := urlparse_path (req_path r) in
  if decide (path = "/") then (s, serve_file "index.html" s)
  else if decide (path = "/api/status") then (s, handle_status s)
  else if decide (path = "/api/backtest/results") then
    (s, handle_backtest_results s)
  else if decide (path = "/api/config/status") then (s, handle_config_status s)
  else if decide (path = "/api/config/use-web") then handle_use_web_config now s
  else if decide (path = "/api/config/backup") then handle_backup_config now s
  else (s, Static (cwd s)).

Definition do_POST (r : request) (now : Q) (s : state) : state * response :=
  let path := urlparse_path (req_path r) in
  if decide (path = "/api/save-config") then handle_save_config r now s
  else if decide (path = "/api/run-backtest") then handle_run_backtest s
  else if decide (path = "/api/config/set-active") then
    handle_set_active_config r now s
  else (s, Error 404 "Not Found").

(** *** The server as a state machine *)

Definition step (e : event) (s : state) : option (state * option response) :=
  match e with
  | Get r now => Some (prod_map id Some (do_GET r now s))
  | Post r now => Some (prod_map id Some (do_POST r now s))
  | ThreadChdir => (λ s', (s', None)) <$> thread_chdir s
  | ThreadFinish o runs now => (λ s', (s', None)) <$> thread_finish o runs now s
  end.

Fixpoint run (es : list event) (s : state) : option (state * list response) :=
  match es with
  | [] => Some (s, [])
  | e :: es =>
      ' (s', r) ← step e s;
      ' (s'', rs) ← run es s';
      Some (s'', option_list r ++ rs)
  end.

(** The state in which the server starts to serve: the working directory
    is the directory of the page. *)
Definition init (fs : gmap string file) (runs : option (list run_dir)) : state :=
  {| files := fs; backtests := runs; cwd := web_dir; created := 0;
     running := 0 |}.

Inductive reachable (s0 : state) : state → Prop :=
| reach_init : reachable s0 s0
| reach_step e s s' r :
    reachable s0 s → step e s = Some (s', r) → reachable s0 s'.

(** The paths the server writes: the local configuration, the record of
    the last backtest and the backups. *)
Definition written (p : string) : Prop :=
  p = local_config_path ∨ p = result_file ∨ ∃ now, p = backup_file now.

(** A request changes files only, and [POST /api/run-backtest] the
    number of threads; [touched] are the paths it may write. *)
Definition request_frame (touched : string → Prop) (s s' : state) : Prop :=
  (∀ p, ¬ touched p → files s' !! p = files s !! p) ∧
  backtests s' = backtests s ∧ cwd s' = cwd s ∧ running s' = running s.

(** The working directory is the directory of the page or the project
    root, and it is the root while a subprocess runs. *)
Record inv (s : state) : Prop := {
  inv_cwd : cwd s = web_dir ∨ cwd s = root;
  inv_running : running s ≠ 0%nat → cwd s = root;
}.

End server.

(** ** Start-up *)

(** What the creation of the server socket on a port does. *)
Inductive bind_outcome : Type :=
| Bound
| BindError (errno : Z).

(** [start_enhanced_server(port)] with [limit] frames left on the stack:
    the port the server served on until it was interrupted ([True]),
    [None] for [False]. *)
Fixpoint start_enhanced_server (index_exists : bool) (bind : Z → bind_outcome)
    (limit : nat) (port : Z) : result (option Z) :=
  match limit with
  | O => Raise (RecursionError "maximum recursion depth exceeded")
  | S limit =>
      if negb index_exists then Ok None
      else
        match bind port with
        | Bound => Ok (Some port)
        | BindError errno =>
            if (errno =? 48)%Z
            then start_enhanced_server index_exists bind limit (port + 1)
            else Ok None
        end
  end.

(** [main()]: the exit status, for the outcome of the start-up on the
    default port. *)
Definition main (version_ok : bool) (started : result (option Z)) : result Z :=
  if negb version_ok then Ok 1%Z
  else
    served ← started;
    Ok (if served is Some _ then 0 else 1)%Z.

(** ** Data for the examples *)

Definition demo_root : string := "/srv/passivbot".

(** The path of a request target without its query. *)
Fixpoint demo_path (target : string) : string :=
  match target with
  | EmptyString => EmptyString
  | String c rest =>
      if decide (c = "?"%char) then EmptyString else String c (demo_path rest)
  end.

(** A reader and a writer for the one text [{}]. *)
Definition demo_loads (text : string) : result pyval :=
  if decide (text = "{}") then Ok (PDict [])
  else Raise (ValueError "Expecting value").

Definition demo_dumps (v : pyval) : string := "{}".

Definition demo_files : gmap string file :=
  {[ "/srv/passivbot/web_config/index.html" := File "<html></html>" 0;
     "/srv/passivbot/my_config.json" := File "{}" 1;
     "/srv/passivbot/web_config/my_config.json" := File "{}" 2 ]}.

Definition demo_get (target : string) : request :=
  {| req_path := target; req_length := Raise (TypeError "int() argument");
     req_body := "" |}.

Definition demo_post (target body : string) : request :=
  {| req_path := target; req_length := Ok (Z.of_nat (String.length body));
     req_body := body |}.

Definition demo_runs : list run_dir :=
  [{| run_name := "2024-01-01"; ctime := 10; analysis := None |};
   {| run_name := "2024-02-01"; ctime := 20; analysis := Some "{}" |};
   {| run_name := "2024-01-15"; ctime := 20; analysis := None |}].

(** Ports 8080 and 8081 are in use. *)
Definition demo_bind (errno : Z) (port : Z) : bind_outcome :=
  if (port <? 8082)%Z then BindError errno else Bound.

(** The state after a backtest was requested and its thread started. *)
Definition demo_state : state :=
  {| files := demo_files; backtests := Some demo_runs; cwd := demo_root;
     created := 0; running := 1 |}.

(** A server without a local configuration. *)
Definition demo_fresh : state :=
  init demo_root (delete "/srv/passivbot/my_config.json" demo_files) None.

(** ** Paths *)

Lemma join_inj dir : Inj (=) (=) (join dir).
Proof.
  intros a b H. unfold join in H.
  by apply (String.app_inj "/"), (String.app_inj dir).
Qed.

Lemma join_join dir a b : join (join dir a) b = join dir (a +:+ "/" +:+ b).
Proof. unfold join. by rewrite !string_app_assoc. Qed.

(** Two paths under the same directory differ when their names do. *)
Lemma join_ne dir a b : a ≠ b → join dir a ≠ join dir b.
Proof. intros H E. by apply H, (join_inj dir). Qed.

Ltac path_ne :=
  unfold local_config_path, web_config_path, result_file, web_dir, backup_file;
  rewrite ?join_join; apply join_ne; discriminate.

(** ** Names of backups *)

Lemma strip_prefix_app (a b : string) : strip_prefix a (a +:+ b) = Some b.
Proof.
  induction a as [|x a IH]; [done|].
  change (strip_prefix (String x a) (String x (a +:+ b)) = Some b).
  cbn [strip_prefix]. by rewrite decide_True.
Qed.

Lemma strip_prefix_Some (a s b : string) :
  strip_prefix a s = Some b → s = a +:+ b.
Proof.
  revert s. induction a as [|x a IH]; intros [|y s]; cbn [strip_prefix];
    try (by intros [= <-]); try done.
  case_decide as E; [|done]. intros ->%IH. by rewrite E.
Qed.

Lemma rev_app_app (a b acc : string) :
  String.rev_app (a +:+ b) acc = String.rev_app b (String.rev_app a acc).
Proof.
  revert acc. induction a as [|x a IH]; intros acc; [done|].
  change (String.rev_app (a +:+ b) (String x acc) =
          String.rev_app b (String.rev_app a (String x acc))).
  apply IH.
Qed.

Lemma rev_app_acc (s acc : string) :
  String.rev_app s acc = String.rev_app s "" +:+ acc.
Proof.
  revert acc. induction s as [|x s IH]; intros acc; [done|].
  cbn [String.rev_app]. rewrite (IH (String x acc)), (IH (String x "")).
  by rewrite string_app_assoc.
Qed.

Lemma is_suffix_app (a suf : string) : is_suffix suf (a +:+ suf) = true.
Proof.
  unfold is_suffix, String.rev. rewrite rev_app_app, (rev_app_acc suf (_ a _)).
  rewrite strip_prefix_app. by apply bool_decide_eq_true_2.
Qed.

Lemma no_slash_cons c s : no_slash (String c s) ↔ c ≠ "/"%char ∧ no_slash s.
Proof.
  unfold no_slash. cbn [String.index String.prefix].
  destruct (Ascii.ascii_dec "/" c) as [<-|Hc].
  - split; [by destruct s|by intros [[] _]].
  - destruct (String.index 0 "/" s); naive_solver.
Qed.

Lemma no_slash_app a b : no_slash a → no_slash b → no_slash (a +:+ b).
Proof.
  intros Ha Hb. induction a as [|x a IH]; [done|].
  change (no_slash (String x (a +:+ b))).
  apply no_slash_cons in Ha as [? ?]. apply no_slash_cons. auto.
Qed.

Lemma pretty_N_go_no_slash x s : no_slash s → no_slash (pretty_N_go x s).
Proof.
  revert s. induction (N.lt_wf_0 x) as [x _ IH]; intros s Hs.
  assert (x = 0 ∨ 0 < x)%N as [->|?] by lia; [done|].
  rewrite pretty_N_go_step by done. apply IH; [by apply N.div_lt|].
  apply no_slash_cons. split; [|done].
  unfold pretty_N_char. by repeat case_match.
Qed.

Lemma pretty_Z_no_slash (z : Z) : no_slash (pretty z).
Proof.
  destruct z as [|p|p]; [done|..]; unfold pretty, pretty_Z, pretty,
    pretty_positive, pretty, pretty_N; cbn [decide];
    rewrite decide_False by done;
    [|apply (no_slash_app "-"); [done|]]; by apply pretty_N_go_no_slash.
Qed.

(** ** The latest of a list *)

Lemma max_by_foldl {A} (key : A → Q) (l : list A) b x :
  foldl (λ best y,
           match best with
           | None => Some y
           | Some b => if key b <? key y then Some y else Some b
           end) (Some b) l = Some x →
  (x = b ∨ x ∈ l) ∧ key b <= key x ∧ Forall (λ y, key y <= key x) l.
Proof.
  revert b. induction l as [|y l IH]; intros b; cbn [foldl].
  - intros [= ->]. split_and!; [by left|lra|done].
  - destruct (Qlt_bool_spec (key b) (key y)) as [Hlt|Hle]; intros H;
      destruct (IH _ H) as (Hin & Hk & Hall).
    + split_and!; [right; destruct Hin as [->|?]; [left|by right]|lra|].
      by constructor.
    + split_and!; [destruct Hin as [->|?]; [by left|right; by right]|done|].
      constructor; [lra|done].
Qed.

(** [max_by] returns an element whose key is maximal. *)
Lemma max_by_spec {A} (key : A → Q) (l : list A) x :
  max_by key l = Some x → x ∈ l ∧ Forall (λ y, key y <= key x) l.
Proof.
  unfold max_by. destruct l as [|b l]; [done|]. cbn [foldl].
  intros (Hin & Hk & Hall)%max_by_foldl. split.
  - destruct Hin as [->|?]; [left|by right].
  - by constructor.
Qed.

Lemma max_by_is_Some {A} (key : A → Q) (l : list A) :
  l ≠ [] → is_Some (max_by key l).
Proof.
  destruct l as [|b l]; [done|]. intros _. unfold max_by. cbn [foldl].
  generalize b. induction l as [|y l IH]; intros c; cbn [foldl]; [by eexists|].
  by destruct (key c <? key y).
Qed.

(** [mapM] in the monad of results returns when its function does. *)
Lemma mapM_result_Ok {A B} (f : A → result B) (l : list A) :
  Forall (λ x, ∃ y, f x = Ok y) l →
  ∃ ys, mapM f l = Ok ys ∧ length ys = length l.
Proof.
  induction 1 as [|x l [y Hy] _ (ys & IH & Hlen)]; [by exists []|].
  exists (y :: ys). cbn [mapM]. rewrite Hy. cbn [mbind result_bind].
  rewrite IH. split; [done|]. simpl. by rewrite Hlen.
Qed.

(** ** Start-up *)

(** C27: The server serves on the first port from [port] on that is free, if
    every port before it is reported in use with the error number 48 and
    the stack allows as many calls. *)
Theorem start_enhanced_server_finds bind limit port k :
  (k < limit)%nat →
  (∀ i, (i < k)%nat → bind (port + Z.of_nat i)%Z = BindError 48) →
  bind (port + Z.of_nat k)%Z = Bound →
  start_enhanced_server true bind limit port = Ok (Some (port + Z.of_nat k)%Z).
Proof.
  revert limit port. induction k as [|k IH]; intros [|limit] port Hk Hbusy Hfree;
    try lia; cbn [start_enhanced_server negb].
  - rewrite Z.add_0_r in Hfree. rewrite Hfree. by rewrite Z.add_0_r.
  - specialize (Hbusy O ltac:(lia)) as H0. rewrite Z.add_0_r in H0.
    rewrite H0. cbn. rewrite (IH limit (port + 1)%Z); [f_equal; f_equal; lia|lia| |].
    + intros i Hi. rewrite <-(Hbusy (S i)) by lia. f_equal. lia.
    + rewrite <-Hfree. f_equal. lia.
Qed.

(** The port the server serves on is free, and every port tried before
    it was reported in use with the error number 48. *)
Theorem start_enhanced_server_serving index bind limit port p :
  start_enhanced_server index bind limit port = Ok (Some p) →
  index = true ∧ bind p = Bound ∧ (port <= p)%Z ∧
  ∀ q, (port <= q < p)%Z → bind q = BindError 48.
Proof.
  revert port. induction limit as [|limit IH]; intros port; [done|].
  cbn [start_enhanced_server]. destruct index; [|done]. cbn [negb].
  destruct (bind port) as [|errno] eqn:Hb.
  - intros [= <-]. split_and!; [done..|lia|intros; lia].
  - destruct (Z.eqb_spec errno 48) as [->|]; [|done].
    intros (_ & Hp & Hle & Hq)%IH. split_and!; [done..|lia|].
    intros q Hq'. destruct (decide (q = port)) as [->|]; [done|].
    apply Hq. lia.
Qed.

(** A port in use is retried on the next port only when the error number
    is 48. *)
Theorem start_enhanced_server_other_error index bind limit port errno :
  bind port = BindError errno → errno ≠ 48%Z →
  start_enhanced_server index bind (S limit) port = Ok None.
Proof.
  intros Hb He. cbn [start_enhanced_server]. destruct index; [|done].
  cbn [negb]. rewrite Hb. by destruct (Z.eqb_spec errno 48).
Qed.

(** With every port in use, the retry ends when the stack is full. *)
Theorem start_enhanced_server_exhausted bind limit port :
  (∀ i, (i < limit)%nat → bind (port + Z.of_nat i)%Z = BindError 48) →
  ∃ e, start_enhanced_server true bind limit port = Raise e.
Proof.
  revert port. induction limit as [|limit IH]; intros port Hbusy; [by eexists|].
  cbn [start_enhanced_server negb].
  specialize (Hbusy O ltac:(lia)) as H0. rewrite Z.add_0_r in H0. rewrite H0.
  cbn. apply IH. intros i Hi. rewrite <-(Hbusy (S i)) by lia. f_equal. lia.
Qed.

(** ** The handler *)

Section server_lemmas.
Context (root : string).
Context (urlparse_path : string → string).
Context (json_loads : string → result pyval) (json_dumps : pyval → string).

Abbreviation local_p := (local_config_path root).
Abbreviation web_p := (web_config_path root).
Abbreviation result_p := (result_file root).
Abbreviation backup_p := (backup_file root).

Lemma local_ne_web : local_p ≠ web_p.
Proof. path_ne. Qed.

Lemma backup_ne_local now : backup_p now ≠ local_p.
Proof. path_ne. Qed.

Lemma backup_ne_web now : backup_p now ≠ web_p.
Proof. path_ne. Qed.

Lemma result_ne_local : result_p ≠ local_p.
Proof. path_ne. Qed.

Lemma result_ne_web : result_p ≠ web_p.
Proof. path_ne. Qed.

Lemma backup_ne_result now : backup_p now ≠ result_p.
Proof. path_ne. Qed.

(** Two backups have the same path exactly when they are made in the
    same second. *)
Lemma backup_file_eq now now' :
  backup_p now = backup_p now' ↔ int_of_float now = int_of_float now'.
Proof.
  split; [|intros H; unfold backup_file; by rewrite H].
  intros H%(join_inj root)%(String.app_inj "config_backup_").
  by apply (inj pretty), (string_app_inj_r ".json").
Qed.

Abbreviation do_GET := (do_GET root urlparse_path json_loads).
Abbreviation do_POST := (do_POST root urlparse_path json_loads json_dumps).
Abbreviation step := (step root urlparse_path json_loads json_dumps).
Abbreviation run := (run root urlparse_path json_loads json_dumps).
Abbreviation reachable := (reachable root urlparse_path json_loads json_dumps).

(** *** File operations *)

Lemma file_exists_Some p s f : files s !! p = Some f → file_exists p s = true.
Proof. intros H. unfold file_exists. rewrite H. by apply bool_decide_eq_true_2. Qed.

Lemma file_exists_None p s : files s !! p = None → file_exists p s = false.
Proof.
  intros H. unfold file_exists. rewrite H.
  apply bool_decide_eq_false_2. by intros [? [=]].
Qed.

Lemma copy2_Some src dst s f :
  files s !! src = Some f →
  copy2 src dst s = Ok (set_files (<[dst := f]> (files s)) s).
Proof. intros H. unfold copy2. by rewrite H. Qed.

(** *** Requests that read *)

(** A [GET] changes the state on two paths only. *)
Lemma do_GET_read_only r now s :
  urlparse_path (req_path r) ≠ "/api/config/use-web" →
  urlparse_path (req_path r) ≠ "/api/config/backup" →
  (do_GET r now s).1 = s.
Proof. intros. unfold Web.do_GET. by repeat case_decide. Qed.

(** A [POST] to any other path than the three of the interface is
    refused and changes nothing. *)
Lemma do_POST_not_found r now s :
  urlparse_path (req_path r) ∉
    ["/api/save-config"; "/api/run-backtest"; "/api/config/set-active"] →
  do_POST r now s = (s, Error 404 "Not Found").
Proof.
  intros H. unfold Web.do_POST.
  repeat case_decide; try done; destruct H; set_solver.
Qed.

Lemma do_GET_index r now s :
  urlparse_path (req_path r) = "/" →
  do_GET r now s = (s, serve_file "index.html" s).
Proof. intros H. unfold Web.do_GET. by rewrite H. Qed.

Lemma do_POST_run_backtest r now s :
  urlparse_path (req_path r) = "/api/run-backtest" →
  do_POST r now s = handle_run_backtest root s.
Proof. intros H. unfold Web.do_POST. by rewrite H. Qed.

(** *** Saving a configuration *)

Lemma handle_save_config_fail r now s e :
  read_json json_loads r = Raise e →
  handle_save_config root json_loads json_dumps r now s =
  (s, failure "保存配置失败: " e).
Proof. intros H. unfold handle_save_config. by rewrite H. Qed.

(** C21: What was saved is what the status page summarises, when the JSON
    text of the configuration reads back as the configuration. *)
Theorem save_config_roundtrip r now s config_data :
  read_json json_loads r = Ok config_data →
  json_loads (json_dumps config_data) = Ok config_data →
  ∃ s' data,
    handle_save_config root json_loads json_dumps r now s = (s', Json 200 data) ∧
    files s' = <[local_p := File (json_dumps config_data) now]> (files s) ∧
    load_summary json_loads local_p s' =
      Ok (Summary.extract_config_summary config_data).
Proof.
  intros Hr Hj. unfold handle_save_config. rewrite Hr. eexists _, _.
  split_and!; [done..|]. unfold load_summary, write. simpl.
  rewrite lookup_insert_eq. simpl. by rewrite Hj.
Qed.

(** *** Backups *)

Theorem handle_backup_config_spec now s f :
  files s !! local_p = Some f →
  handle_backup_config root now s =
  (set_files (<[backup_p now := f]> (files s)) s,
   Json 200 (PDict [("success", PBool true); ("message", PStr "配置已备份");
                    ("backup_file", PStr (backup_p now))])).
Proof.
  intros H. unfold handle_backup_config.
  by rewrite (file_exists_Some _ _ _ H), (copy2_Some _ _ _ _ H).
Qed.

Lemma handle_backup_config_missing now s :
  files s !! local_p = None →
  handle_backup_config root now s = (s, refusal "没有配置文件可备份").
Proof.
  intros H. unfold handle_backup_config. by rewrite (file_exists_None _ _ H).
Qed.

Lemma install_web_config_spec now s w :
  files s !! web_p = Some w →
  install_web_config root now s =
  (set_files (installed root now w (files s)) s, Ok ()).
Proof.
  intros Hw. unfold install_web_config, installed.
  destruct (files s !! local_p) as [f|] eqn:Hl.
  - rewrite (file_exists_Some _ _ _ Hl), (copy2_Some _ _ _ _ Hl).
    unfold copy2. simpl. rewrite lookup_insert_ne by apply backup_ne_web.
    by rewrite Hw.
  - rewrite (file_exists_None _ _ Hl), (copy2_Some _ _ _ _ Hw). by destruct s.
Qed.

Theorem handle_use_web_config_spec now s w :
  files s !! web_p = Some w →
  handle_use_web_config root now s =
  (set_files (installed root now w (files s)) s,
   Json 200 (PDict [("success", PBool true);
                    ("message", PStr "已使用网页服务配置");
                    ("backup_created", PBool true)])).
Proof.
  intros Hw. unfold handle_use_web_config.
  rewrite (file_exists_Some _ _ _ Hw), (install_web_config_spec _ _ _ Hw).
  cbn [negb]. rewrite (file_exists_Some local_p _ w); [done|].
  unfold installed. simpl. by rewrite lookup_insert_eq.
Qed.

(** C38: The response says that a backup was created also when there was no
    local configuration and no backup was made. *)
Theorem use_web_reports_backup now s w :
  files s !! web_p = Some w → files s !! local_p = None →
  ∃ s', handle_use_web_config root now s =
          (s', Json 200 (PDict [("success", PBool true);
                                ("message", PStr "已使用网页服务配置");
                                ("backup_created", PBool true)])) ∧
        files s' !! backup_p now = files s !! backup_p now.
Proof.
  intros Hw Hl. rewrite (handle_use_web_config_spec _ _ _ Hw).
  eexists. split; [done|]. unfold installed. simpl. rewrite Hl.
  by rewrite lookup_insert_ne by (apply not_eq_sym, backup_ne_local).
Qed.

(** No configuration is lost: the local configuration there was before
    the web configuration was installed is in the backup. *)
Theorem use_web_keeps_old now s w f :
  files s !! web_p = Some w → files s !! local_p = Some f →
  ∃ s' resp, handle_use_web_config root now s = (s', resp) ∧
    files s' !! local_p = Some w ∧ files s' !! backup_p now = Some f ∧
    ∀ p, p ≠ local_p → p ≠ backup_p now → files s' !! p = files s !! p.
Proof.
  intros Hw Hl. rewrite (handle_use_web_config_spec _ _ _ Hw).
  eexists _, _. split; [done|]. unfold installed. simpl. rewrite Hl.
  split_and!.
  - by rewrite lookup_insert_eq.
  - rewrite lookup_insert_ne by (apply not_eq_sym, backup_ne_local).
    by rewrite lookup_insert_eq.
  - intros p ??. by rewrite !lookup_insert_ne.
Qed.

(** [POST /api/config/set-active] with the source [web] does to the
    files what [GET /api/config/use-web] does. *)
Theorem set_active_web_use_web r now s data :
  read_json json_loads r = Ok data →
  py_get data "source" (PStr "web") = Ok (PStr "web") →
  (handle_set_active_config root json_loads r now s).1 =
  (handle_use_web_config root now s).1.
Proof.
  intros Hr Hs. unfold handle_set_active_config, handle_use_web_config.
  rewrite Hr. cbn [mbind result_bind]. rewrite Hs. cbn [py_eqb].
  rewrite bool_decide_eq_true_2 by done.
  destruct (file_exists web_p s); cbn [negb]; [|done].
  by destruct (install_web_config root now s) as [s' []].
Qed.

(** *** What a step changes *)

Lemma set_files_id s : set_files (files s) s = s.
Proof. by destruct s. Qed.

Lemma file_exists_true p s : file_exists p s = true → ∃ f, files s !! p = Some f.
Proof. intros [f H]%bool_decide_eq_true. eauto. Qed.

Lemma request_frame_refl touched s : request_frame touched s s.
Proof. done. Qed.

Lemma request_frame_insert (touched : string → Prop) s p f :
  touched p → request_frame touched s (set_files (<[p := f]> (files s)) s).
Proof.
  intros Hp. split; [|done]. intros q Hq. cbn [files set_files].
  apply lookup_insert_ne. by intros <-.
Qed.

Lemma request_frame_weaken (t1 t2 : string → Prop) s s' :
  (∀ p, t1 p → t2 p) → request_frame t1 s s' → request_frame t2 s s'.
Proof. intros Ht (Hf & ?). split; [|done]. intros p Hp. apply Hf. auto. Qed.

Lemma installed_frame now w s :
  request_frame (λ p, p = local_p ∨ p = backup_p now) s
    (set_files (installed root now w (files s)) s).
Proof.
  split; [|done]. intros p Hp. unfold installed. cbn [files set_files].
  rewrite lookup_insert_ne by (intros <-; apply Hp; by left).
  destruct (files s !! local_p); [|done].
  apply lookup_insert_ne. intros <-. apply Hp. by right.
Qed.

Lemma handle_use_web_config_frame now s :
  request_frame (λ p, p = local_p ∨ p = backup_p now) s
    (handle_use_web_config root now s).1.
Proof.
  unfold handle_use_web_config.
  destruct (file_exists web_p s) eqn:E; cbn [negb]; [|done].
  apply file_exists_true in E as [w Hw].
  rewrite (install_web_config_spec _ _ _ Hw). apply installed_frame.
Qed.

Lemma handle_set_active_config_frame r now s :
  request_frame (λ p, p = local_p ∨ p = backup_p now) s
    (handle_set_active_config root json_loads r now s).1.
Proof.
  unfold handle_set_active_config.
  destruct (_ ≫= _) as [src|]; [|done].
  destruct (py_eqb src _); [|done].
  destruct (file_exists web_p s) eqn:E; cbn [negb]; [|done].
  apply file_exists_true in E as [w Hw].
  rewrite (install_web_config_spec _ _ _ Hw). apply installed_frame.
Qed.

Lemma handle_backup_config_frame now s :
  request_frame (λ p, p = backup_p now) s (handle_backup_config root now s).1.
Proof.
  unfold handle_backup_config.
  destruct (file_exists local_p s) eqn:E; cbn [negb]; [|done].
  apply file_exists_true in E as [f Hf].
  rewrite (copy2_Some _ _ _ _ Hf). by apply request_frame_insert.
Qed.

Lemma handle_save_config_frame r now s :
  request_frame (λ p, p = local_p) s
    (handle_save_config root json_loads json_dumps r now s).1.
Proof.
  unfold handle_save_config. destruct (read_json _ _); [|done].
  by apply request_frame_insert.
Qed.

Lemma do_GET_frame r now s :
  request_frame (written root) s (do_GET r now s).1.
Proof.
  unfold Web.do_GET. repeat case_decide; try done.
  - eapply request_frame_weaken, handle_use_web_config_frame.
    intros p [->| ->]; [by left|right; right; by eexists].
  - eapply request_frame_weaken, handle_backup_config_frame.
    intros p ->. right; right; by eexists.
Qed.

Lemma do_POST_frame r now s :
  (∀ p, ¬ written root p → files (do_POST r now s).1 !! p = files s !! p) ∧
  backtests (do_POST r now s).1 = backtests s ∧
  cwd (do_POST r now s).1 = cwd s ∧ running (do_POST r now s).1 = running s.
Proof.
  unfold Web.do_POST. repeat case_decide; try done.
  - eapply request_frame_weaken, handle_save_config_frame.
    intros p ->. by left.
  - unfold handle_run_backtest. by destruct (file_exists _ _).
  - eapply request_frame_weaken, handle_set_active_config_frame.
    intros p [->| ->]; [by left|right; right; by eexists].
Qed.

Lemma step_files e s s' r p :
  step e s = Some (s', r) → ¬ written root p → files s' !! p = files s !! p.
Proof.
  intros Hs Hp. destruct e as [rq now|rq now| |o runs now]; simpl in Hs.
  - injection Hs as <- _. by apply do_GET_frame.
  - injection Hs as <- _. by apply do_POST_frame.
  - unfold thread_chdir in Hs. by destruct (created s); simplify_eq/=.
  - unfold thread_finish in Hs. destruct (running s); simplify_eq/=.
    destruct o; simpl; apply lookup_insert_ne; intros <-; apply Hp;
      right; by left.
Qed.

Lemma step_inv e s s' r : inv root s → step e s = Some (s', r) → inv root s'.
Proof.
  intros [Hc Hr] Hs. destruct e as [rq now|rq now| |o runs now]; simpl in Hs.
  - injection Hs as <- _. destruct (do_GET_frame rq now s) as (_ & _ & Hc' & Hr').
    split; by rewrite ?Hc', ?Hr'.
  - injection Hs as <- _. destruct (do_POST_frame rq now s) as (_ & _ & Hc' & Hr').
    split; by rewrite ?Hc', ?Hr'.
  - unfold thread_chdir in Hs. destruct (created s); simplify_eq/=.
    split; simpl; auto.
  - unfold thread_finish in Hs. destruct (running s) eqn:E; simplify_eq/=.
    assert (cwd s = root) as Hroot by (apply Hr; lia).
    split; destruct o; simpl; auto.
Qed.

Lemma reachable_server_inv fs runs s :
  reachable (init root fs runs) s →
  inv root s ∧ ∀ p, ¬ written root p → files s !! p = fs !! p.
Proof.
  induction 1 as [|e s s' r _ [IH1 IH2] Hs].
  - split; [split; simpl; [by left|done]|done].
  - split; [by eapply step_inv|].
    intros p Hp. by rewrite (step_files _ _ _ _ _ Hs Hp), IH2.
Qed.

(** C14: The invariant of a running server, and the files it never writes. *)
Theorem server_inv fs runs s :
  reachable (init root fs runs) s →
  inv root s ∧ ∀ p, ¬ written root p → files s !! p = fs !! p.
Proof. apply reachable_server_inv. Qed.

(** *** The working directory *)

Lemma index_not_written : ¬ written root (join root "index.html").
Proof.
  intros [H|[H|[now H]]]; revert H; [path_ne..].
Qed.

(** Once a thread of a backtest has changed the working directory, the
    page is no longer found, unless the project root has a page of its
    own. *)
Theorem index_lost fs runs s r now :
  reachable (init root fs runs) s →
  fs !! join root "index.html" = None →
  cwd s = root → urlparse_path (req_path r) = "/" →
  do_GET r now s = (s, Error 404 "File not found").
Proof.
  intros [_ Hf]%reachable_server_inv Hi Hc Hp. unfold Web.do_GET, serve_file.
  rewrite Hp, decide_True, Hc, (Hf _ index_not_written), Hi by done. done.
Qed.

(** C15: The page is served before a backtest and lost after its thread has
    started. *)
Theorem backtest_breaks_index fs runs idx cfg r_idx r_run now :
  fs !! join (web_dir root) "index.html" = Some idx →
  fs !! join root "index.html" = None →
  fs !! local_p = Some cfg →
  urlparse_path (req_path r_idx) = "/" →
  urlparse_path (req_path r_run) = "/api/run-backtest" →
  ∃ s' started,
    run [Get r_idx now; Post r_run now; ThreadChdir; Get r_idx now]
      (init root fs runs) =
    Some (s', [Html (content idx); Json 200 started;
               Error 404 "File not found"]).
Proof.
  intros Hidx Hroot Hcfg Hi Hr. eexists _, _.
  cbn [Web.run Web.step]. rewrite (do_GET_index _ _ _ Hi).
  cbn [prod_map fst snd mbind option_bind id].
  rewrite (do_POST_run_backtest _ _ _ Hr). unfold handle_run_backtest.
  rewrite (file_exists_Some local_p _ cfg) by done.
  cbn [prod_map fst snd mbind option_bind id thread_chdir created fmap
       option_fmap option_map].
  rewrite (do_GET_index _ _ _ Hi).
  cbn [prod_map fst snd mbind option_bind id]. unfold serve_file.
  cbn [init cwd files option_list app]. by rewrite Hidx, Hroot.
Qed.


(** *** The list of backups *)

Lemma is_backup_backup_file now : is_backup root (backup_p now) = true.
Proof.
  unfold is_backup, backup_file, join.
  rewrite <-(string_app_assoc root "/"), strip_prefix_app.
  apply andb_true_intro. split.
  - apply bool_decide_eq_true_2.
    repeat apply no_slash_app; try done. apply pretty_Z_no_slash.
  - unfold backup_name. rewrite strip_prefix_app.
    rewrite <-string_app_assoc, is_suffix_app.
    by rewrite bool_decide_eq_true_2.
Qed.

Lemma backup_files_elem p s :
  p ∈ backup_files root s ↔ is_backup root p = true ∧ is_Some (files s !! p).
Proof.
  unfold backup_files.
  rewrite merge_sort_Permutation, list_elem_of_filter, elem_of_elements,
    elem_of_dom. done.
Qed.

(** A backup is listed once it is made. *)
Theorem backup_listed now s f :
  files s !! local_p = Some f →
  backup_p now ∈ backup_files root (handle_backup_config root now s).1.
Proof.
  intros Hf. rewrite (handle_backup_config_spec _ _ _ Hf).
  apply backup_files_elem. split; [apply is_backup_backup_file|].
  cbn [fst files set_files]. rewrite lookup_insert_eq. by eexists.
Qed.

(** The status of the configurations is always answered, with at most
    ten backups: those whose names come last. *)
Theorem handle_config_status_ok s :
  ∃ backups,
    handle_config_status root json_loads s =
    Json 200 (PDict [("local_config", config_entry local_p s);
                     ("web_config", config_entry web_p s);
                     ("backups", PList backups);
                     ("config_details", parse_config_details root json_loads s)]) ∧
    length backups = (length (backup_files root s) `min` 10)%nat.
Proof.
  unfold handle_config_status.
  destruct (mapM_result_Ok (backup_entry root s) (take 10 (backup_files root s)))
    as (backups & -> & Hlen).
  - apply Forall_forall. intros p Hp.
    assert (p ∈ backup_files root s) as [_ [f Hf]]%backup_files_elem.
    { rewrite <-(take_drop 10 (backup_files root s)). apply elem_of_app. by left. }
    unfold backup_entry. rewrite Hf. by eexists.
  - eexists. split; [done|]. rewrite Hlen, length_take. lia.
Qed.

(** *** The results of the last backtest *)

(** The backtest the results name is one whose directory was created
    last. *)
Theorem latest_backtest_newest s name :
  py_item (get_backtest_results root json_loads s) "latest_backtest"
    = Ok (PStr name) →
  ∃ l d, backtests s = Some l ∧ d ∈ l ∧
    name = join (backtest_dir root) (run_name d) ∧
    Forall (λ y, ctime y <= ctime d) l.
Proof.
  unfold get_backtest_results.
  destruct (match files s !! result_p with Some _ => _ | None => _ end);
    cbn [mbind result_bind]; [|done].
  destruct (backtests s) as [l|]; cbn [mbind option_bind]; [|done].
  destruct (max_by ctime l) as [d|] eqn:Hd; cbn [mbind option_bind]; [|done].
  apply max_by_spec in Hd as [Hin Hall].
  destruct (analysis d) as [bytes|]; [destruct (json_loads bytes)|];
    cbn [mbind result_bind]; try done;
    intros [= <-]; by exists l, d.
Qed.

(** A record of the last backtest that cannot be read hides the latest
    backtest and its analysis. *)
Theorem get_backtest_results_unreadable s f e :
  files s !! result_p = Some f → json_loads (content f) = Raise e →
  get_backtest_results root json_loads s =
  PDict [("execution", PDict [("error", PStr ("获取结果失败: " +:+ exn_str e))]);
         ("latest_backtest", PNone); ("analysis", PNone)].
Proof. intros Hf He. unfold get_backtest_results. by rewrite Hf, He. Qed.

(** The record a thread leaves is the one read, when its JSON text reads
    back. *)
Lemma thread_finish_result o runs now s s' :
  thread_finish root json_dumps o runs now s = Some s' →
  ∃ data, files s' !! result_p = Some (File (json_dumps data) now) ∧
    backtests s' = runs ∧ cwd s' = cwd s ∧
    (py_item data "success" = Ok (PBool true) ↔
     ∃ out err, o = Completed 0 out err).
Proof.
  unfold thread_finish. destruct (running s); [done|]. intros [= <-].
  destruct o as [rc out err| |e]; eexists;
    (split; [apply lookup_insert_eq|]); (split_and!; [done..|]); simpl.
  - destruct (Z.eqb_spec rc 0) as [->|]; split; try naive_solver.
  - split; [done|]. by intros (?&?&?).
  - split; [done|]. by intros (?&?&?).
Qed.

(** The states a sequence of events leads to are reachable. *)
Lemma server_run_reachable s0 es s s' rs :
  reachable s0 s → run es s = Some (s', rs) → reachable s0 s'.
Proof.
  revert s rs. induction es as [|e es IH]; intros s rs Hs; cbn [Web.run].
  - by intros [= <- _].
  - destruct (step e s) as [[s1 r]|] eqn:He; [|done]. cbn [mbind option_bind].
    destruct (run es s1) as [[s2 rs']|] eqn:Hr; [|done].
    cbn [mbind option_bind]. intros [= <- _].
    eapply IH; [|done]. by eapply reach_step.
Qed.

(** Two backups made in the same second are one file: the second
    replaces the first. *)
Theorem backup_same_second now now' s g :
  int_of_float now = int_of_float now' → files s !! local_p = Some g →
  files (handle_backup_config root now' s).1 !! backup_p now = Some g.
Proof.
  intros Ht%backup_file_eq Hg. rewrite (handle_backup_config_spec _ _ _ Hg), Ht.
  apply lookup_insert_eq.
Qed.

End server_lemmas.

(** ** Examples *)

Abbreviation demo_init := (init demo_root demo_files (Some demo_runs)).
Abbreviation demo_run :=
  (run demo_root demo_path demo_loads demo_dumps).

(** The page, a backtest, the page again. *)
Lemma backtest_breaks_index_witness :
  ∃ s' started,
    demo_run [Get (demo_get "/") 5; Post (demo_post "/api/run-backtest" "") 5;
              ThreadChdir; Get (demo_get "/") 5] demo_init =
    Some (s', [Html "<html></html>"; Json 200 started;
               Error 404 "File not found"]).
Proof.
  apply (backtest_breaks_index demo_root demo_path demo_loads demo_dumps
           demo_files (Some demo_runs) (File "<html></html>" 0) (File "{}" 1));
    by vm_compute.
Defined.

Lemma demo_state_reachable :
  reachable demo_root demo_path demo_loads demo_dumps demo_init demo_state.
Proof.
  apply (server_run_reachable _ _ _ _ demo_init
           [Post (demo_post "/api/run-backtest" "") 5; ThreadChdir]
           demo_init demo_state
           [Json 200 (PDict [("success", PBool true);
                             ("message", PStr "回测已开始执行，请稍后查看结果")])]);
    [apply reach_init|by vm_compute].
Qed.

Lemma server_inv_witness :
  inv demo_root demo_state ∧
  ∀ p, ¬ written demo_root p → files demo_state !! p = demo_files !! p.
Proof.
  exact (server_inv demo_root demo_path demo_loads demo_dumps demo_files
           (Some demo_runs) demo_state demo_state_reachable).
Defined.

Lemma index_lost_witness :
  do_GET demo_root demo_path demo_loads (demo_get "/?tab=1") 7 demo_state =
  (demo_state, Error 404 "File not found").
Proof.
  apply (index_lost demo_root demo_path demo_loads demo_dumps demo_files
           (Some demo_runs)); [apply demo_state_reachable|by vm_compute..].
Defined.


Lemma use_web_keeps_old_witness :
  ∃ s' resp,
    handle_use_web_config demo_root 1700000000 demo_init = (s', resp) ∧
    files s' !! local_config_path demo_root = Some (File "{}" 2) ∧
    files s' !! backup_file demo_root 1700000000 = Some (File "{}" 1) ∧
    ∀ p, p ≠ local_config_path demo_root →
         p ≠ backup_file demo_root 1700000000 →
         files s' !! p = files demo_init !! p.
Proof.
  apply (use_web_keeps_old demo_root 1700000000 demo_init); by vm_compute.
Defined.

Lemma use_web_reports_backup_witness :
  ∃ s',
    handle_use_web_config demo_root 3 demo_fresh =
      (s', Json 200 (PDict [("success", PBool true);
                            ("message", PStr "已使用网页服务配置");
                            ("backup_created", PBool true)])) ∧
    files s' !! backup_file demo_root 3 =
    files demo_fresh !! backup_file demo_root 3.
Proof.
  apply (use_web_reports_backup demo_root 3 demo_fresh (File "{}" 2));
    by vm_compute.
Defined.

Lemma save_config_roundtrip_witness :
  ∃ s' data,
    handle_save_config demo_root demo_loads demo_dumps
      (demo_post "/api/save-config" "{}") 9 demo_init = (s', Json 200 data) ∧
    files s' =
      <[local_config_path demo_root := File "{}" 9]> (files demo_init) ∧
    load_summary demo_loads (local_config_path demo_root) s' =
      Ok (Summary.extract_config_summary (PDict [])).
Proof.
  apply (save_config_roundtrip demo_root demo_loads demo_dumps
           (demo_post "/api/save-config" "{}") 9 demo_init (PDict []));
    by vm_compute.
Defined.

Lemma start_enhanced_server_finds_witness :
  start_enhanced_server true (demo_bind 48) 1000 8080 = Ok (Some 8082%Z).
Proof.
  apply (start_enhanced_server_finds (demo_bind 48) 1000 8080 2); [lia| |done].
  intros [|[|i]] Hi; [done..|lia].
Defined.

Lemma start_enhanced_server_other_error_witness :
  start_enhanced_server true (demo_bind 98) 1000 8080 = Ok None.
Proof.
  by apply (start_enhanced_server_other_error true (demo_bind 98) 999 8080 98).
Defined.

Lemma latest_backtest_newest_witness :
  ∃ l d, backtests demo_state = Some l ∧ d ∈ l ∧
    "/srv/passivbot/backtests/combined/2024-02-01" =
      join (backtest_dir demo_root) (run_name d) ∧
    Forall (λ y, ctime y <= ctime d) l.
Proof.
  apply (latest_backtest_newest demo_root demo_loads demo_state). by vm_compute.
Defined.

Lemma set_active_web_use_web_witness :
  (handle_set_active_config demo_root demo_loads
     (demo_post "/api/config/set-active" "{}") 8 demo_init).1 =
  (handle_use_web_config demo_root 8 demo_init).1.
Proof.
  apply (set_active_web_use_web demo_root demo_loads
           (demo_post "/api/config/set-active" "{}") 8 demo_init (PDict []));
    by vm_compute.
Defined.

Lemma start_enhanced_server_serving_witness :
  true = true ∧ demo_bind 48 8082 = Bound ∧ (8080 <= 8082)%Z ∧
  ∀ q, (8080 <= q < 8082)%Z → demo_bind 48 q = BindError 48.
Proof.
  apply (start_enhanced_server_serving true (demo_bind 48) 1000 8080 8082).
  by vm_compute.
Defined.

Lemma backup_listed_witness :
  backup_file demo_root 1700000000 ∈
    backup_files demo_root (handle_backup_config demo_root 1700000000 demo_init).1.
Proof.
  apply (backup_listed demo_root 1700000000 demo_init (File "{}" 1)).
  by vm_compute.
Defined.

Lemma backup_same_second_witness :
  files (handle_backup_config demo_root (17 # 2) demo_init).1
    !! backup_file demo_root (33 # 4) = Some (File "{}" 1).
Proof.
  apply (backup_same_second demo_root (33 # 4) (17 # 2) demo_init); by vm_compute.
Defined.

End Web.
