(* ===== verification/StartScripts.v ===== *)
(** * The start scripts ([web_config/start_server.py],
      [web_config/start_enhanced.py])

    [start_server.py] serves the directory of the page with the handler
    of the standard library; its [start_server] is the start-up of the
    enhanced server with that handler.  [start_enhanced.py] installs the
    enhanced page over [index.html], keeping a copy of the page there was,
    and then runs the enhanced server.

    [Module Start] models both on the file system of [WebServer]: the
    bind of the socket is a parameter, as there; a server that serves
    returns when it is interrupted. *)

From Stdlib Require Import QArith ZArith Lia.
From stdpp Require Import prelude strings gmap.
From S2P Require Import Prelude PyDict PyVal WebServer.

#[local] Open Scope Q_scope.

Module Start.

Import Web.

(** ** [start_server.py] *)

(** [start_server(port)] with [limit] frames left on the stack. *)
Fixpoint start_server (index_exists : bool) (bind : Z → bind_outcome)
    (limit : nat) (port : Z) : result (option Z) :=
  match limit with
  | O => Raise (RecursionError "maximum recursion depth exceeded")
  | S limit =>
      if negb index_exists then Ok None
      else
        match bind port with
        | Bound => Ok (Some port)
        | BindError errno =>
            if (errno =? 48)%Z
            then start_server index_exists bind limit (port + 1)
            else Ok None
        end
  end.

(** [main()], on the outcome of the start-up: the exit status. *)
Definition main (version_ok : bool) (started : result (option Z)) : result Z :=
  if negb version_ok then Ok 1%Z
  else
    served ← started;
    Ok (if served is Some _ then 0 else 1)%Z.

(** ** [start_enhanced.py] *)

Section enhanced.
Context (root : string).

Definition current_dir : string := web_dir root.
Definition enhanced_index : string := join current_dir "enhanced_index.html".
Definition enhanced_server : string := join current_dir "enhanced_server.py".
Definition index : string := join current_dir "index.html".
Definition index_backup : string := join current_dir "index_backup.html".

Definition setup_enhanced_server (s : state) : result (state * bool) :=
  if file_exists enhanced_index s && file_exists enhanced_server s then
    s1 ← (if file_exists index s then copy2 index index_backup s else Ok s);
    s2 ← copy2 enhanced_index index s1;
    Ok (s2, true)
  else Ok (s, false).

(** The files after a set-up: the page is the enhanced page, and the
    page there was is the backup. *)
Definition set_up (e : file) (fs : gmap string file) : gmap string file :=
  <[index := e]>
    (match fs !! index with
     | Some f => <[index_backup := f]> fs
     | None => fs
     end).

(** [start_server()]: the exit status of the enhanced server, 1 when it
    raises. *)
Definition run_enhanced (server_main : result Z) : Z :=
  match server_main with
  | Ok status => status
  | Raise _ => 1%Z
  end.

(** [main()]: the state the script leaves and its exit status, for the
    outcome [server_main] of the enhanced server in that state. *)
Definition enhanced_main (server_main : state → result Z) (s : state)
  : result (state * Z) :=
  ' (s', ok) ← setup_enhanced_server s;
  if negb (ok : bool) then Ok (s', 1%Z)
  else Ok (s', run_enhanced (server_main s')).

End enhanced.

(** ** Data for the examples *)

Definition demo_dir : gmap string file :=
  {[ "/srv/passivbot/web_config/index.html" := File "<html>plain</html>" 0;
     "/srv/passivbot/web_config/enhanced_index.html" :=
       File "<html>enhanced</html>" 1;
     "/srv/passivbot/web_config/enhanced_server.py" := File "#!python" 2 ]}.

Definition demo_start : state := init demo_root demo_dir None.

(** ** [start_server.py] *)

(** The two start-ups are the same function of the socket. *)
Lemma start_server_enhanced index_exists bind limit port :
  start_server index_exists bind limit port =
  start_enhanced_server index_exists bind limit port.
Proof.
  revert port. induction limit as [|limit IH]; intros port; [done|].
  cbn [start_server start_enhanced_server]. destruct (negb index_exists); [done|].
  destruct (bind port) as [|errno]; [done|]. by destruct (errno =? 48)%Z.
Qed.

(** The two scripts end with the same status. *)
Lemma main_enhanced version_ok started :
  main version_ok started = Web.main version_ok started.
Proof. reflexivity. Qed.

(** The exit status is 0 exactly when the server served. *)
Lemma main_status version_ok started status :
  main version_ok started = Ok status →
  (status = 0%Z ∧ version_ok = true ∧ ∃ port, started = Ok (Some port)) ∨
  (status = 1%Z ∧ (version_ok = false ∨ started = Ok None)).
Proof.
  unfold main. destruct version_ok; cbn [negb]; [|intros [= <-]; by auto].
  destruct started as [[port|]|]; intros [= <-]; [left|right]; eauto.
Qed.

(** ** [start_enhanced.py] *)

Section enhanced_lemmas.
Context (root : string).

Lemma index_ne_backup : index root ≠ index_backup root.
Proof. apply join_ne. discriminate. Qed.

Lemma enhanced_ne_index : enhanced_index root ≠ index root.
Proof. apply join_ne. discriminate. Qed.

Lemma enhanced_ne_backup : enhanced_index root ≠ index_backup root.
Proof. apply join_ne. discriminate. Qed.

Lemma set_up_index e fs : set_up root e fs !! index root = Some e.
Proof. apply lookup_insert_eq. Qed.

Lemma set_up_backup e fs :
  set_up root e fs !! index_backup root =
  (if fs !! index root is Some f then Some f else fs !! index_backup root).
Proof.
  unfold set_up. rewrite lookup_insert_ne by apply index_ne_backup.
  destruct (fs !! index root); [apply lookup_insert_eq|done].
Qed.

Lemma set_up_other e fs p :
  p ≠ index root → p ≠ index_backup root → set_up root e fs !! p = fs !! p.
Proof.
  intros. unfold set_up. rewrite lookup_insert_ne by done.
  destruct (fs !! index root); [by apply lookup_insert_ne|done].
Qed.

Lemma setup_enhanced_server_spec s e srv :
  files s !! enhanced_index root = Some e →
  files s !! enhanced_server root = Some srv →
  setup_enhanced_server root s = Ok (set_files (set_up root e (files s)) s, true).
Proof.
  intros He Hs. unfold setup_enhanced_server, set_up.
  rewrite (file_exists_Some _ _ _ He), (file_exists_Some _ _ _ Hs).
  cbn [andb]. destruct (files s !! index root) as [f|] eqn:Hi.
  - rewrite (file_exists_Some _ _ _ Hi), (copy2_Some _ _ _ _ Hi).
    cbn [mbind result_bind]. unfold copy2. cbn [files set_files].
    rewrite lookup_insert_ne by (apply not_eq_sym, enhanced_ne_backup).
    by rewrite He.
  - rewrite (file_exists_None _ _ Hi). cbn [mbind result_bind].
    rewrite (copy2_Some _ _ _ _ He). cbn [mbind result_bind]. by destruct s.
Qed.

Lemma setup_enhanced_server_missing s :
  files s !! enhanced_index root = None ∨ files s !! enhanced_server root = None →
  setup_enhanced_server root s = Ok (s, false).
Proof.
  intros H. unfold setup_enhanced_server.
  destruct H as [H|H]; rewrite (file_exists_None _ _ H);
    by rewrite ?andb_false_r.
Qed.

(** After a set-up the page exists, so the start-up of the server does
    not stop at its check of the page. *)
Theorem setup_then_index s s' :
  setup_enhanced_server root s = Ok (s', true) →
  file_exists (index root) s' = true ∧
  files s' !! index root = files s !! enhanced_index root.
Proof.
  intros H.
  destruct (files s !! enhanced_index root) as [e|] eqn:He;
    [|by rewrite setup_enhanced_server_missing in H by auto].
  destruct (files s !! enhanced_server root) as [srv|] eqn:Hs;
    [|by rewrite setup_enhanced_server_missing in H by auto].
  rewrite (setup_enhanced_server_spec s e srv He Hs) in H. injection H as <-.
  cbn [files set_files]. rewrite set_up_index. split; [|done].
  eapply file_exists_Some. apply set_up_index.
Qed.

(** C40: The first set-up keeps the page there was as the backup; the second
    replaces that backup by the enhanced page. *)
Theorem setup_twice_loses_page s e srv :
  files s !! enhanced_index root = Some e →
  files s !! enhanced_server root = Some srv →
  ∃ s1 s2,
    setup_enhanced_server root s = Ok (s1, true) ∧
    files s1 !! index_backup root =
      (if files s !! index root is Some f then Some f
       else files s !! index_backup root) ∧
    setup_enhanced_server root s1 = Ok (s2, true) ∧
    files s2 !! index_backup root = Some e ∧ files s2 !! index root = Some e.
Proof.
  intros He Hs. eexists _, _.
  rewrite (setup_enhanced_server_spec s e srv He Hs).
  split; [done|]. cbn [files set_files]. split; [apply set_up_backup|].
  rewrite (setup_enhanced_server_spec _ e srv); cbn [files set_files].
  - split; [done|]. cbn [files set_files].
    by rewrite set_up_backup, !set_up_index.
  - rewrite set_up_other; [done|apply enhanced_ne_index|apply enhanced_ne_backup].
  - rewrite set_up_other; [done|apply join_ne; discriminate..].
Qed.

(** The script ends with status 1 without the enhanced files, and
    changes nothing. *)
Theorem enhanced_main_missing server_main s :
  files s !! enhanced_index root = None ∨ files s !! enhanced_server root = None →
  enhanced_main root server_main s = Ok (s, 1%Z).
Proof.
  intros H. unfold enhanced_main. by rewrite (setup_enhanced_server_missing s H).
Qed.

End enhanced_lemmas.

(** ** Examples *)

Lemma setup_twice_loses_page_witness :
  ∃ s1 s2,
    setup_enhanced_server demo_root demo_start = Ok (s1, true) ∧
    files s1 !! index_backup demo_root =
      (if files demo_start !! index demo_root is Some f then Some f
       else files demo_start !! index_backup demo_root) ∧
    setup_enhanced_server demo_root s1 = Ok (s2, true) ∧
    files s2 !! index_backup demo_root = Some (File "<html>enhanced</html>" 1) ∧
    files s2 !! index demo_root = Some (File "<html>enhanced</html>" 1).
Proof.
  apply (setup_twice_loses_page demo_root demo_start
           (File "<html>enhanced</html>" 1) (File "#!python" 2));
    by vm_compute.
Defined.

Example demo_setup_backup :
  ∃ s1, setup_enhanced_server demo_root demo_start = Ok (s1, true) ∧
    files s1 !! index_backup demo_root = Some (File "<html>plain</html>" 0).
Proof. eexists. split; by vm_compute. Qed.

Lemma main_status_witness :
  (0%Z = 0%Z ∧ true = true ∧
   ∃ port, start_server true (demo_bind 48) 1000 8080 = Ok (Some port)) ∨
  (0%Z = 1%Z ∧ (true = false ∨
                start_server true (demo_bind 48) 1000 8080 = Ok None)).
Proof.
  apply (main_status true (start_server true (demo_bind 48) 1000 8080) 0).
  by vm_compute.
Defined.

End Start.
