(* ===== verification/BacktestFix.v ===== *)
(** * The backtest repair script ([fix_backtest.py])

    [fix_backtest.py] checks the network, writes a simple configuration
    to [my_config_simple.json] and runs the backtester on it, at most
    three times.  After a time-out it shortens the period of
    [my_config.json] before the next attempt.

    [Module BacktestFix] models the script on the files of the working
    directory (a map from names to bytes).  The backtester is a parameter:
    [proc] gives the outcome of the subprocess of an attempt from the
    files it finds; what the subprocess writes is outside the model.
    The answer to the ping of [check_network] is an input; [main] takes
    the result of the check.  Of the text printed the model has the
    format of a line ([print_status]).  [run_backtest_with_retry] returns, with the files and its
    result, the files each subprocess was started on. *)

From Stdlib Require Import QArith ZArith Lia Ascii.
From stdpp Require Import prelude strings gmap.
From S2P Require Import Prelude PyDict PyVal.

#[local] Open Scope Q_scope.

Module BacktestFix.

(** The dictionary [config] of [create_simple_config]. *)
Definition simple_config : pyval :=
  PDict [
    ("backtest", PDict [
      ("base_dir", PStr "backtests");
      ("combine_ohlcvs", PBool true);
      ("compress_cache", PBool true);
      ("start_date", PStr "2024-01-01");
      ("end_date", PStr "2024-01-31");
      ("starting_balance", PInt 10000);
      ("exchanges", PList [PStr "binance"]);
      ("gap_tolerance_ohlcvs_minutes", PInt 120);
      ("use_btc_collateral", PBool true)]);
    ("bot", PDict [
      ("long", PDict [
        ("close_grid_markup_end", PFloat 0.001);
        ("close_grid_markup_start", PFloat 0.002);
        ("close_grid_qty_pct", PFloat 0.5);
        ("close_trailing_grid_ratio", PFloat 0.0);
        ("close_trailing_qty_pct", PFloat 0.0);
        ("close_trailing_retracement_pct", PFloat 0.0);
        ("close_trailing_threshold_pct", PFloat 0.0);
        ("ema_span_0", PInt 100);
        ("ema_span_1", PInt 200);
        ("enforce_exposure_limit", PBool true);
        ("entry_grid_double_down_factor", PFloat 1.0);
        ("entry_grid_spacing_pct", PFloat 0.01);
        ("entry_grid_spacing_weight", PFloat 1.0);
        ("entry_initial_ema_dist", PFloat 0.0);
        ("entry_initial_qty_pct", PFloat 0.01);
        ("entry_trailing_double_down_factor", PFloat 1.0);
        ("entry_trailing_grid_ratio", PFloat 0.0);
        ("entry_trailing_retracement_pct", PFloat 0.0);
        ("entry_trailing_threshold_pct", PFloat 0.0);
        ("filter_noisiness_rolling_window", PInt 20);
        ("filter_volume_drop_pct", PFloat 0.0);
        ("filter_volume_rolling_window", PInt 100);
        ("n_positions", PInt 3);
        ("total_wallet_exposure_limit", PFloat 0.5);
        ("unstuck_close_pct", PFloat 0.01);
        ("unstuck_ema_dist", PFloat 0.001);
        ("unstuck_loss_allowance_pct", PFloat 0.001);
        ("unstuck_threshold", PFloat 0.5)]);
      ("short", PDict [
        ("close_grid_markup_end", PFloat 0.001);
        ("close_grid_markup_start", PFloat 0.002);
        ("close_grid_qty_pct", PFloat 0.5);
        ("close_trailing_grid_ratio", PFloat 0.0);
        ("close_trailing_qty_pct", PFloat 0.0);
        ("close_trailing_retracement_pct", PFloat 0.0);
        ("close_trailing_threshold_pct", PFloat 0.0);
        ("ema_span_0", PInt 100);
        ("ema_span_1", PInt 200);
        ("enforce_exposure_limit", PBool true);
        ("entry_grid_double_down_factor", PFloat 1.0);
        ("entry_grid_spacing_pct", PFloat 0.01);
        ("entry_grid_spacing_weight", PFloat 1.0);
        ("entry_initial_ema_dist", PFloat 0.0);
        ("entry_initial_qty_pct", PFloat 0.01);
        ("entry_trailing_double_down_factor", PFloat 1.0);
        ("entry_trailing_grid_ratio", PFloat 0.0);
        ("entry_trailing_retracement_pct", PFloat 0.0);
        ("entry_trailing_threshold_pct", PFloat 0.0);
        ("filter_noisiness_rolling_window", PInt 20);
        ("filter_volume_drop_pct", PFloat 0.0);
        ("filter_volume_rolling_window", PInt 100);
        ("n_positions", PInt 3);
        ("total_wallet_exposure_limit", PFloat 0.5);
        ("unstuck_close_pct", PFloat 0.01);
        ("unstuck_ema_dist", PFloat 0.001);
        ("unstuck_loss_allowance_pct", PFloat 0.001);
        ("unstuck_threshold", PFloat 0.5)])]);
    ("live", PDict [
      ("approved_coins", PList [PStr "BTCUSDT"]);
      ("auto_gs", PBool false);
      ("empty_means_all_approved", PBool false);
      ("execution_delay_seconds", PInt 0);
      ("filter_by_min_effective_cost", PBool false);
      ("forced_mode_long", PStr "n");
      ("forced_mode_short", PStr "n");
      ("ignored_coins", PDict [
        ("long", PList []);
        ("short", PList [])]);
      ("leverage", PFloat 1.0);
      ("market_orders_allowed", PBool false);
      ("max_n_cancellations_per_batch", PInt 100);
      ("max_n_creations_per_batch", PInt 100);
      ("max_n_restarts_per_day", PInt 10);
      ("mimic_backtest_1m_delay", PBool false);
      ("minimum_coin_age_days", PInt 30);
      ("ohlcvs_1m_rolling_window_days", PInt 7);
      ("ohlcvs_1m_update_after_minutes", PInt 1);
      ("pnls_max_lookback_days", PInt 30);
      ("price_distance_threshold", PFloat 0.002);
      ("time_in_force", PStr "GTC");
      ("user", PStr "test_user")])].

(** The escape character of the terminal colours. *)
Definition esc : string := String "027" "".

(** [print_status(message, status)]: the line printed, with the colour of
    the status when it has one. *)
Definition colors : pydict string string :=
  [("INFO", esc +:+ "[0;32m"); ("WARNING", esc +:+ "[1;33m");
   ("ERROR", esc +:+ "[0;31m"); ("SUCCESS", esc +:+ "[0;32m")].

Definition print_status (message status : string) : string :=
  default "" (dget status colors) +:+ "[" +:+ status +:+ "]" +:+ esc +:+ "[0m "
  +:+ message.

(** [check_network()], on the outcome of the import of [requests] and of
    the ping: the status code, or what was raised. *)
Definition check_network (ping : result Z) : bool :=
  match ping with
  | Ok status_code => (status_code =? 200)%Z
  | Raise _ => false
  end.

(** How the subprocess of an attempt ended. *)
Inductive outcome : Type :=
| Completed (returncode : Z) (stdout stderr : string)
| TimeoutExpired
| Failed (e : exn).

(** What an iteration of the loop does next. *)
Inductive control : Type :=
| Return (b : bool)
| Continue
| Escape (e : exn).

Abbreviation files := (gmap string string).

Section script.
Context (json_loads : string → result pyval) (json_dumps : pyval → string).
Context (proc : files → nat → outcome).

Definition create_simple_config (fs : files) : files :=
  <["my_config_simple.json" := json_dumps simple_config]> fs.

(** [cp my_config_simple.json my_config.json], when the first exists. *)
Definition use_simple (fs : files) : files :=
  match fs !! "my_config_simple.json" with
  | Some text => <["my_config.json" := text]> fs
  | None => fs
  end.

(** [config["backtest"]["end_date"] = date] *)
Definition set_end_date (date : string) (config : pyval) : result pyval :=
  backtest ← py_item config "backtest";
  match config, backtest with
  | PDict c, PDict b =>
      Ok (PDict (dset "backtest" (PDict (dset "end_date" (PStr date) b)) c))
  | _, _ => Raise (TypeError "object does not support item assignment")
  end.

(** The handler of a time-out: the period of [my_config.json] is
    shortened.  What it raises is not handled. *)
Definition shorten (fs : files) : result files :=
  match fs !! "my_config.json" with
  | None => Raise (OSError "No such file or directory")
  | Some text =>
      config ← json_loads text;
      config ← set_end_date "2024-01-07" config;
      Ok (<["my_config.json" := json_dumps config]> fs)
  end.

(** One iteration of the loop: the files it leaves, the files the
    subprocess was started on, and what the loop does next. *)
Definition attempt_once (attempt : nat) (fs : files) : files * files * control :=
  let fs1 := use_simple fs in
  match proc fs1 attempt with
  | Completed returncode _ _ =>
      (fs1, fs1, if (returncode =? 0)%Z then Return true else Continue)
  | TimeoutExpired =>
      match shorten fs1 with
      | Ok fs2 => (fs2, fs1, Continue)
      | Raise e => (fs1, fs1, Escape e)
      end
  | Failed _ => (fs1, fs1, Continue)
  end.

(** [for attempt in attempts: ...; return False] *)
Fixpoint retry (attempts : list nat) (fs : files)
  : files * list files * result bool :=
  match attempts with
  | [] => (fs, [], Ok false)
  | attempt :: attempts =>
      let '(fs', started, next) := attempt_once attempt fs in
      match next with
      | Return b => (fs', [started], Ok b)
      | Escape e => (fs', [started], Raise e)
      | Continue =>
          let '(fs'', trace, r) := retry attempts fs' in
          (fs'', started :: trace, r)
      end
  end.

Definition max_retries : nat := 3.

Definition run_backtest_with_retry (fs : files)
  : files * list files * result bool :=
  retry (seq 0 max_retries) fs.

(** [main()]: without the network nothing is done; the result is that of
    the retries otherwise. *)
Definition main (check_network : bool) (fs : files)
  : files * list files * result (option bool) :=
  if negb check_network then (fs, [], Ok None)
  else
    let '(fs', trace, r) := run_backtest_with_retry (create_simple_config fs) in
    (fs', trace, Some <$> r).

End script.

(** ** Data for the examples *)

(** A reader and a writer for two texts: the simple configuration and
    the shortened one. *)
Definition demo_short : pyval :=
  default PNone (match set_end_date "2024-01-07" simple_config with
                 | Ok c => Some c
                 | Raise _ => None
                 end).

Definition demo_dumps (v : pyval) : string :=
  if py_eqb v simple_config then "simple" else "short".

Definition demo_loads (text : string) : result pyval :=
  if decide (text = "simple") then Ok simple_config
  else if decide (text = "short") then Ok demo_short
  else Raise (ValueError "Expecting value").

(** A backtester that times out twice and then fails. *)
Definition demo_proc (fs : files) (attempt : nat) : outcome :=
  if decide (attempt < 2)%nat then TimeoutExpired else Completed 1 "" "error".

(** A backtester that succeeds on the second attempt. *)
Definition ok_proc (fs : files) (attempt : nat) : outcome :=
  if decide (attempt = 1)%nat then Completed 0 "done" "" else Failed (OSError "").

Definition demo_files : files := {[ "my_config_simple.json" := "simple" ]}.

(** A backtester that always times out. *)
Definition slow_proc (fs : files) (attempt : nat) : outcome := TimeoutExpired.

(** ** Lemmas *)

Section script_lemmas.
Context (json_loads : string → result pyval) (json_dumps : pyval → string).
Context (proc : files → nat → outcome).

Abbreviation attempt_once := (attempt_once json_loads json_dumps proc).
Abbreviation retry := (retry json_loads json_dumps proc).
Abbreviation run_backtest_with_retry :=
  (run_backtest_with_retry json_loads json_dumps proc).
Abbreviation main := (main json_loads json_dumps proc).

Lemma use_simple_Some fs text :
  fs !! "my_config_simple.json" = Some text →
  use_simple fs = <["my_config.json" := text]> fs.
Proof. intros H. unfold use_simple. by rewrite H. Qed.

Lemma shorten_simple fs fs' :
  shorten json_loads json_dumps fs = Ok fs' →
  fs' !! "my_config_simple.json" = fs !! "my_config_simple.json".
Proof.
  unfold shorten. destruct (fs !! "my_config.json") as [text|]; [|done].
  destruct (json_loads text) as [config|]; [|done]. cbn [mbind result_bind].
  destruct (set_end_date _ config); [|done]. cbn [mbind result_bind].
  intros [= <-]. by apply lookup_insert_ne.
Qed.

(** An iteration starts the backtester on the simple configuration, when
    there is one, and leaves the simple configuration as it is. *)
Lemma attempt_once_simple attempt fs text :
  fs !! "my_config_simple.json" = Some text →
  (attempt_once attempt fs).1.2 !! "my_config.json" = Some text ∧
  (attempt_once attempt fs).1.1 !! "my_config_simple.json" = Some text.
Proof.
  intros H. unfold BacktestFix.attempt_once. rewrite (use_simple_Some _ _ H).
  set (fs1 := <["my_config.json" := text]> fs).
  assert (fs1 !! "my_config.json" = Some text) as H1 by apply lookup_insert_eq.
  assert (fs1 !! "my_config_simple.json" = Some text) as H2
    by (unfold fs1; by rewrite lookup_insert_ne).
  destruct (proc fs1 attempt) as [rc ? ?| |e]; cbn [fst snd]; [done| |done].
  destruct (shorten _ _ fs1) as [fs2|] eqn:Hs; cbn [fst snd]; [|done].
  by rewrite (shorten_simple _ _ Hs).
Qed.

(** Every attempt runs the backtester on the simple configuration: what
    the handler of a time-out wrote is replaced before the next attempt. *)
Theorem retry_started_simple attempts fs text :
  fs !! "my_config_simple.json" = Some text →
  Forall (λ started, started !! "my_config.json" = Some text)
    (retry attempts fs).1.2.
Proof.
  revert fs. induction attempts as [|attempt attempts IH]; intros fs H;
    cbn [BacktestFix.retry]; [done|].
  destruct (attempt_once_simple attempt fs text H) as [H1 H2].
  destruct (attempt_once attempt fs) as [[fs' started] next]. cbn [fst snd] in *.
  destruct next; cbn [fst snd]; [by repeat constructor| |by repeat constructor].
  specialize (IH fs' H2). destruct (retry attempts fs') as [[fs'' trace] r].
  by constructor.
Qed.

(** The backtester is started at most once per attempt. *)
Lemma retry_length attempts fs :
  (length (retry attempts fs).1.2 ≤ length attempts)%nat.
Proof.
  revert fs. induction attempts as [|attempt attempts IH]; intros fs;
    cbn [BacktestFix.retry]; [done|].
  destruct (attempt_once attempt fs) as [[fs' started] next].
  destruct next; cbn [fst snd length]; [lia| |lia].
  specialize (IH fs'). destruct (retry attempts fs') as [[fs'' trace] r].
  cbn [fst snd length] in *. lia.
Qed.

Lemma attempt_once_Return attempt fs fs' started b :
  attempt_once attempt fs = (fs', started, Return b) →
  b = true ∧ ∃ out err, proc started attempt = Completed 0 out err.
Proof.
  unfold BacktestFix.attempt_once.
  destruct (proc (use_simple fs) attempt) as [rc out err| |e] eqn:Hp;
    [|by destruct (shorten _ _ _)|done].
  destruct (Z.eqb_spec rc 0) as [->|]; [|done]. intros [= _ <- <-]. eauto.
Qed.

(** The loop returns [True] only after an attempt whose backtester ended
    with status 0. *)
Theorem retry_true attempts fs :
  (retry attempts fs).2 = Ok true →
  ∃ attempt started out err,
    attempt ∈ attempts ∧ last (retry attempts fs).1.2 = Some started ∧
    proc started attempt = Completed 0 out err.
Proof.
  revert fs. induction attempts as [|attempt attempts IH]; intros fs;
    cbn [BacktestFix.retry]; [done|].
  destruct (attempt_once attempt fs) as [[fs' started] [b| |e]] eqn:Ha;
    cbn [fst snd]; [| |done].
  - intros _. destruct (attempt_once_Return _ _ _ _ _ Ha) as (_ & out & err & Hp).
    exists attempt, started, out, err. split_and!; [by left|done..].
  - specialize (IH fs'). destruct (retry attempts fs') as [[fs'' trace] r].
    cbn [fst snd] in *. intros (k & st & o & e' & Hk & Hl & Hpk)%IH.
    exists k, st, o, e'. split_and!; [by right| |done].
    destruct trace; [done|]. by rewrite last_cons, Hl.
Qed.

(** Without a backtester that ends with status 0, and with a simple
    configuration that can be shortened, the loop makes every attempt
    and returns [False]. *)
Theorem retry_false attempts fs text config short :
  fs !! "my_config_simple.json" = Some text →
  json_loads text = Ok config → set_end_date "2024-01-07" config = Ok short →
  (∀ started attempt out err, proc started attempt ≠ Completed 0 out err) →
  (retry attempts fs).2 = Ok false ∧
  length (retry attempts fs).1.2 = length attempts.
Proof.
  intros Hf Hj Hs Hnz. revert fs Hf.
  induction attempts as [|attempt attempts IH]; intros fs Hf;
    cbn [BacktestFix.retry]; [done|].
  destruct (attempt_once_simple attempt fs text Hf) as [H1 H2].
  destruct (attempt_once attempt fs) as [[fs' started] [b| |e]] eqn:Ha;
    cbn [fst snd] in *.
  - destruct (attempt_once_Return _ _ _ _ _ Ha) as (_ & out & err & Hp).
    by destruct (Hnz _ _ _ _ Hp).
  - specialize (IH fs' H2). destruct (retry attempts fs') as [[fs'' trace] r].
    cbn [fst snd length] in *. destruct IH as [-> ->]. done.
  - revert Ha. unfold BacktestFix.attempt_once.
    rewrite (use_simple_Some _ _ Hf).
    destruct (proc _ attempt) as [rc ? ?| |?]; [by destruct (rc =? 0)%Z| |done].
    unfold shorten. rewrite lookup_insert_eq, Hj. cbn [mbind result_bind].
    by rewrite Hs.
Qed.

(** A handler of the time-out that raises ends the loop with its
    exception. *)
Theorem retry_escape attempt attempts fs e :
  proc (use_simple fs) attempt = TimeoutExpired →
  shorten json_loads json_dumps (use_simple fs) = Raise e →
  retry (attempt :: attempts) fs = (use_simple fs, [use_simple fs], Raise e).
Proof.
  intros Hp Hs. cbn [BacktestFix.retry]. unfold BacktestFix.attempt_once.
  by rewrite Hp, Hs.
Qed.

(** *** The script *)

Lemma shorten_simple_config fs :
  json_loads (json_dumps simple_config) = Ok simple_config →
  fs !! "my_config.json" = Some (json_dumps simple_config) →
  ∃ short, set_end_date "2024-01-07" simple_config = Ok short ∧
    shorten json_loads json_dumps fs =
    Ok (<["my_config.json" := json_dumps short]> fs).
Proof.
  intros Hj Hf. eexists. split; [reflexivity|].
  unfold shorten. by rewrite Hf, Hj.
Qed.

(** C34: With the network, the script writes the simple configuration and
    starts every backtester on it: the period shortened after a time-out
    is never the one of a later attempt. *)
Theorem main_started_simple fs :
  Forall (λ started, started !! "my_config.json" = Some (json_dumps simple_config))
    (main true fs).1.2.
Proof.
  unfold BacktestFix.main, BacktestFix.run_backtest_with_retry. cbn [negb].
  pose proof (retry_started_simple (seq 0 max_retries)
    (create_simple_config json_dumps fs) (json_dumps simple_config)) as H.
  destruct (retry _ _) as [[fs' trace] r]. apply H.
  apply lookup_insert_eq.
Qed.

(** Without the network the script does nothing. *)
(** The network is there exactly when the ping was answered with status
    200; otherwise [main] does nothing. *)
Lemma check_network_true ping : check_network ping = true ↔ ping = Ok 200%Z.
Proof.
  destruct ping as [code|e]; cbn; [|done]. rewrite Z.eqb_eq. naive_solver.
Qed.

Lemma main_no_ping ping fs :
  ping ≠ Ok 200%Z → main (check_network ping) fs = (fs, [], Ok None).
Proof.
  intros Hp. unfold main. destruct (check_network ping) eqn:E; [|done].
  by apply check_network_true in E.
Qed.

Lemma main_no_network fs : main false fs = (fs, [], Ok None).
Proof. done. Qed.

End script_lemmas.

(** ** Examples *)

(** Three time-outs: every backtester was started on the simple
    configuration, and the shortened configuration is left behind. *)
Example print_status_warning :
  print_status "check" "WARNING" = esc +:+ "[1;33m[WARNING]" +:+ esc +:+ "[0m check" ∧
  print_status "check" "NOTE" = "[NOTE]" +:+ esc +:+ "[0m check".
Proof. by vm_compute. Qed.

Example main_timeouts :
  main demo_loads demo_dumps slow_proc true ∅ =
  ({[ "my_config_simple.json" := "simple"; "my_config.json" := "short" ]},
   replicate 3 {[ "my_config_simple.json" := "simple";
                  "my_config.json" := "simple" ]},
   Ok (Some false)).
Proof. vm_compute. reflexivity. Qed.

Lemma retry_started_simple_witness :
  Forall (λ started : files, started !! "my_config.json" = Some "simple")
    (retry demo_loads demo_dumps demo_proc [0; 1; 2]%nat demo_files).1.2.
Proof.
  apply (retry_started_simple demo_loads demo_dumps demo_proc
           [0; 1; 2]%nat demo_files "simple").
  vm_compute. reflexivity.
Defined.

Lemma retry_true_witness :
  ∃ attempt started out err,
    attempt ∈ [0; 1; 2]%nat ∧
    last (retry demo_loads demo_dumps ok_proc [0; 1; 2]%nat demo_files).1.2
      = Some started ∧
    ok_proc started attempt = Completed 0 out err.
Proof.
  apply (retry_true demo_loads demo_dumps ok_proc [0; 1; 2]%nat demo_files).
  vm_compute. reflexivity.
Defined.

Lemma retry_false_witness :
  (retry demo_loads demo_dumps demo_proc [0; 1; 2]%nat demo_files).2 = Ok false ∧
  length (retry demo_loads demo_dumps demo_proc [0; 1; 2]%nat demo_files).1.2
    = 3%nat.
Proof.
  apply (retry_false demo_loads demo_dumps demo_proc [0; 1; 2]%nat demo_files
           "simple" simple_config demo_short); [vm_compute; reflexivity..|].
  intros started attempt out err. unfold demo_proc. by case_decide.
Defined.

Lemma retry_escape_witness :
  retry demo_loads demo_dumps slow_proc [0; 1; 2]%nat ∅ =
  (use_simple ∅, [use_simple ∅], Raise (OSError "No such file or directory")).
Proof.
  apply (retry_escape demo_loads demo_dumps slow_proc 0%nat [1; 2]%nat ∅);
    vm_compute; reflexivity.
Defined.

End BacktestFix.
