(* ===== verification/MockData.v ===== *)
(** * The mock price series ([offline_backtest_demo.py])

    [mock_frame] builds a series of bars from a seeded random
    generator: a geometric random walk for the open prices, and for each
    bar a close, a high and a low around the open, and a volume.

    [Module Mock] models it as the code computes it.  The random
    generator is a state monad [rng] over the number of calls made since
    [np.random.seed(42)].  The value of a call is a parameter of
    [Section generator]: [gauss k] is the standard normal deviate and
    [unif k] the number of the unit interval that the call numbered [k]
    returns in the run that is modelled, and [exp] is [np.exp].  The
    theorems hold for every such sequence, under the bounds they state;
    none compares two runs of different lengths.

    A time stamp is the number of nanoseconds pandas stores, and
    [pd.to_datetime] is a parameter of [create_mock_ohlcv_data];
    [mock_frame] is the function on the parsed dates.  An empty range
    leaves a frame without columns, and [set_index] raises. *)

From Stdlib Require Import QArith Qabs Lqa ZArith Lia.
From stdpp Require Import prelude strings sorting.
From S2P Require Import Prelude PyDict PyVal GridBacktest.

#[local] Set Warnings "-clear-no-such-hyp".
#[local] Open Scope Q_scope.

Module Mock.

(** A row of the data frame, with its index. *)
Record ohlcv : Type := {
  timestamp : Z;
  open : Q;
  high : Q;
  low : Q;
  close : Q;
  volume : Q;
}.

(** ** The generator as a state monad *)

(** A computation that draws: from the number of calls made so far to
    that number afterwards and the result. *)
Definition rng (A : Type) : Type := nat → nat * A.

#[export] Instance rng_ret : MRet rng := λ _ a k, (k, a).
#[export] Instance rng_bind : MBind rng := λ _ _ f m k,
  let '(k', a) := m k in f a k'.
#[export] Instance rng_fmap : FMap rng := λ _ _ f m k,
  let '(k', a) := m k in (k', f a).

(** [max(a, b)] and [min(a, b)] of Python: the first argument unless the
    second is strictly beyond it. *)
Definition py_max (a b : Q) : Q := if a <? b then b else a.
Definition py_min (a b : Q) : Q := if b <? a then b else a.

(** [np.cumsum] *)
Fixpoint cumsum_from (acc : Q) (l : list Q) : list Q :=
  match l with
  | [] => []
  | x :: l => (acc + x) :: cumsum_from (acc + x) l
  end.

Definition cumsum (l : list Q) : list Q := cumsum_from 0 l.

(** One minute and one hour, in nanoseconds. *)
Definition minute : Z := 60000000000.
Definition hour : Z := 3600000000000.

(** The frequency of an interval: a minute unless the interval is
    [1h]. *)
Definition freq_of (interval : string) : Z :=
  if decide (interval = "1m") then minute
  else if decide (interval = "1h") then hour
  else minute.

(** [pd.date_range(start, end, freq)]: the instants from [start] on, by
    steps of [freq], that are not after [end]. *)
Definition date_range (start end_ freq : Z) : list Z :=
  (λ i : nat, start + Z.of_nat i * freq)%Z
    <$> seq 0 (Z.to_nat ((end_ - start) `div` freq + 1)).

(** [50000 if 'BTC' in symbol else 3000] *)
Definition initial_price (symbol : string) : Q :=
  if bool_decide (is_Some (String.index 0 "BTC" symbol)) then 50000 else 3000.

Section generator.
Context (exp : Q → Q) (gauss unif : nat → Q).

(** [np.random.normal(loc, scale)] *)
Definition normal (loc scale : Q) : rng Q :=
  λ k, (S k, loc + scale * gauss k).

(** [np.random.uniform(lo, hi)] *)
Definition uniform (lo hi : Q) : rng Q :=
  λ k, (S k, lo + (hi - lo) * unif k).

(** [np.random.normal(loc, scale, n)] *)
Definition normals (loc scale : Q) (n : nat) : rng (list Q) :=
  mapM (λ _ : nat, normal loc scale) (seq 0 n).

(** The body of the loop: the row of a time stamp and a price. *)
Definition make_row (ts : Z) (price : Q) : rng ohlcv :=
  let open_price := price in
  n ← normal 0 0.0005;
  let close_price := price * (1 + n) in
  n ← normal 0 0.0002;
  let high_price := py_max open_price close_price * (1 + Qabs n) in
  n ← normal 0 0.0002;
  let low_price := py_min open_price close_price * (1 - Qabs n) in
  volume ← uniform 100 1000;
  mret {| timestamp := ts; open := open_price; high := high_price;
          low := low_price; close := close_price; volume := volume |}.

(** The whole computation, in the generator. *)
Definition mock_rows (symbol : string) (start end_ : Z) (interval : string)
  : rng (list ohlcv) :=
  let timestamps := date_range start end_ (freq_of interval) in
  returns ← normals 0 0.001 (length timestamps);
  let prices := (λ c, initial_price symbol * exp c) <$> cumsum returns in
  mapM (λ tp, make_row tp.1 tp.2) (zip timestamps prices).

(** The frame of the rows, from the seed.  Without rows the frame has no
    column to index by. *)
Definition mock_frame (symbol : string) (start end_ : Z)
    (interval : string) : result (list ohlcv) :=
  let data := (mock_rows symbol start end_ interval 0%nat).2 in
  if data is [] then Raise (KeyError "None of ['timestamp'] are in the columns")
  else Ok data.

(** [create_mock_ohlcv_data(symbol, start_date, end_date, interval)] *)
Definition create_mock_ohlcv_data (to_datetime : string → result Z)
    (symbol start_date end_date interval : string) : result (list ohlcv) :=
  start ← to_datetime start_date;
  end_ ← to_datetime end_date;
  mock_frame symbol start end_ interval.

End generator.

(** The rows as the backtest reads them. *)
Definition to_bar (r : ohlcv) : Grid.bar :=
  {| Grid.timestamp := timestamp r; Grid.close := close r |}.

(** ** Specification *)

(** A bar is well formed: its prices are positive and the low and the
    high bound the open and the close. *)
Record bar_wf (r : ohlcv) : Prop := {
  wf_open : 0 < open r;
  wf_close : 0 < close r;
  wf_low : 0 < low r;
  wf_low_open : low r <= open r;
  wf_low_close : low r <= close r;
  wf_open_high : open r <= high r;
  wf_close_high : close r <= high r;
}.

(** The deviates that keep the prices positive: that of a close above
    -2000 standard deviations, that of a low within 5000. *)
Definition draws_tame (gauss : nat → Q) : Prop :=
  ∀ k, -(2000) < gauss k ∧ Qabs (gauss k) < 5000.

(** The numbers of the unit interval. *)
Definition draws_unit (unif : nat → Q) : Prop := ∀ k, 0 <= unif k < 1.

(** The returns of a walk of [n] steps: the first [n] deviates, scaled. *)
Definition returns_of (gauss : nat → Q) (n : nat) : list Q :=
  (λ k, 0 + 0.001 * gauss k) <$> seq 0 n.

(** The rows without the generator: the row at position [i] of [n] is
    made of the four draws from call [n + 4 i] on. *)
Definition rows_ref (exp : Q → Q) (gauss unif : nat → Q) (symbol : string)
    (start end_ : Z) (interval : string) : list ohlcv :=
  let ts := date_range start end_ (freq_of interval) in
  let prices := (λ c, initial_price symbol * exp c)
                  <$> cumsum (returns_of gauss (length ts)) in
  imap (λ i tp, (make_row gauss unif tp.1 tp.2 (length ts + 4 * i)%nat).2)
       (zip ts prices).

(** ** Data for the examples *)

(** Deviates that alternate between two values, and numbers of the unit
    interval that do. *)
Definition demo_gauss (k : nat) : Q := if Nat.even k then 1 # 2 else -(3 # 2).
Definition demo_unif (k : nat) : Q := if Nat.even k then 1 # 4 else 3 # 4.

(** 2024-01-01 00:00:00, in nanoseconds. *)
Definition demo_start : Z := 1704067200000000000.

(** [pd.to_datetime] on the dates of the examples. *)
Definition demo_to_datetime (date : string) : result Z :=
  if decide (date = "2024-01-01") then Ok demo_start
  else if decide (date = "2024-01-01 00:02") then Ok (demo_start + 2 * minute)%Z
  else if decide (date = "2024-01-07") then Ok (demo_start + 6 * 24 * hour)%Z
  else if decide (date = "2024-01-31") then Ok (demo_start + 30 * 24 * hour)%Z
  else Raise (ValueError ("Unknown datetime string format: " +:+ date)).

(** A stand-in for [np.exp]: a positive function that is 1 at 0. *)
Definition demo_exp (x : Q) : Q := 1 + x * x.

(** Three minutes of data. *)
Definition demo_rows : list ohlcv :=
  rows_ref demo_exp demo_gauss demo_unif "BTCUSDT"
    demo_start (demo_start + 2 * minute) "1m".

(** ** The generator *)

Lemma mapM_rng_cons {A B} (f : A → rng B) x l k :
  mapM f (x :: l) k =
  (let '(k1, y) := f x k in let '(k2, ys) := mapM f l k1 in (k2, y :: ys)).
Proof.
  cbn [mapM]. unfold mbind, rng_bind, mret, rng_ret.
  destruct (f x k) as [k1 y]. by destruct (mapM f l k1).
Qed.

(** A body that makes [c] calls makes [c] calls per element. *)
Lemma mapM_rng_calls {A B} (f : A → rng B) (c : nat) l k :
  (∀ x k, (f x k).1 = (k + c)%nat) →
  (mapM f l k).1 = (k + c * length l)%nat.
Proof.
  intros Hf. revert k. induction l as [|x l IH]; intros k.
  - simpl. lia.
  - rewrite mapM_rng_cons. specialize (Hf x k). destruct (f x k) as [k1 y].
    specialize (IH k1). destruct (mapM f l k1). simpl in *. lia.
Qed.

(** With a body that makes [c] calls, the result at position [i] is that
    of the body after [c i] calls. *)
Lemma mapM_rng_imap {A B} (f : A → rng B) (c : nat) l k :
  (∀ x k, (f x k).1 = (c + k)%nat) →
  (mapM f l k).2 = imap (λ i x, (f x (k + c * i)%nat).2) l.
Proof.
  intros Hf. revert k. induction l as [|x l IH]; intros k; [done|].
  rewrite mapM_rng_cons. specialize (Hf x k). cbn [imap].
  replace (k + c * 0)%nat with k by lia.
  destruct (f x k) as [k1 y]. cbn [fst] in Hf. subst k1.
  specialize (IH (c + k)%nat). destruct (mapM f l (c + k)%nat). cbn [snd] in *.
  rewrite IH. f_equal. apply imap_ext. intros i z _. cbn.
  do 2 f_equal. lia.
Qed.

(** What holds of the image of every element with its position holds of
    the whole image. *)
Lemma Forall_imap {A B} (g : nat → A → B) (P : B → Prop) l :
  (∀ i x, l !! i = Some x → P (g i x)) → Forall P (imap g l).
Proof.
  intros H. apply Forall_forall. intros y (i & x & -> & Hi)%elem_of_lookup_imap.
  by apply H.
Qed.

Lemma cumsum_from_length acc l : length (cumsum_from acc l) = length l.
Proof. revert acc. induction l; intros; simpl; [done|]. by rewrite IHl. Qed.

Lemma date_range_length start end_ freq :
  length (date_range start end_ freq)
  = Z.to_nat ((end_ - start) `div` freq + 1).
Proof. unfold date_range. by rewrite length_fmap, length_seq. Qed.

(** The instants of a range are in the range, a whole number of steps
    from its start. *)
Lemma date_range_elem start end_ freq t :
  (0 < freq)%Z →
  t ∈ date_range start end_ freq ↔
  (start <= t <= end_)%Z ∧ ((t - start) `mod` freq = 0)%Z.
Proof.
  intros Hf. unfold date_range. rewrite list_elem_of_fmap. split.
  - intros (i & -> & Hi%elem_of_seq). split.
    + assert (Z.of_nat i <= (end_ - start) `div` freq)%Z as Hle by lia.
      pose proof (Z.mul_div_le (end_ - start) freq Hf). nia.
    + replace (start + Z.of_nat i * freq - start)%Z with (Z.of_nat i * freq)%Z
        by lia. by apply Z_mod_mult.
  - intros [[Hs He] Hm]. exists (Z.to_nat ((t - start) `div` freq)).
    assert (0 <= (t - start) `div` freq)%Z by (apply Z.div_pos; lia).
    split.
    + rewrite Z2Nat.id by done.
      pose proof (Z_div_mod_eq_full (t - start) freq). lia.
    + apply elem_of_seq.
      assert ((t - start) `div` freq <= (end_ - start) `div` freq)%Z
        by (apply Z.div_le_mono; lia). lia.
Qed.

(** ** The rows *)

Lemma py_max_spec a b : a <= py_max a b ∧ b <= py_max a b ∧
  (py_max a b = a ∨ py_max a b = b).
Proof. unfold py_max. case_qle; split_and!; auto; lra. Qed.

Lemma py_min_spec a b : py_min a b <= a ∧ py_min a b <= b ∧
  (py_min a b = a ∨ py_min a b = b).
Proof. unfold py_min. case_qle; split_and!; auto; lra. Qed.

Lemma initial_price_pos symbol : 0 < initial_price symbol.
Proof. unfold initial_price. by case_bool_decide. Qed.

Lemma freq_of_pos interval : (0 < freq_of interval)%Z.
Proof. unfold freq_of. by repeat case_decide. Qed.

Section generator_lemmas.
Context (exp : Q → Q) (gauss unif : nat → Q).

Abbreviation make_row := (make_row gauss unif).
Abbreviation mock_rows := (mock_rows exp gauss unif).
Abbreviation mock_frame := (mock_frame exp gauss unif).

(** The row of a time stamp and a price, as a function of the four
    draws. *)
Lemma make_row_eq ts price k :
  make_row ts price k =
  ((4 + k)%nat,
   let close_price := price * (1 + (0 + 0.0005 * gauss k)) in
   {| timestamp := ts; open := price;
      high := py_max price close_price
              * (1 + Qabs (0 + 0.0002 * gauss (S k)));
      low := py_min price close_price
             * (1 - Qabs (0 + 0.0002 * gauss (S (S k))));
      close := close_price;
      volume := 100 + (1000 - 100) * unif (S (S (S k))) |}).
Proof. reflexivity. Qed.

(** With a positive price and tame deviates, the row is well formed. *)
Lemma make_row_wf ts price k :
  draws_tame gauss → 0 < price → bar_wf (make_row ts price k).2.
Proof.
  intros Hd Hp. rewrite make_row_eq. cbn [snd].
  destruct (Hd k) as [Hk _], (Hd (S (S k))) as [_ Hl].
  set (c := price * (1 + (0 + 0.0005 * gauss k))).
  assert (0 < c) as Hc by (unfold c; nra).
  pose proof (Qabs_nonneg (0 + 0.0002 * gauss (S k))) as Hh.
  pose proof (Qabs_nonneg (0 + 0.0002 * gauss (S (S k)))) as Hl0.
  assert (Qabs (0 + 0.0002 * gauss (S (S k))) < 1) as Hl1.
  { rewrite Qplus_0_l, Qabs_Qmult. change (Qabs 0.0002) with 0.0002. lra. }
  destruct (py_max_spec price c) as (? & ? & Hmax).
  destruct (py_min_spec price c) as (? & ? & Hmin).
  assert (0 < py_max price c) by (destruct Hmax as [-> | ->]; done).
  assert (0 < py_min price c) by (destruct Hmin as [-> | ->]; done).
  split; cbn [open close low high]; try done; nra.
Qed.

(** The volume is between 100 and 1000. *)
Lemma make_row_volume ts price k :
  draws_unit unif → 100 <= volume (make_row ts price k).2 < 1000.
Proof.
  intros H. rewrite make_row_eq. cbn [snd volume].
  specialize (H (S (S (S k)))). lra.
Qed.

(** The vector of deviates is that of the next [n] calls. *)
Lemma mapM_normal {A} loc scale (l : list A) k :
  mapM (λ _, normal gauss loc scale) l k =
  ((k + length l)%nat, (λ j, loc + scale * gauss j) <$> seq k (length l)).
Proof.
  revert k. induction l as [|x l IH]; intros k.
  - cbn [length]. by rewrite Nat.add_0_r.
  - rewrite mapM_rng_cons. cbn [normal length seq]. rewrite IH, fmap_cons.
    by rewrite Nat.add_succ_r.
Qed.

Lemma normals_eq loc scale n k :
  normals gauss loc scale n k =
  ((k + n)%nat, (λ j, loc + scale * gauss j) <$> seq k n).
Proof. unfold normals. by rewrite mapM_normal, length_seq. Qed.

(** The prices of the walk: one per instant. *)
Lemma mock_rows_eq symbol start end_ interval :
  let ts := date_range start end_ (freq_of interval) in
  mock_rows symbol start end_ interval 0%nat =
  mapM (λ tp : Z * Q, make_row tp.1 tp.2)
    (zip ts ((λ c, initial_price symbol * exp c)
               <$> cumsum (returns_of gauss (length ts))))
    (length ts).
Proof.
  intros ts. unfold Mock.mock_rows, mbind, rng_bind. fold ts.
  by rewrite normals_eq.
Qed.

(** The rows are those of the reference definition. *)
Lemma mock_rows_ref symbol start end_ interval :
  (mock_rows symbol start end_ interval 0%nat).2 =
  rows_ref exp gauss unif symbol start end_ interval.
Proof.
  rewrite mock_rows_eq. cbv zeta. by rewrite (mapM_rng_imap _ 4).
Qed.

Lemma rows_ref_length symbol start end_ interval :
  length (rows_ref exp gauss unif symbol start end_ interval) =
  Z.to_nat ((end_ - start) `div` freq_of interval + 1).
Proof.
  unfold rows_ref. rewrite length_imap, length_zip_with, length_fmap.
  unfold cumsum, returns_of.
  rewrite cumsum_from_length, length_fmap, length_seq, date_range_length. lia.
Qed.

(** The function returns the rows of the reference definition when the
    start is not after the end, and raises otherwise. *)
Lemma mock_frame_ref symbol start end_ interval :
  mock_frame symbol start end_ interval =
  if decide (start ≤ end_)%Z
  then Ok (rows_ref exp gauss unif symbol start end_ interval)
  else Raise (KeyError "None of ['timestamp'] are in the columns").
Proof.
  unfold Mock.mock_frame. cbv zeta. rewrite mock_rows_ref.
  pose proof (rows_ref_length symbol start end_ interval) as Hlen.
  pose proof (freq_of_pos interval) as Hf.
  destruct (rows_ref _ _ _ _ _ _ _) as [|r rows]; case_decide; try done;
    cbn [length] in Hlen; exfalso.
  - assert (0 ≤ (end_ - start) `div` freq_of interval)%Z
      by (apply Z.div_pos; lia). lia.
  - assert ((end_ - start) `div` freq_of interval < 0)%Z
      by (apply Z.div_lt_upper_bound; lia). lia.
Qed.

(** The index of the frame is the range, in order. *)
Lemma rows_ref_timestamps symbol start end_ interval :
  timestamp <$> rows_ref exp gauss unif symbol start end_ interval =
  date_range start end_ (freq_of interval).
Proof.
  unfold rows_ref. rewrite fmap_imap.
  rewrite (imap_ext _ (const fst)) by done. rewrite imap_const. apply fst_zip.
  unfold cumsum, returns_of.
  by rewrite length_fmap, cumsum_from_length, length_fmap, length_seq.
Qed.

(** The opens are the prices of the walk. *)
Lemma rows_ref_opens symbol start end_ interval :
  open <$> rows_ref exp gauss unif symbol start end_ interval =
  (λ c, initial_price symbol * exp c)
    <$> cumsum (returns_of gauss
                  (length (date_range start end_ (freq_of interval)))).
Proof.
  unfold rows_ref. rewrite fmap_imap.
  rewrite (imap_ext _ (const snd)) by done. rewrite imap_const. apply snd_zip.
  unfold cumsum, returns_of.
  by rewrite length_fmap, cumsum_from_length, length_fmap, length_seq.
Qed.

(** With a positive [exp] and tame deviates every row is well formed,
    and with numbers of the unit interval every volume is between 100
    and 1000. *)
Lemma rows_ref_wf symbol start end_ interval :
  (∀ x, 0 < exp x) → draws_tame gauss →
  Forall bar_wf (rows_ref exp gauss unif symbol start end_ interval).
Proof.
  intros Hexp Hd. apply Forall_imap. intros i [t p] Hi. apply make_row_wf; [done|].
  apply list_elem_of_lookup_2, elem_of_zip_r, list_elem_of_fmap in Hi
    as (c & -> & _).
  pose proof (initial_price_pos symbol). specialize (Hexp c). cbn [snd]. nra.
Qed.

Lemma rows_ref_volume symbol start end_ interval :
  draws_unit unif →
  Forall (λ r, 100 <= volume r < 1000)
    (rows_ref exp gauss unif symbol start end_ interval).
Proof. intros Hu. apply Forall_imap. intros i tp _. by apply make_row_volume. Qed.

(** The generator is called five times per row. *)
Lemma mock_rows_calls symbol start end_ interval :
  (mock_rows symbol start end_ interval 0%nat).1 =
  (5 * length (date_range start end_ (freq_of interval)))%nat.
Proof.
  rewrite mock_rows_eq. cbv zeta.
  rewrite (mapM_rng_calls _ 4) by (intros; rewrite make_row_eq; simpl; lia).
  rewrite length_zip_with, length_fmap. unfold cumsum, returns_of.
  rewrite cumsum_from_length, length_fmap, length_seq. lia.
Qed.

(** What a call that returns has computed. *)
Lemma mock_frame_Ok symbol start end_ interval rows :
  mock_frame symbol start end_ interval = Ok rows →
  (start ≤ end_)%Z ∧ rows = rows_ref exp gauss unif symbol start end_ interval.
Proof. rewrite mock_frame_ref. case_decide; [|done]. by intros [= <-]. Qed.

(** The function returns when the start is not after the end. *)
Theorem mock_frame_total symbol start end_ interval :
  (start ≤ end_)%Z →
  is_ok (mock_frame symbol start end_ interval) = true.
Proof. intros H. rewrite mock_frame_ref. by case_decide. Qed.

(** C30: With the end before the start the function raises. *)
Theorem mock_frame_empty symbol start end_ interval :
  (end_ < start)%Z →
  mock_frame symbol start end_ interval =
  Raise (KeyError "None of ['timestamp'] are in the columns").
Proof. intros H. rewrite mock_frame_ref. case_decide; [lia|done]. Qed.

(** The frame returned is not empty, and its index is the range: one
    row per step from the start to the end. *)
Theorem mock_frame_index symbol start end_ interval rows :
  mock_frame symbol start end_ interval = Ok rows →
  rows ≠ [] ∧
  timestamp <$> rows = date_range start end_ (freq_of interval) ∧
  Z.of_nat (length rows) = ((end_ - start) `div` freq_of interval + 1)%Z.
Proof.
  intros H. assert (rows ≠ []) as Hne.
  { unfold Mock.mock_frame in H. cbv zeta in H.
    destruct (mock_rows _ _ _ _ _).2; [done|]. by injection H as <-. }
  rewrite mock_frame_ref in H. case_decide; [|done].
  injection H as <-. split; [done|]. split; [apply rows_ref_timestamps|].
  rewrite rows_ref_length. pose proof (freq_of_pos interval).
  assert (0 ≤ (end_ - start) `div` freq_of interval)%Z
    by (apply Z.div_pos; lia). lia.
Qed.

(** C18: Every row of the frame is well formed and has a volume between 100
    and 1000, whatever the draws within their bounds. *)
Theorem mock_frame_wf symbol start end_ interval rows :
  (∀ x, 0 < exp x) → draws_tame gauss → draws_unit unif →
  mock_frame symbol start end_ interval = Ok rows →
  Forall (λ r, bar_wf r ∧ 100 <= volume r < 1000) rows.
Proof.
  intros Hexp Hg Hu [_ ->]%mock_frame_Ok. apply Forall_and.
  split; [by apply rows_ref_wf|by apply rows_ref_volume].
Qed.

(** The series is one the backtest accepts: it is not empty and every
    close is positive. *)
Lemma mock_frame_bars_positive symbol start end_ interval rows :
  (∀ x, 0 < exp x) → draws_tame gauss →
  mock_frame symbol start end_ interval = Ok rows →
  to_bar <$> rows ≠ [] ∧ Grid.bars_positive (to_bar <$> rows).
Proof.
  intros Hexp Hg H. split.
  - apply mock_frame_index in H as [Hne _]. by destruct rows.
  - apply mock_frame_Ok in H as [_ ->]. apply Forall_fmap.
    eapply Forall_impl; [by apply rows_ref_wf|]. intros r Hr. apply Hr.
Qed.

(** The dates are parsed first, the start before the end; what is
    raised there is raised by the function. *)
Lemma create_mock_ohlcv_data_parsed to_datetime symbol start_date end_date
    interval start end_ :
  to_datetime start_date = Ok start → to_datetime end_date = Ok end_ →
  create_mock_ohlcv_data exp gauss unif to_datetime symbol start_date end_date
    interval = mock_frame symbol start end_ interval.
Proof. intros Hs He. unfold Mock.create_mock_ohlcv_data. by rewrite Hs, He. Qed.

Lemma create_mock_ohlcv_data_unparsed to_datetime symbol start_date end_date
    interval e :
  to_datetime start_date = Raise e ∨
  (is_ok (to_datetime start_date) = true ∧ to_datetime end_date = Raise e) →
  create_mock_ohlcv_data exp gauss unif to_datetime symbol start_date end_date
    interval = Raise e.
Proof.
  unfold Mock.create_mock_ohlcv_data. intros [->|[Hs ->]]; [done|].
  by destruct (to_datetime start_date).
Qed.

(** The function computes the rows of the reference definition: with
    dates that parse, it returns them when the start is not after the
    end, and raises otherwise. *)
Theorem create_mock_ohlcv_data_ref to_datetime symbol start_date end_date
    interval start end_ :
  to_datetime start_date = Ok start → to_datetime end_date = Ok end_ →
  create_mock_ohlcv_data exp gauss unif to_datetime symbol start_date end_date
    interval =
  if decide (start ≤ end_)%Z
  then Ok (rows_ref exp gauss unif symbol start end_ interval)
  else Raise (KeyError "None of ['timestamp'] are in the columns").
Proof.
  intros Hs He.
  by rewrite (create_mock_ohlcv_data_parsed _ _ _ _ _ _ _ Hs He), mock_frame_ref.
Qed.

End generator_lemmas.

(** ** The range *)

(** The instants of a range increase. *)
Lemma date_range_sorted start end_ freq :
  (0 < freq)%Z → StronglySorted Z.lt (date_range start end_ freq).
Proof.
  intros Hf. unfold date_range. generalize 0%nat.
  induction (Z.to_nat _) as [|n IH]; intros i; [constructor|].
  cbn [seq fmap list_fmap]. constructor; [apply IH|].
  apply Forall_fmap, Forall_forall. intros j Hj%elem_of_seq. cbn. nia.
Qed.

(** What divides the start and the step divides every instant. *)
Lemma date_range_divide start end_ freq d :
  (d | start)%Z → (d | freq)%Z → Forall (λ t, (d | t)%Z) (date_range start end_ freq).
Proof.
  intros Hs Hf. apply Forall_fmap, Forall_forall. intros i _. cbn.
  by apply Z.divide_add_r, Z.divide_mul_r.
Qed.

Lemma freq_of_ms interval : (10 ^ 6 | freq_of interval)%Z.
Proof.
  unfold freq_of. repeat case_decide; [exists 60000%Z|exists 3600000%Z|exists 60000%Z]; done.
Qed.

(** ** Examples *)

Lemma demo_exp_pos x : 0 < demo_exp x.
Proof. unfold demo_exp. nra. Qed.

Lemma demo_gauss_tame : draws_tame demo_gauss.
Proof. intros k. unfold demo_gauss. by destruct (Nat.even k). Qed.

Lemma demo_unif_unit : draws_unit demo_unif.
Proof. intros k. unfold demo_unif. by destruct (Nat.even k). Qed.

Lemma demo_rows_ok :
  mock_frame demo_exp demo_gauss demo_unif "BTCUSDT"
    demo_start (demo_start + 2 * minute) "1m" = Ok demo_rows.
Proof. by vm_compute. Qed.

Example demo_rows_closes :
  (λ r, (timestamp r, Qred (open r), Qred (close r))) <$> demo_rows =
  [(1704067200000000000%Z, 4000001 # 80, 15988003997 # 320000);
   (1704067260000000000%Z, 1000001 # 20, 3997003997 # 80000);
   (1704067320000000000%Z, 4000001 # 80, 15988003997 # 320000)].
Proof. by vm_compute. Qed.

Lemma mock_frame_total_witness :
  is_ok (mock_frame demo_exp demo_gauss demo_unif "BTCUSDT" demo_start (demo_start + 2 * minute) "1m") = true.
Proof. apply mock_frame_total. by vm_compute. Defined.

Lemma mock_frame_empty_witness :
  mock_frame demo_exp demo_gauss demo_unif "ETHUSDT"
    demo_start (demo_start - 1) "1h" =
  Raise (KeyError "None of ['timestamp'] are in the columns").
Proof. apply mock_frame_empty. by vm_compute. Defined.

Lemma mock_frame_index_witness :
  demo_rows ≠ [] ∧
  timestamp <$> demo_rows =
    date_range demo_start (demo_start + 2 * minute) (freq_of "1m") ∧
  Z.of_nat (length demo_rows) =
    ((demo_start + 2 * minute - demo_start) `div` freq_of "1m" + 1)%Z.
Proof. exact (mock_frame_index _ _ _ _ _ _ _ _ demo_rows_ok). Defined.

Lemma mock_frame_wf_witness :
  Forall (λ r, bar_wf r ∧ 100 <= volume r < 1000) demo_rows.
Proof.
  exact (mock_frame_wf _ _ _ _ _ _ _ _ demo_exp_pos demo_gauss_tame
           demo_unif_unit demo_rows_ok).
Defined.

Lemma mock_frame_bars_positive_witness :
  to_bar <$> demo_rows ≠ [] ∧ Grid.bars_positive (to_bar <$> demo_rows).
Proof.
  exact (mock_frame_bars_positive _ _ _ _ _ _ _ _ demo_exp_pos
           demo_gauss_tame demo_rows_ok).
Defined.

Lemma create_mock_ohlcv_data_ref_witness :
  create_mock_ohlcv_data demo_exp demo_gauss demo_unif demo_to_datetime
    "BTCUSDT" "2024-01-01" "2024-01-01 00:02" "1m" =
  if decide (demo_start ≤ demo_start + 2 * minute)%Z
  then Ok (rows_ref demo_exp demo_gauss demo_unif "BTCUSDT"
             demo_start (demo_start + 2 * minute) "1m")
  else Raise (KeyError "None of ['timestamp'] are in the columns").
Proof. by apply create_mock_ohlcv_data_ref. Defined.

Lemma date_range_sorted_witness :
  StronglySorted Z.lt (date_range demo_start (demo_start + 2 * minute) minute).
Proof. apply date_range_sorted. by vm_compute. Defined.

End Mock.
