(* ===== verification/OfflineDemo.v ===== *)
(** * The offline demonstration ([offline_backtest_demo.py])

    [main] builds the mock series, loads [my_config_custom.json] or falls
    back to a built-in configuration, runs the grid backtest, prints the
    result and writes it to [backtest_result.json].

    [Module Offline] models the report ([print_backtest_results]), the
    loading of the configuration with its fallback, the conversion of the
    result for JSON and [main] as their composition with [Mock] and
    [Grid].  What is printed is a list of lines ([line] of [PyVal]).
    Files are a finite map from paths to contents.
    [hjson] (absent when the module is not installed), [json.dump],
    [pd.to_datetime], [Timestamp.isoformat], [np.exp] and the draws of
    the generator are parameters of [Section script].

    Of what [main] prints, the model keeps the report of the result. *)

From Stdlib Require Import QArith Qabs Lqa ZArith Lia Ascii.
From stdpp Require Import prelude strings pretty gmap.
From S2P Require Import Prelude PyDict PyVal GridBacktest MockData Configs.

#[local] Open Scope Q_scope.

Module Offline.

(** ** What is printed *)

(** ["=" * 50] *)
Definition rule : string :=
  "==================================================".

Definition newline : string := String "010" "".

(** [c.upper()] and [s.upper()], on ASCII letters. *)
Definition upper_ascii (c : ascii) : ascii :=
  let n := nat_of_ascii c in
  if (97 <=? n)%nat && (n <=? 122)%nat then ascii_of_nat (n - 32) else c.

Fixpoint upper (s : string) : string :=
  match s with
  | EmptyString => EmptyString
  | String c s => String (upper_ascii c) (upper s)
  end.

(** [trade['type']] *)
Definition type_name (t : Grid.trade_type) : string :=
  match t with Grid.buy => "buy" | Grid.sell => "sell" end.

(** The line of the trade at position [i] of the list shown. *)
Definition trade_line (i : nat) (trade : Grid.trade) : line :=
  [Text "  "; Count (i + 1); Text ". ";
   Text (upper (type_name (Grid.type trade))); Text ": $";
   Float (Fin (Grid.price trade)) ".2f"; Text " x ";
   Float (Fin (Grid.trade_qty trade)) ".6f"; Text " @ ";
   Stamp (Grid.trade_timestamp trade)].

Definition print_backtest_results (result : Grid.summary) : list line :=
  [ [Text (newline +:+ rule)];
    [Text "回测结果"];
    [Text rule];
    [Text "初始资金: $"; Float (Fin (Grid.res_initial_balance result)) ",.2f"];
    [Text "最终资金: $"; Float (Fin (Grid.final_balance result)) ",.2f"];
    [Text "总收益率: "; Float (Grid.total_return_pct result) ".2f"; Text "%"];
    [Text "总交易次数: "; Count (Grid.total_trades result)];
    [Text "买入次数: "; Count (Grid.buy_trades result)];
    [Text "卖出次数: "; Count (Grid.sell_trades result)];
    [Text "总利润: $"; Float (Fin (Grid.total_profit result)) ",.2f"];
    [Text "剩余仓位: "; Count (Grid.remaining_positions result)] ] ++
  if (0 <? Grid.total_trades result)%nat then
    [[Text (newline +:+ "交易详情:")]] ++
    imap trade_line (take 10 (Grid.res_trades result)) ++
    (if (10 <? length (Grid.res_trades result))%nat
     then [[Text "  ... 还有 ";
            Count (length (Grid.res_trades result) - 10); Text " 笔交易"]]
     else [])
  else [].

(** ** The configuration *)

(** [v * n] for an integer [n]: the product of a number, the repetition
    of a string or of a list. *)
Definition py_mul_int (v : pyval) (n : Z) : result pyval :=
  match v with
  | PInt z => Ok (PInt (z * n))
  | PBool b => Ok (PInt ((if b then 1 else 0) * n))
  | PFloat q => Ok (PFloat (q * inject_Z n))
  | PStr s => Ok (PStr (String.concat "" (replicate (Z.to_nat n) s)))
  | PList l => Ok (PList (mjoin (replicate (Z.to_nat n) l)))
  | PNone | PDict _ =>
      Raise (TypeError "unsupported operand type(s) for *")
  end.

(** The values of the configuration that [main] shows after loading it,
    in the order it reads them. *)
Definition shown_config (config : pyval) : result (list pyval) :=
  coins ← Grid.item3 config "live" "approved_coins" "long";
  bot_config ← (v ← py_item config "bot"; py_item v "long");
  leverage ← (v ← py_item config "live"; py_item v "leverage");
  spacing ← (v ← py_item bot_config "entry_grid_spacing_pct"; py_mul_int v 100);
  initial ← (v ← py_item bot_config "entry_initial_qty_pct"; py_mul_int v 100);
  n_positions ← py_item bot_config "n_positions";
  Ok [coins; leverage; spacing; initial; n_positions].

(** ** The result as JSON *)

(** The values [json.dump] is given. *)
#[local] Unset Elimination Schemes.
Inductive json : Type :=
| JVal (v : pyval)
| JFloat (x : fval)
| JInt (n : nat)
| JList (l : list json)
| JDict (d : list (string * json)).
#[local] Set Elimination Schemes.

Definition files : Type := gmap string string.

Section script.
Context (exp : Q → Q) (gauss unif : nat → Q)
        (to_datetime : string → result Z) (isoformat : Z → string)
        (hjson : option (string → result pyval))
        (json_dump : json → string).

(** The body of the [try]: the configuration of the file, once its
    values were shown. *)
Definition load_custom (fs : files) : result pyval :=
  load ← match hjson with
         | Some load => Ok load
         | None => Raise (ImportError "No module named 'hjson'")
         end;
  text ← match fs !! "my_config_custom.json" with
         | Some text => Ok text
         | None => Raise (OSError "No such file or directory: 'my_config_custom.json'")
         end;
  config ← load text;
  _ ← shown_config config;
  Ok config.

(** The configuration [main] runs: that of the file, and the built-in
    one when anything was raised. *)
Definition load_config (fs : files) : pyval :=
  match load_custom fs with
  | Ok config => config
  | Raise _ => Grid.default_config
  end.

(** A trade for JSON: the numbers as floats, the time stamp as text. *)
Definition json_trade (trade : Grid.trade) : json :=
  JDict ([("type", JVal (PStr (type_name (Grid.type trade))));
          ("price", JFloat (Fin (Grid.price trade)));
          ("qty", JFloat (Fin (Grid.trade_qty trade)));
          ("timestamp", JVal (PStr (isoformat (Grid.trade_timestamp trade))));
          ("balance", JFloat (Fin (Grid.trade_balance trade)))] ++
         match Grid.profit trade with
         | Some p => [("profit", JFloat (Fin p))]
         | None => []
         end).

(** The result for JSON.  The initial balance is the value of the
    configuration, and so is the final balance when nothing was bought;
    the counts are Python integers. *)
Definition json_result (initial : pyval) (result : Grid.summary) : json :=
  JDict [("initial_balance", JVal initial);
         ("final_balance",
            if Grid.res_trades result is [] then JVal initial
            else JFloat (Fin (Grid.final_balance result)));
         ("total_return_pct", JFloat (Grid.total_return_pct result));
         ("total_trades", JInt (Grid.total_trades result));
         ("buy_trades", JInt (Grid.buy_trades result));
         ("sell_trades", JInt (Grid.sell_trades result));
         ("total_profit",
            if Grid.sell_trades result is O then JVal (PInt 0)
            else JFloat (Fin (Grid.total_profit result)));
         ("remaining_positions", JInt (Grid.remaining_positions result));
         ("trades", JList (json_trade <$> Grid.res_trades result))].

(** [main()]: the files it leaves and the report it prints. *)
Definition main (fs : files) : result (files * list line) :=
  ohlcv_data ← Mock.create_mock_ohlcv_data exp gauss unif to_datetime
                  "BTCUSDT" "2024-01-01" "2024-01-07" "1m";
  let config := load_config fs in
  result ← Grid.simple_grid_strategy_backtest (Mock.to_bar <$> ohlcv_data) config;
  let report := print_backtest_results result in
  initial ← (v ← py_item config "backtest"; py_item v "starting_balance");
  Ok (<["backtest_result.json" := json_dump (json_result initial result)]> fs,
      report).

End script.

(** ** Specification *)

(** The number of lines of a report of [n] trades. *)
Definition report_length (n : nat) : nat :=
  match n with
  | O => 11
  | S _ => 12 + n `min` 10 + (if (10 <? n)%nat then 1 else 0)
  end.

(** A value that JSON can hold: no float in it is NaN. *)
Fixpoint json_finite (j : json) : bool :=
  match j with
  | JFloat NaN => false
  | JList l => forallb json_finite l
  | JDict d => forallb (λ kv, json_finite kv.2) d
  | _ => true
  end.

(** ** Data for the examples *)

(** A configuration that the backtest accepts and that has no section
    [live]. *)
Definition demo_custom : pyval :=
  PDict [("backtest", PDict [("starting_balance", PInt 500)]);
         ("bot", PDict [("long", PDict [
            ("entry_grid_spacing_pct", PFloat 0.02);
            ("close_grid_markup_start", PFloat 0.01);
            ("entry_initial_qty_pct", PFloat 0.5);
            ("n_positions", PInt 2)])])].

(** A configuration that [main] shows and that the backtest rejects. *)
Definition demo_shown : pyval :=
  PDict [("live", PDict [("approved_coins", PDict [("long", PList [PStr "BTC"])]);
                         ("leverage", PInt 10)]);
         ("bot", PDict [("long", PDict [
            ("entry_grid_spacing_pct", PFloat 0.02);
            ("close_grid_markup_start", PFloat 0.01);
            ("entry_initial_qty_pct", PFloat 0.5);
            ("n_positions", PInt 2)])])].

Definition demo_hjson (text : string) : result pyval :=
  if decide (text = "custom") then Ok demo_custom
  else if decide (text = "shown") then Ok demo_shown
  else Raise (ValueError "Expecting value").

Definition demo_isoformat (t : Z) : string := "T" +:+ pretty t.

Definition demo_dump (j : json) : string :=
  if json_finite j then "{...}" else "{... NaN ...}".

Definition demo_fs_custom : files := {[ "my_config_custom.json" := "custom" ]}.
Definition demo_fs_shown : files := {[ "my_config_custom.json" := "shown" ]}.

(** Twelve trades. *)
Definition demo_trades : list Grid.trade :=
  (λ i : nat, {| Grid.type := if Nat.even i then Grid.buy else Grid.sell;
                 Grid.price := 50000; Grid.trade_qty := 1 # 50;
                 Grid.trade_timestamp := Z.of_nat i;
                 Grid.trade_balance := 9000;
                 Grid.profit := if Nat.even i then None else Some 5 |})
    <$> seq 0 12.

Definition demo_summary : Grid.summary :=
  {| Grid.res_initial_balance := 10000; Grid.final_balance := 10030;
     Grid.total_return_pct := Fin 0.3; Grid.total_trades := 12;
     Grid.buy_trades := 6; Grid.sell_trades := 6; Grid.total_profit := 30;
     Grid.remaining_positions := 0; Grid.res_trades := demo_trades |}.

(** ** The report *)

Lemma upper_type_name t :
  upper (type_name t) = match t with Grid.buy => "BUY" | Grid.sell => "SELL" end.
Proof. by destruct t. Qed.

(** The number of lines of a report whose count of trades is the length
    of the list. *)
Lemma print_backtest_results_length result :
  Grid.total_trades result = length (Grid.res_trades result) →
  length (print_backtest_results result) =
  report_length (Grid.total_trades result).
Proof.
  intros Hn. unfold print_backtest_results. rewrite <-Hn.
  destruct (Grid.total_trades result) as [|n]; [done|].
  change (0 <? S n)%nat with true. cbv iota.
  rewrite !length_app, length_imap, length_take, <-Hn. unfold report_length.
  destruct (10 <? S n)%nat; cbn [length]; lia.
Qed.

(** The shape of a report whose count of trades is the length of the
    list: after the summary, a heading, a line for each of the first ten
    trades, in order, and a last line with the number of those that are
    not shown. *)
Theorem print_backtest_results_trades result :
  Grid.total_trades result = length (Grid.res_trades result) →
  let n := length (Grid.res_trades result) in
  length (print_backtest_results result) = report_length n ∧
  (∀ i trade, (i < 10)%nat → Grid.res_trades result !! i = Some trade →
     print_backtest_results result !! (12 + i)%nat = Some (trade_line i trade)) ∧
  ((10 < n)%nat →
     last (print_backtest_results result) =
     Some [Text "  ... 还有 "; Count (n - 10); Text " 笔交易"]).
Proof.
  intros Hn n. split; [by rewrite print_backtest_results_length, Hn|].
  unfold print_backtest_results. rewrite Hn. fold n. split.
  - intros i trade Hi Ht. apply lookup_lt_Some in Ht as Hlt. fold n in Hlt.
    destruct (0 <? n)%nat eqn:E0; [|apply Nat.ltb_ge in E0; lia].
    rewrite lookup_app_r by (cbn [length]; lia).
    rewrite lookup_app_r by (cbn [length]; lia).
    replace (12 + i - _ - _)%nat with i by (cbn [length]; lia).
    rewrite lookup_app_l by (rewrite length_imap, length_take; lia).
    by rewrite list_lookup_imap, lookup_take_lt, Ht by done.
  - intros Hlt. destruct (0 <? n)%nat eqn:E0; [|apply Nat.ltb_ge in E0; lia].
    apply Nat.ltb_lt in Hlt. rewrite Hlt. by rewrite !app_assoc, last_snoc.
Qed.

Lemma report_length_le n : (report_length n ≤ 23)%nat.
Proof. unfold report_length. destruct n; [lia|]. case_match; lia. Qed.

(** ** The configuration *)

(** The backtest reads the initial balance from the configuration it
    accepts. *)
Lemma read_config_initial config p :
  Grid.read_config config = Ok p →
  ∃ v, (v ← py_item config "backtest"; py_item v "starting_balance") = Ok v ∧
       py_num v = Ok (Grid.initial_balance p).
Proof.
  unfold Grid.read_config. intros H.
  repeat match type of H with
         | (?m ≫= _) = Ok _ => destruct m eqn:?; [cbn [mbind result_bind] in H|done]
         end.
  injection H as <-. cbn [Grid.initial_balance].
  match goal with
  | E : (?m ≫= py_num) = Ok _ |- _ =>
      destruct m as [v|]; cbn in E; [|done]; exists v; split; [done|exact E]
  end.
Qed.

(** What the backtest raises on a configuration it cannot read. *)
Lemma backtest_unreadable bars config e :
  Grid.read_config config = Raise e →
  Grid.simple_grid_strategy_backtest bars config = Raise e.
Proof. intros H. unfold Grid.simple_grid_strategy_backtest. by rewrite H. Qed.

(** The return is a number unless the initial balance is zero. *)
Lemma backtest_return_finite bars config p r :
  Grid.read_config config = Ok p →
  Grid.simple_grid_strategy_backtest bars config = Ok r →
  Grid.total_return_pct r = NaN ↔ Grid.initial_balance p == 0.
Proof.
  intros Hp (p' & first & rest & Hp' & _ & _ & _ & Ht & _)%Grid.backtest_inv.
  rewrite Hp in Hp'. injection Hp' as <-. unfold Grid.total_return in Ht.
  destruct (Qeq_bool _ 0) eqn:E.
  - apply Qeq_bool_iff in E. destruct (Grid.trades _); [done|].
    by injection Ht as ->.
  - apply Qeq_bool_neq in E. injection Ht as ->. by split.
Qed.

Section script_lemmas.
Context (exp : Q → Q) (gauss unif : nat → Q)
        (to_datetime : string → result Z) (isoformat : Z → string)
        (hjson : option (string → result pyval))
        (json_dump : json → string).

Abbreviation load_custom := (load_custom hjson).
Abbreviation load_config := (load_config hjson).
Abbreviation main := (main exp gauss unif to_datetime isoformat hjson json_dump).

(** The configuration [main] runs is the built-in one, or one whose
    values it could show. *)
Lemma load_config_cases fs :
  load_config fs = Grid.default_config ∨
  ∃ load text shown,
    hjson = Some load ∧ fs !! "my_config_custom.json" = Some text ∧
    load text = Ok (load_config fs) ∧ shown_config (load_config fs) = Ok shown.
Proof.
  unfold Offline.load_config, Offline.load_custom.
  destruct hjson as [load|]; [|by left].
  destruct (fs !! _) as [text|]; [|by left]. cbn [mbind result_bind].
  destruct (load text) as [config|] eqn:El; [|by left]. cbn [mbind result_bind].
  destruct (shown_config config) as [shown|] eqn:E; [|by left].
  right. by exists load, text, shown.
Qed.

(** The configuration of the file is used when its values can be
    shown. *)
Lemma load_config_custom fs load text config shown :
  hjson = Some load → fs !! "my_config_custom.json" = Some text →
  load text = Ok config → shown_config config = Ok shown →
  load_config fs = config.
Proof.
  intros Hh Hf Hl Hs. unfold Offline.load_config, Offline.load_custom.
  rewrite Hh, Hf. cbn [mbind result_bind]. rewrite Hl. cbn [mbind result_bind].
  by rewrite Hs.
Qed.

(** C29: A configuration without [live.approved_coins.long] is replaced by
    the built-in one, whatever the backtest would make of it. *)
Theorem load_config_needs_live fs load text config :
  hjson = Some load → fs !! "my_config_custom.json" = Some text →
  load text = Ok config →
  is_ok (Grid.item3 config "live" "approved_coins" "long") = false →
  load_config fs = Grid.default_config.
Proof.
  intros Hh Hf Hl Hs. unfold Offline.load_config, Offline.load_custom.
  rewrite Hh, Hf. cbn [mbind result_bind]. rewrite Hl. cbn [mbind result_bind].
  unfold shown_config. by destruct (Grid.item3 config _ _ _).
Qed.

(** Without the module, or without the file, the built-in configuration
    is run. *)
Lemma load_config_missing fs :
  hjson = None ∨ fs !! "my_config_custom.json" = None →
  load_config fs = Grid.default_config.
Proof.
  unfold Offline.load_config, Offline.load_custom. intros [->| ->]; [done|].
  by destruct hjson.
Qed.

(** ** The result as JSON *)

Lemma json_trade_finite trade : json_finite (json_trade isoformat trade) = true.
Proof. unfold json_trade. by destruct (Grid.profit trade). Qed.

(** The value written holds no NaN exactly when the return is a
    number. *)
Lemma json_result_finite initial result :
  json_finite (json_result isoformat initial result) = true ↔
  Grid.total_return_pct result ≠ NaN.
Proof.
  unfold json_result. cbn [json_finite forallb snd].
  assert (forallb json_finite (json_trade isoformat <$> Grid.res_trades result)
          = true) as ->.
  { apply forallb_forall. intros j (t & -> & _)%list_elem_of_In%list_elem_of_fmap.
    apply json_trade_finite. }
  destruct (Grid.total_return_pct result), (Grid.res_trades result),
    (Grid.sell_trades result); cbn; naive_solver.
Qed.

(** ** [main] *)

(** What a run that returns has done: the series was built, the
    backtest of the configuration loaded returned, its report was
    printed and its result written over [backtest_result.json]. *)
Lemma offline_inv fs fs' report :
  main fs = Ok (fs', report) →
  ∃ start end_ rows result initial,
    to_datetime "2024-01-01" = Ok start ∧ to_datetime "2024-01-07" = Ok end_ ∧
    Mock.mock_frame exp gauss unif "BTCUSDT" start end_ "1m" = Ok rows ∧
    Grid.simple_grid_strategy_backtest (Mock.to_bar <$> rows) (load_config fs)
      = Ok result ∧
    (v ← py_item (load_config fs) "backtest"; py_item v "starting_balance")
      = Ok initial ∧
    fs' = <["backtest_result.json" :=
              json_dump (json_result isoformat initial result)]> fs ∧
    report = print_backtest_results result.
Proof.
  unfold Offline.main, Mock.create_mock_ohlcv_data.
  destruct (to_datetime "2024-01-01") as [start|]; [|done].
  destruct (to_datetime "2024-01-07") as [end_|]; [|done].
  cbn [mbind result_bind].
  destruct (Mock.mock_frame _ _ _ _ _ _ _) as [rows|] eqn:Hrows; [|done].
  cbn [mbind result_bind].
  destruct (Grid.simple_grid_strategy_backtest _ _) as [result|] eqn:Hb; [|done].
  cbn [mbind result_bind].
  destruct (py_item _ _ ≫= _) as [initial|] eqn:Hi; [|done]. intros [= <- <-].
  by exists start, end_, rows, result, initial.
Qed.

(** [main] runs to its end when the dates are in order and the
    configuration loaded is one the backtest reads, with an initial
    balance that is not zero. *)
Theorem offline_total fs start end_ p :
  to_datetime "2024-01-01" = Ok start → to_datetime "2024-01-07" = Ok end_ →
  (start ≤ end_)%Z →
  Grid.read_config (load_config fs) = Ok p → ¬ Grid.initial_balance p == 0 →
  ∃ fs' report, main fs = Ok (fs', report).
Proof.
  intros Hs He Hle Hp Hi.
  pose proof (Mock.mock_frame_total exp gauss unif "BTCUSDT" _ _ "1m" Hle) as Hm.
  destruct (Mock.mock_frame _ _ _ _ _ _ _) as [rows|] eqn:Hrows; [|done].
  apply Mock.mock_frame_index in Hrows as Hne. destruct Hne as [Hne _].
  assert (Mock.to_bar <$> rows ≠ []) as Hbars by by destruct rows.
  pose proof (Grid.backtest_total _ _ _ Hp Hbars Hi) as Hb.
  destruct (Grid.simple_grid_strategy_backtest _ _) as [result|] eqn:Hr; [|done].
  destruct (read_config_initial _ _ Hp) as (initial & Hv & _).
  unfold Offline.main.
  rewrite (Mock.create_mock_ohlcv_data_parsed _ _ _ _ _ _ _ _ _ _ Hs He), Hrows.
  cbn [mbind result_bind]. rewrite Hr. cbn [mbind result_bind]. rewrite Hv.
  by eexists _, _.
Qed.

(** A configuration that the backtest cannot read ends [main] with what
    reading it raises. *)
Theorem main_unreadable fs start end_ e :
  to_datetime "2024-01-01" = Ok start → to_datetime "2024-01-07" = Ok end_ →
  (start ≤ end_)%Z →
  Grid.read_config (load_config fs) = Raise e → main fs = Raise e.
Proof.
  intros Hs He Hle Hp.
  pose proof (Mock.mock_frame_total exp gauss unif "BTCUSDT" _ _ "1m" Hle) as Hm.
  destruct (Mock.mock_frame _ _ _ _ _ _ _) as [rows|] eqn:Hrows; [|done].
  unfold Offline.main.
  rewrite (Mock.create_mock_ohlcv_data_parsed _ _ _ _ _ _ _ _ _ _ Hs He), Hrows.
  cbn [mbind result_bind]. by rewrite (backtest_unreadable _ _ _ Hp).
Qed.

(** [main] writes one file and leaves the others as they were. *)
Theorem offline_frame fs fs' report :
  main fs = Ok (fs', report) →
  is_Some (fs' !! "backtest_result.json") ∧
  ∀ path, path ≠ "backtest_result.json" → fs' !! path = fs !! path.
Proof.
  intros (? & ? & ? & ? & ? & _ & _ & _ & _ & _ & -> & _)%offline_inv. split.
  - eexists. apply lookup_insert_eq.
  - intros path Hne. by apply lookup_insert_ne.
Qed.

(** C36: The report of a run: that of a result whose count of trades is the
    length of its list, and of at most 23 lines. *)
Theorem main_report fs fs' report :
  main fs = Ok (fs', report) →
  ∃ result,
    report = print_backtest_results result ∧
    Grid.total_trades result = length (Grid.res_trades result) ∧
    length report = report_length (Grid.total_trades result) ∧
    (length report ≤ 23)%nat.
Proof.
  intros (? & ? & rows & result & ? & _ & _ & _ & Hb & _ & _ & ->)%offline_inv.
  apply Grid.backtest_inv in Hb
    as (p & ? & ? & _ & _ & _ & _ & _ & Hn & _ & _ & _ & _ & Ht).
  assert (Grid.total_trades result = length (Grid.res_trades result)) as Hlen
    by by rewrite Hn, Ht.
  exists result. rewrite (print_backtest_results_length result Hlen).
  split_and!; try done. apply report_length_le.
Qed.

(** C16: On a series of the generator, with a fraction between 0 and 1, a
    markup and an initial balance that are not negative, the result
    that [main] reports has no loss: no sale below its entry, and a
    final balance that is not negative. *)
Theorem main_no_loss fs fs' report p :
  (∀ x, 0 < exp x) → Mock.draws_tame gauss →
  Grid.read_config (load_config fs) = Ok p →
  0 <= Grid.position_size p <= 1 → 0 <= Grid.close_markup p →
  0 <= Grid.initial_balance p →
  main fs = Ok (fs', report) →
  ∃ result,
    report = print_backtest_results result ∧
    0 <= Grid.final_balance result ∧ 0 <= Grid.total_profit result ∧
    Forall (λ x, 0 <= x) (Grid.profits (Grid.res_trades result)).
Proof.
  intros Hexp Hg Hp Hsize Hm Hi
    (? & ? & rows & result & ? & _ & _ & Hrows & Hb & _ & _ & ->)%offline_inv.
  exists result. split; [done|].
  eapply (Grid.backtest_no_loss _ _ p); try done.
  by eapply Mock.mock_frame_bars_positive.
Qed.

(** C17: Without the module [hjson] or without the file, [main] runs the
    built-in configuration to its end, and what it writes holds no
    NaN. *)
Theorem main_fallback fs start end_ :
  to_datetime "2024-01-01" = Ok start → to_datetime "2024-01-07" = Ok end_ →
  (start ≤ end_)%Z →
  hjson = None ∨ fs !! "my_config_custom.json" = None →
  ∃ rows result,
    Mock.mock_frame exp gauss unif "BTCUSDT" start end_ "1m" = Ok rows ∧
    Grid.simple_grid_strategy_backtest (Mock.to_bar <$> rows)
      Grid.default_config = Ok result ∧
    main fs =
      Ok (<["backtest_result.json" :=
              json_dump (json_result isoformat (PInt 10000) result)]> fs,
          print_backtest_results result) ∧
    json_finite (json_result isoformat (PInt 10000) result) = true.
Proof.
  intros Hs He Hle Hmiss. pose proof (load_config_missing fs Hmiss) as Hc.
  destruct (offline_total fs start end_ Grid.demo_params Hs He Hle) as (fs' & report & Hmain);
    [by rewrite Hc|done|].
  rewrite Hmain. apply offline_inv in Hmain
    as (s' & e' & rows & result & initial & Hs' & He' & Hrows & Hb & Hi & -> & ->).
  rewrite Hs in Hs'. rewrite He in He'. injection Hs' as <-. injection He' as <-.
  rewrite Hc in Hb, Hi. injection Hi as <-.
  exists rows, result. split_and!; try done.
  apply json_result_finite. intros Hnan.
  by apply (backtest_return_finite _ _ _ _ Grid.read_config_default Hb) in Hnan.
Qed.

End script_lemmas.

(** ** Examples *)

Abbreviation demo_main :=
  (main Mock.demo_exp Mock.demo_gauss Mock.demo_unif Mock.demo_to_datetime
     demo_isoformat (Some demo_hjson) demo_dump).

(** The report of twelve trades: the summary, the heading, ten trades
    and the line of the two that are not shown. *)
Example demo_report :
  length (print_backtest_results demo_summary) = 23%nat ∧
  print_backtest_results demo_summary !! 13%nat =
    Some [Text "  "; Count 2; Text ". "; Text "SELL"; Text ": $";
          Float (Fin 50000) ".2f"; Text " x "; Float (Fin (1 # 50)) ".6f";
          Text " @ "; Stamp 1] ∧
  last (print_backtest_results demo_summary) =
    Some [Text "  ... 还有 "; Count 2; Text " 笔交易"].
Proof. by vm_compute. Qed.

Lemma print_backtest_results_trades_witness :
  let n := length (Grid.res_trades demo_summary) in
  length (print_backtest_results demo_summary) = report_length n ∧
  (∀ i trade, (i < 10)%nat → Grid.res_trades demo_summary !! i = Some trade →
     print_backtest_results demo_summary !! (12 + i)%nat
     = Some (trade_line i trade)) ∧
  ((10 < n)%nat →
     last (print_backtest_results demo_summary) =
     Some [Text "  ... 还有 "; Count (n - 10); Text " 笔交易"]).
Proof. by apply print_backtest_results_trades. Defined.

(** The backtest accepts [demo_custom], and [main] does not run it. *)
Example demo_custom_readable :
  is_ok (Grid.read_config demo_custom) = true ∧
  is_ok (shown_config demo_custom) = false.
Proof. by vm_compute. Qed.

Lemma load_config_needs_live_witness :
  load_config (Some demo_hjson) demo_fs_custom = Grid.default_config.
Proof. by apply (load_config_needs_live _ _ demo_hjson "custom" demo_custom). Defined.

(** The configuration that [simple_backtest_demo.py] writes lists its
    coins without sides: [main] does not run it either. *)
Example simple_config_not_shown :
  shown_config create_simple_backtest_config =
  Raise (TypeError "not subscriptable").
Proof. by vm_compute. Qed.

Lemma offline_total_witness : ∃ fs' report, demo_main demo_fs_custom = Ok (fs', report).
Proof.
  apply (offline_total _ _ _ _ _ _ _ _ Mock.demo_start
           (Mock.demo_start + 6 * 24 * Mock.hour) Grid.demo_params);
    by vm_compute.
Defined.

Lemma main_unreadable_witness :
  demo_main demo_fs_shown = Raise (KeyError "backtest").
Proof.
  apply (main_unreadable _ _ _ _ _ _ _ _ Mock.demo_start
           (Mock.demo_start + 6 * 24 * Mock.hour)); by vm_compute.
Defined.

Lemma main_fallback_witness :
  ∃ rows result,
    Mock.mock_frame Mock.demo_exp Mock.demo_gauss Mock.demo_unif "BTCUSDT"
      Mock.demo_start (Mock.demo_start + 6 * 24 * Mock.hour) "1m" = Ok rows ∧
    Grid.simple_grid_strategy_backtest (Mock.to_bar <$> rows)
      Grid.default_config = Ok result ∧
    demo_main ∅ =
      Ok (<["backtest_result.json" :=
              demo_dump (json_result demo_isoformat (PInt 10000) result)]> ∅,
          print_backtest_results result) ∧
    json_finite (json_result demo_isoformat (PInt 10000) result) = true.
Proof. apply main_fallback; [by vm_compute..|by right]. Defined.

Lemma offline_frame_witness :
  ∃ fs' report, demo_main demo_fs_custom = Ok (fs', report) ∧
    is_Some (fs' !! "backtest_result.json") ∧
    ∀ path, path ≠ "backtest_result.json" → fs' !! path = demo_fs_custom !! path.
Proof.
  destruct offline_total_witness as (fs' & report & H). exists fs', report.
  split; [exact H|]. exact (offline_frame _ _ _ _ _ _ _ _ _ _ H).
Defined.

Lemma main_report_witness :
  ∃ fs' report result, demo_main demo_fs_custom = Ok (fs', report) ∧
    report = print_backtest_results result ∧
    Grid.total_trades result = length (Grid.res_trades result) ∧
    length report = report_length (Grid.total_trades result) ∧
    (length report ≤ 23)%nat.
Proof.
  destruct offline_total_witness as (fs' & report & H).
  destruct (main_report _ _ _ _ _ _ _ _ _ _ H) as (result & Hr).
  exists fs', report, result. split; [exact H|exact Hr].
Defined.

Lemma main_no_loss_witness :
  ∃ fs' report result, demo_main demo_fs_custom = Ok (fs', report) ∧
    report = print_backtest_results result ∧
    0 <= Grid.final_balance result ∧ 0 <= Grid.total_profit result ∧
    Forall (λ x, 0 <= x) (Grid.profits (Grid.res_trades result)).
Proof.
  assert (Grid.read_config (load_config (Some demo_hjson) demo_fs_custom)
          = Ok Grid.demo_params) as Hp by by vm_compute.
  assert (0 <= Grid.position_size Grid.demo_params <= 1) as H1 by by vm_compute.
  assert (0 <= Grid.close_markup Grid.demo_params) as H2 by by vm_compute.
  assert (0 <= Grid.initial_balance Grid.demo_params) as H3 by by vm_compute.
  destruct offline_total_witness as (fs' & report & H).
  destruct (main_no_loss Mock.demo_exp Mock.demo_gauss Mock.demo_unif
              Mock.demo_to_datetime demo_isoformat (Some demo_hjson) demo_dump
              demo_fs_custom fs' report Grid.demo_params Mock.demo_exp_pos
              Mock.demo_gauss_tame Hp H1 H2 H3 H) as (result & Hr).
  exists fs', report, result. split; [exact H|exact Hr].
Defined.

End Offline.
