(* ===== verification/SimpleDemo.v ===== *)
(** * The data preparation ([simple_backtest_demo.py])

    [main] builds a month of mock data, saves it where the backtester
    looks for its caches, writes the backtest configuration next to it
    and prints an overview of the data.

    [Module Simple] models the script on a file system: a finite map
    from paths to directories, NumPy arrays and text.  Its
    [create_mock_ohlcv_data] is the function of this script, written as
    the loop it is, with the count of calls made to the generator passed
    along, and proved to be the function of [Mock].  [save_ohlcv_data] creates the directories and saves the
    matrix of the prices and the time stamps in milliseconds.
    [pd.to_datetime], [np.exp], [np.sqrt], the draws and [json.dumps]
    are parameters of [Section script]. *)

From Stdlib Require Import QArith Qabs Lqa ZArith Lia Ascii.
From stdpp Require Import prelude strings gmap sorting.
From S2P Require Import Prelude PyDict PyVal GridBacktest MockData Configs.

#[local] Set Warnings "-clear-no-such-hyp".
#[local] Open Scope Q_scope.

Module Simple.

Import Mock.

(** ** The file system *)

Inductive content : Type :=
| Dir
| Floats (rows : list (list Q))
| Ints (values : list Z)
| TextFile (text : string).

Abbreviation files := (gmap string content) (only parsing).

(** [os.path.join(a, b)] *)
Definition join2 (a b : string) : string :=
  if String.prefix "/" b then b
  else if bool_decide (a = "") || String.prefix "/" (String.rev a) then a +:+ b
  else a +:+ "/" +:+ b.

(** [os.path.join(a, *ps)] *)
Definition path_join (a : string) (ps : list string) : string :=
  foldl join2 a ps.

(** The directories on the way to a path: the path cut before each of
    its separators, and the path. *)
Fixpoint ancestors_from (done_ : string) (rest : string) : list string :=
  match rest with
  | EmptyString => [done_]
  | String c rest =>
      (if Ascii.eqb c "/" && negb (bool_decide (done_ = "")) then [done_] else [])
      ++ ancestors_from (done_ +:+ String c "") rest
  end.

Definition ancestors (path : string) : list string :=
  filter (λ p, String.prefix "/" (String.rev p) = false) (ancestors_from "" path).

(** The directory [dir] is made unless it is there. *)
Definition mkdir (dir : string) (fs : files) : result files :=
  match fs !! dir with
  | None => Ok (<[dir := Dir]> fs)
  | Some Dir => Ok fs
  | Some _ => Raise (OSError ("File exists: " +:+ dir))
  end.

(** [os.makedirs(path, exist_ok=True)] *)
Definition makedirs (path : string) (fs : files) : result files :=
  foldl (λ acc dir, acc ≫= mkdir dir) (Ok fs) (ancestors path).

(** A file opened for writing, then written. *)
Definition write (path : string) (c : content) (fs : files) : result files :=
  match fs !! path with
  | Some Dir => Raise (OSError ("Is a directory: " +:+ path))
  | _ => Ok (<[path := c]> fs)
  end.

(** A path that is free for a directory, and one for a file. *)
Definition dir_free (fs : files) (dir : string) : Prop :=
  fs !! dir = None ∨ fs !! dir = Some Dir.

Definition file_free (fs : files) (path : string) : Prop :=
  fs !! path ≠ Some Dir.

(** [np.save(path, array)] *)
Definition np_save (path : string) (array : content) (fs : files)
  : result files :=
  write path array fs.

(** ** [save_ohlcv_data] *)

(** [df[['open', 'high', 'low', 'close', 'volume']].values] *)
Definition ohlcv_array (df : list ohlcv) : list (list Q) :=
  (λ r, [open r; high r; low r; close r; volume r]) <$> df.

(** [df.index.astype(np.int64) // 10**6] *)
Definition timestamps_ms (df : list ohlcv) : list Z :=
  (λ r, timestamp r `div` 10 ^ 6)%Z <$> df.

(** The directory of the caches and the two files in it. *)
Definition data_dir (base_dir exchange symbol : string) : string :=
  path_join base_dir [exchange; symbol; "caches"].

Definition ohlcvs_file (data_dir : string) : string :=
  path_join data_dir ["ohlcvs_1m.npy"].

Definition timestamps_file (data_dir : string) : string :=
  path_join data_dir ["timestamps_1m.npy"].

Definition save_ohlcv_data (df : list ohlcv) (exchange symbol base_dir : string)
    (fs : files) : result files :=
  let data_dir := data_dir base_dir exchange symbol in
  fs ← makedirs data_dir fs;
  fs ← np_save (ohlcvs_file data_dir) (Floats (ohlcv_array df)) fs;
  np_save (timestamps_file data_dir) (Ints (timestamps_ms df)) fs.

(** ** The overview *)

(** [Series.std()]: the sample deviation, NaN for fewer than two
    values. *)
Definition std (sqrt : Q → Q) (l : list Q) : fval :=
  match np_mean l, l with
  | Fin m, _ :: _ :: _ =>
      Fin (sqrt (Qsum ((λ x, (x - m) * (x - m)) <$> l) / (Qlen l - 1)))
  | _, _ => NaN
  end.

(** [Series.max()] and [Series.min()]: NaN without values. *)
Definition series_max (l : list Q) : fval :=
  match l with
  | [] => NaN
  | x :: l => Fin (foldl (λ a b, if a <? b then b else a) x l)
  end.

Definition series_min (l : list Q) : fval :=
  match l with
  | [] => NaN
  | x :: l => Fin (foldl (λ a b, if b <? a then b else a) x l)
  end.

Section script.
Context (exp sqrt : Q → Q) (gauss unif : nat → Q)
        (to_datetime : string → result Z) (json_dumps : pyval → string).

(** ** [create_mock_ohlcv_data] *)

(** The loop over the instants and the prices, from call [k] of the
    generator on. *)
Fixpoint rows_from (k : nat) (l : list (Z * Q)) : list ohlcv :=
  match l with
  | [] => []
  | (ts, price) :: l =>
      let open_price := price in
      let close_price := price * (1 + (0 + 0.0005 * gauss k)) in
      let high_price :=
        py_max open_price close_price * (1 + Qabs (0 + 0.0002 * gauss (k + 1))) in
      let low_price :=
        py_min open_price close_price * (1 - Qabs (0 + 0.0002 * gauss (k + 2))) in
      let volume := 100 + (1000 - 100) * unif (k + 3)%nat in
      {| timestamp := ts; open := open_price; high := high_price;
         low := low_price; close := close_price; volume := volume |}
      :: rows_from (k + 4) l
  end.

Definition create_mock_ohlcv_data (symbol start_date end_date interval : string)
  : result (list ohlcv) :=
  start ← to_datetime start_date;
  end_ ← to_datetime end_date;
  let freq := if decide (interval = "1m") then minute
              else if decide (interval = "1h") then hour
              else minute in
  let timestamps := date_range start end_ freq in
  let initial_price :=
    if bool_decide (is_Some (String.index 0 "BTC" symbol)) then 50000 else 3000 in
  let returns := (λ k, 0 + 0.001 * gauss k) <$> seq 0 (length timestamps) in
  let prices := (λ c, initial_price * exp c) <$> cumsum returns in
  let data := rows_from (length timestamps) (zip timestamps prices) in
  if data is [] then Raise (KeyError "None of ['timestamp'] are in the columns")
  else Ok data.

(** ** [main] *)

(** The lines of the overview. *)
Definition overview (ohlcv_data : list ohlcv) : result (list line) :=
  first ← match head ohlcv_data with
          | Some r => Ok (timestamp r)
          | None => Raise (IndexError "index 0 is out of bounds for axis 0 with size 0")
          end;
  final ← match last ohlcv_data with
          | Some r => Ok (timestamp r)
          | None => Raise (IndexError "index -1 is out of bounds for axis 0 with size 0")
          end;
  Ok [ [Text "数据点数: "; Count (length ohlcv_data)];
       [Text "时间范围: "; Stamp first; Text " 到 "; Stamp final];
       [Text "价格统计:"];
       [Text "  开盘价: "; Float (np_mean (open <$> ohlcv_data)) ".2f"; Text " ± ";
        Float (std sqrt (open <$> ohlcv_data)) ".2f"];
       [Text "  收盘价: "; Float (np_mean (close <$> ohlcv_data)) ".2f"; Text " ± ";
        Float (std sqrt (close <$> ohlcv_data)) ".2f"];
       [Text "  最高价: "; Float (series_max (high <$> ohlcv_data)) ".2f"];
       [Text "  最低价: "; Float (series_min (low <$> ohlcv_data)) ".2f"];
       [Text "  平均成交量: "; Float (np_mean (volume <$> ohlcv_data)) ".2f"] ].

(** [main()]: the files it leaves and the overview it prints. *)
Definition main (fs : files) : result (files * list line) :=
  let symbol := "BTCUSDT" in
  ohlcv_data ← create_mock_ohlcv_data symbol "2024-01-01" "2024-01-31" "1m";
  fs ← save_ohlcv_data ohlcv_data "binance" symbol "backtests" fs;
  let config := create_simple_backtest_config in
  fs ← write "simple_backtest_config.json" (TextFile (json_dumps config)) fs;
  lines ← overview ohlcv_data;
  Ok (fs, lines).

End script.

(** ** Data for the examples *)

(** A file where the directory of the caches is to be. *)
Definition demo_blocked : files := {[ "backtests" := TextFile "notes" ]}.

Definition demo_dumps (v : pyval) : string :=
  if py_eqb v create_simple_backtest_config then "{simple}" else "{}".

Definition demo_sqrt (x : Q) : Q := x.

(** ** The file system *)

Lemma mkdir_Ok dir fs fs' :
  mkdir dir fs = Ok fs' →
  dir_free fs dir ∧ fs' !! dir = Some Dir ∧ ∀ p, p ≠ dir → fs' !! p = fs !! p.
Proof.
  unfold mkdir, dir_free. destruct (fs !! dir) as [[]|] eqn:E; intros [= <-].
  - by auto.
  - split_and!; [by auto|apply lookup_insert_eq|].
    intros p Hne. by apply lookup_insert_ne.
Qed.

Lemma mkdir_total dir fs : dir_free fs dir → is_ok (mkdir dir fs) = true.
Proof. unfold mkdir. by intros [-> | ->]. Qed.

Lemma foldl_mkdir_Raise l e :
  foldl (λ acc dir, acc ≫= mkdir dir) (Raise e) l = Raise e.
Proof. by induction l. Qed.

(** What making a list of directories leaves: they are directories, and
    the other paths are as they were. *)
Lemma foldl_mkdir_Ok l fs fs' :
  foldl (λ acc dir, acc ≫= mkdir dir) (Ok fs) l = Ok fs' →
  Forall (dir_free fs) l ∧ Forall (λ d, fs' !! d = Some Dir) l ∧
  ∀ p, p ∉ l → fs' !! p = fs !! p.
Proof.
  revert fs. induction l as [|d l IH]; intros fs; cbn [foldl].
  - intros [= <-]. by split_and!.
  - cbn [mbind result_bind]. destruct (mkdir d fs) as [fs1|e] eqn:E;
      [|by rewrite foldl_mkdir_Raise].
    apply mkdir_Ok in E as (Hfree & Hd & Hother).
    intros (Hl & Hdirs & Hframe)%IH. split_and!.
    + constructor; [done|]. eapply Forall_impl; [exact Hl|].
      intros x Hx. unfold dir_free in *.
      destruct (decide (x = d)) as [->|Hne]; [done|]. by rewrite <-Hother.
    + constructor; [|done]. destruct (decide (d ∈ l)) as [Hin|Hnin].
      * by apply (proj1 (Forall_forall _ _) Hdirs).
      * by rewrite Hframe.
    + intros p [Hne Hnin]%not_elem_of_cons. by rewrite Hframe, Hother.
Qed.

Lemma foldl_mkdir_total l fs :
  Forall (dir_free fs) l →
  is_ok (foldl (λ acc dir, acc ≫= mkdir dir) (Ok fs) l) = true.
Proof.
  revert fs. induction l as [|d l IH]; intros fs; [done|].
  intros [Hd Hl]%Forall_cons. cbn [foldl mbind result_bind].
  pose proof (mkdir_total d fs Hd) as Hok.
  destruct (mkdir d fs) as [fs1|] eqn:E; [|done].
  apply mkdir_Ok in E as (_ & Hdir & Hother). apply IH.
  eapply Forall_impl; [exact Hl|]. intros x Hx. unfold dir_free in *.
  destruct (decide (x = d)) as [->|Hne]; [by right|]. by rewrite Hother.
Qed.

Lemma write_Ok path c fs fs' :
  write path c fs = Ok fs' →
  fs !! path ≠ Some Dir ∧ fs' = <[path := c]> fs.
Proof. unfold write. destruct (fs !! path) as [[]|]; by intros [= <-]. Qed.

Lemma write_total path c fs :
  fs !! path ≠ Some Dir → write path c fs = Ok (<[path := c]> fs).
Proof. unfold write. by destruct (fs !! path) as [[]|]. Qed.

(** ** Paths *)

(** A directory on the way to a path is not longer than the path. *)
Lemma ancestors_from_length done_ rest d :
  d ∈ ancestors_from done_ rest →
  (String.length d ≤ String.length done_ + String.length rest)%nat.
Proof.
  revert done_. induction rest as [|c rest IH]; intros done_; cbn [ancestors_from].
  - intros ->%list_elem_of_singleton. lia.
  - intros [Hd|Hd%IH]%elem_of_app.
    + destruct (_ && _); [|by apply elem_of_nil in Hd].
      apply list_elem_of_singleton in Hd as ->. lia.
    + rewrite string_length_app in Hd. cbn [String.length] in *. lia.
Qed.

Lemma ancestors_length path d :
  d ∈ ancestors path → (String.length d ≤ String.length path)%nat.
Proof.
  intros [_ Hd]%list_elem_of_filter. by apply ancestors_from_length in Hd.
Qed.

(** A name joined to a directory: a longer path, that determines the
    name. *)
Lemma join2_name dir name :
  String.prefix "/" name = false →
  ∃ sep, join2 dir name = dir +:+ sep +:+ name.
Proof.
  intros Hn. unfold join2. rewrite Hn.
  destruct (_ || _); [by exists ""|by exists "/"].
Qed.

Lemma join2_not_ancestor dir name :
  String.prefix "/" name = false → name ≠ "" → join2 dir name ∉ ancestors dir.
Proof.
  intros Hp Hne Hin%ancestors_length. unfold join2 in Hin. rewrite Hp in Hin.
  destruct name as [|c name]; [done|].
  destruct (_ || _); rewrite !string_length_app in Hin; cbn in Hin; lia.
Qed.

Lemma join2_ne dir a b :
  String.prefix "/" a = false → String.prefix "/" b = false → a ≠ b →
  join2 dir a ≠ join2 dir b.
Proof.
  intros Ha Hb Hne. unfold join2. rewrite Ha, Hb.
  destruct (_ || _); intros E; apply Hne.
  - by apply (String.app_inj dir).
  - by apply (String.app_inj "/"), (String.app_inj dir).
Qed.

(** ** [save_ohlcv_data] *)

Lemma foldl_mkdir_OSError l fs e :
  foldl (λ acc dir, acc ≫= mkdir dir) (Ok fs) l = Raise e → ∃ msg, e = OSError msg.
Proof.
  revert fs. induction l as [|d l IH]; intros fs; [done|].
  cbn [foldl mbind result_bind]. unfold mkdir at 2.
  destruct (fs !! d) as [[]|]; eauto; rewrite foldl_mkdir_Raise; intros [= <-]; eauto.
Qed.

Lemma write_OSError path c fs e :
  write path c fs = Raise e → ∃ msg, e = OSError msg.
Proof. unfold write. destruct (fs !! path) as [[]|]; intros [= <-]; eauto. Qed.

Section save.
Context (df : list ohlcv) (exchange symbol base_dir : string).

Abbreviation dir := (data_dir base_dir exchange symbol).

Lemma ohlcvs_ne_timestamps d : ohlcvs_file d ≠ timestamps_file d.
Proof. by apply join2_ne. Qed.

(** What a call that returns has written: the directories on the way
    to the caches, the two arrays, and nothing else. *)
Theorem save_ohlcv_data_Ok fs fs' :
  save_ohlcv_data df exchange symbol base_dir fs = Ok fs' →
  fs' !! ohlcvs_file dir = Some (Floats (ohlcv_array df)) ∧
  fs' !! timestamps_file dir = Some (Ints (timestamps_ms df)) ∧
  Forall (λ d, fs' !! d = Some Dir) (ancestors dir) ∧
  ∀ p, p ∉ ancestors dir → p ≠ ohlcvs_file dir → p ≠ timestamps_file dir →
       fs' !! p = fs !! p.
Proof.
  unfold save_ohlcv_data, makedirs, np_save. cbv zeta.
  destruct (foldl _ _ _) as [fs1|] eqn:E1; [|done]. cbn [mbind result_bind].
  destruct (write _ _ fs1) as [fs2|] eqn:E2; [|done]. cbn [mbind result_bind].
  intros [_ ->]%write_Ok. apply write_Ok in E2 as [_ ->].
  apply foldl_mkdir_Ok in E1 as (_ & Hdirs & Hframe).
  pose proof (ohlcvs_ne_timestamps dir) as Hne. split_and!.
  - rewrite lookup_insert_ne by done. apply lookup_insert_eq.
  - apply lookup_insert_eq.
  - apply Forall_forall. intros d Hd.
    rewrite !lookup_insert_ne; [by apply (proj1 (Forall_forall _ _) Hdirs)|..];
      intros <-; revert Hd; by apply join2_not_ancestor.
  - intros p Hp Ho Ht. rewrite !lookup_insert_ne by done. by apply Hframe.
Qed.

(** The call returns when nothing is in the way: no file where a
    directory is to be, no directory where a file is. *)
Theorem save_ohlcv_data_total fs :
  Forall (dir_free fs) (ancestors dir) →
  file_free fs (ohlcvs_file dir) → file_free fs (timestamps_file dir) →
  is_ok (save_ohlcv_data df exchange symbol base_dir fs) = true.
Proof.
  intros Hd Ho Ht. unfold save_ohlcv_data, makedirs, np_save. cbv zeta.
  pose proof (foldl_mkdir_total _ _ Hd) as Hok.
  destruct (foldl _ _ _) as [fs1|] eqn:E1; [|done]. cbn [mbind result_bind].
  apply foldl_mkdir_Ok in E1 as (_ & _ & Hframe).
  assert (∀ name, String.prefix "/" name = false → name ≠ "" →
            file_free fs (join2 dir name) → file_free fs1 (join2 dir name)) as Hfree.
  { intros name Hp Hn Hf. unfold file_free.
    by rewrite Hframe by by apply join2_not_ancestor. }
  rewrite write_total by by apply Hfree. cbn [mbind result_bind].
  rewrite write_total; [done|]. unfold file_free.
  rewrite lookup_insert_ne by apply ohlcvs_ne_timestamps. by apply Hfree.
Qed.

(** What the call raises is an [OSError]. *)
Theorem save_ohlcv_data_OSError fs e :
  save_ohlcv_data df exchange symbol base_dir fs = Raise e →
  (∃ msg, e = OSError msg) ∧
  ¬ (Forall (dir_free fs) (ancestors dir) ∧
     file_free fs (ohlcvs_file dir) ∧ file_free fs (timestamps_file dir)).
Proof.
  intros H. split.
  - revert H. unfold save_ohlcv_data, makedirs, np_save. cbv zeta.
    destruct (foldl _ _ _) as [fs1|] eqn:E1;
      [|intros [= <-]; by eapply foldl_mkdir_OSError].
    cbn [mbind result_bind]. destruct (write _ _ fs1) as [fs2|] eqn:E2;
      [|intros [= <-]; by eapply write_OSError].
    apply write_OSError.
  - intros (Hd & Ho & Ht). pose proof (save_ohlcv_data_total fs Hd Ho Ht) as Hok.
    by rewrite H in Hok.
Qed.

End save.

(** ** The time stamps *)

(** Milliseconds lose nothing of instants that are whole milliseconds,
    and keep their order. *)
Lemma div_mul_exact (d : Z) l :
  (0 < d)%Z → Forall (λ t, (d | t)%Z) l →
  (λ ms, ms * d)%Z <$> ((λ t, t `div` d)%Z <$> l) = l.
Proof.
  intros Hd Hl. induction Hl as [|t l [k ->] _ IH]; [done|].
  cbn [fmap list_fmap] in *. by rewrite IH, Z.div_mul by lia.
Qed.

Lemma div_sorted (d : Z) l :
  (0 < d)%Z → Forall (λ t, (d | t)%Z) l → StronglySorted Z.lt l →
  StronglySorted Z.lt ((λ t, t `div` d)%Z <$> l).
Proof.
  intros Hd Hl Hs. induction Hs as [|t l _ IH Ht]; [constructor|].
  apply Forall_cons in Hl as [[k ->] Hl]. cbn [fmap list_fmap].
  constructor; [by apply IH|]. apply Forall_fmap, Forall_forall.
  intros u Hu. cbn. pose proof (proj1 (Forall_forall _ _) Ht u Hu) as Hlt.
  destruct (proj1 (Forall_forall _ _) Hl u Hu) as [j ->].
  rewrite !Z.div_mul by lia. nia.
Qed.

Lemma timestamps_ms_index rows :
  timestamps_ms rows = (λ t, t `div` 10 ^ 6)%Z <$> (timestamp <$> rows).
Proof. unfold timestamps_ms. by rewrite <-list_fmap_compose. Qed.

(** ** The overview *)




(** The overview of a series that is not empty has eight lines; that of
    an empty one raises. *)
Lemma overview_Ok sqrt rows :
  rows ≠ [] → ∃ lines, overview sqrt rows = Ok lines ∧ length lines = 8%nat.
Proof.
  intros Hne. unfold overview.
  destruct rows as [|r rows]; [done|]. cbn [head mbind result_bind].
  destruct (last_is_Some (r :: rows)) as [_ [r' ->]]; [done|]. by eexists.
Qed.


(** ** The generator *)

Section generator_lemmas.
Context (exp : Q → Q) (gauss unif : nat → Q) (to_datetime : string → result Z).

(** The loop builds the row at position [i] from the four draws from
    call [k + 4 i] on. *)
Lemma rows_from_imap k l :
  rows_from gauss unif k l =
  imap (λ i tp, (make_row gauss unif tp.1 tp.2 (k + 4 * i)%nat).2) l.
Proof.
  revert k. induction l as [|[ts price] l IH]; intros k; [done|].
  cbn [rows_from imap]. rewrite IH, make_row_eq. cbn [fst snd].
  rewrite !Nat.add_0_r, Nat.add_1_r.
  replace (k + 2)%nat with (S (S k)) by lia.
  replace (k + 3)%nat with (S (S (S k))) by lia.
  f_equal. apply imap_ext. intros i tp _. cbn. do 2 f_equal. lia.
Qed.

(** With dates that parse, the function returns the frame of [Mock]. *)
Lemma create_mock_ohlcv_data_frame symbol start_date end_date interval
    start end_ :
  to_datetime start_date = Ok start → to_datetime end_date = Ok end_ →
  create_mock_ohlcv_data exp gauss unif to_datetime symbol start_date end_date
    interval = mock_frame exp gauss unif symbol start end_ interval.
Proof.
  intros Hs He. unfold create_mock_ohlcv_data, mock_frame. rewrite Hs, He.
  cbn [mbind result_bind]. cbv zeta. by rewrite mock_rows_ref, rows_from_imap.
Qed.


(** C20: The time stamps saved for a series of the generator that starts on
    a whole millisecond: they are the instants exactly, in increasing
    order, between the start and the end in milliseconds. *)
Theorem timestamps_ms_exact symbol start end_ interval rows :
  mock_frame exp gauss unif symbol start end_ interval = Ok rows →
  (10 ^ 6 | start)%Z →
  (λ ms, ms * 10 ^ 6)%Z <$> timestamps_ms rows = timestamp <$> rows ∧
  StronglySorted Z.lt (timestamps_ms rows) ∧
  Forall (λ ms, start `div` 10 ^ 6 ≤ ms ≤ end_ `div` 10 ^ 6)%Z (timestamps_ms rows).
Proof.
  intros (_ & Hts & _)%mock_frame_index Hstart.
  rewrite timestamps_ms_index, Hts.
  pose proof (date_range_divide start end_ _ _ Hstart (freq_of_ms interval)) as Hd.
  split_and!.
  - by apply div_mul_exact.
  - apply div_sorted; [done..|]. apply date_range_sorted, freq_of_pos.
  - apply Forall_fmap, Forall_forall.
    intros t [Ht _]%date_range_elem; [|apply freq_of_pos]. cbn.
    split; apply Z.div_le_mono; lia.
Qed.

End generator_lemmas.

(** ** [main] *)

Lemma data_dir_main :
  data_dir "backtests" "binance" "BTCUSDT" = "backtests/binance/BTCUSDT/caches" ∧
  ancestors "backtests/binance/BTCUSDT/caches" =
    ["backtests"; "backtests/binance"; "backtests/binance/BTCUSDT";
     "backtests/binance/BTCUSDT/caches"].
Proof. by vm_compute. Qed.

Section main_lemmas.
Context (exp sqrt : Q → Q) (gauss unif : nat → Q)
        (to_datetime : string → result Z) (json_dumps : pyval → string).

Abbreviation main := (main exp sqrt gauss unif to_datetime json_dumps).

(** What a run that returns has done. *)
Lemma prepare_inv fs fs' lines :
  main fs = Ok (fs', lines) →
  ∃ start end_ rows fs1,
    to_datetime "2024-01-01" = Ok start ∧ to_datetime "2024-01-31" = Ok end_ ∧
    mock_frame exp gauss unif "BTCUSDT" start end_ "1m" = Ok rows ∧
    save_ohlcv_data rows "binance" "BTCUSDT" "backtests" fs = Ok fs1 ∧
    fs' = <["simple_backtest_config.json" :=
              TextFile (json_dumps create_simple_backtest_config)]> fs1 ∧
    overview sqrt rows = Ok lines.
Proof.
  unfold Simple.main. cbv zeta.
  destruct (to_datetime "2024-01-01") as [start|] eqn:Hs;
    [|unfold create_mock_ohlcv_data; by rewrite Hs].
  destruct (to_datetime "2024-01-31") as [end_|] eqn:He;
    [|unfold create_mock_ohlcv_data; by rewrite Hs, He].
  rewrite (create_mock_ohlcv_data_frame _ _ _ _ _ _ _ _ _ _ Hs He).
  destruct (mock_frame _ _ _ _ _ _ _) as [rows|] eqn:Hrows; [|done].
  cbn [mbind result_bind].
  destruct (save_ohlcv_data _ _ _ _ _) as [fs1|] eqn:Hsave; [|done].
  cbn [mbind result_bind].
  destruct (write _ _ fs1) as [fs2|] eqn:Hw; [|done]. cbn [mbind result_bind].
  destruct (overview _ _) as [ls|] eqn:Ho; [|done]. intros [= <- <-].
  apply write_Ok in Hw as [_ ->]. by exists start, end_, rows, fs1.
Qed.

(** C28: The files of a run: the two arrays of the same series, of equal
    lengths, in the directory of the caches, and the configuration. *)
Theorem prepare_files fs fs' lines :
  main fs = Ok (fs', lines) →
  ∃ rows,
    rows ≠ [] ∧ length (ohlcv_array rows) = length (timestamps_ms rows) ∧
    fs' !! "backtests/binance/BTCUSDT/caches/ohlcvs_1m.npy"
      = Some (Floats (ohlcv_array rows)) ∧
    fs' !! "backtests/binance/BTCUSDT/caches/timestamps_1m.npy"
      = Some (Ints (timestamps_ms rows)) ∧
    fs' !! "simple_backtest_config.json"
      = Some (TextFile (json_dumps create_simple_backtest_config)).
Proof.
  intros (start & end_ & rows & fs1 & _ & _ & Hrows & Hsave & -> & _)%prepare_inv.
  apply save_ohlcv_data_Ok in Hsave as (Ho & Ht & _).
  apply mock_frame_index in Hrows as [Hne _]. exists rows.
  split_and!; [done|unfold ohlcv_array, timestamps_ms; by rewrite !length_fmap|..].
  - by rewrite lookup_insert_ne.
  - by rewrite lookup_insert_ne.
  - apply lookup_insert_eq.
Qed.

(** A run leaves every other path as it was. *)
Theorem prepare_frame fs fs' lines p :
  main fs = Ok (fs', lines) →
  p ∉ ["backtests"; "backtests/binance"; "backtests/binance/BTCUSDT";
       "backtests/binance/BTCUSDT/caches";
       "backtests/binance/BTCUSDT/caches/ohlcvs_1m.npy";
       "backtests/binance/BTCUSDT/caches/timestamps_1m.npy";
       "simple_backtest_config.json"] →
  fs' !! p = fs !! p.
Proof.
  intros (start & end_ & rows & fs1 & _ & _ & _ & Hsave & -> & _)%prepare_inv Hp.
  apply save_ohlcv_data_Ok in Hsave as (_ & _ & _ & Hframe).
  destruct data_dir_main as [Hdir Hanc]. rewrite Hdir, Hanc in Hframe.
  rewrite lookup_insert_ne by set_solver. apply Hframe; set_solver.
Qed.

(** The run reaches its end when the dates are in order and nothing is
    in the way of the directories and of the three files. *)
Theorem prepare_total fs start end_ :
  to_datetime "2024-01-01" = Ok start → to_datetime "2024-01-31" = Ok end_ →
  (start ≤ end_)%Z →
  Forall (dir_free fs) (ancestors "backtests/binance/BTCUSDT/caches") →
  Forall (file_free fs) ["backtests/binance/BTCUSDT/caches/ohlcvs_1m.npy";
                         "backtests/binance/BTCUSDT/caches/timestamps_1m.npy";
                         "simple_backtest_config.json"] →
  ∃ fs' lines, main fs = Ok (fs', lines) ∧ length lines = 8%nat.
Proof.
  intros Hs He Hle Hdirs Hfiles.
  rewrite !Forall_cons in Hfiles. destruct Hfiles as (Ho & Ht & Hc & _).
  pose proof (mock_frame_total exp gauss unif "BTCUSDT" _ _ "1m" Hle) as Hm.
  destruct (mock_frame _ _ _ _ _ _ _) as [rows|] eqn:Hrows; [|done].
  apply mock_frame_index in Hrows as Hne. destruct Hne as [Hne _].
  destruct (overview_Ok sqrt rows Hne) as (lines & Hlines & Hlen).
  pose proof (save_ohlcv_data_total rows "binance" "BTCUSDT" "backtests" fs
                Hdirs Ho Ht) as Hok.
  destruct (save_ohlcv_data _ _ _ _ _) as [fs1|] eqn:Hsave; [|done].
  apply save_ohlcv_data_Ok in Hsave as Hfs1. destruct Hfs1 as (_ & _ & _ & Hframe).
  destruct data_dir_main as [Hdir Hanc]. rewrite Hdir, Hanc in Hframe.
  assert (file_free fs1 "simple_backtest_config.json") as Hc1
    by (unfold file_free; rewrite Hframe; [done|set_solver|done..]).
  exists (<["simple_backtest_config.json" :=
             TextFile (json_dumps create_simple_backtest_config)]> fs1), lines.
  split; [|done]. unfold Simple.main. cbv zeta.
  rewrite (create_mock_ohlcv_data_frame _ _ _ _ _ _ _ _ _ _ Hs He), Hrows.
  cbn [mbind result_bind]. rewrite Hsave. cbn [mbind result_bind].
  rewrite (write_total _ _ _ Hc1). cbn [mbind result_bind]. by rewrite Hlines.
Qed.

End main_lemmas.

(** ** Examples *)

Abbreviation demo_main :=
  (main demo_exp demo_sqrt demo_gauss demo_unif demo_to_datetime demo_dumps).

(** The configuration written names the directory, the exchange, the
    coin and the dates of the data saved. *)
Example config_matches_main :
  (backtest ← py_item create_simple_backtest_config "backtest";
   live ← py_item create_simple_backtest_config "live";
   base_dir ← py_item backtest "base_dir";
   exchanges ← py_item backtest "exchanges";
   start_date ← py_item backtest "start_date";
   end_date ← py_item backtest "end_date";
   coins ← py_item live "approved_coins";
   Ok [base_dir; exchanges; start_date; end_date; coins]) =
  Ok [PStr "backtests"; PList [PStr "binance"]; PStr "2024-01-01";
      PStr "2024-01-31"; PList [PStr "BTCUSDT"]].
Proof. by vm_compute. Qed.

(** Three minutes of data, saved: the directories and the
    milliseconds. *)
Example demo_saved :
  (fs' ← save_ohlcv_data demo_rows "binance" "BTCUSDT" "backtests" ∅;
   Ok (fs' !! "backtests/binance/BTCUSDT",
       fs' !! "backtests/binance/BTCUSDT/caches/timestamps_1m.npy")) =
  Ok (Some Dir, Some (Ints [1704067200000; 1704067260000; 1704067320000]%Z)).
Proof. vm_compute. reflexivity. Qed.

Lemma empty_free path : dir_free ∅ path ∧ file_free ∅ path.
Proof. unfold dir_free, file_free. rewrite lookup_empty. by auto. Qed.

Lemma save_ohlcv_data_Ok_witness :
  ∃ fs', save_ohlcv_data demo_rows "binance" "BTCUSDT" "backtests" ∅ = Ok fs' ∧
    fs' !! ohlcvs_file (data_dir "backtests" "binance" "BTCUSDT")
      = Some (Floats (ohlcv_array demo_rows)) ∧
    fs' !! timestamps_file (data_dir "backtests" "binance" "BTCUSDT")
      = Some (Ints (timestamps_ms demo_rows)) ∧
    Forall (λ d, fs' !! d = Some Dir)
      (ancestors (data_dir "backtests" "binance" "BTCUSDT")) ∧
    ∀ p, p ∉ ancestors (data_dir "backtests" "binance" "BTCUSDT") →
         p ≠ ohlcvs_file (data_dir "backtests" "binance" "BTCUSDT") →
         p ≠ timestamps_file (data_dir "backtests" "binance" "BTCUSDT") →
         fs' !! p = (∅ : files) !! p.
Proof.
  assert (is_ok (save_ohlcv_data demo_rows "binance" "BTCUSDT" "backtests" ∅)
          = true) as Hok.
  { apply save_ohlcv_data_total; [apply Forall_forall; intros d _|..];
      apply empty_free. }
  destruct (save_ohlcv_data demo_rows "binance" "BTCUSDT" "backtests" ∅)
    as [fs'|] eqn:E; [|discriminate Hok].
  exists fs'. split; [reflexivity|]. exact (save_ohlcv_data_Ok _ _ _ _ _ _ E).
Defined.

Lemma save_ohlcv_data_OSError_witness :
  (∃ msg, OSError "File exists: backtests" = OSError msg) ∧
  ¬ (Forall (dir_free demo_blocked)
       (ancestors (data_dir "backtests" "binance" "BTCUSDT")) ∧
     file_free demo_blocked
       (ohlcvs_file (data_dir "backtests" "binance" "BTCUSDT")) ∧
     file_free demo_blocked
       (timestamps_file (data_dir "backtests" "binance" "BTCUSDT"))).
Proof.
  apply (save_ohlcv_data_OSError demo_rows "binance" "BTCUSDT" "backtests").
  by vm_compute.
Defined.

Lemma timestamps_ms_exact_witness :
  (λ ms, ms * 10 ^ 6)%Z <$> timestamps_ms demo_rows = timestamp <$> demo_rows ∧
  StronglySorted Z.lt (timestamps_ms demo_rows) ∧
  Forall (λ ms, demo_start `div` 10 ^ 6 ≤ ms
                ≤ (demo_start + 2 * minute) `div` 10 ^ 6)%Z
    (timestamps_ms demo_rows).
Proof.
  apply (timestamps_ms_exact _ _ _ _ _ _ _ _ demo_rows_ok).
  by exists 1704067200000%Z.
Defined.



Lemma prepare_total_witness :
  ∃ fs' lines, demo_main ∅ = Ok (fs', lines) ∧ length lines = 8%nat.
Proof.
  apply (prepare_total _ _ _ _ _ _ _ demo_start (demo_start + 30 * 24 * hour));
    [by vm_compute..| |].
  - apply Forall_forall. intros d _. apply empty_free.
  - repeat constructor; apply empty_free.
Defined.

Lemma prepare_files_witness :
  ∃ fs' lines rows, demo_main ∅ = Ok (fs', lines) ∧
    rows ≠ [] ∧ length (ohlcv_array rows) = length (timestamps_ms rows) ∧
    fs' !! "backtests/binance/BTCUSDT/caches/ohlcvs_1m.npy"
      = Some (Floats (ohlcv_array rows)) ∧
    fs' !! "backtests/binance/BTCUSDT/caches/timestamps_1m.npy"
      = Some (Ints (timestamps_ms rows)) ∧
    fs' !! "simple_backtest_config.json"
      = Some (TextFile (demo_dumps create_simple_backtest_config)).
Proof.
  destruct prepare_total_witness as (fs' & lines & H & _).
  destruct (prepare_files _ _ _ _ _ _ _ _ _ H) as (rows & Hr).
  exists fs', lines, rows. split; [exact H|exact Hr].
Defined.

Lemma prepare_frame_witness :
  ∃ fs' lines, demo_main ∅ = Ok (fs', lines) ∧
    fs' !! "my_config_custom.json" = (∅ : files) !! "my_config_custom.json".
Proof.
  destruct prepare_total_witness as (fs' & lines & H & _). exists fs', lines.
  split; [exact H|]. refine (prepare_frame _ _ _ _ _ _ _ _ _ _ H _).
  clear H. set_solver.
Defined.

End Simple.
